(* ===== verification/_CoqProject ===== *)
-Q . S2P
Prelude.v
KAlloc.v
SinglyLinkedList.v
SLLExamples.v
HeapStore.v
Queue.v
DoublyLinkedList.v
HeapExamples.v
HashTable.v
HashExamples.v
Strings.v
Spinlock.v
Pmm.v
Slab.v
BlockDevice.v
DiosfsLayout.v
DiosfsBitmap.v
Diosfs.v
DiosfsFile.v
DiosfsBlocks.v
DiosfsDir.v
DiosfsData.v
DiosfsVnode.v
DiosfsVnodeSpec.v
DiosfsExamples.v
