(* ===== verification/Prelude.v ===== *)
(** * DionysOS: a verification development

    DionysOS (src/kernel/src) is a 64-bit kernel in C: a physical memory manager
    and a slab heap, linked data structures built on them, spinlocks, a block
    device layer with a ramdisk, and diosfs, the kernel's own filesystem, behind
    a virtual filesystem, next to a scheduler, paging and drivers.  This library
    is a shallow embedding of the part that carries state and algorithms, from
    the heap up to the filesystem.

    ** How C is modelled

    Integers are [Z] with their wrap-around written out ([w8], ..., [w64]).  A
    pointer is an address ([NULL] is 0), an object a record in a store indexed by
    address ([gmap]), or, where bytes matter (the heap, the disk), a byte-addressed
    memory.  A function that can panic, follow a bad pointer or loop returns an
    [outcome]: [Ok], [Panic] (a call of panic), [Fault] (NULL, a freed object, an
    index outside an array), [Timeout] (fuel spent).  State is passed explicitly;
    an object changed through a pointer is returned.  Printing is left out.

    ** The files

    - Prelude: outcomes, machine integers, little-endian bytes, copies into
      buffers, list lemmas, the hint databases and tactics of the library.
    - KAlloc: [KAlloc]/[KAllocSpec], the promise of _kalloc and _kfree to the data
      structures, as a class with a reference instance on which examples run.
    - SinglyLinkedList (data_structures/singly_linked_list.c): a store of nodes,
      the static pool as a free list of the same kind and the heap behind it.
      [run_refines]: every sequence of operations behaves as on a sequence.
      SLLExamples: the theorems on a pool built by the code.
    - HeapStore: nodes from kmalloc and doubly linked chains, shared by
      Queue (data_structures/queue.c: FIFO, LIFO and priority disciplines) and
      DoublyLinkedList (data_structures/doubly_linked_list.c); HeapExamples.
    - HashTable (data_structures/hash_table.c): the mixing hash at 64 bits, tables
      of singly linked buckets; HashExamples.
    - Strings (definitions/string.c, include/definitions/math.h).
    - Spinlock (data_structures/concurrency/spinlock.c and mutex.c,
      x86_64/atomic_operations.c): the operations, and a step relation of any
      number of processors that make one memory access at a time.
    - Pmm (memory/pmm.c): what phys_init does to the memory map, and the
      arithmetic of block sizes.
    - Slab (memory/slab.c, memory/kmalloc.c): the heap on byte-addressed memory
      with its locks; the class [PhysAlloc] is what it uses of memory/pmm.c.
    - BlockDevice (drivers/block/ramdisk.c, include/drivers/block): the class
      [BlockDevice]/[BlockDeviceSpec] is the contract between filesystem and
      disk; the ramdisk driver is an instance and [RefDisk] a second one, on a
      plain list, for the examples.
    - diosfs (filesystem/diosfs.c, include/filesystem/diosfs.h), over any block
      device: DiosfsLayout (structures as records and as bytes, indices of a file's
      blocks), DiosfsBitmap (allocation of inodes and blocks), Diosfs (inodes,
      blocks, block allocation at four levels of indirection), DiosfsFile (bytes of
      files, directories, removal), DiosfsVnode (the operations given to the
      virtual filesystem, and formatting); DiosfsBlocks, DiosfsDir, DiosfsData and
      DiosfsVnodeSpec hold the abstract view and the theorems, DiosfsExamples
      applies them to a small disk.

    ** What the theorems show

    Refinement: the lists and queues implement sequences, a directory implements
    a list of entries, the block lookup of a file computes a pointer tree.
    Round trips: what is written to a file, an inode, a ramdisk or the format's
    bytes is read back; an allocated heap object is freed into its slab.
    Functional behaviour and invariants: first-fit allocation in the bitmaps, the
    chain of a slab, the partition of memory into blocks and spare pages, sorting,
    powers of two, formatting of a device.  Concurrency: mutual exclusion of the
    spinlock by an invariant of the step relation.  Error paths: where the code
    does not do what it means to, a theorem states what it does (lists at their
    tail, queues, the eighth directory entry, removal of an entry, full bitmaps,
    locks kept on a return, forced locks).

    ** Bounds and fuel

    Loops whose length the data gives are structural in it or run for a count
    computed from the code's own bound; walks of linked structures have fuel that
    the theorems show to be enough (the length of the chain), as does the sort of
    page ranges (the number of inversions).  Removal of a directory tree takes a
    depth.  acquire_mutex sleeps any number of times and has fuel.

    ** What is not modelled

    Printing, timers, interrupt and descriptor tables, device registers and the
    boot protocol: hardware state without an algorithm of its own.  Code outside
    the repository (the boot loader's memory map) is an argument.  vnode_lookup and
    vnode_get_canonical_path are arguments of diosfs until the virtual filesystem
    is modelled.

    ** Plan

    Next, in this order: the search tree (data_structures/binary_tree.c) and the
    buddy allocator on it, as an instance of [PhysAlloc]; the four-level page
    tables (x86_64/memory/vmm.c) with a refinement to a map of pages; the virtual
    filesystem (filesystem/vfs.c) with path walks and tmpfs; the ELF loader; the
    scheduler's run queues as a state machine. *)

From Stdlib Require Export ZArith Lia.
From stdpp Require Export base numbers gmap fin_maps.
From stdpp Require Export list.
#[global] Open Scope Z_scope.

(** ** Outcomes of C code

    [Panic] is a call to [panic], [Fault] is a dereference of NULL, of a freed
    object or outside an object, [Timeout] is fuel exhausted in a loop. *)
Inductive outcome (A : Type) : Type :=
| Ok (a : A)
| Panic
| Fault
| Timeout.
Arguments Ok {A} a.
Arguments Panic {A}.
Arguments Fault {A}.
Arguments Timeout {A}.

Definition obind {A B : Type} (m : outcome A) (f : A -> outcome B) : outcome B :=
  match m with
  | Ok a => f a
  | Panic => Panic
  | Fault => Fault
  | Timeout => Timeout
  end.

Declare Scope c_scope.
Delimit Scope c_scope with c.
Notation "'let!' p ':=' m 'in' k" := (obind m (fun p => k))
  (at level 10, p pattern, m at level 100, k at level 200,
   format "'[v' 'let!'  p  ':='  m  'in' '/' k ']'") : c_scope.
#[global] Open Scope c_scope.

Definition of_opt {A : Type} (o : option A) : outcome A :=
  match o with Some a => Ok a | None => Fault end.

Definition is_ok {A : Type} (m : outcome A) : bool :=
  match m with Ok _ => true | _ => false end.

#[export] Instance outcome_eq_dec {A} `{EqDecision A} : EqDecision (outcome A).
Proof. solve_decision. Defined.

Lemma obind_Ok {A B} (a : A) (f : A -> outcome B) : obind (Ok a) f = f a.
Proof. reflexivity. Qed.

Lemma obind_inv {A B} (m : outcome A) (f : A -> outcome B) b :
  obind m f = Ok b -> exists a, m = Ok a /\ f a = Ok b.
Proof. destruct m; simpl; intros; try discriminate; eauto. Qed.

Lemma obind_assoc {A B C} (m : outcome A) (f : A -> outcome B) (g : B -> outcome C) :
  obind (obind m f) g = obind m (fun x => obind (f x) g).
Proof. by destruct m. Qed.

(** ** Machine integers: [wN z] is the value [z] takes in an N-bit unsigned
    object, [sN z] the one it takes in an N-bit signed object. *)
Definition NULL : Z := 0.
Definition w8 (z : Z) : Z := z mod 2 ^ 8.
Definition w16 (z : Z) : Z := z mod 2 ^ 16.
Definition w32 (z : Z) : Z := z mod 2 ^ 32.
Definition w64 (z : Z) : Z := z mod 2 ^ 64.
Definition s8 (z : Z) : Z := (z + 2 ^ 7) mod 2 ^ 8 - 2 ^ 7.
Definition U64_MAX : Z := 2 ^ 64 - 1.

Lemma w64_small z : 0 <= z < 2 ^ 64 -> w64 z = z.
Proof. apply Z.mod_small. Qed.
Lemma w32_small z : 0 <= z < 2 ^ 32 -> w32 z = z.
Proof. apply Z.mod_small. Qed.
Lemma w16_small z : 0 <= z < 2 ^ 16 -> w16 z = z.
Proof. apply Z.mod_small. Qed.
Lemma w8_small z : 0 <= z < 2 ^ 8 -> w8 z = z.
Proof. apply Z.mod_small. Qed.
Lemma w64_range z : 0 <= w64 z < 2 ^ 64.
Proof. apply Z.mod_pos_bound. lia. Qed.
Lemma w8_range z : 0 <= w8 z < 2 ^ 8.
Proof. apply Z.mod_pos_bound. lia. Qed.
Lemma w64_idemp z : w64 (w64 z) = w64 z.
Proof. apply Z.mod_mod. lia. Qed.

(** [flag_set f m] is the C test [f & m]. *)
Definition flag_set (f m : Z) : bool := negb (Z.land f m =? 0).
Definition flag_clear (f m : Z) : Z := Z.land f (Z.lnot m).

(** ** Byte arrays: reading and overwriting a range *)
Definition slice {A} (o n : nat) (l : list A) : list A := take n (drop o l).
Definition splice {A} (o : nat) (bs l : list A) : list A :=
  take o l ++ bs ++ drop (o + length bs) l.

Lemma lookup_slice {A} (o n i : nat) (l : list A) :
  slice o n l !! i = if decide (i < n)%nat then l !! (o + i)%nat else None.
Proof.
  unfold slice. case_decide.
  - rewrite lookup_take_lt by done. by rewrite lookup_drop.
  - by rewrite lookup_take_ge by lia.
Qed.

Lemma lookup_splice {A} (o i : nat) (bs l : list A) :
  (o <= length l)%nat ->
  splice o bs l !! i =
    if decide (i < o)%nat then l !! i
    else if decide (i < o + length bs)%nat then bs !! (i - o)%nat
    else l !! i.
Proof.
  intros Ho. unfold splice. repeat case_decide.
  - rewrite lookup_app_l by (rewrite length_take; lia). by rewrite lookup_take_lt.
  - rewrite lookup_app_r by (rewrite length_take; lia).
    rewrite length_take, Nat.min_l by lia. by rewrite lookup_app_l by lia.
  - rewrite lookup_app_r by (rewrite length_take; lia).
    rewrite length_take, Nat.min_l by lia. rewrite lookup_app_r by lia.
    rewrite lookup_drop. f_equal. lia.
Qed.

Lemma length_slice {A} (o n : nat) (l : list A) :
  (o + n <= length l)%nat -> length (slice o n l) = n.
Proof. intros. unfold slice. rewrite length_take, length_drop. lia. Qed.

Lemma length_splice {A} (o : nat) (bs l : list A) :
  (o + length bs <= length l)%nat -> length (splice o bs l) = length l.
Proof.
  intros. unfold splice. rewrite !length_app, length_take, length_drop. lia.
Qed.

(** Equality of byte arrays, position by position. *)
Ltac list_ext :=
  apply list_eq; intros ?i;
  repeat first
    [ rewrite lookup_slice
    | rewrite lookup_splice by
        (repeat first [rewrite length_slice by lia | rewrite length_splice by lia]; lia)
    | rewrite length_slice by lia
    | rewrite length_splice by lia
    | case_decide ];
  try done; try lia; try (f_equal; lia).

Lemma slice_splice_same {A} (o n : nat) (bs l : list A) :
  n = length bs -> (o <= length l)%nat -> slice o n (splice o bs l) = bs.
Proof.
  intros -> Ho. list_ext. symmetry. apply lookup_ge_None_2. lia.
Qed.

Lemma slice_splice_disj {A} (o o' n : nat) (bs l : list A) :
  (o <= length l)%nat -> (o' + n <= o \/ o + length bs <= o')%nat ->
  slice o' n (splice o bs l) = slice o' n l.
Proof. intros Ho Hd. list_ext. Qed.

Lemma splice_slice_id {A} (o n : nat) (l : list A) :
  (o + n <= length l)%nat -> splice o (slice o n l) l = l.
Proof. intros. list_ext. Qed.

Lemma splice_splice_same {A} (o : nat) (bs bs' l : list A) :
  length bs = length bs' -> (o + length bs <= length l)%nat ->
  splice o bs (splice o bs' l) = splice o bs l.
Proof. intros. list_ext. Qed.

Lemma slice_slice {A} (o n o' n' : nat) (l : list A) :
  (o' + n' <= n)%nat -> slice o' n' (slice o n l) = slice (o + o') n' l.
Proof. intros. list_ext. Qed.

Lemma slice_splice_nested {A} (o n k : nat) (bs l : list A) :
  (o + n <= length l)%nat -> (k + length bs <= n)%nat ->
  slice o n (splice (o + k) bs l) = splice k bs (slice o n l).
Proof.
  intros Hl Hk. list_ext.
Qed.

(** [for (k = 0; k < n; k++) dst[di + k] = src[si + k]]: an access outside
    either array is a [Fault]. *)
Fixpoint copy_loop (n : nat) (dst : list Z) (di : nat) (src : list Z) (si : nat) : outcome (list Z) :=
  match n with
  | O => Ok dst
  | S n =>
    let! c := of_opt (src !! si) in
    if decide (di < length dst)%nat
    then copy_loop n (<[di := c]> dst) (S di) src (S si)
    else Fault
  end.

Lemma splice_nil {A} (b : list A) (i : nat) : splice i [] b = b.
Proof. unfold splice. cbn. rewrite Nat.add_0_r. apply take_drop. Qed.

(** Writing one element more. *)
Lemma splice_cons {A} (b cs : list A) (i : nat) c :
  (i < length b)%nat -> splice (S i) cs (<[i := c]> b) = splice i (c :: cs) b.
Proof.
  intros Hl. apply list_eq. intros k. rewrite !lookup_splice by (rewrite ?length_insert; lia). cbn [length].
  destruct (decide (k = i)) as [->|Hne].
  - rewrite decide_True by lia. rewrite list_lookup_insert_eq by lia.
    rewrite decide_False, decide_True, Nat.sub_diag by lia. done.
  - rewrite list_lookup_insert_ne by done. repeat case_decide; try lia; try done.
    replace (k - i)%nat with (S (k - S i)) by lia. done.
Qed.

Lemma slice_S {A} (l : list A) (i n : nat) c :
  l !! i = Some c -> slice i (S n) l = c :: slice (S i) n l.
Proof. intros Hc. unfold slice. by rewrite (drop_S _ _ _ Hc). Qed.

Lemma copy_loop_ok n : forall dst di src si,
  (si + n <= length src)%nat -> (di + n <= length dst)%nat ->
  copy_loop n dst di src si = Ok (splice di (slice si n src) dst).
Proof.
  induction n as [|n IH]; intros dst di src si Hs Hd; cbn [copy_loop].
  - change (slice si 0 src) with (@nil Z). by rewrite splice_nil.
  - destruct (lookup_lt_is_Some_2 src si) as (c & Hc); [lia|]. rewrite Hc. cbn [of_opt obind].
    rewrite decide_True by lia. rewrite IH by (rewrite ?length_insert; lia).
    by rewrite splice_cons, (slice_S _ _ _ _ Hc) by lia.
Qed.

Lemma copy_loop_fault n : forall dst di src si,
  (length src < si + n \/ length dst < di + n)%nat -> (si <= length src)%nat -> (di <= length dst)%nat ->
  copy_loop n dst di src si = Fault.
Proof.
  induction n as [|n IH]; intros dst di src si Hf Hs Hd; cbn [copy_loop]; [lia|].
  destruct (src !! si) as [c|] eqn:Hc; [|done]. apply lookup_lt_Some in Hc. cbn [of_opt obind].
  case_decide; [|done]. apply IH; rewrite ?length_insert; lia.
Qed.

(** ** Lists *)
Lemma filter_all {A} (P : A -> Prop) `{!forall x, Decision (P x)} (l : list A) :
  (forall x, x ∈ l -> P x) -> filter P l = l.
Proof.
  induction l as [|x l IH]; intros Hl; [done|]. rewrite filter_cons_True by (apply Hl; set_solver).
  f_equal. apply IH. set_solver.
Qed.

(** ** Little-endian encoding of unsigned integers *)
Fixpoint le_bytes (n : nat) (z : Z) : list Z :=
  match n with
  | O => []
  | S n' => z mod 256 :: le_bytes n' (z / 256)
  end.

Fixpoint le_val (bs : list Z) : Z :=
  match bs with
  | [] => 0
  | b :: bs' => b + 256 * le_val bs'
  end.

Lemma length_le_bytes n z : length (le_bytes n z) = n.
Proof. revert z. induction n; intros; simpl; auto. Qed.

Lemma le_val_bytes n z : le_val (le_bytes n z) = z mod 256 ^ Z.of_nat n.
Proof.
  revert z. induction n as [|n IH]; intros z.
  - simpl. by rewrite Z.mod_1_r.
  - cbn [le_bytes le_val]. rewrite IH.
    rewrite Nat2Z.inj_succ, Z.pow_succ_r by lia.
    rewrite Z.rem_mul_r by lia. lia.
Qed.

Lemma le_val_bytes_small n z :
  0 <= z < 256 ^ Z.of_nat n -> le_val (le_bytes n z) = z.
Proof. intros. rewrite le_val_bytes. by apply Z.mod_small. Qed.

Definition byte (z : Z) : Prop := 0 <= z < 256.

Lemma le_val_range bs : Forall byte bs -> 0 <= le_val bs < 256 ^ Z.of_nat (length bs).
Proof.
  induction 1 as [|b bs Hb _ IH]; simpl length; [simpl; lia|].
  cbn [le_val]. rewrite Nat2Z.inj_succ, Z.pow_succ_r by lia. unfold byte in Hb. lia.
Qed.

Lemma le_bytes_val bs : Forall byte bs -> le_bytes (length bs) (le_val bs) = bs.
Proof.
  induction 1 as [|b bs Hb _ IH]; [done|]. cbn [le_bytes le_val length].
  unfold byte in Hb. f_equal.
  - rewrite Z.mul_comm, Z.mod_add by lia. apply Z.mod_small. lia.
  - rewrite Z.mul_comm, Z.div_add, Z.div_small by lia. by rewrite Z.add_0_l.
Qed.

Lemma le_bytes_byte n z : Forall byte (le_bytes n z).
Proof.
  revert z. induction n; intros; cbn [le_bytes]; constructor; auto.
  unfold byte. pose proof (Z.mod_pos_bound z 256). lia.
Qed.

(** ** Automation *)
Create HintDb dion.
#[export] Hint Resolve w64_range w8_range le_bytes_byte : dion.
Create Rewrite HintDb dion_rw.
#[export] Hint Rewrite @obind_Ok @length_app @length_take @length_drop length_le_bytes : dion_rw.

(** Peel an [Ok] equation of nested binds. *)
Ltac obind_inv :=
  repeat match goal with
  | H : obind _ _ = Ok _ |- _ =>
      let x := fresh "r" in let E := fresh "E" in
      apply obind_inv in H as (x & E & H); cbv beta iota in H
  | H : Ok _ = Ok _ |- _ => injection H as H; subst
  | H : Panic = Ok _ |- _ => discriminate H
  | H : Fault = Ok _ |- _ => discriminate H
  | H : Timeout = Ok _ |- _ => discriminate H
  | x : prod _ _ |- _ => destruct x
  end.

(** Turn boolean tests on [Z] into propositions. *)
Ltac zbool :=
  repeat match goal with
  | H : (_ && _) = true |- _ => apply andb_true_iff in H as [? ?]
  | H : (_ || _) = false |- _ => apply orb_false_iff in H as [? ?]
  | H : negb _ = true |- _ => apply negb_true_iff in H
  | H : negb _ = false |- _ => apply negb_false_iff in H
  | H : (_ =? _) = true |- _ => apply Z.eqb_eq in H
  | H : (_ =? _) = false |- _ => apply Z.eqb_neq in H
  | H : (_ <? _) = true |- _ => apply Z.ltb_lt in H
  | H : (_ <? _) = false |- _ => apply Z.ltb_ge in H
  | H : (_ <=? _) = true |- _ => apply Z.leb_le in H
  | H : (_ <=? _) = false |- _ => apply Z.leb_gt in H
  end.

(** Case analysis on the first [Z] comparison of the goal. *)
Ltac zcase :=
  match goal with
  | |- context [?a =? ?b] => destruct (Z.eqb_spec a b)
  | |- context [?a <? ?b] => destruct (Z.ltb_spec a b)
  | |- context [?a <=? ?b] => destruct (Z.leb_spec a b)
  end.

(** ** Kernel constants of include/definitions/definitions.h *)
Definition PAGE_SIZE : Z := 4096.
Definition KERN_SUCCESS : Z := 0.
Definition KERN_OVERFLOW : Z := -43.
