(* ===== verification/KAlloc.v ===== *)
(** * The kernel allocator as the data structures see it

    [_kalloc]/[kmalloc] and [_kfree]/[kfree] (kernel/src/memory/kmalloc.c) are
    called by every linked data structure of the kernel, and the allocator in
    turn rests on those structures.  The class below is the contract the data
    structures rely on, with the simplest allocator that keeps it; Slab.v models
    the allocator the kernel runs. *)

From S2P Require Import Prelude.

Class KAlloc (A : Type) : Type := {
  (** [_kalloc(size)]: a new object; a failed allocation panics *)
  kalloc : Z -> A -> outcome (Z * A);
  (** [_kfree(address)] *)
  kfree : Z -> A -> outcome A;
  (** the allocator's own invariant *)
  kwf : A -> Prop;
  (** objects handed out and not yet freed *)
  klive : A -> gset Z;
  (** the addresses the heap manages (never static kernel data) *)
  kheap : Z -> Prop;
}.

Class KAllocSpec (A : Type) `{KAlloc A} : Prop := {
  kalloc_spec sz a p a' :
    kwf a -> kalloc sz a = Ok (p, a') ->
    p ≠ NULL /\ kheap p /\ p ∉ klive a /\ kwf a' /\ klive a' = {[p]} ∪ klive a;
  kfree_spec p a :
    kwf a -> p ∈ klive a ->
    exists a', kfree p a = Ok a' /\ kwf a' /\ klive a' = klive a ∖ {[p]};
}.

(** The objects of one data structure are heap objects it holds, none shared
    with a static pool. *)
Definition kfresh {A} `{KAlloc A} (sz : Z) (a : A) : Prop :=
  exists p a', kalloc sz a = Ok (p, a').

(** ** A reference instance

    The simplest allocator that keeps the contract: it hands out ever higher
    addresses from [bump_base] until [bump_limit] and remembers which objects
    are live.  The examples of the data structures run on it. *)
Module Bump.

Definition bump_base : Z := 2 ^ 40.
Definition bump_limit : Z := 2 ^ 41.

Record bump : Type := mk_bump { brk : Z; live : gset Z }.

Definition bump_alloc (sz : Z) (b : bump) : outcome (Z * bump) :=
  if brk b + Z.max 1 sz <=? bump_limit
  then Ok (brk b, mk_bump (brk b + Z.max 1 sz) ({[brk b]} ∪ live b))
  else Panic.

Definition bump_free (p : Z) (b : bump) : outcome bump :=
  if bool_decide (p ∈ live b) then Ok (mk_bump (brk b) (live b ∖ {[p]})) else Panic.

#[global] Instance bump_kalloc : KAlloc bump := {
  kalloc := bump_alloc;
  kfree := bump_free;
  kwf b := bump_base <= brk b /\ forall p, p ∈ live b -> bump_base <= p < brk b;
  klive := live;
  kheap p := bump_base <= p < bump_limit;
}.

#[global] Instance bump_spec : KAllocSpec bump.
Proof.
  split.
  - intros sz b p b' [Hb Hl] E. cbn in *. unfold bump_alloc in E.
    destruct (Z.leb_spec (brk b + Z.max 1 sz) bump_limit); [|done].
    injection E as <- <-. cbn. unfold bump_base, bump_limit, NULL in *.
    split_and!; try lia.
    + intros Hp. apply Hl in Hp. lia.
    + intros q Hq. apply elem_of_union in Hq as [->%elem_of_singleton|Hq]; [lia|].
      apply Hl in Hq. lia.
    + done.
  - intros p b [Hb Hl] Hp. cbn in *. unfold bump_free.
    rewrite bool_decide_eq_true_2 by done. eexists. split_and!; [done|done| |done].
    cbn. intros q Hq. apply Hl. set_solver.
Qed.

Definition empty : bump := mk_bump bump_base ∅.

Lemma empty_wf : kwf empty.
Proof. split; cbn; [lia|set_solver]. Qed.

End Bump.
