(* ===== verification/SinglyLinkedList.v ===== *)
(** * Singly linked lists (kernel/src/data_structures/singly_linked_list.c)

    Nodes live in a store indexed by address.  New nodes come from the list of
    free static nodes [free_nodes], itself one of these lists, and from the
    kernel allocator once that is empty. *)

From S2P Require Import Prelude KAlloc.

Module SLL.

Definition NODE_NOT_FOUND : Z := 1.
Definition SINGLY_LINKED_LIST_NODE_STATIC_POOL_SIZE : Z := 80000.
Definition STATIC_POOL_NODE : Z := 4.
Definition STATIC_POOL_FREE_NODE : Z := 8.
Definition LIST_FLAG_FREE_NODES : Z := 16.
Definition sizeof_node : Z := 32.

(** struct singly_linked_list_node *)
Record node : Type := mk_node { data : Z; next : Z; nflags : Z }.

(** struct singly_linked_list *)
Record list_head : Type := mk_list {
  head : Z; tail : Z; node_count : Z; flags : Z }.

#[export] Instance node_eq_dec : EqDecision node.
Proof. solve_decision. Defined.
#[export] Instance list_head_eq_dec : EqDecision list_head.
Proof. solve_decision. Defined.

Definition zero_node : node := mk_node 0 0 0.

(** The file's globals, the node store and the allocator behind it. *)
Record mem (A : Type) : Type := mk_mem {
  nodes : gmap Z node;
  free_nodes : list_head;
  static_pool_setup : bool;
  heap : A;
}.
Arguments mk_mem {A} _ _ _ _.
Arguments nodes {A} _.
Arguments free_nodes {A} _.
Arguments static_pool_setup {A} _.
Arguments heap {A} _.

Section Ops.
Context {A : Type} `{KAlloc A}.
Implicit Types (s : mem A) (l : list_head).

Definition with_nodes s ns : mem A :=
  mk_mem ns (free_nodes s) (static_pool_setup s) (heap s).
Definition with_free s f : mem A :=
  mk_mem (nodes s) f (static_pool_setup s) (heap s).
Definition with_heap s h : mem A :=
  mk_mem (nodes s) (free_nodes s) (static_pool_setup s) h.

(** [*p] *)
Definition load s (p : Z) : outcome node :=
  if p =? NULL then Fault else of_opt (nodes s !! p).

(** [*p = n] *)
Definition store s (p : Z) (n : node) : outcome (mem A) :=
  if p =? NULL then Fault
  else match nodes s !! p with
       | Some _ => Ok (with_nodes s (<[p := n]> (nodes s)))
       | None => Fault
       end.

(** [p->next = v] *)
Definition set_next s (p v : Z) : outcome (mem A) :=
  let! n := load s p in
  store s p (mk_node (data n) v (nflags n)).

(** [p->data = v] *)
Definition set_data s (p v : Z) : outcome (mem A) :=
  let! n := load s p in
  store s p (mk_node v (next n) (nflags n)).

(** [p->flags = f(p->flags)] *)
Definition upd_flags s (p : Z) (f : Z -> Z) : outcome (mem A) :=
  let! n := load s p in
  store s p (mk_node (data n) (next n) (f (nflags n))).

Definition is_free_list l : bool := flag_set (flags l) LIST_FLAG_FREE_NODES.

(** singly_linked_list_insert_head, with the node allocator as an argument:
    it is not called when the list is [free_nodes]. *)
Definition insert_head_body (node_alloc : mem A -> outcome (Z * mem A))
    l (d : Z) s : outcome (list_head * mem A) :=
  let! (new_head, s) := (if is_free_list l then Ok (d, s) else node_alloc s) in
  if new_head =? NULL then Panic
  else
    let! s := set_data s new_head d in
    if node_count l =? 0 then
      let! s := set_next s new_head NULL in
      Ok (mk_list new_head NULL (w64 (node_count l + 1)) (flags l), s)
    else if node_count l =? 1 then
      let! s := set_data s new_head d in
      let! s := set_next s new_head (head l) in
      let! n := load s new_head in
      let! s := set_next s (next n) NULL in
      Ok (mk_list new_head (next n) (w64 (node_count l + 1)) (flags l), s)
    else
      let! s := set_data s new_head d in
      let! s := set_next s new_head (head l) in
      Ok (mk_list new_head (tail l) (w64 (node_count l + 1)) (flags l), s).

(** singly_linked_list_remove_head, with the function that frees a node as an
    argument: it is not called when the list is [free_nodes].  The first
    component of the result is the returned pointer. *)
Definition remove_head_body (node_free : Z -> mem A -> outcome (mem A))
    l s : outcome (Z * list_head * mem A) :=
  if (node_count l =? 0) || (head l =? NULL) then Ok (NULL, l, s)
  else
    let! hn := load s (head l) in
    let return_value := data hn in
    if is_free_list l then
      Ok (return_value,
          mk_list (next hn) (tail l) (w64 (node_count l - 1)) (flags l), s)
    else if node_count l =? 1 then
      let! s := node_free (head l) s in
      Ok (return_value, mk_list NULL NULL (w64 (node_count l - 1)) (flags l), s)
    else if node_count l =? 2 then
      let node := head l in
      let! s := set_next s (tail l) NULL in
      let! s := set_next s node NULL in
      let! s := node_free node s in
      Ok (return_value, mk_list (tail l) NULL (w64 (node_count l - 1)) (flags l), s)
    else
      let new_head := next hn in
      let! s := node_free (head l) s in
      Ok (return_value,
          mk_list new_head (tail l) (w64 (node_count l - 1)) (flags l), s).

(** singly_linked_list_node_alloc *)
Definition singly_linked_list_node_alloc s : outcome (Z * mem A) :=
  let! (p, fl, s) := remove_head_body (fun _ _ => Fault) (free_nodes s) s in
  let s := with_free s fl in
  let! (p, s) :=
    (if p =? NULL then
       let! (q, h) := kalloc sizeof_node (heap s) in
       Ok (q, with_heap (with_nodes s (<[q := zero_node]> (nodes s))) h)
     else Ok (p, s)) in
  let! s := upd_flags s p (fun f => flag_clear f STATIC_POOL_FREE_NODE) in
  let! s := set_data s p NULL in
  Ok (p, s).

(** singly_linked_list_node_free.  An object given back to the allocator leaves
    the store: a later access to it is a [Fault]. *)
Definition singly_linked_list_node_free (p : Z) s : outcome (mem A) :=
  let! n := load s p in
  if flag_set (nflags n) STATIC_POOL_NODE then
    let! s := upd_flags s p (fun f => flag_clear f STATIC_POOL_FREE_NODE) in
    let! s := set_data s p NULL in
    let! s := set_next s p NULL in
    let! (fl, s) := insert_head_body (fun _ => Fault) (free_nodes s) p s in
    Ok (with_free s fl)
  else
    let! s := store s p zero_node in
    let! h := kfree p (heap s) in
    Ok (with_heap (with_nodes s (delete p (nodes s))) h).

Definition singly_linked_list_insert_head l (d : Z) s : outcome (list_head * mem A) :=
  insert_head_body singly_linked_list_node_alloc l d s.

Definition singly_linked_list_remove_head l s : outcome (Z * list_head * mem A) :=
  remove_head_body singly_linked_list_node_free l s.

(** singly_linked_list_insert_tail *)
Definition singly_linked_list_insert_tail l (d : Z) s : outcome (list_head * mem A) :=
  let! (new_node, s) :=
    (if is_free_list l then Ok (d, s) else singly_linked_list_node_alloc s) in
  if new_node =? NULL then Panic
  else
    let! s := set_data s new_node d in
    let! s := set_next s new_node NULL in
    if (tail l =? NULL) && (node_count l =? 1) then
      let! s := set_next s (head l) new_node in
      Ok (mk_list (head l) new_node (w64 (node_count l + 1)) (flags l), s)
    else
      let! s := set_next s (tail l) new_node in
      Ok (mk_list (head l) new_node (w64 (node_count l + 1)) (flags l), s).

(** The walk of singly_linked_list_remove_tail: the node before the tail
    becomes the tail. *)
Fixpoint remove_tail_loop (fuel : nat) (node tl : Z) s : outcome (Z * mem A) :=
  match fuel with
  | O => Timeout
  | S fuel =>
    if node =? NULL then Ok (tl, s)
    else
      let! n := load s node in
      let! (tl, s) :=
        (if next n =? tl then
           let! s := set_next s node NULL in
           Ok (node, s)
         else Ok (tl, s)) in
      let! n := load s node in
      remove_tail_loop fuel (next n) tl s
  end.

(** Enough iterations for any walk that visits no node twice. *)
Definition walk_fuel s : nat := S (size (nodes s)).

(** singly_linked_list_remove_tail.  [return_value] is uninitialised until the
    tail, or the only node, is read: [None] stands for that. *)
Definition singly_linked_list_remove_tail l s : outcome (option Z * list_head * mem A) :=
  if node_count l =? 0 then Ok (Some NULL, l, s)
  else
    let! return_value :=
      (if tail l =? NULL then Ok None
       else let! tn := load s (tail l) in Ok (Some (data tn))) in
    if node_count l =? 1 then
      let! hn := load s (head l) in
      let! s := set_next s (head l) NULL in
      let! s := singly_linked_list_node_free (head l) s in
      Ok (Some (data hn), mk_list NULL NULL (w64 (node_count l - 1)) (flags l), s)
    else
      let! (tl, s) := remove_tail_loop (walk_fuel s) (head l) (tail l) s in
      let! s := set_next s (tail l) NULL in
      let! s := singly_linked_list_node_free (tail l) s in
      Ok (return_value, mk_list (head l) tl (w64 (node_count l - 1)) (flags l), s).

(** The walk of singly_linked_list_remove_node_by_address. *)
Fixpoint remove_by_address_loop (fuel : nat) (prev node d : Z) l s
  : outcome (Z * list_head * mem A) :=
  match fuel with
  | O => Timeout
  | S fuel =>
    if node =? NULL then Ok (NODE_NOT_FOUND, l, s)
    else
      let! n := load s node in
      if data n =? d then
        let! s := set_next s prev (next n) in
        let! s := singly_linked_list_node_free node s in
        Ok (KERN_SUCCESS,
            mk_list (head l) (tail l) (w64 (node_count l - 1)) (flags l), s)
      else
        let! pn := load s prev in
        remove_by_address_loop fuel (next pn) (next n) d l s
  end.

(** singly_linked_list_remove_node_by_address *)
Definition singly_linked_list_remove_node_by_address l (d : Z) s
  : outcome (Z * list_head * mem A) :=
  let! n := load s (head l) in
  if data n =? d then
    let! (_, l, s) := singly_linked_list_remove_head l s in
    Ok (KERN_SUCCESS, l, s)
  else remove_by_address_loop (walk_fuel s) (head l) (next n) d l s.

(** The loop of singly_linked_list_destroy, [i] iterations left. *)
Fixpoint destroy_loop (i : nat) (pointer : Z) s : outcome (mem A) :=
  match i with
  | O => Ok s
  | S i =>
    if pointer =? NULL then Ok s
    else
      let! n := load s pointer in
      let! s := singly_linked_list_node_free pointer s in
      destroy_loop i (next n) s
  end.

Definition singly_linked_list_destroy l s : outcome (mem A) :=
  destroy_loop (Z.to_nat (node_count l)) (head l) s.

(** The loop of singly_linked_list_init that puts the static pool, an array of
    nodes at address [base], on [free_nodes]; [i] is the index reached and [k]
    the number of iterations left. *)
Fixpoint init_pool_loop (k : nat) (base i : Z) s : outcome (mem A) :=
  match k with
  | O => Ok s
  | S k =>
    let p := base + i * sizeof_node in
    let! s := upd_flags s p (fun f => Z.lor f STATIC_POOL_NODE) in
    let! s := upd_flags s p (fun f => Z.lor f STATIC_POOL_FREE_NODE) in
    let! (fl, s) := insert_head_body (fun _ => Fault) (free_nodes s) p s in
    init_pool_loop k base (i + 1) (with_free s fl)
  end.

(** singly_linked_list_init; [base] is the address of
    [singly_linked_list_node_static_pool]. *)
Definition singly_linked_list_init (base : Z) (fl : Z) s : outcome (list_head * mem A) :=
  let! s :=
    (if static_pool_setup s then Ok s
     else
       let s := mk_mem (nodes s) (mk_list NULL NULL 0 LIST_FLAG_FREE_NODES) true (heap s) in
       init_pool_loop (Z.to_nat SINGLY_LINKED_LIST_NODE_STATIC_POOL_SIZE) base 0 s) in
  Ok (mk_list NULL NULL 0 fl, s).

End Ops.

(** ** Representation *)

(** [lseg ns p xs q]: following [next] from [p] visits the nodes of [xs], given
    as (address, data) pairs, and arrives at [q]. *)
Fixpoint lseg (ns : gmap Z node) (p : Z) (xs : list (Z * Z)) (q : Z) : Prop :=
  match xs with
  | [] => p = q
  | (a, d) :: xs' =>
      p = a /\ a ≠ NULL /\
      exists n, ns !! a = Some n /\ data n = d /\ lseg ns (next n) xs' q
  end.

(** What [tail] promises: nothing for an empty list, the only node or NULL for
    a list of one, the last node otherwise. *)
Definition tail_ok (l : list_head) (xs : list (Z * Z)) : Prop :=
  match xs with
  | [] => True
  | [(a, _)] => tail l = NULL \/ tail l = a
  | _ => list.last xs.*1 = Some (tail l)
  end.

(** The list [l] holds the nodes [xs], the tail pointer left aside. *)
Record chain (ns : gmap Z node) (l : list_head) (xs : list (Z * Z)) : Prop := mk_chain {
  chain_seg : lseg ns (head l) xs NULL;
  chain_nodup : NoDup xs.*1;
  chain_count : node_count l = Z.of_nat (length xs);
  chain_bound : Z.of_nat (length xs) < 2 ^ 64;
  chain_kind : is_free_list l = false;
}.

Definition repr (ns : gmap Z node) (l : list_head) (xs : list (Z * Z)) : Prop :=
  chain ns l xs /\ tail_ok l xs.

Lemma lseg_app ns p xs ys q :
  lseg ns p (xs ++ ys) q <-> exists r, lseg ns p xs r /\ lseg ns r ys q.
Proof.
  revert p. induction xs as [|[a d] xs IH]; intros p; simpl.
  - split; [intros; by exists p | by intros (r & -> & ?)].
  - setoid_rewrite IH. naive_solver.
Qed.

Lemma lseg_frame ns ns' p xs q :
  (forall a, a ∈ xs.*1 -> ns' !! a = ns !! a) -> lseg ns p xs q -> lseg ns' p xs q.
Proof.
  revert p. induction xs as [|[a d] xs IH]; intros p Hf; simpl; [done|].
  intros (-> & ? & n & Hn & ? & Hs). split_and!; try done. exists n.
  split_and!; try done.
  - rewrite Hf by (simpl; set_solver). done.
  - apply IH; [|done]. intros. apply Hf. simpl. set_solver.
Qed.

Lemma lseg_elem ns p xs q a :
  lseg ns p xs q -> a ∈ xs.*1 -> a ≠ NULL /\ exists n, ns !! a = Some n.
Proof.
  revert p. induction xs as [|[b d] xs IH]; intros p; simpl; [set_solver|].
  intros (-> & ? & n & ? & ? & Hs) Ha. apply elem_of_cons in Ha as [->|Ha]; eauto.
Qed.

Lemma lseg_insert ns p xs q a n :
  a ∉ xs.*1 -> lseg ns p xs q -> lseg (<[a := n]> ns) p xs q.
Proof.
  intros Ha. apply lseg_frame. intros b Hb. rewrite lookup_insert_ne; [done|].
  intros ->. done.
Qed.

Lemma chain_frame ns ns' l xs :
  (forall a, a ∈ xs.*1 -> ns' !! a = ns !! a) -> chain ns l xs -> chain ns' l xs.
Proof. intros Hf [????? ]. constructor; try done. by eapply lseg_frame. Qed.

Lemma repr_frame ns ns' l xs :
  (forall a, a ∈ xs.*1 -> ns' !! a = ns !! a) -> repr ns l xs -> repr ns' l xs.
Proof. intros Hf [? ?]. split; [|done]. by eapply chain_frame. Qed.

Lemma last_fst_snoc (ys : list (Z * Z)) a d : list.last (ys ++ [(a, d)]).*1 = Some a.
Proof. rewrite fmap_app. apply last_snoc. Qed.

Lemma tail_ok_snoc l ys a d :
  tail l = a -> tail_ok l (ys ++ [(a, d)]).
Proof.
  intros <-. destruct ys as [|[b db] ys]; simpl; [by right|].
  destruct ys as [|[c dc] ys]; [done|].
  apply (last_fst_snoc ((b, db) :: (c, dc) :: ys)).
Qed.

Lemma tail_ok_last l xs :
  tail_ok l xs -> (2 <= length xs)%nat -> list.last xs.*1 = Some (tail l).
Proof. destruct xs as [|[a d] [|[b e] xs]]; simpl; [lia|lia|done]. Qed.

(** ** Sequences of operations

    [exec] is one call on a list, [spec_step] what it does to the list of the
    data in it, [None] where the call is not allowed: [insert_tail] and
    [remove_node_by_address] on an empty list, and the removal of the last of
    several nodes by address, which leaves [tail] on a freed node. *)
Inductive cmd : Type :=
| InsertHead (d : Z)
| InsertTail (d : Z)
| RemoveHead
| RemoveTail
| RemoveByAddress (d : Z).

Definition spec_step (c : cmd) (xs : list Z) : option (Z * list Z) :=
  match c with
  | InsertHead d => Some (KERN_SUCCESS, d :: xs)
  | InsertTail d => match xs with [] => None | _ => Some (KERN_SUCCESS, xs ++ [d]) end
  | RemoveHead => match xs with [] => Some (NULL, []) | x :: xs => Some (x, xs) end
  | RemoveTail =>
      match list.last xs with Some x => Some (x, removelast xs) | None => Some (NULL, xs) end
  | RemoveByAddress d =>
      match xs with
      | [] => None
      | _ => match list_find (eq d) xs with
             | None => Some (NODE_NOT_FOUND, xs)
             | Some (i, _) => if decide (i = 0 \/ S i < length xs)%nat
                              then Some (KERN_SUCCESS, delete i xs) else None
             end
      end
  end.

Fixpoint spec_run (cs : list cmd) (xs : list Z) : option (list Z * list Z) :=
  match cs with
  | [] => Some ([], xs)
  | c :: cs =>
      '(v, xs) ← spec_step c xs; '(vs, xs) ← spec_run cs xs; Some (v :: vs, xs)
  end.

Section Run.
Context {A : Type} `{KAlloc A}.

Definition exec (c : cmd) (l : list_head) (s : mem A) : outcome (Z * list_head * mem A) :=
  match c with
  | InsertHead d => let! (l, s) := singly_linked_list_insert_head l d s in Ok (KERN_SUCCESS, l, s)
  | InsertTail d => let! (l, s) := singly_linked_list_insert_tail l d s in Ok (KERN_SUCCESS, l, s)
  | RemoveHead => singly_linked_list_remove_head l s
  | RemoveTail => let! (o, l, s) := singly_linked_list_remove_tail l s in
                  let! v := of_opt o in Ok (v, l, s)
  | RemoveByAddress d => singly_linked_list_remove_node_by_address l d s
  end.

Fixpoint run (cs : list cmd) (l : list_head) (s : mem A) : outcome (list Z * list_head * mem A) :=
  match cs with
  | [] => Ok ([], l, s)
  | c :: cs =>
      let! (v, l, s) := exec c l s in
      let! (vs, l, s) := run cs l s in
      Ok (v :: vs, l, s)
  end.

End Run.

Lemma spec_step_length c xs v ys : spec_step c xs = Some (v, ys) -> (length ys <= S (length xs))%nat.
Proof.
  destruct c as [d|d| | |d]; cbn; intros E.
  - by simplify_eq.
  - destruct xs; simplify_eq. rewrite length_app. simpl. lia.
  - destruct xs; simplify_eq; simpl; lia.
  - destruct (list.last xs) as [x|] eqn:El; simplify_eq; [|lia].
    apply last_Some in El as (l' & ->). rewrite removelast_last, length_app. simpl. lia.
  - destruct xs as [|x xs]; [done|]. destruct (list_find _ _) as [[i y]|] eqn:Ef; simplify_eq; [|lia].
    case_decide; simplify_eq. apply list_find_Some in Ef as (Hl & _).
    rewrite length_delete by done. simpl. lia.
Qed.

(** ** Executing the operations on a store *)
Section Exec.
Context {A : Type}.
Implicit Types (s : mem A).

Lemma with_nodes_twice s ns ns' : with_nodes (with_nodes s ns) ns' = with_nodes s ns'.
Proof. done. Qed.
Lemma nodes_with_nodes s ns : nodes (with_nodes s ns) = ns.
Proof. done. Qed.

End Exec.

Ltac msimp :=
  cbn [obind head tail node_count flags data next nflags];
  rewrite ?with_nodes_twice, ?nodes_with_nodes, ?insert_insert_eq;
  cbn [obind head tail node_count flags data next nflags].

Section Exec2.
Context {A : Type}.
Implicit Types (s : mem A).

Lemma load_ok s p n : nodes s !! p = Some n -> p ≠ NULL -> load s p = Ok n.
Proof. intros Hp Hn. unfold load. rewrite (proj2 (Z.eqb_neq _ _) Hn). by rewrite Hp. Qed.

Lemma store_ok s p n n' :
  nodes s !! p = Some n -> p ≠ NULL ->
  store s p n' = Ok (with_nodes s (<[p := n']> (nodes s))).
Proof. intros Hp Hn. unfold store. rewrite (proj2 (Z.eqb_neq _ _) Hn). by rewrite Hp. Qed.

Lemma set_next_ok s p v n :
  nodes s !! p = Some n -> p ≠ NULL ->
  set_next s p v = Ok (with_nodes s (<[p := mk_node (data n) v (nflags n)]> (nodes s))).
Proof. intros. unfold set_next. erewrite load_ok by done. simpl. by erewrite store_ok. Qed.

Lemma set_data_ok s p v n :
  nodes s !! p = Some n -> p ≠ NULL ->
  set_data s p v = Ok (with_nodes s (<[p := mk_node v (next n) (nflags n)]> (nodes s))).
Proof. intros. unfold set_data. erewrite load_ok by done. simpl. by erewrite store_ok. Qed.

Lemma upd_flags_ok s p f n :
  nodes s !! p = Some n -> p ≠ NULL ->
  upd_flags s p f
  = Ok (with_nodes s (<[p := mk_node (data n) (next n) (f (nflags n))]> (nodes s))).
Proof. intros. unfold upd_flags. erewrite load_ok by done. simpl. by erewrite store_ok. Qed.

Lemma flag_clear_static f :
  flag_set (flag_clear f STATIC_POOL_FREE_NODE) STATIC_POOL_NODE
  = flag_set f STATIC_POOL_NODE.
Proof. unfold flag_set, flag_clear. by rewrite <- Z.land_assoc. Qed.

Lemma fmap_self (fs : list Z) : ((fun a => (a, a)) <$> fs).*1 = fs.
Proof. rewrite <- list_fmap_compose. simpl. by rewrite list_fmap_id. Qed.

(** What the code after the allocation does: one node written, in every case. *)
Lemma insert_head_link na l d s s1 p n xs :
  (if is_free_list l then Ok (d, s) else na s) = Ok (p, s1) ->
  nodes s1 !! p = Some n -> p ≠ NULL -> p ∉ xs.*1 ->
  lseg (nodes s1) (head l) xs NULL ->
  node_count l = Z.of_nat (length xs) -> Z.of_nat (length xs) + 1 < 2 ^ 64 ->
  insert_head_body na l d s
  = Ok (mk_list p (match xs with [] => NULL | [_] => head l | _ => tail l end)
          (Z.of_nat (length xs) + 1) (flags l),
        with_nodes s1 (<[p := mk_node d (head l) (nflags n)]> (nodes s1))).
Proof.
  intros Ha Hp Hn Hx Hs Hc Hb. unfold insert_head_body. rewrite Ha. cbn [obind].
  rewrite (proj2 (Z.eqb_neq p NULL)) by done.
  erewrite set_data_ok by done. cbn [obind]. rewrite Hc.
  rewrite (w64_small (Z.of_nat (length xs) + 1)) by lia.
  destruct xs as [|[a da] xs].
  - simpl in Hs. cbn. erewrite set_next_ok; [|apply lookup_insert_eq|done]. cbn.
    by rewrite insert_insert_eq, Hs.
  - simpl in Hs. destruct Hs as (Hh & Han & na' & Hna & Hda & Hs).
    rewrite (proj2 (Z.eqb_neq _ 0)) by (simpl; lia).
    destruct xs as [|[b db] xs].
    + simpl in Hs. cbn [length Z.of_nat]. cbn. rewrite Hh.
      assert (Hpa : p ≠ a) by (intros ->; apply Hx; simpl; set_solver).
      erewrite set_data_ok; [|apply lookup_insert_eq|done]. cbn.
      erewrite set_next_ok; [|apply lookup_insert_eq|done]. cbn.
      erewrite load_ok; [|apply lookup_insert_eq|done]. cbn.
      erewrite set_next_ok; [|cbn; rewrite !insert_insert_eq, lookup_insert_ne by done; exact Hna|done].
      cbn. rewrite !insert_insert_eq. do 3 f_equal.
      rewrite (insert_id (<[p:=_]> _)); [done|]. rewrite lookup_insert_ne, Hna by done.
      destruct na'; simpl in *; congruence.
    + rewrite (proj2 (Z.eqb_neq _ 1)) by (simpl; lia).
      erewrite set_data_ok; [|apply lookup_insert_eq|done]. cbn [obind].
      erewrite set_next_ok; [|apply lookup_insert_eq|done]. cbn.
      by rewrite !insert_insert_eq.
Qed.

End Exec2.

(** ** The invariant of the node store *)
Section Spec.
Context {A : Type} `{KAllocSpec A}.
(** The addresses of [singly_linked_list_node_static_pool]. *)
Context (pool : gset Z).
Hypothesis pool_static : forall a, a ∈ pool -> ~ kheap a.
Hypothesis pool_null : NULL ∉ pool.
Hypothesis pool_size : Z.of_nat (size pool) < 2 ^ 64.
Implicit Types (s : mem A) (fs : list Z).

(** [fs] are the nodes on [free_nodes], each pointing to itself; every other
    node is a static one or a live heap object. *)
Record inv s fs : Prop := mk_inv {
  inv_seg : lseg (nodes s) (head (free_nodes s)) ((fun a => (a, a)) <$> fs) NULL;
  inv_nodup : NoDup fs;
  inv_count : node_count (free_nodes s) = Z.of_nat (length fs);
  inv_kind : is_free_list (free_nodes s) = true;
  inv_pool : forall a, a ∈ fs -> a ∈ pool;
  inv_static : forall a n, nodes s !! a = Some n ->
    flag_set (nflags n) STATIC_POOL_NODE = bool_decide (a ∈ pool);
  inv_live : forall a n, nodes s !! a = Some n -> a ∉ pool -> a ∈ klive (heap s);
  inv_null : nodes s !! NULL = None;
  inv_wf : kwf (heap s);
}.

(** A node can be had: one is on [free_nodes] or the allocator gives one. *)
Definition can_alloc s fs : Prop := fs ≠ [] \/ kfresh sizeof_node (heap s).

(** A step from a list [xs] to a list [xs'] leaves the nodes of every other
    list alone, takes none of them, and takes at most one free node. *)
Definition untouched s fs (xs : list Z) s' fs' (xs' : list Z) : Prop :=
  forall a n, nodes s !! a = Some n -> a ∉ fs -> a ∉ xs ->
    nodes s' !! a = Some n /\ a ∉ fs' /\ a ∉ xs'.
Definition framed s fs (xs : list Z) s' fs' (xs' : list Z) : Prop :=
  (length fs <= S (length fs'))%nat /\ untouched s fs xs s' fs' xs'.

(** Freeing [a] puts it on [free_nodes], or gives it back to the allocator. *)
Definition grown (a : Z) fs fs' : Prop := fs' = fs \/ fs' = a :: fs.

Lemma grown_elem a fs fs' x : grown a fs fs' -> x ∈ fs' -> x = a \/ x ∈ fs.
Proof. intros [-> | ->]; [by right|]. apply elem_of_cons. Qed.

Lemma grown_length a fs fs' : grown a fs fs' -> (length fs <= length fs')%nat.
Proof. intros [-> | ->]; simpl; lia. Qed.

(** The nodes of a list are not on [free_nodes]. *)
Definition owned s fs l xs : Prop :=
  repr (nodes s) l xs /\ forall a, a ∈ xs.*1 -> a ∉ fs.

Lemma inv_fs_node s fs a :
  inv s fs -> a ∈ fs -> a ≠ NULL /\ exists n, nodes s !! a = Some n.
Proof.
  intros Hi Ha. eapply lseg_elem; [apply (inv_seg _ _ Hi)|].
  by rewrite fmap_self.
Qed.

Lemma inv_not_null s fs a n : inv s fs -> nodes s !! a = Some n -> a ≠ NULL.
Proof. intros Hi Ha ->. by rewrite (inv_null _ _ Hi) in Ha. Qed.

(** Changing a node without touching its STATIC_POOL_NODE flag or the free list
    keeps the invariant. *)
Lemma inv_update s fs a n n' :
  inv s fs -> nodes s !! a = Some n -> a ∉ fs ->
  flag_set (nflags n') STATIC_POOL_NODE = flag_set (nflags n) STATIC_POOL_NODE ->
  inv (with_nodes s (<[a := n']> (nodes s))) fs.
Proof.
  intros Hi Ha Hf Hfl. pose proof (inv_not_null _ _ _ _ Hi Ha).
  destruct Hi as [Hs ? ? ? ? Hst Hlv Hnl ?]. constructor; simpl; try done.
  - apply lseg_insert; [by rewrite fmap_self|done].
  - intros b nb Hb. apply lookup_insert_Some in Hb as [[<- <-]|[? Hb]]; [|eauto].
    rewrite Hfl. eauto.
  - intros b nb Hb. apply lookup_insert_Some in Hb as [[<- <-]|[? Hb]]; eauto.
  - by rewrite lookup_insert_ne.
Qed.

Lemma inv_free_cons s fs a :
  inv s (a :: fs) ->
  exists n, head (free_nodes s) = a /\ nodes s !! a = Some n /\ data n = a /\ a ≠ NULL /\
    inv (with_free s (mk_list (next n) (tail (free_nodes s))
           (w64 (node_count (free_nodes s) - 1)) (flags (free_nodes s)))) fs.
Proof.
  intros Hi. pose proof (inv_seg _ _ Hi) as Hs. simpl in Hs.
  destruct Hs as (Hh & Hn & n & Hl & Hd & Hs). exists n. split_and!; try done.
  destruct Hi as [_ Hnd Hc ? Hp ? ? ? ?]. apply NoDup_cons in Hnd as [? ?].
  constructor; simpl; try done.
  - rewrite Hc. simpl length.
    assert (Z.of_nat (length (a :: fs)) <= Z.of_nat (size pool)).
    { apply inj_le. rewrite <- (size_list_to_set (C := gset Z)) by (by apply NoDup_cons).
      apply subseteq_size. set_solver. }
    simpl length in *. rewrite w64_small; lia.
  - intros b Hb. apply Hp. set_solver.
Qed.

Lemma node_alloc_spec s fs :
  inv s fs -> can_alloc s fs ->
  exists p s' fs' n, singly_linked_list_node_alloc s = Ok (p, s') /\ p ≠ NULL /\
    nodes s' = <[p := n]> (nodes s) /\ (p ∈ fs \/ nodes s !! p = None) /\
    p ∉ fs' /\ (forall a, a ∈ fs' -> a ∈ fs) /\ inv s' fs' /\ (length fs <= S (length fs'))%nat.
Proof.
  intros Hi Hc. unfold singly_linked_list_node_alloc, remove_head_body.
  destruct fs as [|a fs].
  - assert (Hh : head (free_nodes s) = NULL) by apply (inv_seg _ _ Hi).
    rewrite Hh, Z.eqb_refl, orb_true_r. cbn [obind]. rewrite Z.eqb_refl.
    destruct Hc as [?|(q & h & Ha)]; [done|]. cbn [heap with_free]. rewrite Ha. cbn [obind].
    destruct (kalloc_spec _ _ _ _ (inv_wf _ _ Hi) Ha) as (Hq & Hkh & Hql & Hwf & Hlv).
    assert (Hqp : q ∉ pool) by (intros ?; by apply (pool_static q)).
    assert (Hqn : nodes s !! q = None).
    { destruct (nodes s !! q) as [n|] eqn:E; [|done]. destruct Hql.
      by apply (inv_live _ _ Hi q n). }
    erewrite upd_flags_ok; [|apply lookup_insert_eq|done]. cbn [obind].
    erewrite set_data_ok; [|apply lookup_insert_eq|done]. cbn [obind].
    eexists q, _, [], _. split_and!; [done|done|simpl; by rewrite !insert_insert_eq|by right
      |apply not_elem_of_nil|done| |simpl; lia].
    destruct Hi as [Hs ? Hcn ? ? Hst Hl Hnl ?]. constructor; simpl; try done.
    + rewrite !insert_insert_eq. intros b n Hb.
      apply lookup_insert_Some in Hb as [[<- <-]|[? Hb]]; [|eauto].
      by rewrite bool_decide_eq_false_2.
    + rewrite !insert_insert_eq. intros b n Hb ?.
      apply lookup_insert_Some in Hb as [[<- <-]|[? Hb]]; set_solver.
    + by rewrite !insert_insert_eq, lookup_insert_ne.
  - destruct (inv_free_cons _ _ _ Hi) as (n & Hh & Hl & Hd & Hn & Hi').
    rewrite (inv_count _ _ Hi), (proj2 (Z.eqb_neq (Z.of_nat (length (a :: fs))) 0)) by (simpl; lia).
    rewrite Hh, (proj2 (Z.eqb_neq a NULL)) by done. cbn [orb].
    rewrite (load_ok s a n) by done. cbn [obind]. rewrite (inv_kind _ _ Hi). cbn [obind].
    rewrite Hd, (proj2 (Z.eqb_neq a NULL)) by done. cbn [obind].
    erewrite upd_flags_ok; [|exact Hl|done]. cbn [obind].
    erewrite set_data_ok; [|apply lookup_insert_eq|done]. cbn [obind].
    assert (Ha : a ∉ fs) by (pose proof (inv_nodup _ _ Hi) as Hnd; by apply NoDup_cons in Hnd as [? _]).
    eexists a, _, fs, _. split_and!; [done|done|simpl; by rewrite insert_insert_eq|left; set_solver
      |done|set_solver| |simpl; lia].
    eapply inv_update in Hi'; [|exact Hl|done|].
    { cbn [with_nodes with_free nodes free_nodes static_pool_setup heap] in *.
      rewrite insert_insert_eq. rewrite (inv_count _ _ Hi) in Hi'. exact Hi'. }
    simpl. apply flag_clear_static.
Qed.

Lemma pool_bound fs : NoDup fs -> (forall a, a ∈ fs -> a ∈ pool) -> Z.of_nat (length fs) < 2 ^ 64.
Proof.
  intros Hnd Hp. assert (length fs <= size pool)%nat; [|lia].
  rewrite <- (size_list_to_set (C := gset Z)) by done. apply subseteq_size. set_solver.
Qed.

(** Pushing a static node on [free_nodes]. *)
Lemma free_push_spec s fs p n :
  inv s fs -> nodes s !! p = Some n -> p ∈ pool -> p ∉ fs ->
  exists fl s' n', insert_head_body (fun _ => Fault) (free_nodes s) p s = Ok (fl, s') /\
    nodes s' = <[p := n']> (nodes s) /\ inv (with_free s' fl) (p :: fs).
Proof.
  intros Hi Hp Hpp Hpf. pose proof (inv_not_null _ _ _ _ Hi Hp) as Hn.
  assert (Hb : Z.of_nat (length (p :: fs)) < 2 ^ 64).
  { apply pool_bound; [apply NoDup_cons_2; [done|apply (inv_nodup _ _ Hi)]|].
    intros a Ha. apply elem_of_cons in Ha as [->|?]; [done|]. by apply (inv_pool _ _ Hi). }
  assert (Hl := insert_head_link (fun _ => Fault) (free_nodes s) p s s p n
                  ((fun a => (a, a)) <$> fs)).
  rewrite length_fmap in Hl. rewrite Hl; clear Hl.
  - do 3 eexists. split_and!; [done|done|].
    pose proof (inv_update s fs p n (mk_node p (head (free_nodes s)) (nflags n)) Hi Hp Hpf eq_refl) as Hu.
    destruct Hu as [Hs Hnd Hc Hk Hpl Hst Hlv Hnl Hwf].
    constructor; simpl in *; try done.
    + split_and!; [done|done|]. eexists. rewrite lookup_insert_eq. split_and!; [done|done|].
      done.
    + by apply NoDup_cons_2.
    + lia.
    + intros a Ha. apply elem_of_cons in Ha as [->|?]; auto.
  - by rewrite (inv_kind _ _ Hi).
  - done.
  - done.
  - by rewrite fmap_self.
  - apply (inv_seg _ _ Hi).
  - by rewrite (inv_count _ _ Hi).
  - simpl length in Hb. lia.
Qed.

Lemma node_free_spec s fs p n :
  inv s fs -> nodes s !! p = Some n -> p ∉ fs ->
  exists s' fs', singly_linked_list_node_free p s = Ok s' /\ inv s' fs' /\
    (forall a, a ≠ p -> nodes s' !! a = nodes s !! a) /\
    grown p fs fs' /\
    (p ∈ fs' \/ nodes s' !! p = None).
Proof.
  intros Hi Hp Hpf. pose proof (inv_not_null _ _ _ _ Hi Hp) as Hn.
  unfold singly_linked_list_node_free. rewrite (load_ok s p n) by done. cbn [obind].
  pose proof (inv_static _ _ Hi _ _ Hp) as Hst. rewrite Hst. case_bool_decide as Hpp.
  - erewrite upd_flags_ok by done. cbn [obind].
    erewrite set_data_ok; [|apply lookup_insert_eq|done]. cbn [obind].
    erewrite set_next_ok; [|apply lookup_insert_eq|done]. msimp.
    set (n' := mk_node _ _ _).
    assert (Hu : inv (with_nodes s (<[p := n']> (nodes s))) fs).
    { eapply inv_update; [done|exact Hp|done|]. subst n'. simpl. apply flag_clear_static. }
    destruct (free_push_spec _ _ p n' Hu) as (fl & s' & n2 & E & Hns & Hi2);
      [apply lookup_insert_eq|done|done|].
    cbn [free_nodes with_nodes] in E. cbn [free_nodes with_nodes]. rewrite E. msimp. eexists _, (p :: fs). split_and!; [done|done| |by right|left; set_solver].
    intros a Ha. cbn. rewrite Hns. cbn. by rewrite insert_insert_eq, lookup_insert_ne.
  - erewrite store_ok by done. cbn.
    destruct (kfree_spec p (heap s) (inv_wf _ _ Hi)) as (h & Hf & Hwf & Hlv).
    { by apply (inv_live _ _ Hi p n). }
    rewrite Hf. cbn. eexists _, fs. split_and!; [done| | |by left|right; apply lookup_delete_eq].
    + destruct Hi as [Hs Hnd Hc Hk Hpl Hst' Hlv' Hnl Hwf'].
      constructor; cbn; try done.
      * eapply lseg_frame; [|exact Hs]. intros a Ha. rewrite fmap_self in Ha.
        rewrite lookup_delete_ne, lookup_insert_ne; set_solver.
      * intros a na Ha. apply lookup_delete_Some in Ha as [? Ha].
        rewrite lookup_insert_ne in Ha by done. eauto.
      * intros a na Ha ?. apply lookup_delete_Some in Ha as [? Ha].
        rewrite lookup_insert_ne in Ha by done. rewrite Hlv. set_solver.
      * rewrite lookup_delete_ne, lookup_insert_ne; done.
    + intros a Ha. cbn. by rewrite lookup_delete_ne, lookup_insert_ne.
Qed.

(** Inserting at the head. *)
Lemma insert_head_ok s fs l xs d :
  inv s fs -> owned s fs l xs -> can_alloc s fs -> Z.of_nat (length xs) + 1 < 2 ^ 64 ->
  exists p l' s' fs', singly_linked_list_insert_head l d s = Ok (l', s') /\
    inv s' fs' /\ owned s' fs' l' ((p, d) :: xs) /\ framed s fs xs.*1 s' fs' (p :: xs.*1).
Proof.
  intros Hi [[Hch Htl] Ho] Hc Hb.
  destruct (node_alloc_spec s fs Hi Hc) as (p & s1 & fs' & n & Ha & Hn & Hns & Hp & Hpf & Hfs & Hi1 & Hlen).
  assert (Hpx : p ∉ xs.*1).
  { intros Hx. destruct Hp as [Hp|Hp]; [by apply (Ho p)|].
    destruct (lseg_elem _ _ _ _ _ (chain_seg _ _ _ Hch) Hx) as (_ & n0 & ?). congruence. }
  assert (Hp1 : nodes s1 !! p = Some n) by (rewrite Hns; apply lookup_insert_eq).
  unfold singly_linked_list_insert_head.
  erewrite insert_head_link with (xs := xs) (s1 := s1) (p := p) (n := n); try done.
  2: by rewrite (chain_kind _ _ _ Hch).
  2: { rewrite Hns. apply lseg_insert; [done|]. apply (chain_seg _ _ _ Hch). }
  2: by apply (chain_count _ _ _ Hch).
  eexists p, _, _, fs'. split_and!; [done| | |].
  - by eapply inv_update.
  - destruct Hch as [Hs Hnd Hcn _ Hk]. split; [split|].
    + constructor; simpl; try lia; try done; [|by apply NoDup_cons_2].
      split_and!; [done|done|]. eexists. rewrite lookup_insert_eq. split_and!; [done|done|].
      simpl. apply lseg_insert; [done|]. rewrite Hns. by apply lseg_insert.
    + destruct xs as [|[a da] [|[b db] xs]]; simpl in *; [by left|by destruct Hs as (-> & _)|done].
    + simpl. intros a Ha'. apply elem_of_cons in Ha' as [->|Ha']; [done|].
      intros ?. apply (Ho a Ha'). auto.
  - split; [done|]. intros a na Hna Hf Hx. simpl. rewrite Hns.
    assert (a ≠ p) by (intros ->; destruct Hp; congruence).
    rewrite !lookup_insert_ne by done. split_and!; [done|auto|set_solver].
Qed.

Lemma lseg_link ns q ys a da na p np d :
  lseg ns q (ys ++ [(a, da)]) NULL -> NoDup (ys ++ [(a, da)]).*1 ->
  p ∉ (ys ++ [(a, da)]).*1 -> p ≠ NULL -> ns !! a = Some na -> data np = d -> next np = NULL ->
  lseg (<[a := mk_node (data na) p (nflags na)]> (<[p := np]> ns)) q
       ((ys ++ [(a, da)]) ++ [(p, d)]) NULL.
Proof.
  intros Hs Hnd Hp Hpn Ha Hd Hnx. apply lseg_app in Hs as (r & Hy & Hr).
  rewrite fmap_app in Hnd, Hp. apply NoDup_app in Hnd as (_ & Hdis & _).
  simpl in Hr. destruct Hr as (-> & Han & n & Hn & Hdn & _).
  assert (a ∉ ys.*1) by (intros ?; apply (Hdis a); set_solver).
  rewrite <- app_assoc. apply lseg_app. exists a. split.
  - apply lseg_insert; [done|]. apply lseg_insert; [set_solver|done].
  - assert (p ≠ a) by (intros ->; apply Hp; set_solver).
    simpl. split; [done|]. split; [done|]. eexists. rewrite lookup_insert_eq.
    split; [done|]. split; [simpl; congruence|]. split; [done|]. split; [done|].
    exists np. by rewrite lookup_insert_ne, lookup_insert_eq.
Qed.

(** Inserting at the tail of a list that is not empty. *)
Lemma insert_tail_ok s fs l xs d :
  inv s fs -> owned s fs l xs -> xs ≠ [] -> can_alloc s fs ->
  Z.of_nat (length xs) + 1 < 2 ^ 64 ->
  exists p l' s' fs', singly_linked_list_insert_tail l d s = Ok (l', s') /\
    inv s' fs' /\ owned s' fs' l' (xs ++ [(p, d)]) /\ framed s fs xs.*1 s' fs' (p :: xs.*1).
Proof.
  intros Hi [[Hch Htl] Ho] Hne Hc Hb.
  destruct (node_alloc_spec s fs Hi Hc) as (p & s1 & fs' & n & Ha & Hn & Hns & Hp & Hpf & Hfs & Hi1 & Hlen).
  assert (Hpx : p ∉ xs.*1).
  { intros Hx. destruct Hp as [Hp|Hp]; [by apply (Ho p)|].
    destruct (lseg_elem _ _ _ _ _ (chain_seg _ _ _ Hch) Hx) as (_ & n0 & ?). congruence. }
  unfold singly_linked_list_insert_tail. rewrite (chain_kind _ _ _ Hch), Ha. cbn [obind].
  rewrite (proj2 (Z.eqb_neq p NULL)) by done.
  erewrite set_data_ok; [|rewrite Hns; apply lookup_insert_eq|done]. msimp.
  erewrite set_next_ok; [|apply lookup_insert_eq|done]. msimp. rewrite Hns, insert_insert_eq.
  destruct (exists_last Hne) as (ys & [a da] & ->).
  pose proof (chain_seg _ _ _ Hch) as Hs.
  assert (Hin : a ∈ (ys ++ [(a, da)]).*1) by (rewrite fmap_app; set_solver).
  destruct (lseg_elem _ _ _ _ a Hs Hin) as (Han & na & Hna).
  assert (Hpa : p ≠ a) by (intros ->; done).
  assert (Htgt : (if (tail l =? NULL) && (node_count l =? 1) then head l else tail l) = a).
  { rewrite (chain_count _ _ _ Hch). destruct ys as [|[b db] ys].
    - simpl in Hs, Htl. destruct Hs as (-> & _). cbn. by destruct Htl as [-> | ->]; cbn; [|case_match].
    - rewrite (proj2 (Z.eqb_neq _ 1)), andb_false_r by (simpl; rewrite length_app; simpl; lia).
      apply tail_ok_last in Htl; [|simpl; rewrite length_app; simpl; lia].
      rewrite last_fst_snoc in Htl. congruence. }
  assert (Hset : forall q, q = a -> set_next (with_nodes s1 (<[p:=mk_node d NULL (nflags n)]> (nodes s))) q p
     = Ok (with_nodes s1 (<[a := mk_node (data na) p (nflags na)]> (<[p:=mk_node d NULL (nflags n)]> (nodes s))))).
  { intros q ->. erewrite set_next_ok; [|cbn; by rewrite lookup_insert_ne|done]. done. }
  exists p, (mk_list (head l) p (node_count l + 1) (flags l)),
    (with_nodes s1 (<[a := mk_node (data na) p (nflags na)]> (<[p:=mk_node d NULL (nflags n)]> (nodes s)))), fs'.
  split_and!.
  - rewrite w64_small by (rewrite (chain_count _ _ _ Hch); lia).
    destruct ((tail l =? NULL) && (node_count l =? 1)); rewrite Hset by done; done.
  - assert (Hi2 : inv (with_nodes s1 (<[p:=mk_node d NULL (nflags n)]> (nodes s))) fs').
    { pose proof (inv_update s1 fs' p n (mk_node d NULL (nflags n)) Hi1) as Hu.
      rewrite Hns, lookup_insert_eq, insert_insert_eq in Hu. by apply Hu. }
    eapply (inv_update _ fs' a na) in Hi2; [exact Hi2|cbn; by rewrite lookup_insert_ne| |done].
    intros ?. apply (Ho a Hin). auto.
  - pose proof (chain_nodup _ _ _ Hch) as Hnd. split; [split|].
    + constructor; cbn [head node_count flags nodes with_nodes].
      * by apply lseg_link.
      * rewrite fmap_app. apply NoDup_app. split_and!; [done| |apply NoDup_singleton].
        intros x Hx. simpl. set_solver.
      * rewrite length_app, (chain_count _ _ _ Hch). simpl. lia.
      * rewrite length_app. simpl. lia.
      * apply (chain_kind _ _ _ Hch).
    + by apply tail_ok_snoc.
    + rewrite fmap_app. intros x Hx. apply elem_of_app in Hx as [Hx|Hx].
      * intros ?. apply (Ho x Hx). auto.
      * simpl in Hx. apply list_elem_of_singleton in Hx as ->. done.
  - split; [done|]. intros x nx Hx Hf Hxx. cbn [nodes with_nodes].
    assert (x ≠ p) by (intros ->; destruct Hp; congruence).
    rewrite !lookup_insert_ne by set_solver. split_and!; [done|auto|set_solver].
Qed.

(** C39: [insert_tail] on an empty list dereferences its NULL tail. *)
Theorem insert_tail_empty_faults s fs l d :
  inv s fs -> owned s fs l [] -> tail l = NULL -> can_alloc s fs ->
  singly_linked_list_insert_tail l d s = Fault.
Proof.
  intros Hi [[Hch _] _] Ht Hc.
  destruct (node_alloc_spec s fs Hi Hc) as (p & s1 & fs' & n & Ha & Hn & Hns & _).
  unfold singly_linked_list_insert_tail. rewrite (chain_kind _ _ _ Hch), Ha. cbn [obind].
  rewrite (proj2 (Z.eqb_neq p NULL)) by done.
  erewrite set_data_ok; [|rewrite Hns; apply lookup_insert_eq|done]. msimp.
  erewrite set_next_ok; [|apply lookup_insert_eq|done]. msimp.
  by rewrite (chain_count _ _ _ Hch), Ht.
Qed.

(** Freeing a node whose link fields were just rewritten. *)
Lemma node_free_updated s fs a n n2 :
  inv s fs -> nodes s !! a = Some n -> a ∉ fs -> nflags n2 = nflags n ->
  exists s' fs',
    singly_linked_list_node_free a (with_nodes s (<[a := n2]> (nodes s))) = Ok s' /\
    inv s' fs' /\ (forall x, x ≠ a -> nodes s' !! x = nodes s !! x) /\
    grown a fs fs'.
Proof.
  intros Hi Ha Hf Hfl.
  assert (Hi2 : inv (with_nodes s (<[a := n2]> (nodes s))) fs)
    by (eapply inv_update; [done|exact Ha|done|by rewrite Hfl]).
  destruct (node_free_spec _ _ a n2 Hi2) as (s' & fs' & E & Hi' & Hfr & Hfs & _);
    [apply lookup_insert_eq|done|].
  exists s', fs'. split_and!; try done. intros x Hx. rewrite Hfr by done.
  cbn. by rewrite lookup_insert_ne.
Qed.

Lemma node_free_same s fs a n :
  inv s fs -> nodes s !! a = Some n -> a ∉ fs ->
  exists s' fs', singly_linked_list_node_free a s = Ok s' /\
    inv s' fs' /\ (forall x, x ≠ a -> nodes s' !! x = nodes s !! x) /\
    grown a fs fs'.
Proof.
  intros Hi Ha Hf. destruct (node_free_spec _ _ _ _ Hi Ha Hf) as (s' & fs' & ? & ? & ? & ? & _).
  by exists s', fs'.
Qed.

(** Taking one node away from a list frames every other list. *)
Lemma framed_drop s fs xs a s' fs' xs' :
  (forall x, x ≠ a -> x ∉ xs -> nodes s' !! x = nodes s !! x) ->
  grown a fs fs' -> (forall x, x ∈ xs' -> x ∈ xs) -> a ∈ xs ->
  framed s fs xs s' fs' xs'.
Proof.
  intros Hn Hf Hx Ha. split; [pose proof (grown_length _ _ _ Hf); lia|].
  intros y ny Hy Hyf Hyx. assert (y ≠ a) by (intros ->; done).
  rewrite Hn by done. split_and!; [done| |auto]. intros Hyf'. by destruct (grown_elem _ _ _ _ Hf Hyf').
Qed.

(** Removing the head. *)
Lemma remove_head_ok s fs l a d xs :
  inv s fs -> owned s fs l ((a, d) :: xs) ->
  exists l' s' fs', singly_linked_list_remove_head l s = Ok (d, l', s') /\
    inv s' fs' /\ owned s' fs' l' xs /\ framed s fs (a :: xs.*1) s' fs' xs.*1.
Proof.
  intros Hi [[Hch Htl] Ho].
  destruct Hch as [Hs Hnd Hcn Hb Hk]. simpl in Hs. destruct Hs as (Hh & Han & na & Hna & Hd & Hs).
  cbn [fmap list_fmap] in Hnd. apply NoDup_cons in Hnd as [Hax Hnd].
  assert (Haf : a ∉ fs) by (apply Ho; simpl; set_solver).
  unfold singly_linked_list_remove_head, remove_head_body.
  rewrite Hcn, (proj2 (Z.eqb_neq _ 0)) by (simpl; lia).
  rewrite Hh, (proj2 (Z.eqb_neq a NULL)) by done. cbn [orb].
  rewrite (load_ok s a na) by done. cbn [obind]. rewrite Hk, Hd.
  rewrite w64_small by (simpl in *; lia).
  (* every branch frees [a] and moves the head to [next na] *)
  assert (Hgoal : forall s' fs' tl,
    inv s' fs' -> (forall x, x ≠ a -> nodes s' !! x = nodes s !! x) ->
    grown a fs fs' ->
    tail_ok (mk_list (next na) tl (Z.of_nat (length ((a, d) :: xs)) - 1) (flags l)) xs ->
    inv s' fs' /\ owned s' fs' (mk_list (next na) tl (Z.of_nat (length ((a, d) :: xs)) - 1) (flags l)) xs
      /\ framed s fs (a :: xs.*1) s' fs' xs.*1).
  { intros s' fs' tl Hi' Hfr Hfs Ht. split_and!; [done| |].
    - split; [split; [|done]|].
      + constructor; cbn [head node_count flags]; try done; [|simpl length in *; lia|simpl length in *; lia].
        eapply lseg_frame; [|exact Hs]. intros x Hx. apply Hfr. by intros ->.
      + intros x Hx Hxf. destruct (grown_elem _ _ _ _ Hfs Hxf) as [->|?]; [done|]. apply (Ho x); [simpl; set_solver|done].
    - eapply framed_drop with (a := a); auto; set_solver. }
  destruct xs as [|[b db] xs].
  - simpl in Hs. cbn.
    destruct (node_free_same s fs a na Hi Hna Haf) as (s' & fs' & -> & Hi' & Hfr & Hfs). cbn.
    rewrite <- Hs. eexists _, s', fs'. split; [done|]. by apply Hgoal.
  - rewrite (proj2 (Z.eqb_neq _ 1)) by (simpl; lia). simpl in Hs. destruct Hs as (Hb1 & Hbn & nb & Hnb & Hdb & Hs).
    destruct xs as [|[c dc] xs].
    + cbn. simpl in Htl, Hs. injection Htl as Htl. rewrite <- Htl.
      assert (Hab : a ≠ b) by (intros ->; apply Hax; simpl; set_solver).
      erewrite set_next_ok by done. msimp. rewrite (insert_id (nodes s) b) by
        (rewrite Hnb; destruct nb; simpl in *; congruence).
      erewrite set_next_ok by done. msimp.
      destruct (node_free_updated s fs a na (mk_node (data na) NULL (nflags na)) Hi Hna Haf eq_refl)
        as (s' & fs' & E & Hi' & Hfr & Hfs). rewrite E. cbn.
      pose proof (Hgoal s' fs' NULL Hi' Hfr Hfs (or_introl eq_refl)) as Hg.
      rewrite Hb1 in Hg. eexists _, s', fs'. split; [done|exact Hg].
    + rewrite (proj2 (Z.eqb_neq _ 2)) by (simpl; lia).
      destruct (node_free_same s fs a na Hi Hna Haf) as (s' & fs' & -> & Hi' & Hfr & Hfs). cbn [obind].
      eexists _, s', fs'. split; [done|]. by apply Hgoal.
Qed.

Lemma chain_size ns l xs : chain ns l xs -> (length xs <= size ns)%nat.
Proof.
  intros [Hs Hnd _ _ _]. rewrite <- (length_fmap fst), <- size_dom.
  rewrite <- (size_list_to_set (C := gset Z)) by done. apply subseteq_size.
  intros a Ha. apply elem_of_list_to_set in Ha.
  destruct (lseg_elem _ _ _ _ _ Hs Ha) as (_ & n & ?). apply elem_of_dom. eauto.
Qed.

Lemma remove_tail_loop_spec fuel ys b db a q s nb :
  lseg (nodes s) q (ys ++ [(b, db)]) a -> a ∉ (ys ++ [(b, db)]).*1 -> a ≠ NULL ->
  NoDup (ys ++ [(b, db)]).*1 -> nodes s !! b = Some nb -> (length ys + 2 <= fuel)%nat ->
  remove_tail_loop fuel q a s
  = Ok (b, with_nodes s (<[b := mk_node (data nb) NULL (nflags nb)]> (nodes s))).
Proof.
  intros Hs Ha Han Hnd Hb. revert q fuel Hs Ha Hnd.
  induction ys as [|[c dc] ys IH]; intros q fuel Hs Ha Hnd Hf.
  - destruct fuel as [|[|fuel]]; simpl in Hf; [lia|lia|].
    simpl in Hs. destruct Hs as (-> & Hbn & n & Hn & Hdn & Hs).
    rewrite Hb in Hn. injection Hn as ->.
    cbn [remove_tail_loop]. rewrite (proj2 (Z.eqb_neq b NULL)) by done.
    rewrite (load_ok s b n) by done. cbn [obind]. rewrite Hs, Z.eqb_refl.
    erewrite set_next_ok by done. cbn [obind].
    erewrite load_ok; [|apply lookup_insert_eq|done]. done.
  - destruct fuel as [|fuel]; simpl in Hf; [lia|].
    simpl in Hs. destruct Hs as (-> & Hcn & n & Hn & Hdn & Hs).
    cbn [remove_tail_loop]. rewrite (proj2 (Z.eqb_neq c NULL)) by done.
    rewrite (load_ok s c n) by done. cbn [obind].
    assert (Hna : next n ≠ a).
    { intros Heq. apply Ha. simpl. destruct ys as [|[e de] ys]; simpl in Hs |- *;
        destruct Hs as (<- & _); rewrite Heq; set_solver. }
    rewrite (proj2 (Z.eqb_neq _ _) Hna). cbn [obind]. rewrite (load_ok s c n) by done. cbn [obind].
    apply NoDup_cons in Hnd as [? ?]. apply IH; [done| |done|lia].
    intros ?. apply Ha. simpl. set_solver.
Qed.

(** Removing the tail. *)
Lemma remove_tail_ok s fs l xs a d :
  inv s fs -> owned s fs l (xs ++ [(a, d)]) ->
  exists l' s' fs', singly_linked_list_remove_tail l s = Ok (Some d, l', s') /\
    inv s' fs' /\ owned s' fs' l' xs /\ framed s fs (xs ++ [(a, d)]).*1 s' fs' xs.*1.
Proof.
  intros Hi [[Hch Htl] Ho]. pose proof (chain_size _ _ _ Hch) as Hsz.
  destruct Hch as [Hs Hnd Hcn Hb Hk]. rewrite length_app in Hcn, Hb, Hsz. simpl in Hcn, Hb, Hsz.
  assert (Hin : a ∈ (xs ++ [(a, d)]).*1) by (rewrite fmap_app; set_solver).
  pose proof (Ho _ Hin) as Haf.
  pose proof (proj1 (lseg_app _ _ _ _ _) Hs) as (r & Hx & Hr). simpl in Hr.
  destruct Hr as (-> & Han & na & Hna & Hd & Hnx).
  rewrite fmap_app in Hnd. apply NoDup_app in Hnd as (Hndx & Hdis & _).
  assert (Hax : a ∉ xs.*1) by (intros ?; apply (Hdis a); simpl; set_solver).
  unfold singly_linked_list_remove_tail.
  rewrite Hcn, (proj2 (Z.eqb_neq _ 0)) by lia. rewrite w64_small by lia.
  destruct xs as [|[b db] xs].
  - simpl in Hx, Htl. rewrite Hx. cbn.
    assert (Hrv : exists o, (if tail l =? NULL then Ok None
        else let! tn := load s (tail l) in Ok (Some (data tn))) = Ok o).
    { destruct Htl as [-> | ->]; [by eexists|]. rewrite (proj2 (Z.eqb_neq a NULL)) by done.
      rewrite (load_ok s a na) by done. by eexists. }
    destruct Hrv as (o & ->). cbn [obind]. rewrite (load_ok s a na) by done. cbn [obind].
    erewrite set_next_ok by done. cbn [obind].
    destruct (node_free_updated s fs a na (mk_node (data na) NULL (nflags na)) Hi Hna Haf eq_refl)
      as (s' & fs' & E & Hi' & Hfr & Hfs). rewrite E. cbn. rewrite Hd.
    eexists _, s', fs'. split_and!; [done|done| |].
    + split; [split; [|done]|set_solver]. by constructor; simpl.
    + eapply framed_drop with (a := a); auto; set_solver.
  - rewrite (proj2 (Z.eqb_neq _ 1)) by (simpl; lia).
    apply tail_ok_last in Htl; [|rewrite length_app; simpl; lia].
    rewrite last_fst_snoc in Htl. injection Htl as Htl. rewrite <- Htl.
    rewrite (proj2 (Z.eqb_neq a NULL)) by done. rewrite (load_ok s a na) by done. cbn [obind].
    destruct (exists_last (l := (b, db) :: xs)) as (ys & [e de] & Hys); [done|]. rewrite Hys in *.
    assert (Hein : e ∈ (ys ++ [(e, de)]).*1) by (rewrite fmap_app; set_solver).
    destruct (lseg_elem _ _ _ _ e Hx Hein) as (Hen & ne & Hne).
    assert (Hea : e ≠ a) by (intros ->; done).
    assert (Hefs : e ∉ fs) by (apply Ho; rewrite (fmap_app _ (ys ++ _)); set_solver).
    erewrite remove_tail_loop_spec with (ys := ys) (b := e) (db := de); try done.
    2: { unfold walk_fuel. rewrite length_app in Hsz. simpl in Hsz. lia. }
    cbn [obind]. set (s2 := with_nodes s _).
    assert (Hi2 : inv s2 fs) by (by eapply inv_update).
    assert (Hna2 : nodes s2 !! a = Some na) by (cbn; by rewrite lookup_insert_ne).
    erewrite set_next_ok by done. cbn [obind].
    destruct (node_free_updated s2 fs a na (mk_node (data na) NULL (nflags na)) Hi2 Hna2 Haf eq_refl)
      as (s' & fs' & E & Hi' & Hfr & Hfs). rewrite E. cbn [obind]. rewrite Hd.
    eexists _, s', fs'. split_and!; [done|done| |].
    + split; [split; [|by apply tail_ok_snoc]|].
      * constructor; cbn [head node_count flags]; [|done|lia|lia|done].
        apply lseg_app in Hx as (r & Hy & Hr). simpl in Hr. destruct Hr as (-> & _ & ne' & Hne' & Hde & _).
        rewrite Hne in Hne'. injection Hne' as ->.
        rewrite fmap_app in Hndx. apply NoDup_app in Hndx as (_ & Hdy & _).
        assert (e ∉ ys.*1) by (intros ?; apply (Hdy e); simpl; set_solver).
        apply lseg_app. exists e. split.
        -- eapply lseg_frame; [|exact Hy]. intros x Hxx. rewrite Hfr; [cbn; rewrite lookup_insert_ne; [done|congruence]|].
           intros ->. apply Hax. rewrite fmap_app. set_solver.
        -- simpl. split; [done|]. split; [done|]. eexists. rewrite Hfr by done. cbn. by rewrite lookup_insert_eq.
      * intros x Hxx Hxf. destruct (grown_elem _ _ _ _ Hfs Hxf) as [->|?]; [done|].
        apply (Ho x); [rewrite (fmap_app _ (ys ++ _)); set_solver|done].
    + eapply framed_drop with (a := a); auto.
      * intros x Hxa Hxx. rewrite Hfr by done. cbn. rewrite lookup_insert_ne; [done|].
        intros ->. apply Hxx. rewrite (fmap_app _ (ys ++ _)). set_solver.
      * intros x ?. rewrite (fmap_app _ (ys ++ _)). set_solver.
Qed.

(** Unlinking the node after [prev]. *)
Lemma unlink_next s fs prev pn a na zs :
  inv s fs -> nodes s !! prev = Some pn -> nodes s !! a = Some na -> prev ≠ a ->
  prev ∉ fs -> a ∉ fs -> lseg (nodes s) (next na) zs NULL -> prev ∉ zs.*1 -> a ∉ zs.*1 ->
  exists s' fs',
    (let! s := set_next s prev (next na) in singly_linked_list_node_free a s) = Ok s' /\
    inv s' fs' /\ lseg (nodes s') prev ((prev, data pn) :: zs) NULL /\
    (forall x, x ≠ a -> x ≠ prev -> nodes s' !! x = nodes s !! x) /\
    grown a fs fs'.
Proof.
  intros Hi Hp Ha Hpa Hpf Haf Hz Hpz Haz.
  pose proof (inv_not_null _ _ _ _ Hi Hp) as Hpn.
  erewrite set_next_ok by done. cbn [obind]. set (s2 := with_nodes s _).
  assert (Hi2 : inv s2 fs) by (by eapply inv_update).
  assert (Ha2 : nodes s2 !! a = Some na) by (cbn; by rewrite lookup_insert_ne).
  destruct (node_free_same s2 fs a na Hi2 Ha2 Haf) as (s' & fs' & E & Hi' & Hfr & Hfs).
  exists s', fs'. split_and!; try done.
  - simpl. split; [done|]. split; [done|]. eexists. rewrite Hfr by done. cbn.
    rewrite lookup_insert_eq. split; [done|]. split; [done|]. simpl.
    eapply lseg_frame; [|exact Hz]. intros x Hx.
    rewrite Hfr; [cbn; rewrite lookup_insert_ne; [done|congruence]|congruence].
  - intros x Hxa Hxp. rewrite Hfr by done. cbn. by rewrite lookup_insert_ne.
Qed.

Lemma remove_by_address_loop_spec ys : forall fuel s fs prev pn a d zs l,
  inv s fs -> nodes s !! prev = Some pn -> prev ≠ NULL ->
  lseg (nodes s) (next pn) (ys ++ (a, d) :: zs) NULL ->
  NoDup (prev :: (ys ++ (a, d) :: zs).*1) -> d ∉ ys.*2 ->
  (forall x, x ∈ prev :: (ys ++ (a, d) :: zs).*1 -> x ∉ fs) -> (length ys < fuel)%nat ->
  exists s' fs',
    remove_by_address_loop fuel prev (next pn) d l s
    = Ok (KERN_SUCCESS, mk_list (head l) (tail l) (w64 (node_count l - 1)) (flags l), s') /\
    inv s' fs' /\ lseg (nodes s') prev ((prev, data pn) :: ys ++ zs) NULL /\
    (forall x, x ≠ a -> x ≠ prev -> x ∉ ys.*1 -> nodes s' !! x = nodes s !! x) /\
    grown a fs fs'.
Proof.
  induction ys as [|[c dc] ys IH];
    intros fuel s fs prev pn a d zs l Hi Hp Hpn Hs Hnd Hd Ho Hf;
    (destruct fuel as [|fuel]; [simpl in Hf; lia|]); cbn [remove_by_address_loop].
  - simpl in Hs. destruct Hs as (Hq & Han & na & Hna & Hda & Hz).
    rewrite Hq, (proj2 (Z.eqb_neq a NULL)) by done. rewrite (load_ok s a na) by done. cbn [obind].
    rewrite Hda, Z.eqb_refl. cbn [app fmap list_fmap fst] in Hnd. apply NoDup_cons in Hnd as [Hpx Hnd].
    apply NoDup_cons in Hnd as [Haz _].
    destruct (unlink_next s fs prev pn a na zs) as (s' & fs' & E & Hi' & Hs' & Hfr & Hfs);
      try done; [clear -Hpx; set_solver|apply Ho, elem_of_cons; by left
      |apply Ho; clear; simpl; set_solver|clear -Hpx; set_solver|].
    apply obind_inv in E as (s1 & E1 & E2). rewrite E1. cbn [obind]. rewrite E2.
    exists s', fs'. split_and!; auto.
  - simpl in Hs. destruct Hs as (Hq & Hcn & nc & Hnc & Hdc & Hs).
    rewrite Hq, (proj2 (Z.eqb_neq c NULL)) by done. rewrite (load_ok s c nc) by done. cbn [obind].
    rewrite Hdc. cbn [fmap list_fmap snd] in Hd. apply not_elem_of_cons in Hd as [Hdd Hd].
    rewrite (proj2 (Z.eqb_neq dc d)) by done. rewrite (load_ok s prev pn) by done. cbn [obind].
    rewrite Hq. cbn [app fmap list_fmap fst] in Hnd. apply NoDup_cons in Hnd as [Hpx Hnd].
    destruct (IH fuel s fs c nc a d zs l) as (s' & fs' & E & Hi' & Hs' & Hfr & Hfs); try done.
    { intros x Hx. apply Ho, elem_of_cons. by right. }
    { simpl in Hf. lia. }
    exists s', fs'. split_and!; try done.
    + cbn [app lseg]. split; [done|]. split; [done|]. exists pn. split; [|split; [done|]].
      * rewrite fmap_app in Hpx. simpl in Hpx.
        rewrite Hfr; [done| | |]; clear -Hpx; set_solver.
      * rewrite Hq, <- Hdc. done.
    + intros x Hxa Hxp Hxx. simpl in Hxx. apply Hfr; clear -Hxa Hxx; set_solver.
Qed.

(** Removing a node by its data.  The chain is always right; the tail
    pointer is only right when the removed node was not the last of several. *)
Lemma remove_node_by_address_ok s fs l ys a d zs :
  inv s fs -> owned s fs l (ys ++ (a, d) :: zs) -> d ∉ ys.*2 ->
  exists l' s' fs', singly_linked_list_remove_node_by_address l d s = Ok (KERN_SUCCESS, l', s') /\
    inv s' fs' /\ chain (nodes s') l' (ys ++ zs) /\
    (forall x, x ∈ (ys ++ zs).*1 -> x ∉ fs') /\
    framed s fs (ys ++ (a, d) :: zs).*1 s' fs' (ys ++ zs).*1 /\
    (ys = [] \/ zs ≠ [] -> tail_ok l' (ys ++ zs)) /\
    (ys ≠ [] -> zs = [] -> tail l' = a).
Proof.
  intros Hi Hown Hd. unfold singly_linked_list_remove_node_by_address.
  destruct ys as [|[b db] ys].
  - pose proof Hown as [[Hch _] _]. pose proof (chain_seg _ _ _ Hch) as Hs. simpl in Hs.
    destruct Hs as (Hh & Han & na & Hna & Hda & _).
    rewrite Hh, (load_ok s a na) by done. cbn [obind]. rewrite Hda, Z.eqb_refl.
    destruct (remove_head_ok s fs l a d zs Hi Hown) as (l' & s' & fs' & E & Hi' & [[Hc' Ht'] Ho'] & Hfr).
    rewrite E. cbn [obind]. exists l', s', fs'. split_and!; done.
  - pose proof Hown as [[Hch Htl] Ho]. pose proof (chain_size _ _ _ Hch) as Hsz.
    destruct Hch as [Hs Hnd Hcn Hb Hk]. simpl in Hs.
    destruct Hs as (Hh & Hbn & nb & Hnb & Hdb & Hs).
    rewrite Hh, (load_ok s b nb) by done. cbn [obind]. rewrite Hdb.
    cbn [fmap list_fmap snd] in Hd. apply not_elem_of_cons in Hd as [Hdd Hd].
    rewrite (proj2 (Z.eqb_neq db d)) by done.
    destruct (remove_by_address_loop_spec ys (walk_fuel s) s fs b nb a d zs l)
      as (s' & fs' & E & Hi' & Hs' & Hfr & Hfs); try done.
    { unfold walk_fuel. simpl in Hsz. rewrite length_app in Hsz. lia. }
    rewrite E. eexists _, s', fs'.
    assert (Hcnt : node_count l - 1 = Z.of_nat (length (((b, db) :: ys) ++ zs))).
    { rewrite Hcn. cbn [app length]. rewrite !length_app. cbn [length]. lia. }
    assert (Hsub : forall x, x ∈ (((b, db) :: ys) ++ zs).*1 -> x ∈ (((b, db) :: ys) ++ (a, d) :: zs).*1).
    { intros x. rewrite !fmap_app. clear. simpl. set_solver. }
    assert (Haz : a ∉ (((b, db) :: ys) ++ zs).*1).
    { pose proof Hnd as Hnd'. rewrite fmap_app in Hnd'. apply NoDup_app in Hnd' as (_ & Hdis & Hnd').
      cbn [fmap list_fmap fst] in Hnd'. apply NoDup_cons in Hnd' as [? _]. rewrite fmap_app.
      intros Hx. apply elem_of_app in Hx as [Hx|Hx]; [|done]. apply (Hdis a Hx).
      apply elem_of_cons. by left. }
    split_and!; [done|done| | | | |].
    + constructor; cbn [head node_count flags]; [by rewrite Hh, <- Hdb| | | |done].
      * rewrite fmap_app in *. apply NoDup_app in Hnd as (? & Hdis & Hnd).
        cbn [fmap list_fmap fst] in Hnd. apply NoDup_cons in Hnd as [_ ?]. apply NoDup_app.
        split_and!; [done| |done]. intros x Hx Hxz. apply (Hdis x Hx), elem_of_cons. by right.
      * rewrite w64_small; [done|]. rewrite Hcnt. rewrite Hcn in Hcnt. lia.
      * rewrite Hcn in Hcnt. lia.
    + intros x Hx Hxf. destruct (grown_elem _ _ _ _ Hfs Hxf) as [->|?]; [done|]. by apply (Ho x); [apply Hsub|].
    + eapply framed_drop with (a := a); auto.
      * intros x Hxa Hxx. rewrite fmap_app in Hxx. simpl in Hxx.
        apply Hfr; clear -Hxa Hxx; set_solver.
      * rewrite fmap_app. apply elem_of_app. right. apply elem_of_cons. by left.
    + intros [?|Hz]; [done|]. destruct (exists_last Hz) as (zs' & [e de] & ->).
      rewrite app_assoc. apply tail_ok_snoc. cbn [tail].
      apply tail_ok_last in Htl; [|simpl; rewrite length_app; simpl; lia].
      rewrite app_comm_cons, app_assoc, last_fst_snoc in Htl. congruence.
    + intros _ ->. cbn [tail]. apply tail_ok_last in Htl; [|simpl; rewrite length_app; simpl; lia].
      rewrite last_fst_snoc in Htl. congruence.
Qed.

(** A search that finds nothing walks the whole list and changes nothing. *)
Lemma remove_by_address_loop_miss xs : forall fuel s prev pn d l,
  nodes s !! prev = Some pn -> prev ≠ NULL -> lseg (nodes s) (next pn) xs NULL ->
  d ∉ xs.*2 -> (length xs < fuel)%nat ->
  remove_by_address_loop fuel prev (next pn) d l s = Ok (NODE_NOT_FOUND, l, s).
Proof.
  induction xs as [|[a da] xs IH]; intros fuel s prev pn d l Hp Hpn Hs Hd Hf;
    (destruct fuel as [|fuel]; [simpl in Hf; lia|]); cbn [remove_by_address_loop].
  - simpl in Hs. by rewrite Hs, Z.eqb_refl.
  - simpl in Hs. destruct Hs as (Hq & Han & na & Hna & Hda & Hs).
    cbn [fmap list_fmap snd] in Hd. apply not_elem_of_cons in Hd as [Hdd Hd].
    rewrite Hq, (proj2 (Z.eqb_neq a NULL)) by done. rewrite (load_ok s a na) by done. cbn [obind].
    rewrite Hda, (proj2 (Z.eqb_neq da d)) by done.
    rewrite (load_ok s prev pn) by done. cbn [obind]. rewrite Hq.
    apply IH; try done. simpl in Hf. lia.
Qed.

Lemma remove_node_by_address_miss s fs l xs d :
  owned s fs l xs -> xs ≠ [] -> d ∉ xs.*2 ->
  singly_linked_list_remove_node_by_address l d s = Ok (NODE_NOT_FOUND, l, s).
Proof.
  intros [[Hch _] _] Hne Hd. pose proof (chain_size _ _ _ Hch) as Hsz.
  destruct xs as [|[a da] xs]; [done|]. pose proof (chain_seg _ _ _ Hch) as Hs.
  simpl in Hs. destruct Hs as (Hh & Han & na & Hna & Hda & Hs).
  cbn [fmap list_fmap snd] in Hd. apply not_elem_of_cons in Hd as [Hdd Hd].
  unfold singly_linked_list_remove_node_by_address.
  rewrite Hh, (load_ok s a na) by done. cbn [obind].
  rewrite Hda, (proj2 (Z.eqb_neq da d)) by done.
  eapply remove_by_address_loop_miss; try done. unfold walk_fuel. simpl in Hsz. lia.
Qed.

Lemma exec_remove_ok d s fs l xs v ys :
  inv s fs -> owned s fs l xs -> spec_step (RemoveByAddress d) xs.*2 = Some (v, ys) ->
  exists l' s' fs' xs', singly_linked_list_remove_node_by_address l d s = Ok (v, l', s') /\
    inv s' fs' /\ owned s' fs' l' xs' /\ xs'.*2 = ys /\ framed s fs xs.*1 s' fs' xs'.*1.
Proof.
  intros Hi Ho Hsp. cbn [spec_step] in Hsp. destruct (decide (xs = [])) as [->|Hne]; [done|].
  assert (Hsp' : match list_find (eq d) xs.*2 with
     | None => Some (NODE_NOT_FOUND, xs.*2)
     | Some (i, _) => if decide (i = 0 \/ S i < length xs.*2)%nat
                      then Some (KERN_SUCCESS, delete i xs.*2) else None end = Some (v, ys))
    by (by destruct xs). clear Hsp.
  destruct (list_find (eq d) xs.*2) as [[i d']|] eqn:Hf.
  - apply list_find_Some in Hf as (Hl & <- & Hbefore). case_decide as Hcase; [|done].
    injection Hsp' as <- <-. apply list_lookup_fmap_Some in Hl as ([a d2] & -> & Hl).
    apply list_elem_of_split_length in Hl as (ys & zs & -> & Hi2). subst i.
    destruct (remove_node_by_address_ok s fs l ys a d2 zs Hi Ho)
      as (l' & s' & fs' & E & Hi' & Hch & Hox & Hfr & Htl & _).
    { intros Hin. apply list_elem_of_lookup in Hin as (j & Hj). pose proof (lookup_lt_Some _ _ _ Hj) as Hlt.
      rewrite length_fmap in Hlt. apply (Hbefore j d2); [|done|done].
      rewrite fmap_app. by rewrite lookup_app_l by (by rewrite length_fmap). }
    exists l', s', fs', (ys ++ zs). split_and!; try done.
    + split; [split; [done|]|done]. apply Htl. rewrite length_fmap, length_app in Hcase. simpl in Hcase.
      destruct Hcase as [?|?]; [left; by destruct ys|right; intros ->; simpl in *; lia].
    + rewrite !fmap_app. cbn. replace (length ys) with (length ys.*2) by apply length_fmap.
      by rewrite delete_middle.
  - injection Hsp' as <- <-. exists l, s, fs, xs. split_and!; try done.
    + apply (remove_node_by_address_miss s fs l xs); [done|done|].
      apply list_find_None in Hf. intros Hin. by apply (proj1 (Forall_forall _ _) Hf d Hin).
    + split; [lia|by intros a n].
Qed.

(** Destroying a list frees every one of its nodes. *)
Lemma destroy_loop_ok xs : forall s fs q,
  inv s fs -> lseg (nodes s) q xs NULL -> NoDup xs.*1 -> (forall a, a ∈ xs.*1 -> a ∉ fs) ->
  exists s' fs', destroy_loop (length xs) q s = Ok s' /\ inv s' fs' /\
    fs ⊆+ fs' /\
    (forall a, a ∉ xs.*1 -> nodes s' !! a = nodes s !! a) /\
    (forall a, a ∈ fs' -> a ∈ fs \/ a ∈ xs.*1) /\
    (forall a, a ∈ xs.*1 -> a ∈ fs' \/ nodes s' !! a = None).
Proof.
  induction xs as [|[a d] xs IH]; intros s fs q Hi Hs Hnd Ho.
  { exists s, fs. cbn. split_and!; auto; set_solver. }
  simpl in Hs. destruct Hs as (-> & Han & na & Hna & Hda & Hs).
  cbn [fmap list_fmap fst] in *. apply NoDup_cons in Hnd as [Hax Hnd].
  cbn [length destroy_loop]. rewrite (proj2 (Z.eqb_neq a NULL)) by done.
  rewrite (load_ok s a na) by done. cbn [obind].
  destruct (node_free_spec s fs a na Hi Hna) as (s1 & fs1 & -> & Hi1 & Hfr & Hg & Hgone).
  { apply Ho, elem_of_cons. by left. }
  destruct (IH s1 fs1 (next na) Hi1) as (s' & fs' & E & Hi' & Hlen & Hfr' & Hfs' & Hgone'); [|done| |].
  { eapply lseg_frame; [|exact Hs]. intros x Hx. apply Hfr. by intros ->. }
  { intros x Hx Hxf. destruct (grown_elem _ _ _ _ Hg Hxf) as [->|?]; [done|].
    apply (Ho x); [apply elem_of_cons; by right|done]. }
  exists s', fs'. cbn [obind]. split_and!; try done.
  - etrans; [|exact Hlen]. destruct Hg as [-> | ->]; [done|]. by apply submseteq_cons.
  - intros x Hx. apply not_elem_of_cons in Hx as [? ?]. by rewrite Hfr', Hfr.
  - intros x Hx. destruct (Hfs' x Hx) as [Hx'|?]; [|right; by apply elem_of_cons; right].
    destruct (grown_elem _ _ _ _ Hg Hx') as [->|?]; [right; apply elem_of_cons; by left|by left].
  - intros x Hx. apply elem_of_cons in Hx as [->|Hx]; [|by apply Hgone'].
    destruct Hgone as [Hg1|Hg1].
    + left. by eapply elem_of_submseteq.
    + right. by rewrite Hfr'.
Qed.

(** *** Sequences of operations against the abstract list *)

Lemma exec_ok c s fs l xs v ys :
  inv s fs -> owned s fs l xs -> spec_step c xs.*2 = Some (v, ys) ->
  fs ≠ [] -> Z.of_nat (length xs) + 1 < 2 ^ 64 ->
  exists l' s' fs' xs', exec c l s = Ok (v, l', s') /\ inv s' fs' /\ owned s' fs' l' xs' /\
    xs'.*2 = ys /\ framed s fs xs.*1 s' fs' xs'.*1.
Proof.
  intros Hi Ho Hsp Hfs Hb.
  assert (Hsame : framed s fs xs.*1 s fs xs.*1) by (split; [lia|by intros a n]).
  destruct c as [d|d| | |d]; cbn [exec spec_step] in *.
  - injection Hsp as <- <-.
    destruct (insert_head_ok s fs l xs d) as (p & l' & s' & fs' & E & Hi' & Ho' & Hfr); auto; [by left|].
    rewrite E. by exists l', s', fs', ((p, d) :: xs).
  - destruct (decide (xs = [])) as [->|Hne]; [done|].
    assert (ys = xs.*2 ++ [d] /\ v = KERN_SUCCESS) as [-> ->].
    { by destruct xs; [|injection Hsp as <- <-]. }
    destruct (insert_tail_ok s fs l xs d) as (p & l' & s' & fs' & E & Hi' & Ho' & Hfr); auto; [by left|].
    rewrite E. exists l', s', fs', (xs ++ [(p, d)]). split_and!; try done; [by rewrite fmap_app|].
    destruct Hfr as [Hl Hfr]. split; [done|]. intros a n Ha Haf Hax.
    destruct (Hfr a n Ha Haf Hax) as (? & ? & Hn). split_and!; [done|done|].
    rewrite fmap_app. revert Hn. clear. simpl. set_solver.
  - destruct xs as [|[a d] xs].
    + injection Hsp as <- <-. exists l, s, fs, []. split_and!; try done.
      destruct Ho as [[Hch _] _]. unfold singly_linked_list_remove_head, remove_head_body.
      by rewrite (chain_count _ _ _ Hch).
    + injection Hsp as <- <-. destruct (remove_head_ok s fs l a d xs Hi Ho) as (l' & s' & fs' & E & ?).
      exists l', s', fs', xs. naive_solver.
  - destruct (decide (xs = [])) as [->|Hne].
    + injection Hsp as <- <-. exists l, s, fs, []. split_and!; try done.
      destruct Ho as [[Hch _] _]. unfold singly_linked_list_remove_tail.
      by rewrite (chain_count _ _ _ Hch).
    + destruct (exists_last Hne) as (zs & [a d] & ->). rewrite fmap_app in Hsp. simpl in Hsp.
      rewrite last_snoc, removelast_last in Hsp. injection Hsp as <- <-.
      destruct (remove_tail_ok s fs l zs a d Hi Ho) as (l' & s' & fs' & E & ?).
      rewrite E. exists l', s', fs', zs. cbn. naive_solver.
  - by apply (exec_remove_ok d).
Qed.


(** [singly_linked_list_destroy] frees every node of a list, each back on
    [free_nodes] or to the allocator, and touches no other list. *)
Theorem destroy_spec s fs l xs :
  inv s fs -> owned s fs l xs ->
  exists s' fs', singly_linked_list_destroy l s = Ok s' /\ inv s' fs' /\ fs ⊆+ fs' /\
    (forall a, a ∈ xs.*1 -> a ∈ fs' \/ nodes s' !! a = None) /\
    untouched s fs xs.*1 s' fs' [].
Proof.
  intros Hi [[[Hs Hnd Hc _ _] _] Ho]. unfold singly_linked_list_destroy. rewrite Hc, Nat2Z.id.
  destruct (destroy_loop_ok xs s fs (head l) Hi Hs Hnd Ho) as (s' & fs' & E & Hi' & Hsub & Hfr & Hfs & Hg).
  exists s', fs'. split_and!; try done. intros a n Ha Haf Hax.
  split_and!; [by rewrite Hfr| |apply not_elem_of_nil]. intros Hx. by destruct (Hfs a Hx).
Qed.

(** Removing the last of several nodes with
    [singly_linked_list_remove_node_by_address] unlinks it but leaves [tail] on
    the freed node, so the list no longer meets its representation. *)
Theorem remove_last_by_address_breaks_tail s fs l ys a d :
  inv s fs -> owned s fs l (ys ++ [(a, d)]) -> ys ≠ [] -> d ∉ ys.*2 ->
  exists l' s' fs', singly_linked_list_remove_node_by_address l d s = Ok (KERN_SUCCESS, l', s') /\
    inv s' fs' /\ chain (nodes s') l' ys /\ tail l' = a /\ ~ tail_ok l' ys.
Proof.
  intros Hi Ho Hne Hd.
  destruct (remove_node_by_address_ok s fs l ys a d [] Hi Ho Hd)
    as (l' & s' & fs' & E & Hi' & Hch & _ & _ & _ & Ht).
  rewrite app_nil_r in Hch. specialize (Ht Hne eq_refl).
  exists l', s', fs'. split_and!; try done. destruct Ho as [[Hch0 _] _].
  assert (Han : a ≠ NULL).
  { eapply lseg_elem; [exact (chain_seg _ _ _ Hch0)|]. rewrite fmap_app. set_solver. }
  pose proof (chain_nodup _ _ _ Hch0) as Hnd. rewrite fmap_app in Hnd.
  apply NoDup_app in Hnd as (_ & Hdis & _). intros Htl.
  destruct (exists_last Hne) as (zs & [b db] & ->).
  assert (Hab : a ≠ b).
  { intros ->. apply (Hdis b); [rewrite fmap_app|]; simpl; set_solver. }
  destruct zs as [|[c dc] zs].
  - simpl in Htl. rewrite Ht in Htl. by destruct Htl.
  - apply tail_ok_last in Htl; [|simpl; rewrite length_app; simpl; lia].
    rewrite last_fst_snoc in Htl. congruence.
Qed.

End Spec.

Section Init.
Context {A : Type} `{KAlloc A} (base : Z).
Implicit Types s : mem A.

Definition pool_addr (i : nat) : Z := base + Z.of_nat i * sizeof_node.
(** the addresses pushed by the first [i] iterations, last one first *)
Definition pushed (i : nat) : list Z := reverse (pool_addr <$> seq 0 i).
Definition pool_set (n : nat) : gset Z := list_to_set (pool_addr <$> seq 0 n).

Lemma pool_addr_inj i j : pool_addr i = pool_addr j -> i = j.
Proof. unfold pool_addr, sizeof_node. lia. Qed.

Lemma pushed_S i : pushed (S i) = pool_addr i :: pushed i.
Proof. unfold pushed. by rewrite seq_S, fmap_app, reverse_app. Qed.

Lemma elem_of_pushed i a : a ∈ pushed i <-> exists j, (j < i)%nat /\ a = pool_addr j.
Proof.
  unfold pushed. rewrite elem_of_reverse, list_elem_of_fmap. split.
  - intros (j & -> & Hj). apply elem_of_seq in Hj. exists j. split; [lia|done].
  - intros (j & Hj & ->). exists j. split; [done|]. apply elem_of_seq. lia.
Qed.

Lemma length_pushed i : length (pushed i) = i.
Proof. unfold pushed. by rewrite length_reverse, length_fmap, length_seq. Qed.

(** State of the loop of [singly_linked_list_init] after [i] of [n] iterations,
    started from the store [ns0]. *)
Record pool_state (ns0 : gmap Z node) (n i : nat) s : Prop := mk_pool_state {
  ps_seg : lseg (nodes s) (head (free_nodes s)) ((fun a => (a, a)) <$> pushed i) NULL;
  ps_count : node_count (free_nodes s) = Z.of_nat i;
  ps_kind : is_free_list (free_nodes s) = true;
  ps_done : forall j, (j < i)%nat ->
    exists nd, nodes s !! pool_addr j = Some nd /\ flag_set (nflags nd) STATIC_POOL_NODE = true;
  ps_todo : forall j, (i <= j < n)%nat -> nodes s !! pool_addr j = Some zero_node;
  ps_rest : forall a, a ∉ pushed n -> nodes s !! a = ns0 !! a;
}.

Lemma init_pool_loop_spec ns0 n k i s :
  0 < base -> Z.of_nat n < 2 ^ 64 -> (i + k = n)%nat -> pool_state ns0 n i s ->
  exists s', init_pool_loop k base (Z.of_nat i) s = Ok s' /\ pool_state ns0 n n s' /\
    heap s' = heap s /\ static_pool_setup s' = static_pool_setup s.
Proof.
  intros Hb Hn. revert i s. induction k as [|k IH]; intros i s Hk Hp.
  { replace n with i in * by lia. by exists s. }
  cbn [init_pool_loop]. fold (pool_addr i). destruct Hp as [Hs Hc Hkd Hdn Htd Hr].
  assert (Hpn : pool_addr i ≠ NULL) by (unfold pool_addr, sizeof_node, NULL; lia).
  erewrite upd_flags_ok; [|apply Htd; lia|done]. msimp.
  erewrite upd_flags_ok; [|apply lookup_insert_eq|done]. msimp.
  set (nd := mk_node _ _ _). set (s1 := with_nodes s _).
  assert (Hnot : pool_addr i ∉ pushed i).
  { rewrite elem_of_pushed. intros (j & ? & ?%pool_addr_inj). lia. }
  assert (Hl := insert_head_link (fun _ => Fault) (free_nodes s1) (pool_addr i) s1 s1 (pool_addr i) nd
                  ((fun a => (a, a)) <$> pushed i)).
  rewrite length_fmap, length_pushed in Hl. rewrite Hl; clear Hl.
  - cbn [obind]. replace (Z.of_nat i + 1) with (Z.of_nat (S i)) by lia.
    match goal with |- context [init_pool_loop k base _ ?t] =>
      destruct (IH (S i) t) as (s' & E & Hp' & Hh & Hsp); [lia| |by exists s'] end.
    subst s1. constructor; cbn -[pushed].
    + rewrite pushed_S. cbn -[pushed]. split; [done|]. split; [done|]. eexists. rewrite lookup_insert_eq.
      split; [done|]. split; [done|]. apply lseg_insert; [by rewrite fmap_self|].
      apply lseg_insert; [by rewrite fmap_self|done].
    + done.
    + done.
    + intros j Hj. destruct (decide (j = i)) as [->|Hji].
      * eexists. rewrite lookup_insert_eq. by split.
      * rewrite !lookup_insert_ne by (intros ?%pool_addr_inj; lia). apply Hdn. lia.
    + intros j Hj. rewrite !lookup_insert_ne by (intros ?%pool_addr_inj; lia). apply Htd. lia.
    + intros a Ha. assert (a ≠ pool_addr i).
      { intros ->. apply Ha, elem_of_pushed. exists i. split; [lia|done]. }
      rewrite !lookup_insert_ne by done. by apply Hr.
  - cbn. by rewrite Hkd.
  - cbn. by rewrite lookup_insert_eq.
  - done.
  - by rewrite fmap_self.
  - cbn. apply lseg_insert; [by rewrite fmap_self|done].
  - by cbn.
  - lia.
Qed.

Lemma elem_of_pool_set n a : a ∈ pool_set n <-> a ∈ pushed n.
Proof. unfold pool_set, pushed. by rewrite elem_of_list_to_set, elem_of_reverse. Qed.

(** The store at boot: the zeroed static pool and the heap nodes [ns0]. *)
Record boot_store (n : nat) (ns0 : gmap Z node) s : Prop := mk_boot_store {
  boot_pool : forall j, (j < n)%nat -> nodes s !! pool_addr j = Some zero_node;
  boot_rest : forall a, a ∉ pushed n -> nodes s !! a = ns0 !! a;
  boot_heap : forall a nd, ns0 !! a = Some nd ->
     flag_set (nflags nd) STATIC_POOL_NODE = false /\ a ∈ klive (heap s) /\ a ≠ NULL;
  boot_kwf : kwf (heap s);
}.

(** Each node of the filled store is a static one or one that was there before. *)
Lemma pool_state_cases (ns0 ns1 : gmap Z node) n s a nd :
  pool_state ns1 n n s -> (forall b, b ∉ pushed n -> ns1 !! b = ns0 !! b) ->
  nodes s !! a = Some nd ->
  (a ∈ pool_set n /\ flag_set (nflags nd) STATIC_POOL_NODE = true) \/
  (a ∉ pool_set n /\ ns0 !! a = Some nd).
Proof.
  intros Hp Hb Ha. destruct (decide (a ∈ pushed n)) as [Hx|Hx].
  - left. split; [by apply elem_of_pool_set|]. apply elem_of_pushed in Hx as (j & Hj & ->).
    destruct (ps_done _ _ _ _ Hp j Hj) as (nd' & E' & ?). congruence.
  - right. rewrite (ps_rest _ _ _ _ Hp) in Ha by done. split; [by rewrite elem_of_pool_set|].
    by rewrite <- Hb.
Qed.

(** A filled pool is the free list of a well-formed store. *)
Lemma pool_state_inv ns0 n s s' :
  0 < base -> boot_store n ns0 s -> pool_state (nodes s) n n s' -> heap s' = heap s ->
  inv (pool_set n) s' (pushed n).
Proof.
  intros Hb [Hpool Hrest Hheap Hwf] Hp Hh.
  pose proof (fun a nd => pool_state_cases ns0 (nodes s) n s' a nd Hp Hrest) as Hcase.
  destruct Hp as [Hs Hc Hk Hdn _ Hr]. constructor; try done.
  - unfold pushed. rewrite reverse_Permutation. apply NoDup_fmap_2_strong; [|apply NoDup_seq].
    intros x y _ _. apply pool_addr_inj.
  - by rewrite length_pushed.
  - intros a. by rewrite elem_of_pool_set.
  - intros a nd Ha. destruct (Hcase a nd Ha) as [[? ->]|[? Hl]].
    + by rewrite bool_decide_eq_true_2.
    + rewrite bool_decide_eq_false_2 by done. by apply (Hheap a nd).
  - intros a nd Ha Hnp. destruct (Hcase a nd Ha) as [[? _]|[? Hl]]; [done|].
    rewrite Hh. by apply (Hheap a nd).
  - destruct (nodes s' !! NULL) as [nd|] eqn:E0; [|done].
    destruct (Hcase _ _ E0) as [[Hx _]|[_ Hl]]; [|by destruct (Hheap _ _ Hl) as (_ & _ & ?)].
    apply elem_of_pool_set, elem_of_pushed in Hx as (j & _ & Hj).
    unfold pool_addr, sizeof_node, NULL in Hj. lia.
  - by rewrite Hh.
Qed.

Lemma fill_pool n ns0 s :
  0 < base -> Z.of_nat n < 2 ^ 64 -> boot_store n ns0 s ->
  exists s', init_pool_loop n base 0
      (mk_mem (nodes s) (mk_list NULL NULL 0 LIST_FLAG_FREE_NODES) true (heap s)) = Ok s' /\
    inv (pool_set n) s' (pushed n) /\ heap s' = heap s /\ static_pool_setup s' = true.
Proof.
  intros Hb Hn Hbs. set (s0 := mk_mem _ _ _ _).
  destruct (init_pool_loop_spec (nodes s) n n 0 s0) as (s' & E & Hp & Hh & Hsp); try done.
  { constructor; cbn; try done; [lia|]. intros j Hj. apply (boot_pool _ _ _ Hbs). lia. }
  exists s'. split_and!; try done. by eapply pool_state_inv.
Qed.

(** C28: initialisation.  From a zeroed static pool, the first call puts all of
    its nodes on [free_nodes], establishes the store's invariant and returns an
    empty list. *)
Theorem init_spec s flg ns0 :
  0 < base -> static_pool_setup s = false -> flag_set flg LIST_FLAG_FREE_NODES = false ->
  boot_store (Z.to_nat SINGLY_LINKED_LIST_NODE_STATIC_POOL_SIZE) ns0 s ->
  exists l s' n, singly_linked_list_init base flg s = Ok (l, s') /\
    Z.of_nat n = SINGLY_LINKED_LIST_NODE_STATIC_POOL_SIZE /\
    inv (pool_set n) s' (pushed n) /\ owned s' (pushed n) l [] /\ length (pushed n) = n.
Proof.
  intros Hb Hset Hfl Hbs. unfold singly_linked_list_init. rewrite Hset.
  assert (Hz : Z.of_nat (Z.to_nat SINGLY_LINKED_LIST_NODE_STATIC_POOL_SIZE)
               = SINGLY_LINKED_LIST_NODE_STATIC_POOL_SIZE) by (by apply Z2Nat.id).
  generalize dependent (Z.to_nat SINGLY_LINKED_LIST_NODE_STATIC_POOL_SIZE). intros n Hbs Hz.
  destruct (fill_pool n ns0 s) as (s' & E & Hi & Hh & Hsp); [done| |done|].
  { unfold SINGLY_LINKED_LIST_NODE_STATIC_POOL_SIZE in Hz. lia. }
  rewrite E. cbn [obind]. eexists _, s', n. split_and!; try done; [|apply length_pushed].
  split; [split; [|done]|set_solver]. constructor; cbn; try done. apply NoDup_nil_2.
Qed.

End Init.
End SLL.
