(* ===== verification/SLLExamples.v ===== *)
(** * Singly linked lists on a concrete store

    A static pool of four nodes filled by [init_pool_loop], and the theorems of
    SinglyLinkedList.v applied to the lists built on it. *)

From S2P Require Import Prelude KAlloc SinglyLinkedList.

Module SLLExamples.
Import SLL.

Definition base : Z := 4096.

(** The store before initialisation: [n] zeroed static nodes. *)
Definition zeroed (n : nat) : mem Bump.bump :=
  mk_mem (list_to_map ((fun i => (pool_addr base i, zero_node)) <$> seq 0 n))
    (mk_list 0 0 0 0) false Bump.empty.

Lemma zeroed_boot n : boot_store base n ∅ (zeroed n).
Proof.
  constructor.
  - intros j Hj. cbn. apply elem_of_list_to_map_1.
    + rewrite <- list_fmap_compose. apply NoDup_fmap_2_strong; [|apply NoDup_seq].
      intros x y _ _ Hxy. by apply (pool_addr_inj base).
    + apply list_elem_of_fmap. exists j. split; [done|]. apply elem_of_seq. lia.
  - intros a Ha. cbn [nodes zeroed]. rewrite lookup_empty. apply not_elem_of_list_to_map_1.
    intros Hx. apply Ha. apply list_elem_of_fmap in Hx as ([x nd] & -> & Hx).
    apply list_elem_of_fmap in Hx as (j & [= -> ->] & Hj). apply elem_of_seq in Hj.
    apply elem_of_pushed. exists j. split; [lia|done].
  - intros a nd Ha. by rewrite lookup_empty in Ha.
  - apply Bump.empty_wf.
Qed.

Lemma pool_not_heap n : Z.of_nat n <= 80000 -> forall a, a ∈ pool_set base n -> ~ kheap a.
Proof.
  intros Hn a Ha. apply elem_of_pool_set, elem_of_pushed in Ha as (j & Hj & ->).
  cbn. unfold pool_addr, base, sizeof_node, Bump.bump_base, Bump.bump_limit. lia.
Qed.

(** The store with four free static nodes. *)
Definition start : mem Bump.bump :=
  match init_pool_loop 4 base 0
    (mk_mem (nodes (zeroed 4)) (mk_list NULL NULL 0 LIST_FLAG_FREE_NODES) true Bump.empty)
  with Ok s => s | _ => zeroed 4 end.

Definition empty_list : list_head := mk_list NULL NULL 0 0.
Definition pool : gset Z := pool_set base 4.

Lemma pool_static a : a ∈ pool -> ~ kheap a.
Proof. by apply pool_not_heap. Qed.
Lemma pool_null : NULL ∉ pool.
Proof. apply (bool_decide_unpack _). by vm_compute. Qed.
Lemma pool_size : Z.of_nat (size pool) < 2 ^ 64.
Proof. by vm_compute. Qed.

Lemma start_inv : inv pool start (pushed base 4).
Proof.
  destruct (fill_pool base 4 ∅ (zeroed 4)) as (s' & E & Hi & _); [done|done|apply zeroed_boot|].
  cbn [heap zeroed] in E. unfold start. by rewrite E.
Qed.

Lemma empty_owned (s : mem Bump.bump) fs : owned s fs empty_list [].
Proof.
  split; [split; [|done]|set_solver]. constructor; cbn; try done. apply NoDup_nil_2.
Qed.

(** The list 7, 8 and the store that holds it. *)
Definition built : list_head * mem Bump.bump :=
  match run [InsertHead 7; InsertTail 8] empty_list start with
  | Ok (_, l, s) => (l, s)
  | _ => (empty_list, start)
  end.

Definition xs78 : list (Z * Z) := [(pool_addr base 3, 7); (pool_addr base 2, 8)].


Lemma built_ok : exists fs, inv pool built.2 fs /\ owned built.2 fs built.1 xs78.
Proof.
  destruct (exec_ok pool pool_static pool_null pool_size (InsertHead 7) start (pushed base 4)
    empty_list [] 0 [7]) as (l1 & s1 & fs1 & x1 & E1 & Hi1 & Ho1 & Hx1 & Hf1);
    [apply start_inv|apply empty_owned|done|done|done|].
  destruct (exec_ok pool pool_static pool_null pool_size (InsertTail 8) s1 fs1 l1 x1 0 [7; 8])
    as (l2 & s2 & fs2 & x2 & E2 & Hi2 & Ho2 & Hx2 & _).
  { done. } { done. } { by rewrite Hx1. }
  { destruct Hf1 as [Hl _]. rewrite length_pushed in Hl. intros ->. simpl in Hl. lia. }
  { apply (f_equal length) in Hx1. rewrite length_fmap in Hx1. rewrite Hx1. done. }
  assert (Hb : built = (l2, s2)).
  { unfold built. cbn [run]. rewrite E1. cbn [obind]. rewrite E2. done. }
  exists fs2. rewrite Hb. cbn [fst snd]. split; [done|].
  assert (x2 = xs78) as <-; [|done].
  destruct x2 as [|[a1 d1] [|[a2 d2] [|]]]; try discriminate Hx2. injection Hx2 as -> ->.
  destruct Ho2 as [[[Hs _ _ _ _] _] _].
  assert (l2 = built.1) as -> by (by rewrite Hb). assert (s2 = built.2) as -> by (by rewrite Hb).
  cbn [lseg] in Hs. destruct Hs as (<- & _ & n1 & Hn1 & _ & <- & _).
  revert Hn1. vm_compute. by intros [= <-].
Qed.

Lemma destroy_spec_witness :
  exists s' fs', singly_linked_list_destroy built.1 built.2 = Ok s' /\ inv pool s' fs'.
Proof.
  destruct built_ok as (fs & Hi & Ho).
  destruct (destroy_spec pool pool_static pool_null pool_size built.2 fs built.1 xs78 Hi Ho)
    as (s' & fs' & E & Hi' & _).
  exists s', fs'. split; [exact E|exact Hi'].
Defined.

Lemma remove_last_by_address_breaks_tail_witness :
  exists l' s' fs', singly_linked_list_remove_node_by_address built.1 8 built.2
    = Ok (KERN_SUCCESS, l', s') /\ inv pool s' fs' /\
    chain (nodes s') l' [(pool_addr base 3, 7)] /\ tail l' = pool_addr base 2 /\
    ~ tail_ok l' [(pool_addr base 3, 7)].
Proof.
  destruct built_ok as (fs & Hi & Ho).
  apply (remove_last_by_address_breaks_tail pool pool_static pool_null pool_size
    built.2 fs built.1 [(pool_addr base 3, 7)] (pool_addr base 2) 8); [exact Hi|exact Ho|discriminate|].
  apply (bool_decide_unpack _). by vm_compute.
Defined.

Lemma insert_tail_empty_faults_witness :
  singly_linked_list_insert_tail empty_list 5 start = Fault.
Proof.
  apply (insert_tail_empty_faults pool pool_static pool_null pool_size start (pushed base 4));
    [apply start_inv|apply empty_owned|done|by left].
Defined.

Lemma init_spec_witness :
  exists l s' n, singly_linked_list_init base 0
      (zeroed (Z.to_nat SINGLY_LINKED_LIST_NODE_STATIC_POOL_SIZE)) = Ok (l, s') /\
    Z.of_nat n = SINGLY_LINKED_LIST_NODE_STATIC_POOL_SIZE /\
    inv (pool_set base n) s' (pushed base n) /\ owned s' (pushed base n) l [] /\
    length (pushed base n) = n.
Proof.
  apply (init_spec base _ 0 ∅); [done|done|done|]. apply zeroed_boot.
Defined.

End SLLExamples.
