(* ===== verification/HeapStore.v ===== *)
(** * Heap nodes and doubly linked segments

    What queue.c and doubly_linked_list.c share: nodes of one struct type that
    come from [kmalloc] and go back with [kfree], kept in a store indexed by
    address, and the shape of a doubly linked chain in such a store.  A freed
    node leaves the store, so that a later access to it is a [Fault]. *)

From S2P Require Import Prelude KAlloc.

Record hmem (N A : Type) : Type := mk_hmem { hnodes : gmap Z N; hheap : A }.
Arguments mk_hmem {N A} _ _.
Arguments hnodes {N A} _.
Arguments hheap {N A} _.

Section Store.
Context {N A : Type} `{KAlloc A}.
Implicit Types s : hmem N A.

(** [*p] *)
Definition ld s (p : Z) : outcome N :=
  if p =? NULL then Fault else of_opt (hnodes s !! p).

(** [*p = n] *)
Definition st s (p : Z) (n : N) : outcome (hmem N A) :=
  if p =? NULL then Fault
  else match hnodes s !! p with
       | Some _ => Ok (mk_hmem (<[p := n]> (hnodes s)) (hheap s))
       | None => Fault
       end.

(** an assignment to one field of [*p] *)
Definition modify s (p : Z) (f : N -> N) : outcome (hmem N A) :=
  let! n := ld s p in st s p (f n).

(** [p = kmalloc(sz)]: a zeroed object *)
Definition new (sz : Z) (zero : N) s : outcome (Z * hmem N A) :=
  let! (p, h) := kalloc sz (hheap s) in
  Ok (p, mk_hmem (<[p := zero]> (hnodes s)) h).

(** [kfree(p)] *)
Definition del (p : Z) s : outcome (hmem N A) :=
  let! h := kfree p (hheap s) in
  Ok (mk_hmem (delete p (hnodes s)) h).

Lemma ld_ok s p n : hnodes s !! p = Some n -> p ≠ NULL -> ld s p = Ok n.
Proof. intros Hp Hn. unfold ld. rewrite (proj2 (Z.eqb_neq _ _) Hn). by rewrite Hp. Qed.

Lemma modify_ok s p f n :
  hnodes s !! p = Some n -> p ≠ NULL ->
  modify s p f = Ok (mk_hmem (<[p := f n]> (hnodes s)) (hheap s)).
Proof.
  intros Hp Hn. unfold modify. erewrite ld_ok by done. cbn. unfold st.
  rewrite (proj2 (Z.eqb_neq _ _) Hn). by rewrite Hp.
Qed.

(** Every node is a live object of a well-formed allocator. *)
Record hwf s : Prop := mk_hwf {
  hwf_heap : kwf (hheap s);
  hwf_live : forall p n, hnodes s !! p = Some n -> p ∈ klive (hheap s);
  hwf_null : hnodes s !! NULL = None;
}.

Lemma hwf_nonnull s p n : hwf s -> hnodes s !! p = Some n -> p ≠ NULL.
Proof. intros Hw Hp ->. by rewrite (hwf_null _ Hw) in Hp. Qed.

Lemma hwf_insert s p n n' :
  hwf s -> hnodes s !! p = Some n -> hwf (mk_hmem (<[p := n']> (hnodes s)) (hheap s)).
Proof.
  intros Hw Hp. pose proof (hwf_nonnull _ _ _ Hw Hp). destruct Hw as [Hk Hl Hn].
  constructor; cbn; [done| |by rewrite lookup_insert_ne].
  intros q m Hq. apply lookup_insert_Some in Hq as [[<- _]|[_ Hq]]; eauto.
Qed.

Lemma hwf_upd (ns : gmap Z N) h p n n' :
  hwf (mk_hmem ns h) -> ns !! p = Some n -> hwf (mk_hmem (<[p := n']> ns) h).
Proof. apply (hwf_insert (mk_hmem ns h)). Qed.

End Store.

Section StoreSpec.
Context {N A : Type} `{KAllocSpec A}.
Implicit Types s : hmem N A.

Lemma new_ok sz zero s p h :
  hwf s -> kalloc sz (hheap s) = Ok (p, h) ->
  new sz zero s = Ok (p, mk_hmem (<[p := zero]> (hnodes s)) h) /\
  p ≠ NULL /\ hnodes s !! p = None /\ hwf (mk_hmem (<[p := zero]> (hnodes s)) h).
Proof.
  intros [Hk Hl Hn] Ha. destruct (kalloc_spec _ _ _ _ Hk Ha) as (Hp & _ & Hf & Hk' & Hlv).
  unfold new. rewrite Ha. cbn [obind]. split_and!; [done|done| |].
  - destruct (hnodes s !! p) as [n|] eqn:E; [|done]. destruct Hf. by apply (Hl p n).
  - constructor; cbn; [done| |by rewrite lookup_insert_ne].
    intros q n Hq. rewrite Hlv. apply lookup_insert_Some in Hq as [[<- _]|[_ Hq]]; [set_solver|].
    apply elem_of_union_r. eauto.
Qed.

Lemma del_ok s p n :
  hwf s -> hnodes s !! p = Some n ->
  exists h, del p s = Ok (mk_hmem (delete p (hnodes s)) h) /\
    hwf (mk_hmem (delete p (hnodes s)) h).
Proof.
  intros [Hk Hl Hn] Hp. destruct (kfree_spec p (hheap s) Hk) as (h & E & Hk' & Hlv); [by eapply Hl|].
  exists h. unfold del. rewrite E. split; [done|]. constructor; cbn; [done| |].
  - intros q m Hq. apply lookup_delete_Some in Hq as [? Hq]. rewrite Hlv.
    apply elem_of_difference. split; [by eapply Hl|set_solver].
  - by rewrite lookup_delete_None; right.
Qed.

End StoreSpec.

(** ** Doubly linked segments *)
Class DNode (N : Type) : Type := { d_data : N -> Z; d_next : N -> Z; d_prev : N -> Z }.

(** [dseg ns pr p xs la q]: following next pointers from [p] visits the nodes
    [xs], given as (address, data) pairs, and arrives at [q]; the prev pointers
    lead back to [pr]; [la] is the last node, or [pr] when there is none. *)
Fixpoint dseg {N} `{DNode N} (ns : gmap Z N) (pr p : Z) (xs : list (Z * Z)) (la q : Z) : Prop :=
  match xs with
  | [] => p = q /\ pr = la
  | (a, d) :: xs' =>
      p = a /\ a ≠ NULL /\
      exists n, ns !! a = Some n /\ d_data n = d /\ d_prev n = pr /\ dseg ns a (d_next n) xs' la q
  end.

Section DSeg.
Context {N : Type} `{DNode N}.
Implicit Types ns : gmap Z N.

Lemma dseg_app ns pr p xs ys la q :
  dseg ns pr p (xs ++ ys) la q <-> exists m r, dseg ns pr p xs m r /\ dseg ns m r ys la q.
Proof.
  revert pr p. induction xs as [|[a d] xs IH]; intros pr p; cbn [app dseg].
  - split; [intros; by exists pr, p | by intros (m & r & (-> & ->) & ?)].
  - setoid_rewrite IH. naive_solver.
Qed.

Lemma dseg_cons ns pr a d xs la q n :
  a ≠ NULL -> ns !! a = Some n -> d_data n = d -> d_prev n = pr ->
  dseg ns a (d_next n) xs la q -> dseg ns pr a ((a, d) :: xs) la q.
Proof. intros. cbn [dseg]. split_and!; [done|done|]. by exists n. Qed.

Lemma dseg_frame ns ns' pr p xs la q :
  (forall a, a ∈ xs.*1 -> ns' !! a = ns !! a) -> dseg ns pr p xs la q -> dseg ns' pr p xs la q.
Proof.
  revert pr p. induction xs as [|[a d] xs IH]; intros pr p Hf; cbn [dseg]; [done|].
  cbn [fmap list_fmap fst] in Hf.
  intros (-> & ? & n & Hn & ? & ? & Hs). split_and!; [done|done|]. exists n.
  split_and!; try done; [by rewrite Hf by set_solver|].
  apply IH; [|done]. intros. apply Hf. set_solver.
Qed.

Lemma dseg_insert ns pr p xs la q a n :
  a ∉ xs.*1 -> dseg ns pr p xs la q -> dseg (<[a := n]> ns) pr p xs la q.
Proof. intros Ha. apply dseg_frame. intros b Hb. apply lookup_insert_ne. by intros ->. Qed.

Lemma dseg_delete ns pr p xs la q a :
  a ∉ xs.*1 -> dseg ns pr p xs la q -> dseg (delete a ns) pr p xs la q.
Proof. intros Ha. apply dseg_frame. intros b Hb. apply lookup_delete_ne. by intros ->. Qed.

Lemma dseg_elem ns pr p xs la q a :
  dseg ns pr p xs la q -> a ∈ xs.*1 -> a ≠ NULL /\ exists n, ns !! a = Some n.
Proof.
  revert pr p. induction xs as [|[b d] xs IH]; intros pr p; cbn [dseg]; [set_solver|].
  cbn [fmap list_fmap fst]. intros (-> & ? & n & ? & ? & ? & Hs) Ha.
  apply elem_of_cons in Ha as [->|Ha]; eauto.
Qed.

(** The first node's prev pointer is rewritten. *)
Lemma dseg_relink_first ns pr pr' p a d xs la q n n' :
  dseg ns pr p ((a, d) :: xs) la q -> a ∉ xs.*1 -> ns !! a = Some n ->
  d_data n' = d_data n -> d_next n' = d_next n -> d_prev n' = pr' ->
  dseg (<[a := n']> ns) pr' p ((a, d) :: xs) la q.
Proof.
  cbn [dseg]. intros (-> & Ha & m & Hm & <- & _ & Hs) Hx Hn Hd Hnx Hp.
  rewrite Hn in Hm. injection Hm as ->. split_and!; [done|done|]. exists n'.
  rewrite lookup_insert_eq. split_and!; [done|done|done|]. rewrite Hnx. by apply dseg_insert.
Qed.

(** The last node's next pointer is rewritten. *)
Lemma dseg_relink_last ns pr p xs a d la q q' n n' :
  dseg ns pr p (xs ++ [(a, d)]) la q -> a ∉ xs.*1 -> ns !! a = Some n ->
  d_data n' = d_data n -> d_prev n' = d_prev n -> d_next n' = q' ->
  dseg (<[a := n']> ns) pr p (xs ++ [(a, d)]) a q'.
Proof.
  intros Hs Hx Hn Hd Hp Hnx. apply dseg_app in Hs as (m & r & Hs & Hl).
  apply dseg_app. exists m, r. split; [by apply dseg_insert|].
  cbn [dseg] in *. destruct Hl as (-> & Ha & n0 & Hn0 & <- & <- & _ & _).
  rewrite Hn in Hn0. injection Hn0 as ->. split_and!; [done|done|]. exists n'.
  rewrite lookup_insert_eq. by rewrite Hd, Hp.
Qed.

Lemma dseg_last ns pr p xs a d la q :
  dseg ns pr p (xs ++ [(a, d)]) la q -> la = a.
Proof.
  intros Hs. apply dseg_app in Hs as (m & r & _ & Hl). cbn [dseg] in Hl.
  by destruct Hl as (_ & _ & n & _ & _ & _ & _ & <-).
Qed.

Lemma dseg_size ns pr p xs la q :
  dseg ns pr p xs la q -> NoDup xs.*1 -> (length xs <= size ns)%nat.
Proof.
  intros Hs Hnd. rewrite <- (length_fmap fst), <- size_dom.
  rewrite <- (size_list_to_set (C := gset Z)) by done. apply subseteq_size.
  intros a Ha. apply elem_of_list_to_set in Ha.
  destruct (dseg_elem _ _ _ _ _ _ _ Hs Ha) as (_ & n & ?). apply elem_of_dom. eauto.
Qed.

(** Segments of concrete stores are checked by evaluation. *)
Fixpoint dsegb ns (pr p : Z) (xs : list (Z * Z)) (la q : Z) : bool :=
  match xs with
  | [] => (p =? q) && (pr =? la)
  | (a, d) :: xs' =>
      (p =? a) && negb (a =? NULL) &&
      match ns !! a with
      | Some n => (d_data n =? d) && (d_prev n =? pr) && dsegb ns a (d_next n) xs' la q
      | None => false
      end
  end.

Lemma dsegb_sound ns pr p xs la q : dsegb ns pr p xs la q = true -> dseg ns pr p xs la q.
Proof.
  revert pr p. induction xs as [|[a d] xs IH]; intros pr p; cbn [dsegb dseg]; intros Hb; zbool; [done|].
  destruct (ns !! a) as [n|] eqn:Hn; [|done]. zbool. split_and!; [done|done|]. exists n. auto.
Qed.

(** The forward direction alone: what a walk along next pointers visits. *)
Fixpoint fseg ns (p : Z) (xs : list (Z * Z)) (q : Z) : Prop :=
  match xs with
  | [] => p = q
  | (a, d) :: xs' =>
      p = a /\ a ≠ NULL /\ exists n, ns !! a = Some n /\ d_data n = d /\ fseg ns (d_next n) xs' q
  end.

Lemma dseg_fseg ns pr p xs la q : dseg ns pr p xs la q -> fseg ns p xs q.
Proof.
  revert pr p. induction xs as [|[a d] xs IH]; intros pr p; cbn [dseg fseg]; [by intros [-> _]|].
  intros (-> & ? & n & ? & ? & ? & Hs). split_and!; [done|done|]. exists n. split_and!; [done|done|]. eauto.
Qed.

(** Two stores agree on what a forward walk reads of the node [a]. *)
Definition same_fwd ns ns' (a : Z) : Prop :=
  (fun n => (d_data n, d_next n)) <$> ns' !! a = (fun n => (d_data n, d_next n)) <$> ns !! a.

Lemma fseg_frame ns ns' p xs q :
  (forall a, a ∈ xs.*1 -> same_fwd ns ns' a) -> fseg ns p xs q -> fseg ns' p xs q.
Proof.
  revert p. induction xs as [|[a d] xs IH]; intros p Hf; cbn [fseg]; [done|].
  cbn [fmap list_fmap fst] in Hf. intros (-> & ? & n & Hn & <- & Hs).
  assert (Ha := Hf a (list_elem_of_here _ _)). unfold same_fwd in Ha. rewrite Hn in Ha.
  destruct (ns' !! a) as [n'|] eqn:Hn'; [|done]. injection Ha as Hd Hx.
  split_and!; [done|done|]. exists n'. rewrite Hd, Hx. split_and!; [done|done|].
  apply IH; [|done]. intros. apply Hf. set_solver.
Qed.

End DSeg.
