(* ===== verification/Queue.v ===== *)
(** * Queues (kernel/src/data_structures/queue.c)

    FIFO, LIFO and priority queues over heap nodes. *)

From stdpp Require Import sorting.
From S2P Require Import Prelude KAlloc HeapStore.

Module Queue.

Definition QUEUE_MODE_FIFO : Z := 0.
Definition QUEUE_MODE_LIFO : Z := 1.
Definition QUEUE_MODE_PRIORITY : Z := 2.
Definition QUEUE_MODE_CIRCULAR : Z := 3.
Definition QUEUE_MODE_DOUBLE_ENDED : Z := 4.

Definition sizeof_queue_node : Z := 32.
Definition sizeof_spinlock : Z := 40.

(** struct queue_node *)
Record queue_node : Type := mk_node { data : Z; next : Z; prev : Z; priority : Z }.

Definition zero_node : queue_node := mk_node 0 0 0 0.

(** struct queue; [name] is only used for debugging *)
Record queue : Type := mk_queue {
  head : Z; tail : Z; queue_mode : Z; node_count : Z; spinlock : Z }.

#[export] Instance queue_dnode : DNode queue_node :=
  { d_data := data; d_next := next; d_prev := prev }.

Definition set_next (v : Z) (n : queue_node) : queue_node :=
  mk_node (data n) v (prev n) (priority n).
Definition set_prev (v : Z) (n : queue_node) : queue_node :=
  mk_node (data n) (next n) v (priority n).

Section Ops.
Context {A : Type} `{KAlloc A}.
Abbreviation mem := (hmem queue_node A).
Implicit Types (s : mem) (q : queue).

(** queue_init: the node count is left as it was. *)
Definition queue_init (q : queue) (mode : Z) s : outcome (queue * mem) :=
  let! (lk, h) := kalloc sizeof_spinlock (hheap s) in
  Ok (mk_queue NULL NULL mode (node_count q) lk, mk_hmem (hnodes s) h).

Definition queue_node_init (node d pr : Z) s : outcome mem :=
  if node =? NULL then Panic
  else modify s node (fun _ => mk_node d NULL NULL pr).

Definition enqueue_fifo q (new_node : Z) s : outcome (queue * mem) :=
  if new_node =? NULL then Panic
  else
    let! n := ld s new_node in
    if data n =? NULL then Panic
    else if node_count q =? 0 then
      Ok (mk_queue new_node new_node (queue_mode q) (w32 (node_count q + 1)) (spinlock q), s)
    else if node_count q =? 1 then
      let! s := modify s (head q) (set_next new_node) in
      let! s := modify s new_node (set_prev (head q)) in
      Ok (mk_queue (head q) new_node (queue_mode q) (w32 (node_count q + 1)) (spinlock q), s)
    else
      let! s := modify s (tail q) (set_next new_node) in
      let! s := modify s new_node (set_prev (tail q)) in
      Ok (mk_queue (head q) new_node (queue_mode q) (w32 (node_count q + 1)) (spinlock q), s).

Definition enqueue_lifo q (new_node : Z) s : outcome (queue * mem) :=
  let! n := ld s new_node in
  if data n =? NULL then Panic
  else if node_count q =? 0 then
    Ok (mk_queue new_node new_node (queue_mode q) (w32 (node_count q + 1)) (spinlock q), s)
  else
    let! s := modify s (head q) (set_prev new_node) in
    Ok (mk_queue new_node (tail q) (queue_mode q) (w32 (node_count q + 1)) (spinlock q), s).

(** The walk of enqueue_priority; the result says whether a place was found. *)
Fixpoint enqueue_priority_loop (fuel : nat) (pointer new_node : Z) s : outcome (bool * mem) :=
  match fuel with
  | O => Timeout
  | S fuel =>
    if pointer =? NULL then Ok (false, s)
    else
      let! p := ld s pointer in
      let! n := ld s new_node in
      if priority p <? priority n then
        let! s := modify s new_node (set_next pointer) in
        let! s := modify s new_node (set_prev (prev p)) in
        let! s := modify s pointer (set_prev new_node) in
        Ok (true, s)
      else enqueue_priority_loop fuel (next p) new_node s
  end.

Definition enqueue_priority q (new_node : Z) s : outcome (queue * mem) :=
  let! n := ld s new_node in
  if data n =? NULL then Panic
  else if node_count q =? 0 then
    Ok (mk_queue new_node new_node (queue_mode q) (w32 (node_count q + 1)) (spinlock q), s)
  else if node_count q =? 1 then
    let! hn := ld s (head q) in
    if priority hn <? priority n then
      let! s := modify s (head q) (set_prev new_node) in
      let! s := modify s new_node (set_next (head q)) in
      Ok (mk_queue new_node (tail q) (queue_mode q) (w32 (node_count q + 1)) (spinlock q), s)
    else
      let! s := modify s (head q) (set_next new_node) in
      let! s := modify s new_node (set_prev (head q)) in
      Ok (mk_queue (head q) new_node (queue_mode q) (w32 (node_count q + 1)) (spinlock q), s)
  else
    let! tn := ld s (tail q) in
    if priority n <=? priority tn then
      let! s := modify s (tail q) (set_next new_node) in
      let! s := modify s new_node (set_prev (tail q)) in
      Ok (mk_queue (head q) new_node (queue_mode q) (w32 (node_count q + 1)) (spinlock q), s)
    else
      let! hn := ld s (head q) in
      if priority hn <=? priority n then
        let! s := modify s new_node (set_next (next hn)) in
        let! s := modify s (head q) (set_next new_node) in
        let! s := modify s new_node (set_prev (head q)) in
        Ok (mk_queue (head q) (tail q) (queue_mode q) (w32 (node_count q + 1)) (spinlock q), s)
      else
        let! (placed, s) := enqueue_priority_loop (S (size (hnodes s))) (head q) new_node s in
        Ok (mk_queue (head q) (tail q) (queue_mode q)
              (if placed then w32 (node_count q + 1) else node_count q) (spinlock q), s).

(** enqueue *)
Definition enqueue q (d pr : Z) s : outcome (queue * mem) :=
  let! (new_node, s) := new sizeof_queue_node zero_node s in
  let! s := queue_node_init new_node d pr s in
  if queue_mode q =? QUEUE_MODE_FIFO then enqueue_fifo q new_node s
  else if queue_mode q =? QUEUE_MODE_LIFO then enqueue_lifo q new_node s
  else if queue_mode q =? QUEUE_MODE_PRIORITY then enqueue_priority q new_node s
  else Ok (q, s).

Definition dequeue_fifo q s : outcome (queue * mem) :=
  let pointer := head q in
  if pointer =? NULL then Ok (q, s)
  else
    let! p := ld s pointer in
    if next p =? NULL then
      let! s := del pointer s in
      Ok (mk_queue NULL (tail q) (queue_mode q) (w32 (node_count q - 1)) (spinlock q), s)
    else
      let! s := modify s (next p) (set_prev NULL) in
      let count := w32 (node_count q - 1) in
      let tl := if count =? 1 then next p else tail q in
      let! s := del pointer s in
      Ok (mk_queue (next p) tl (queue_mode q) count (spinlock q), s).

Definition dequeue_lifo q s : outcome (queue * mem) :=
  let pointer := head q in
  if pointer =? NULL then Ok (q, s)
  else if node_count q =? 1 then
    let! s := del pointer s in
    Ok (mk_queue NULL NULL (queue_mode q) (w32 (node_count q - 1)) (spinlock q), s)
  else
    let! p := ld s pointer in
    let! s := modify s (next p) (set_prev NULL) in
    let! p := ld s pointer in
    let! s := del pointer s in
    Ok (mk_queue (next p) (tail q) (queue_mode q) (w32 (node_count q - 1)) (spinlock q), s).

(** dequeue_priority has the same statements as dequeue_fifo. *)
Definition dequeue_priority q s : outcome (queue * mem) :=
  let pointer := head q in
  if pointer =? NULL then Ok (q, s)
  else
    let! p := ld s pointer in
    if next p =? NULL then
      let! s := del pointer s in
      Ok (mk_queue NULL (tail q) (queue_mode q) (w32 (node_count q - 1)) (spinlock q), s)
    else
      let! s := modify s (next p) (set_prev NULL) in
      let count := w32 (node_count q - 1) in
      let tl := if count =? 1 then next p else tail q in
      let! s := del pointer s in
      Ok (mk_queue (next p) tl (queue_mode q) count (spinlock q), s).

(** dequeue *)
Definition dequeue q s : outcome (queue * mem) :=
  if queue_mode q =? QUEUE_MODE_FIFO then dequeue_fifo q s
  else if queue_mode q =? QUEUE_MODE_LIFO then dequeue_lifo q s
  else if queue_mode q =? QUEUE_MODE_PRIORITY then dequeue_priority q s
  else Ok (q, s).

End Ops.

(** ** Representation *)

(** [q] holds [xs], (address, data) pairs from head to tail.  The tail pointer
    of an empty queue is left over from the last node. *)
Record repr (ns : gmap Z queue_node) (q : queue) (xs : list (Z * Z)) : Prop := mk_repr {
  repr_seg : exists la, dseg ns NULL (head q) xs la NULL /\ (xs ≠ [] -> tail q = la);
  repr_nodup : NoDup xs.*1;
  repr_count : node_count q = Z.of_nat (length xs);
  repr_bound : Z.of_nat (length xs) < 2 ^ 32;
}.

(** The nodes of other queues are left alone. *)
Definition untouched {A} (xs : list Z) (s s' : hmem queue_node A) : Prop :=
  forall a n, hnodes s !! a = Some n -> a ∉ xs -> hnodes s' !! a = Some n.

(** The priorities along a queue. *)
Definition prios (ns : gmap Z queue_node) (xs : list (Z * Z)) : list Z :=
  (fun '(a, _) => match ns !! a with Some n => priority n | None => 0 end) <$> xs.

Definition push_tail (q : queue) (p : Z) : queue :=
  mk_queue (if node_count q =? 0 then p else head q) p (queue_mode q) (node_count q + 1) (spinlock q).

Section Spec.
Context {A : Type} `{KAllocSpec A}.
Implicit Types (s : hmem queue_node A) (q : queue).

(** Linking a fresh node [p] after the last node: what the append branches of
    enqueue_fifo and enqueue_priority do. *)
Definition append q (p : Z) s : outcome (hmem queue_node A) :=
  if node_count q =? 0 then Ok s
  else let target := if node_count q =? 1 then head q else tail q in
    let! s := modify s target (set_next p) in modify s p (set_prev target).

Lemma prios_frame (ns ns' : gmap Z queue_node) xs :
  (forall a, a ∈ xs.*1 -> priority <$> ns' !! a = priority <$> ns !! a) -> prios ns' xs = prios ns xs.
Proof.
  intros Hf. induction xs as [|[a d] xs IH]; [done|]. unfold prios in *. cbn in *.
  f_equal; [|apply IH; intros; apply Hf; set_solver].
  specialize (Hf a (list_elem_of_here _ _)). by destruct (ns !! a), (ns' !! a); simplify_eq/=.
Qed.

Lemma append_ok s q xs p n :
  hwf s -> repr (hnodes s) q xs -> hnodes s !! p = Some n -> p ∉ xs.*1 ->
  next n = NULL -> prev n = NULL -> Z.of_nat (length xs) + 1 < 2 ^ 32 ->
  exists s', append q p s = Ok s' /\ hwf s' /\
    repr (hnodes s') (push_tail q p) (xs ++ [(p, data n)]) /\
    untouched (p :: xs.*1) s s' /\ hheap s' = hheap s /\
    prios (hnodes s') (xs ++ [(p, data n)]) = prios (hnodes s) xs ++ [priority n].
Proof.
  intros Hw [(la & Hs & Ht) Hnd Hc Hb] Hp Hpx Hnx Hpv Hlen.
  pose proof (hwf_nonnull _ _ _ Hw Hp) as Hpn. unfold append. rewrite Hc.
  assert (Hnd' : NoDup (xs ++ [(p, data n)]).*1).
  { rewrite fmap_app. apply NoDup_app. split_and!; [done| |apply NoDup_singleton].
    intros x Hx. simpl. set_solver. }
  destruct (decide (xs = [])) as [->|Hne].
  { cbn. exists s. split_and!; try done.
    - constructor; [|exact Hnd'|by cbn; rewrite Hc|done].
      exists p. unfold push_tail. rewrite Hc. cbn. split; [|done]. split_and!; [done|done|]. by exists n.
    - by intros a m ? ?.
    - unfold prios. cbn. by rewrite Hp. }
  rewrite (proj2 (Z.eqb_neq _ 0)) by (destruct xs; simpl in *; [done|lia]).
  specialize (Ht Hne). destruct (exists_last Hne) as (ys & [a d] & ->).
  pose proof (dseg_last _ _ _ _ _ _ _ _ Hs) as ->.
  assert (Hax : a ∉ ys.*1).
  { rewrite fmap_app in Hnd. apply NoDup_app in Hnd as (_ & Hdis & _).
    intros Hx. apply (Hdis a Hx). simpl. set_solver. }
  assert (Htgt : (if Z.of_nat (length (ys ++ [(a, d)])) =? 1 then head q else tail q) = a).
  { destruct ys as [|[b e] ys]; [cbn; by destruct Hs as (-> & _)|].
    by rewrite (proj2 (Z.eqb_neq _ 1)) by (simpl; rewrite length_app; simpl; lia). }
  rewrite Htgt. destruct (dseg_elem _ _ _ _ _ _ a Hs) as (Han & m & Hm); [rewrite fmap_app; simpl; set_solver|].
  assert (Hpa : p ≠ a) by (intros ->; apply Hpx; rewrite fmap_app; simpl; set_solver).
  erewrite modify_ok by done. cbn [obind hnodes hheap].
  erewrite modify_ok; [|cbn; by rewrite lookup_insert_ne|done].
  eexists. split_and!; [done| | | |done|].
  - eapply hwf_upd; [by apply (hwf_insert s a m)|cbn; by rewrite lookup_insert_ne].
  - cbn [hnodes]. unfold push_tail. rewrite Hc. constructor; cbn [head tail node_count]; try done.
    + exists p. split; [|done]. rewrite (proj2 (Z.eqb_neq _ 0)) by (rewrite length_app; simpl; lia).
      apply dseg_app. exists a, p. split.
      * apply dseg_insert; [done|]. by eapply dseg_relink_last.
      * cbn [dseg]. split_and!; [done|done|]. eexists. rewrite lookup_insert_eq. by split_and!.
    + rewrite !length_app. simpl. lia.
    + rewrite !length_app in *. simpl in *. lia.
  - intros x nx Hx Hxx. apply not_elem_of_cons in Hxx as [? Hxx]. cbn.
    rewrite !lookup_insert_ne; [done| |done]. intros ->. apply Hxx. rewrite fmap_app. simpl. set_solver.
  - cbn [hnodes]. set (ns' := <[p := _]> _). unfold prios. rewrite fmap_app. cbn. f_equal.
    + apply prios_frame. intros x Hx. subst ns'. rewrite lookup_insert_ne by (intros ->; done).
      destruct (decide (x = a)) as [->|?]; [by rewrite lookup_insert_eq, Hm|cbn; by rewrite lookup_insert_ne].
    + subst ns'. by rewrite lookup_insert_eq.
Qed.

(** A node made by [new] and [queue_node_init]. *)
Lemma fresh_node_ok q s xs d pr :
  hwf s -> repr (hnodes s) q xs -> kfresh sizeof_queue_node (hheap s) ->
  exists p s', (let! (p, s) := new sizeof_queue_node zero_node s in
                let! s := queue_node_init p d pr s in Ok (p, s)) = Ok (p, s') /\
    hwf s' /\ hnodes s !! p = None /\ p ≠ NULL /\
    hnodes s' = <[p := mk_node d NULL NULL pr]> (hnodes s) /\ p ∉ xs.*1 /\
    repr (hnodes s') q xs /\ prios (hnodes s') xs = prios (hnodes s) xs.
Proof.
  intros Hw [(la & Hs & Ht) Hnd Hc Hb] (p & h & Ha).
  destruct (new_ok sizeof_queue_node zero_node s p h Hw Ha) as (E & Hp & Hf & Hw').
  assert (Hpx : p ∉ xs.*1).
  { intros Hx. destruct (dseg_elem _ _ _ _ _ _ _ Hs Hx) as (_ & n & ?). congruence. }
  rewrite E. cbn [obind]. unfold queue_node_init. rewrite (proj2 (Z.eqb_neq p NULL)) by done.
  erewrite modify_ok; [|apply lookup_insert_eq|done]. cbn [obind hnodes hheap]. rewrite insert_insert_eq.
  eexists p, _. split_and!; try done.
  - pose proof (hwf_insert _ p zero_node (mk_node d NULL NULL pr) Hw') as Hw2.
    cbn in Hw2. rewrite lookup_insert_eq, insert_insert_eq in Hw2. by apply Hw2.
  - constructor; try done. exists la. split; [by apply dseg_insert|done].
  - apply prios_frame. intros x Hx. cbn. rewrite lookup_insert_ne; [done|by intros ->].
Qed.

Lemma enqueue_fifo_append q p s n :
  hnodes s !! p = Some n -> p ≠ NULL -> data n ≠ NULL -> 0 <= node_count q -> node_count q + 1 < 2 ^ 32 ->
  enqueue_fifo q p s = (let! s' := append q p s in Ok (push_tail q p, s')).
Proof.
  intros Hp Hn Hd Hc0 Hb. unfold enqueue_fifo, append, push_tail.
  rewrite (proj2 (Z.eqb_neq p NULL)) by done. rewrite (ld_ok s p n) by done. cbn [obind].
  rewrite (proj2 (Z.eqb_neq _ NULL)) by done. rewrite w32_small by lia.
  destruct (node_count q =? 0); [done|]. destruct (node_count q =? 1); rewrite obind_assoc; done.
Qed.

(** C12: enqueueing on a FIFO queue puts the datum behind all others, whatever
    the length of the queue, and touches no other queue. *)
Theorem enqueue_fifo_spec q s xs d pr :
  hwf s -> repr (hnodes s) q xs -> queue_mode q = QUEUE_MODE_FIFO -> d ≠ NULL ->
  kfresh sizeof_queue_node (hheap s) -> Z.of_nat (length xs) + 1 < 2 ^ 32 ->
  exists p q' s', enqueue q d pr s = Ok (q', s') /\ hwf s' /\
    repr (hnodes s') q' (xs ++ [(p, d)]) /\ queue_mode q' = queue_mode q /\ untouched xs.*1 s s'.
Proof.
  intros Hw Hr Hm Hd Hf Hb.
  destruct (fresh_node_ok q s xs d pr Hw Hr Hf) as (p & s1 & E & Hw1 & Hp & Hpn & Hns & Hpx & Hr1 & _).
  pose proof (repr_count _ _ _ Hr1) as Hc.
  destruct (append_ok s1 q xs p (mk_node d NULL NULL pr) Hw1 Hr1) as (s2 & Ea & Hw2 & Hr2 & Hu & _); try done.
  { rewrite Hns. apply lookup_insert_eq. }
  exists p, (push_tail q p), s2. split_and!; try done.
  - unfold enqueue. obind_inv. rewrite E0. cbn [obind]. rewrite E1. cbn [obind]. rewrite Hm. cbn.
    erewrite enqueue_fifo_append; [by rewrite Ea|rewrite Hns; apply lookup_insert_eq|done|done|lia|lia].
  - intros a n Ha Hax. apply Hu; [rewrite Hns; rewrite lookup_insert_ne; [done|congruence]|].
    apply not_elem_of_cons. split; [congruence|done].
Qed.

(** Removing the head: what dequeue_fifo and dequeue_priority both do. *)
Lemma dequeue_head_ok q s a d xs :
  hwf s -> repr (hnodes s) q ((a, d) :: xs) ->
  exists q' s', dequeue_fifo q s = Ok (q', s') /\ hwf s' /\ repr (hnodes s') q' xs /\
    queue_mode q' = queue_mode q /\ hnodes s' !! a = None /\ untouched (a :: xs.*1) s s' /\
    prios (hnodes s') xs = prios (hnodes s) xs.
Proof.
  intros Hw [(la & Hs & Ht) Hnd Hc Hb]. specialize (Ht ltac:(done)). cbn [fmap list_fmap fst] in Hnd.
  apply NoDup_cons in Hnd as [Hax Hnd]. pose proof Hs as Hs0. cbn [dseg] in Hs.
  destruct Hs as (Hh & Han & n & Hn & Hdn & Hpv & Hs). unfold dequeue_fifo.
  rewrite Hh, (proj2 (Z.eqb_neq a NULL)) by done. rewrite (ld_ok s a n) by done. cbn [obind].
  rewrite w32_small by (simpl length in *; lia).
  destruct xs as [|[b e] xs].
  - cbn [dseg d_next queue_dnode] in Hs. destruct Hs as [Hnx _]. rewrite Hnx, Z.eqb_refl.
    destruct (del_ok s a n Hw Hn) as (h & E & Hw'). rewrite E. cbn [obind].
    eexists _, _. split_and!; [done|done| |done|apply lookup_delete_eq| |done].
    + constructor; [|by apply NoDup_nil_2|cbn; rewrite Hc; cbn; lia|done]. exists NULL. by cbn.
    + intros x nx Hx Hxx. cbn. rewrite lookup_delete_ne; [done|set_solver].
  - pose proof Hs as Hs1. cbn [dseg d_next d_data d_prev queue_dnode] in Hs.
    destruct Hs as (Hnx & Hbn & m & Hm & Hdm & Hpm & Hs). rewrite Hnx in *.
    rewrite (proj2 (Z.eqb_neq b NULL)) by done. erewrite modify_ok by done. cbn [obind].
    cbn [fmap list_fmap fst] in *. apply NoDup_cons in Hnd as [Hbx Hnd].
    assert (Hab : a ≠ b) by (intros ->; set_solver).
    set (s1 := mk_hmem _ _). assert (Hw1 : hwf s1) by (by eapply hwf_insert).
    assert (Hn1 : hnodes s1 !! a = Some n) by (cbn; by rewrite lookup_insert_ne).
    destruct (del_ok s1 a n Hw1 Hn1) as (h & E & Hw'). rewrite E. cbn [obind].
    eexists _, _. split_and!; [done|done| |done|apply lookup_delete_eq| |].
    + constructor; cbn [head tail node_count hnodes s1]; [| |rewrite Hc; simpl length; lia|simpl length in *; lia].
      * exists la. split.
        -- apply dseg_delete; [cbn; set_solver|]. cbn [d_next queue_dnode] in Hs1. rewrite Hnx in Hs1.
           by eapply dseg_relink_first.
        -- intros _. rewrite Hc. case_match eqn:Hcase; [|done]. apply Z.eqb_eq in Hcase.
           destruct xs; [|simpl in Hcase; lia]. cbn [dseg] in Hs. naive_solver.
      * cbn. by apply NoDup_cons.
    + intros x nx Hx Hxx. cbn. rewrite lookup_delete_ne by set_solver.
      rewrite lookup_insert_ne; [done|set_solver].
    + apply prios_frame. intros x Hx. cbn [hnodes s1]. rewrite lookup_delete_ne by (intros ->; done).
      destruct (decide (x = b)) as [->|?]; [by rewrite lookup_insert_eq, Hm|cbn; by rewrite lookup_insert_ne].
Qed.

(** C13: dequeueing a FIFO or priority queue takes the head off and frees its
    node; on an empty queue it does nothing. *)
Theorem dequeue_spec q s xs :
  hwf s -> repr (hnodes s) q xs ->
  queue_mode q = QUEUE_MODE_FIFO \/ queue_mode q = QUEUE_MODE_PRIORITY ->
  exists q' s', dequeue q s = Ok (q', s') /\ hwf s' /\ repr (hnodes s') q' (tl xs) /\
    queue_mode q' = queue_mode q /\ (forall a d ys, xs = (a, d) :: ys -> hnodes s' !! a = None) /\
    untouched xs.*1 s s' /\ prios (hnodes s') (tl xs) = tl (prios (hnodes s) xs).
Proof.
  intros Hw Hr Hm.
  assert (E : dequeue q s = dequeue_fifo q s) by (unfold dequeue; by destruct Hm as [-> | ->]).
  rewrite E. destruct xs as [|[a d] xs].
  - exists q, s. pose proof (repr_seg _ _ _ Hr) as (la & (Hh & _) & _).
    unfold dequeue_fifo. rewrite Hh. split_and!; try done. by intros a n.
  - destruct (dequeue_head_ok q s a d xs Hw Hr) as (q' & s' & E' & Hw' & Hr' & Hm' & Hd & Hu & Hp).
    exists q', s'. split_and!; try done. intros ? ? ? [= <- <- <-]. done.
Qed.

(** C37: a LIFO queue does not hold more than one datum.  After an enqueue on a
    queue that is not empty, the new head's [next] is NULL: the next dequeue
    dereferences it. *)
Theorem lifo_dequeue_after_two_faults q s xs d pr :
  hwf s -> repr (hnodes s) q xs -> xs ≠ [] -> queue_mode q = QUEUE_MODE_LIFO -> d ≠ NULL ->
  kfresh sizeof_queue_node (hheap s) -> Z.of_nat (length xs) + 1 < 2 ^ 32 ->
  exists q' s', enqueue q d pr s = Ok (q', s') /\ node_count q' = Z.of_nat (length xs) + 1 /\
    dequeue q' s' = Fault.
Proof.
  intros Hw Hr Hne Hm Hd Hf Hb.
  destruct (fresh_node_ok q s xs d pr Hw Hr Hf) as (p & s1 & E & Hw1 & Hp & Hpn & Hns & Hpx & Hr1 & _).
  destruct Hr1 as [(la & Hs & _) _ Hc _]. obind_inv. destruct xs as [|[a e] xs]; [done|].
  destruct Hs as (Hh & Han & n & Hn & _). cbn [fmap list_fmap fst] in Hpx.
  assert (Hpa : p ≠ a) by (intros ->; apply Hpx; set_solver).
  unfold enqueue. rewrite E0. cbn [obind]. rewrite E1. cbn [obind]. rewrite Hm. cbn [Z.eqb QUEUE_MODE_LIFO QUEUE_MODE_FIFO].
  unfold enqueue_lifo. erewrite ld_ok; [|rewrite Hns; apply lookup_insert_eq|done]. cbn [obind data].
  rewrite (proj2 (Z.eqb_neq d NULL)) by done. rewrite Hc, (proj2 (Z.eqb_neq _ 0)) by (simpl; lia).
  rewrite Hh. erewrite modify_ok by done. cbn [obind Pos.eqb]. rewrite w32_small by lia.
  eexists _, _. split_and!; [done|done|].
  unfold dequeue. cbn [queue_mode]. rewrite Hm. cbn [Z.eqb QUEUE_MODE_LIFO QUEUE_MODE_FIFO Pos.eqb].
  unfold dequeue_lifo. cbn [head node_count]. rewrite (proj2 (Z.eqb_neq p NULL)) by done.
  rewrite (proj2 (Z.eqb_neq _ 1)) by (simpl length; lia).
  erewrite ld_ok; [|cbn; rewrite lookup_insert_ne by done; rewrite Hns; apply lookup_insert_eq|done].
  done.
Qed.

(** *** Priority mode *)
Definition desc (l : list Z) : Prop := StronglySorted (fun x y => y <= x) l.

(** [pr] is no higher than the last priority of [l]. *)
Definition last_ge (pr : Z) (l : list Z) : Prop :=
  match list.last l with Some x => pr <= x | None => True end.
#[local] Instance last_ge_dec pr l : Decision (last_ge pr l).
Proof. unfold last_ge. destruct (list.last l); apply _. Defined.

Lemma desc_snoc l x y : desc (l ++ [x]) -> y <= x -> desc ((l ++ [x]) ++ [y]).
Proof.
  unfold desc. induction l as [|z l IH]; intros Hs Hyx; cbn [app] in *.
  - repeat constructor; lia.
  - apply StronglySorted_inv in Hs as [Hs Hf]. constructor; [by apply IH|].
    apply Forall_app. split; [done|]. constructor; [|done].
    apply Forall_app in Hf as [_ Hf]. inversion Hf; subst. lia.
Qed.

Lemma prios_last s xs a d n :
  hnodes s !! a = Some n -> list.last (prios (hnodes s) (xs ++ [(a, d)])) = Some (priority n).
Proof. intros Hn. unfold prios. rewrite fmap_app. cbn. by rewrite Hn, last_snoc. Qed.

(** When the new node may go last, enqueue_priority appends it. *)
Lemma enqueue_priority_append q p s n xs :
  repr (hnodes s) q xs -> hnodes s !! p = Some n -> p ≠ NULL -> data n ≠ NULL ->
  Z.of_nat (length xs) + 1 < 2 ^ 32 ->
  last_ge (priority n) (prios (hnodes s) xs) ->
  enqueue_priority q p s = (let! s' := append q p s in Ok (push_tail q p, s')).
Proof.
  intros [(la & Hs & Ht) _ Hc _] Hp Hn Hd Hb Hle. unfold enqueue_priority, append, push_tail.
  rewrite (ld_ok s p n) by done. cbn [obind]. rewrite (proj2 (Z.eqb_neq _ NULL)) by done.
  rewrite Hc, w32_small by lia.
  destruct (decide (xs = [])) as [->|Hne]; [done|]. specialize (Ht Hne).
  rewrite (proj2 (Z.eqb_neq _ 0)) by (destruct xs; simpl; [done|lia]).
  destruct (exists_last Hne) as (ys & [a d] & ->). pose proof (dseg_last _ _ _ _ _ _ _ _ Hs) as ->.
  destruct (dseg_elem _ _ _ _ _ _ a Hs) as (Han & m & Hm); [rewrite fmap_app; simpl; set_solver|].
  unfold last_ge in Hle. rewrite (prios_last s ys a d m Hm) in Hle.
  destruct ys as [|[b e] ys].
  - cbn. destruct Hs as (Hh & _). rewrite Hh, (ld_ok s a m) by done. cbn [obind].
    rewrite (proj2 (Z.ltb_ge _ _)) by lia. by rewrite obind_assoc.
  - rewrite (proj2 (Z.eqb_neq _ 1)) by (simpl; rewrite length_app; simpl; lia).
    rewrite Ht, (ld_ok s a m) by done. cbn [obind]. rewrite (proj2 (Z.leb_le _ _)) by lia.
    by rewrite obind_assoc.
Qed.

(** A node of higher priority than the only one goes before it. *)
Lemma enqueue_priority_front q p s a e m d pr :
  hwf s -> repr (hnodes s) q [(a, e)] -> hnodes s !! p = Some (mk_node d NULL NULL pr) -> p ≠ a ->
  hnodes s !! a = Some m -> d ≠ NULL -> priority m < pr ->
  exists q' s', enqueue_priority q p s = Ok (q', s') /\ hwf s' /\
    repr (hnodes s') q' [(p, d); (a, e)] /\ prios (hnodes s') [(p, d); (a, e)] = [pr; priority m] /\
    untouched [p; a] s s'.
Proof.
  intros Hw [(la & Hs & Ht) Hnd Hc Hb] Hp Hpa Hm Hd Hlt. specialize (Ht ltac:(done)).
  pose proof (hwf_nonnull _ _ _ Hw Hp) as Hpn. cbn [dseg d_data d_next d_prev queue_dnode] in Hs.
  destruct Hs as (Hh & Han & m' & Hm' & Hdm & Hpv & Hnx & <-).
  rewrite Hm in Hm'. injection Hm' as <-.
  unfold enqueue_priority. rewrite (ld_ok s p _ Hp Hpn). cbn [obind data priority].
  rewrite (proj2 (Z.eqb_neq d NULL)) by done. rewrite Hc. cbn [length Z.of_nat Z.eqb Pos.of_succ_nat Pos.eqb].
  rewrite Hh, (ld_ok s a m) by done. cbn [obind]. rewrite (proj2 (Z.ltb_lt _ _)) by lia.
  erewrite modify_ok by done. cbn [obind].
  erewrite modify_ok; [|cbn; by rewrite lookup_insert_ne|done]. cbn [obind hnodes hheap].
  eexists _, _. split_and!; [done| | | |].
  - eapply hwf_upd; [by apply (hwf_insert s a m)|cbn; by rewrite lookup_insert_ne].
  - constructor; cbn [head tail node_count hnodes]; try done.
    + exists a. split; [|by rewrite Ht]. cbn. split_and!; [done|done|]. eexists.
      rewrite lookup_insert_eq. split_and!; [done|done|done|done|done|]. exists (set_prev p m).
      rewrite lookup_insert_ne, lookup_insert_eq by done. by split_and!.
    + cbn. apply NoDup_cons. split; [set_solver|apply NoDup_singleton].
  - unfold prios. cbn. rewrite lookup_insert_eq. cbn.
    by rewrite lookup_insert_ne, lookup_insert_eq by done.
  - intros x nx Hx Hxx. cbn. rewrite !lookup_insert_ne by set_solver. done.
Qed.

(** Priority mode keeps the queue sorted by falling priority, a node behind
    those of its own priority, as long as the queue has at most one node or the
    new priority is no higher than the tail's. *)
Theorem enqueue_priority_sorted q s xs d pr :
  hwf s -> repr (hnodes s) q xs -> queue_mode q = QUEUE_MODE_PRIORITY -> d ≠ NULL ->
  kfresh sizeof_queue_node (hheap s) -> Z.of_nat (length xs) + 1 < 2 ^ 32 ->
  desc (prios (hnodes s) xs) ->
  (length xs <= 1)%nat \/ last_ge pr (prios (hnodes s) xs) ->
  exists p q' s' xs', enqueue q d pr s = Ok (q', s') /\ hwf s' /\ repr (hnodes s') q' xs' /\
    xs' ≡ₚ xs ++ [(p, d)] /\ desc (prios (hnodes s') xs') /\ untouched xs.*1 s s'.
Proof.
  intros Hw Hr Hm Hd Hf Hb Hsort Hcase.
  destruct (fresh_node_ok q s xs d pr Hw Hr Hf) as (p & s1 & E & Hw1 & Hp & Hpn & Hns & Hpx & Hr1 & Hpr).
  assert (Hp1 : hnodes s1 !! p = Some (mk_node d NULL NULL pr)) by (rewrite Hns; apply lookup_insert_eq).
  assert (Hen : enqueue q d pr s = enqueue_priority q p s1).
  { unfold enqueue. obind_inv. rewrite E0. cbn [obind]. rewrite E1. cbn [obind]. by rewrite Hm. }
  assert (Hun : forall s', untouched (p :: xs.*1) s1 s' -> untouched xs.*1 s s').
  { intros s' Hu a n Ha Hax. apply Hu; [rewrite Hns, lookup_insert_ne; [done|congruence]|].
    apply not_elem_of_cons. split; [congruence|done]. }
  rewrite Hen, <- Hpr in *. clear E Hen.
  destruct (decide (last_ge pr (prios (hnodes s1) xs))) as [Hle|Hgt].
  - destruct (append_ok s1 q xs p (mk_node d NULL NULL pr) Hw1 Hr1)
      as (s2 & Ea & Hw2 & Hr2 & Hu & _ & Hp2); try done.
    erewrite enqueue_priority_append; try done. rewrite Ea.
    exists p, (push_tail q p), s2, (xs ++ [(p, d)]). cbn [data] in Hr2. split_and!; auto.
    cbn [data priority] in Hp2. rewrite Hp2.
    destruct (decide (prios (hnodes s1) xs = [])) as [->|Hne]; [repeat constructor|].
    destruct (exists_last Hne) as (l & x & El). rewrite El in *. apply desc_snoc; [done|].
    unfold last_ge in Hle. by rewrite last_snoc in Hle.
  - destruct Hcase as [Hl|]; [|done]. destruct xs as [|[a e] [|]]; [|clear Hl|simpl in Hl; lia].
    { by destruct Hgt. }
    pose proof (repr_seg _ _ _ Hr1) as (la & (_ & _ & m & Hm1 & _) & _).
    cbn [fmap list_fmap fst] in Hpx. apply not_elem_of_cons in Hpx as [Hpa _].
    destruct (enqueue_priority_front q p s1 a e m d pr) as (q' & s' & E & Hw' & Hr' & Hp' & Hu); try done.
    { apply Z.nle_gt. intros Hle. apply Hgt. unfold last_ge, prios. cbn. by rewrite Hm1. }
    exists p, q', s', [(p, d); (a, e)]. split_and!; auto; [apply perm_swap|].
    rewrite Hp'. unfold last_ge, prios in Hgt. cbn in Hgt. rewrite Hm1 in Hgt.
    repeat constructor. lia.
Qed.

(** The walk of enqueue_priority stops before the first node of lower priority
    and changes no node's [next] except the new one's. *)
Lemma enqueue_priority_loop_ok p n xs : forall fuel ptr s,
  fseg (hnodes s) ptr xs NULL -> p ∉ xs.*1 -> hnodes s !! p = Some n -> p ≠ NULL ->
  ~ last_ge (priority n) (prios (hnodes s) xs) -> (length xs <= fuel)%nat ->
  exists s', enqueue_priority_loop fuel ptr p s = Ok (true, s') /\
    forall a, a ≠ p -> same_fwd (hnodes s) (hnodes s') a.
Proof.
  induction xs as [|[a d] xs IH]; intros fuel ptr s Hs Hpx Hp Hpn Hlt Hf; [by destruct Hlt|].
  destruct fuel as [|fuel]; [simpl in Hf; lia|]. cbn [fseg] in Hs.
  destruct Hs as (-> & Han & m & Hm & Hd & Hs). cbn [fmap list_fmap fst] in Hpx.
  apply not_elem_of_cons in Hpx as [Hpa Hpx].
  cbn [enqueue_priority_loop]. rewrite (proj2 (Z.eqb_neq a NULL)) by done.
  rewrite (ld_ok s a m), (ld_ok s p n) by done. cbn [obind].
  destruct (Z.ltb_spec (priority m) (priority n)) as [Hlt2|Hge].
  - erewrite modify_ok by done. cbn [obind].
    erewrite modify_ok; [|apply lookup_insert_eq|done]. cbn [obind hnodes hheap]. rewrite insert_insert_eq.
    erewrite modify_ok; [|cbn; rewrite lookup_insert_ne; [exact Hm|done]|done]. cbn [obind].
    eexists. split; [done|]. intros x Hx. unfold same_fwd. cbn [hnodes].
    destruct (decide (x = a)) as [->|Hxa]; [by rewrite lookup_insert_eq, Hm|].
    by rewrite !lookup_insert_ne.
  - apply IH; try done; [|simpl in Hf; lia]. intros Hle. apply Hlt. revert Hle.
    unfold last_ge, prios. cbn. rewrite Hm. destruct xs as [|[b e] xs]; [|done]. cbn. lia.
Qed.

(** What a priority enqueue on two nodes or more starts with. *)
Lemma enqueue_priority_two q s a e ys d pr :
  hwf s -> repr (hnodes s) q ((a, e) :: ys) -> ys ≠ [] -> queue_mode q = QUEUE_MODE_PRIORITY ->
  d ≠ NULL -> kfresh sizeof_queue_node (hheap s) -> Z.of_nat (length ys) + 2 < 2 ^ 32 ->
  ~ last_ge pr (prios (hnodes s) ((a, e) :: ys)) ->
  exists p s1 m, hnodes s1 !! p = Some (mk_node d NULL NULL pr) /\ p ≠ NULL /\
    p ∉ ((a, e) :: ys).*1 /\ hnodes s1 !! a = Some m /\ hnodes s !! a = Some m /\
    repr (hnodes s1) q ((a, e) :: ys) /\ ~ last_ge pr (prios (hnodes s1) ((a, e) :: ys)) /\
    enqueue q d pr s =
      if priority m <=? pr then
        let! s := modify s1 p (set_next (next m)) in
        let! s := modify s a (set_next p) in
        let! s := modify s p (set_prev a) in
        Ok (mk_queue (head q) (tail q) (queue_mode q) (node_count q + 1) (spinlock q), s)
      else
        let! (placed, s) := enqueue_priority_loop (S (size (hnodes s1))) a p s1 in
        Ok (mk_queue (head q) (tail q) (queue_mode q)
              (if placed then node_count q + 1 else node_count q) (spinlock q), s).
Proof.
  intros Hw Hr Hne Hm Hd Hf Hb Hlt.
  destruct (fresh_node_ok q s _ d pr Hw Hr Hf) as (p & s1 & E & Hw1 & Hp & Hpn & Hns & Hpx & Hr1 & Hpr).
  obind_inv. pose proof (repr_seg _ _ _ Hr) as (la0 & (_ & _ & m0 & Hm0 & _) & _).
  assert (Hp1 : hnodes s1 !! p = Some (mk_node d NULL NULL pr)) by (rewrite Hns; apply lookup_insert_eq).
  pose proof Hr1 as [(la & Hs & Ht) Hnd Hc _]. specialize (Ht ltac:(done)).
  exists p, s1, m0. rewrite Hpr.
  assert (Hpa : p ≠ a) by (cbn in Hpx; set_solver).
  assert (Hma : hnodes s1 !! a = Some m0) by (by rewrite Hns, lookup_insert_ne).
  split_and!; try done. unfold enqueue. rewrite E0. cbn [obind]. rewrite E1. cbn [obind].
  rewrite Hm. cbn [Z.eqb QUEUE_MODE_PRIORITY QUEUE_MODE_LIFO QUEUE_MODE_FIFO Pos.eqb].
  unfold enqueue_priority. rewrite (ld_ok s1 p _ Hp1 Hpn). cbn [obind data priority].
  rewrite (proj2 (Z.eqb_neq d NULL)) by done.
  rewrite Hc, (proj2 (Z.eqb_neq _ 0)) by (simpl; lia).
  rewrite (proj2 (Z.eqb_neq _ 1)) by (destruct ys; [done|simpl; lia]).
  destruct (exists_last Hne) as (zs & [b f] & ->). rewrite app_comm_cons in Hs, Hlt, Hpr.
  destruct (dseg_elem _ _ _ _ _ _ b Hs) as (Hbn & k & Hk); [rewrite fmap_app; simpl; set_solver|].
  pose proof (dseg_last _ _ _ _ _ _ _ _ Hs) as ->.
  rewrite Ht, (ld_ok s1 b k) by done. cbn [obind]. rewrite <- Hpr in Hlt.
  unfold last_ge in Hlt. rewrite (prios_last s1 _ b f k Hk) in Hlt.
  rewrite (proj2 (Z.leb_gt _ _)) by lia. destruct Hs as (Hh & Han & _).
  rewrite Hh, (ld_ok s1 a m0) by done. cbn [obind]. rewrite w32_small by (simpl length; lia). by rewrite Hm.
Qed.

(** C36: a node whose priority lies strictly between the tail's and the head's
    is lost: a walk from the head of the queue still visits the old nodes only,
    though the node count has gone up. *)
Theorem enqueue_priority_middle_lost q s a e ys d pr m :
  hwf s -> repr (hnodes s) q ((a, e) :: ys) -> ys ≠ [] -> queue_mode q = QUEUE_MODE_PRIORITY ->
  d ≠ NULL -> kfresh sizeof_queue_node (hheap s) -> Z.of_nat (length ys) + 2 < 2 ^ 32 ->
  ~ last_ge pr (prios (hnodes s) ((a, e) :: ys)) -> hnodes s !! a = Some m -> pr < priority m ->
  exists q' s', enqueue q d pr s = Ok (q', s') /\
    fseg (hnodes s') (head q') ((a, e) :: ys) NULL /\ node_count q' = Z.of_nat (length ys) + 2.
Proof.
  intros Hw Hr Hne Hmd Hd Hf Hb Hlt Hm Hpr.
  destruct (enqueue_priority_two q s a e ys d pr) as (p & s1 & m' & Hp & Hpn & Hpx & Hm1 & Hm2 & Hr1 & Hl & ->);
    try done.
  rewrite Hm in Hm2. injection Hm2 as <-. rewrite (proj2 (Z.leb_gt _ _)) by lia.
  destruct Hr1 as [(la & Hs & _) Hnd Hc _]. pose proof (dseg_fseg _ _ _ _ _ _ Hs) as Hfs.
  pose proof (dseg_size _ _ _ _ _ _ Hs Hnd) as Hsz. pose proof Hs as (Hh & _). rewrite Hh in *.
  destruct (enqueue_priority_loop_ok p _ _ (S (size (hnodes s1))) a s1 Hfs Hpx Hp Hpn Hl) as (s2 & E & Hsame).
  { lia. }
  rewrite E. cbn [obind]. eexists _, _. split; [done|]. cbn [head node_count]. split.
  - eapply fseg_frame; [|exact Hfs]. intros x Hx. apply Hsame. by intros ->.
  - rewrite Hc. simpl length. lia.
Qed.

(** A node of higher priority than every other one is placed second, after
    the head it should precede. *)
Theorem enqueue_priority_highest_second q s a e ys d pr m :
  hwf s -> repr (hnodes s) q ((a, e) :: ys) -> ys ≠ [] -> queue_mode q = QUEUE_MODE_PRIORITY ->
  d ≠ NULL -> kfresh sizeof_queue_node (hheap s) -> Z.of_nat (length ys) + 2 < 2 ^ 32 ->
  ~ last_ge pr (prios (hnodes s) ((a, e) :: ys)) -> hnodes s !! a = Some m -> priority m <= pr ->
  exists p q' s', enqueue q d pr s = Ok (q', s') /\
    fseg (hnodes s') (head q') ((a, e) :: (p, d) :: ys) NULL /\
    node_count q' = Z.of_nat (length ys) + 2.
Proof.
  intros Hw Hr Hne Hmd Hd Hf Hb Hlt Hm Hpr.
  destruct (enqueue_priority_two q s a e ys d pr) as (p & s1 & m' & Hp & Hpn & Hpx & Hm1 & Hm2 & Hr1 & Hl & ->);
    try done.
  rewrite Hm in Hm2. injection Hm2 as <-. rewrite (proj2 (Z.leb_le _ _)) by lia.
  destruct Hr1 as [(la & Hs & _) Hnd Hc _]. pose proof (dseg_fseg _ _ _ _ _ _ Hs) as Hfs.
  cbn [fseg] in Hfs. destruct Hfs as (Hh & Han & k & Hk & He & Hfs).
  rewrite Hm1 in Hk. injection Hk as <-. cbn [fmap list_fmap fst] in Hpx, Hnd.
  apply not_elem_of_cons in Hpx as [Hpa Hpx]. apply NoDup_cons in Hnd as [Hax _].
  erewrite modify_ok by done. cbn [obind].
  erewrite modify_ok; [|cbn; rewrite lookup_insert_ne; [exact Hm1|done]|done]. cbn [obind hnodes hheap].
  erewrite modify_ok; [|cbn; rewrite lookup_insert_ne by done; apply lookup_insert_eq|done].
  cbn [obind hnodes hheap]. eexists p, _, _. split; [done|]. cbn [head node_count hnodes]. split.
  - cbn [fseg]. rewrite Hh. split_and!; [done|done|]. eexists.
    rewrite lookup_insert_ne, lookup_insert_eq by done. split_and!; [done|done|done|done|].
    eexists. rewrite lookup_insert_eq. split_and!; [done|done|].
    eapply fseg_frame; [|exact Hfs]. intros x Hx. unfold same_fwd.
    rewrite !lookup_insert_ne; [done|..]; intros ->; done.
  - rewrite Hc. simpl length. lia.
Qed.

End Spec.
End Queue.
