(* ===== verification/DoublyLinkedList.v ===== *)
(** * Doubly linked lists (kernel/src/data_structures/doubly_linked_list.c)

    Lists of heap nodes with a head, a tail and a count; the tail pointer only
    means something from two nodes on. *)

From S2P Require Import Prelude KAlloc HeapStore.

Module DLL.

Definition sizeof_node : Z := 24.

(** struct doubly_linked_list_node *)
Record node : Type := mk_node { data : Z; next : Z; prev : Z }.

Definition zero_node : node := mk_node 0 0 0.

(** struct doubly_linked_list *)
Record dlist : Type := mk_dlist { head : Z; tail : Z; node_count : Z }.

#[export] Instance dll_dnode : DNode node :=
  { d_data := data; d_next := next; d_prev := prev }.

Definition set_data (v : Z) (n : node) : node := mk_node v (next n) (prev n).
Definition set_next (v : Z) (n : node) : node := mk_node (data n) v (prev n).
Definition set_prev (v : Z) (n : node) : node := mk_node (data n) (next n) v.

Section Ops.
Context {A : Type} `{KAlloc A}.
Abbreviation mem := (hmem node A).
Implicit Types (s : mem) (l : dlist).

Definition doubly_linked_list_init : dlist := mk_dlist NULL NULL 0.

Definition doubly_linked_list_insert_tail l (d : Z) s : outcome (dlist * mem) :=
  let! (new_node, s) := new sizeof_node zero_node s in
  let! s := modify s new_node (set_data d) in
  if node_count l =? 0 then Ok (mk_dlist new_node NULL (w64 (node_count l + 1)), s)
  else if node_count l =? 1 then
    let! s := modify s (head l) (set_next new_node) in
    let! s := modify s new_node (set_prev (head l)) in
    Ok (mk_dlist (head l) new_node (w64 (node_count l + 1)), s)
  else
    let! s := modify s (tail l) (set_next new_node) in
    let! s := modify s new_node (set_prev (tail l)) in
    Ok (mk_dlist (head l) new_node (w64 (node_count l + 1)), s).

Definition doubly_linked_list_insert_head l (d : Z) s : outcome (dlist * mem) :=
  let! (new_head, s) := new sizeof_node zero_node s in
  let! s := modify s new_head (set_data d) in
  if node_count l =? 0 then
    let! s := modify s new_head (set_next NULL) in
    let! s := modify s new_head (set_prev NULL) in
    Ok (mk_dlist new_head NULL (w64 (node_count l + 1)), s)
  else
    let! s := modify s new_head (set_next (head l)) in
    let! s := modify s (head l) (set_prev new_head) in
    let! s := modify s new_head (set_prev NULL) in
    Ok (mk_dlist new_head (tail l) (w64 (node_count l + 1)), s).

Definition doubly_linked_list_remove_tail l s : outcome (dlist * mem) :=
  if node_count l =? 0 then Ok (l, s)
  else if node_count l =? 1 then
    let! s := del (head l) s in
    Ok (mk_dlist NULL NULL (w64 (node_count l - 1)), s)
  else
    let! t := ld s (tail l) in
    let tl := prev t in
    let! t := ld s tl in
    let! s := del (next t) s in
    let! s := modify s tl (set_next NULL) in
    Ok (mk_dlist (head l) tl (w64 (node_count l - 1)), s).

Definition doubly_linked_list_remove_head l s : outcome (dlist * mem) :=
  if node_count l =? 0 then Ok (l, s)
  else if node_count l =? 1 then
    let! s := del (head l) s in
    Ok (mk_dlist NULL NULL (w64 (node_count l - 1)), s)
  else
    let! h := ld s (head l) in
    let hd := next h in
    let! h := ld s hd in
    let! s := del (prev h) s in
    let! s := modify s hd (set_prev NULL) in
    Ok (mk_dlist hd (tail l) (w64 (node_count l - 1)), s).

(** The removed node is unlinked and not freed. *)
Definition doubly_linked_list_remove_node_by_address l (node : Z) s : outcome (dlist * mem) :=
  let! n := ld s node in
  let count := w64 (node_count l - 1) in
  if (next n =? NULL) && (prev n =? NULL) then Ok (mk_dlist NULL NULL count, s)
  else if next n =? NULL then
    let! s := modify s (prev n) (set_next NULL) in
    Ok (mk_dlist (head l) (prev n) count, s)
  else if prev n =? NULL then
    let! s := modify s (next n) (set_prev NULL) in
    Ok (mk_dlist (next n) (tail l) count, s)
  else
    let! s := modify s (prev n) (set_next (next n)) in
    let! n := ld s node in
    let! s := modify s (next n) (set_prev (prev n)) in
    Ok (mk_dlist (head l) (tail l) count, s).

(** The function starts with a call to [panic]. *)
Definition doubly_linked_list_remove_node_by_data_address l (d : Z) s : outcome (dlist * mem) :=
  Panic.

(** The loop of doubly_linked_list_destroy; [free_data] also gives the data
    pointers back to the allocator. *)
Fixpoint destroy_loop (fuel : nat) (free_data : bool) (current : Z) s : outcome mem :=
  match fuel with
  | O => Timeout
  | S fuel =>
    if current =? NULL then Ok s
    else
      let! n := ld s current in
      let! s := (if free_data
                 then let! h := kfree (data n) (hheap s) in Ok (mk_hmem (hnodes s) h)
                 else Ok s) in
      let! s := del current s in
      destroy_loop fuel free_data (next n) s
  end.

(** doubly_linked_list_destroy of the list at address [list] *)
Definition doubly_linked_list_destroy (list : Z) l (free_data : bool) s : outcome mem :=
  if list =? NULL then Ok s
  else
    let! s := destroy_loop (S (size (hnodes s))) free_data (head l) s in
    let! h := kfree list (hheap s) in
    Ok (mk_hmem (hnodes s) h).

End Ops.

(** ** Representation *)

(** The list [l] holds [xs], the tail pointer left aside. *)
Record chain (ns : gmap Z node) (l : dlist) (xs : list (Z * Z)) (la : Z) : Prop := mk_chain {
  chain_seg : dseg ns NULL (head l) xs la NULL;
  chain_nodup : NoDup xs.*1;
  chain_count : node_count l = Z.of_nat (length xs);
  chain_bound : Z.of_nat (length xs) < 2 ^ 64;
}.

(** From two nodes on, [tail] is the last of them. *)
Definition repr (ns : gmap Z node) (l : dlist) (xs : list (Z * Z)) : Prop :=
  exists la, chain ns l xs la /\ ((2 <= length xs)%nat -> tail l = la).

Definition untouched {A} (xs : list Z) (s s' : hmem node A) : Prop :=
  forall a n, hnodes s !! a = Some n -> a ∉ xs -> hnodes s' !! a = Some n.

(** ** The operations as commands *)
Inductive cmd : Type :=
| InsertTail (d : Z)
| InsertHead (d : Z)
| RemoveTail
| RemoveHead
| RemoveNode (a : Z).

(** What a command does to the list; [p] is the address of a new node. *)
Definition spec (c : cmd) (p : Z) (xs : list (Z * Z)) : list (Z * Z) :=
  match c with
  | InsertTail d => xs ++ [(p, d)]
  | InsertHead d => (p, d) :: xs
  | RemoveTail => removelast xs
  | RemoveHead => tl xs
  | RemoveNode a => filter (fun x => x.1 ≠ a) xs
  end.

(** When it may be called: the removed node is in the list, and [insert_head] on
    a list of one node finds [tail] on that node already. *)
Definition allowed (c : cmd) (l : dlist) (xs : list (Z * Z)) : Prop :=
  match c with
  | InsertHead _ => length xs = 1%nat -> tail l = head l
  | RemoveNode a => a ∈ xs.*1
  | _ => True
  end.

Definition exec {A} `{KAlloc A} (c : cmd) (l : dlist) (s : hmem node A) : outcome (dlist * hmem node A) :=
  match c with
  | InsertTail d => doubly_linked_list_insert_tail l d s
  | InsertHead d => doubly_linked_list_insert_head l d s
  | RemoveTail => doubly_linked_list_remove_tail l s
  | RemoveHead => doubly_linked_list_remove_head l s
  | RemoveNode a => doubly_linked_list_remove_node_by_address l a s
  end.

Section Spec.
Context {A : Type} `{KAllocSpec A}.
Implicit Types (s : hmem node A) (l : dlist).

(** A node made by [kmalloc] with its datum set. *)
Lemma dll_fresh_node_ok s ns pr hd xs la q d :
  hwf s -> ns = hnodes s -> dseg ns pr hd xs la q -> kfresh sizeof_node (hheap s) ->
  exists p s1 s', new sizeof_node zero_node s = Ok (p, s1) /\ modify s1 p (set_data d) = Ok s' /\
    hwf s' /\ p ≠ NULL /\ hnodes s !! p = None /\ p ∉ xs.*1 /\
    hnodes s' = <[p := mk_node d NULL NULL]> (hnodes s) /\ dseg (hnodes s') pr hd xs la q.
Proof.
  intros Hw -> Hs (p & h & Ha). destruct (new_ok sizeof_node zero_node s p h Hw Ha) as (E & Hp & Hf & Hw').
  assert (Hpx : p ∉ xs.*1).
  { intros Hx. destruct (dseg_elem _ _ _ _ _ _ _ Hs Hx) as (_ & n & ?). congruence. }
  eexists p, _, _. rewrite E. split; [done|].
  erewrite modify_ok; [|apply lookup_insert_eq|done]. cbn [hnodes hheap]. split; [done|].
  split; [by eapply hwf_upd; [exact Hw'|apply lookup_insert_eq]|].
  rewrite insert_insert_eq. split_and!; try done. by apply dseg_insert.
Qed.

(** Putting a new node [p] last. *)
Lemma link_last ns hd ys a e la m p n :
  dseg ns NULL hd (ys ++ [(a, e)]) la NULL -> NoDup (ys ++ [(a, e)]).*1 -> ns !! a = Some m ->
  p ∉ (ys ++ [(a, e)]).*1 -> p ≠ NULL -> next n = NULL ->
  dseg (<[p := set_prev a n]> (<[a := set_next p m]> ns)) NULL hd ((ys ++ [(a, e)]) ++ [(p, data n)]) p NULL.
Proof.
  intros Hs Hnd Ha Hp Hpn Hn. pose proof Hp as Hp'. rewrite fmap_app in Hnd, Hp'.
  apply NoDup_app in Hnd as (_ & Hdis & _).
  assert (Hax : a ∉ ys.*1) by (intros Hx; apply (Hdis a Hx); simpl; set_solver).
  apply dseg_app. exists a, p. split.
  - apply dseg_insert; [done|]. by eapply dseg_relink_last.
  - cbn [dseg]. split_and!; [done|done|]. eexists. rewrite lookup_insert_eq. by split_and!.
Qed.

Lemma dll_insert_tail_ok l s xs d :
  hwf s -> repr (hnodes s) l xs -> kfresh sizeof_node (hheap s) -> Z.of_nat (length xs) + 1 < 2 ^ 64 ->
  exists p l' s', doubly_linked_list_insert_tail l d s = Ok (l', s') /\ hwf s' /\
    repr (hnodes s') l' (xs ++ [(p, d)]) /\ untouched xs.*1 s s'.
Proof.
  intros Hw (la & [Hs Hnd Hc Hb] & Ht) Hf Hlen.
  destruct (dll_fresh_node_ok s _ _ _ _ _ _ d Hw eq_refl Hs Hf)
    as (p & s1 & s2 & E1 & E2 & Hw2 & Hpn & Hpf & Hpx & Hns & Hs2).
  assert (Hp2 : hnodes s2 !! p = Some (mk_node d NULL NULL)) by (rewrite Hns; apply lookup_insert_eq).
  unfold doubly_linked_list_insert_tail. rewrite E1. cbn [obind]. rewrite E2. cbn [obind].
  rewrite Hc, w64_small by lia. exists p.
  destruct (decide (xs = [])) as [->|Hne].
  { cbn. eexists _, s2. split_and!; [done|done| |].
    - exists p. split; [|simpl; lia]. constructor; [|by apply NoDup_singleton|done|done].
      cbn. split_and!; [done|done|]. by eexists.
    - intros a n Ha _. rewrite Hns, lookup_insert_ne; [done|congruence]. }
  rewrite (proj2 (Z.eqb_neq _ 0)) by (destruct xs; simpl; [done|lia]).
  destruct (exists_last Hne) as (ys & [a e] & ->). pose proof (dseg_last _ _ _ _ _ _ _ _ Hs) as ->.
  destruct (dseg_elem _ _ _ _ _ _ a Hs2) as (Han & m & Hm); [rewrite fmap_app; simpl; set_solver|].
  assert (Hpa : p ≠ a) by (intros ->; apply Hpx; rewrite fmap_app; simpl; set_solver).
  assert (Htgt : forall k, (if Z.of_nat (length (ys ++ [(a, e)])) =? 1 then k (head l) else k (tail l)) = k a :> outcome (dlist * hmem node A)).
  { intros k. destruct ys as [|[b f] ys]; [cbn; by destruct Hs as (-> & _)|].
    rewrite (proj2 (Z.eqb_neq _ 1)), Ht by (simpl; rewrite length_app; simpl; lia). done. }
  rewrite (Htgt (fun tgt => let! s := modify s2 tgt (set_next p) in
    let! s := modify s p (set_prev tgt) in Ok (mk_dlist (head l) p (Z.of_nat (length (ys ++ [(a, e)])) + 1), s))).
  erewrite modify_ok by done. cbn [obind].
  erewrite modify_ok; [|cbn; by rewrite lookup_insert_ne|done]. cbn [obind hnodes hheap].
  eexists _, _. split_and!; [done| | |].
  - eapply hwf_upd; [by apply (hwf_insert s2 a m)|cbn; by rewrite lookup_insert_ne].
  - exists p. split; [|done]. constructor; cbn [head node_count hnodes].
    + by apply (link_last (hnodes s2) (head l) ys a e a m p (mk_node d NULL NULL)).
    + rewrite fmap_app. apply NoDup_app. split_and!; [done| |apply NoDup_singleton].
      intros x Hx. simpl. set_solver.
    + rewrite (length_app _ [(p, d)]). simpl. lia.
    + rewrite (length_app _ [(p, d)]). simpl. lia.
  - intros x n Hx Hxx. cbn [hnodes]. rewrite lookup_insert_ne by congruence.
    rewrite lookup_insert_ne, Hns, lookup_insert_ne; [done|congruence|].
    intros ->. apply Hxx. rewrite fmap_app. simpl. set_solver.
Qed.

(** The chain is right after [insert_head] even where the tail is not. *)
Lemma dll_insert_head_ok l s xs la d :
  hwf s -> chain (hnodes s) l xs la -> kfresh sizeof_node (hheap s) -> Z.of_nat (length xs) + 1 < 2 ^ 64 ->
  exists p l' s', doubly_linked_list_insert_head l d s = Ok (l', s') /\ hwf s' /\
    chain (hnodes s') l' ((p, d) :: xs) (if decide (xs = []) then p else la) /\
    tail l' = (if decide (xs = []) then NULL else tail l) /\ untouched xs.*1 s s'.
Proof.
  intros Hw [Hs Hnd Hc Hb] Hf Hlen.
  destruct (dll_fresh_node_ok s _ _ _ _ _ _ d Hw eq_refl Hs Hf)
    as (p & s1 & s2 & E1 & E2 & Hw2 & Hpn & Hpf & Hpx & Hns & Hs2).
  assert (Hp2 : hnodes s2 !! p = Some (mk_node d NULL NULL)) by (rewrite Hns; apply lookup_insert_eq).
  unfold doubly_linked_list_insert_head. rewrite E1. cbn [obind]. rewrite E2. cbn [obind].
  rewrite Hc, w64_small by lia. exists p.
  destruct xs as [|[a e] xs].
  - cbn. erewrite modify_ok by done. cbn [obind].
    erewrite modify_ok; [|apply lookup_insert_eq|done]. cbn [obind hnodes hheap]. rewrite insert_insert_eq.
    eexists _, _. split_and!; [done| | |done|].
    + by apply (hwf_insert s2 p (mk_node d NULL NULL)).
    + constructor; [|by apply NoDup_singleton|done|done].
      cbn. split_and!; [done|done|]. eexists. by rewrite lookup_insert_eq.
    + intros a n Ha _. cbn. rewrite lookup_insert_ne, Hns, lookup_insert_ne; [done|congruence|congruence].
  - rewrite (proj2 (Z.eqb_neq _ 0)) by (simpl; lia).
    pose proof Hs2 as (Hh & Han & m & Hm & _). cbn [fmap list_fmap fst] in Hpx.
    apply not_elem_of_cons in Hpx as [Hpa Hpx]. cbn [fmap list_fmap fst] in Hnd.
    pose proof Hnd as Hnd'. apply NoDup_cons in Hnd' as [Hax _].
    erewrite modify_ok by done. cbn [obind]. rewrite Hh.
    erewrite modify_ok; [|cbn; by rewrite lookup_insert_ne|done]. cbn [obind hnodes hheap].
    erewrite modify_ok; [|cbn; rewrite lookup_insert_ne by done; apply lookup_insert_eq|done].
    cbn [obind hnodes hheap]. eexists _, _. split_and!; [done| | |done|].
    + eapply hwf_upd; [|rewrite lookup_insert_ne by done; apply lookup_insert_eq].
      eapply hwf_upd; [by apply (hwf_insert s2 p (mk_node d NULL NULL))|cbn; by rewrite lookup_insert_ne].
    + constructor; cbn [head node_count hnodes]; [|cbn; apply NoDup_cons; set_solver|simpl length in *; lia|simpl length in *; lia].
      eapply dseg_cons; [done|apply lookup_insert_eq|done|done|].
      cbn [d_next dll_dnode next set_prev set_next].
      apply dseg_insert; [cbn; set_solver|]. rewrite Hh in Hs2.
      eapply dseg_relink_first with (n := m); [apply dseg_insert; [cbn; set_solver|exact Hs2]|done| |done|done|done].
      rewrite lookup_insert_ne by done. exact Hm.
    + intros x n Hx Hxx. cbn [hnodes]. cbn [fmap list_fmap fst] in Hxx.
      rewrite !lookup_insert_ne by set_solver. rewrite Hns, lookup_insert_ne; [done|congruence].
Qed.

(** Freeing the only node of a list. *)
Lemma remove_only_ok s l a e la :
  hwf s -> chain (hnodes s) l [(a, e)] la ->
  exists s', del (head l) s = Ok s' /\ hwf s' /\
    repr (hnodes s') (mk_dlist NULL NULL (w64 (node_count l - 1))) [] /\ untouched [a] s s'.
Proof.
  intros Hw [(Hh & Han & n & Hn & _) Hnd Hc Hb]. rewrite Hh.
  destruct (del_ok s a n Hw Hn) as (h & E & Hw'). eexists. split_and!; [exact E|done| |].
  - exists NULL. split; [|simpl; lia]. constructor; [done|apply NoDup_nil_2|by rewrite Hc|done].
  - intros x nx Hx Hxx. cbn. rewrite lookup_delete_ne; [done|set_solver].
Qed.

Lemma dll_remove_head_ok l s xs :
  hwf s -> repr (hnodes s) l xs ->
  exists l' s', doubly_linked_list_remove_head l s = Ok (l', s') /\ hwf s' /\
    repr (hnodes s') l' (tl xs) /\ untouched xs.*1 s s'.
Proof.
  intros Hw (la & Hch & Ht). unfold doubly_linked_list_remove_head. rewrite (chain_count _ _ _ _ Hch).
  destruct xs as [|[a e] [|[b f] xs]].
  - cbn. exists l, s. split_and!; try done; [|by intros a n]. by exists la.
  - destruct (remove_only_ok s l a e la Hw Hch) as (s' & E & Hw' & Hr' & Hu).
    cbn. rewrite (chain_count _ _ _ _ Hch) in Hr'. rewrite E. eexists _, s'.
    split_and!; [done|exact Hw'|exact Hr'|exact Hu].
  - destruct Hch as [Hs Hnd Hc Hb]. rewrite (proj2 (Z.eqb_neq _ 0)), (proj2 (Z.eqb_neq _ 1)) by (simpl; lia).
    destruct Hs as (Hh & Han & n & Hn & _ & _ & Hs). pose proof Hs as (Hnb & Hbn & m & Hm & _ & Hpm & _).
    cbn [d_next d_prev dll_dnode] in *. rewrite Hnb in *.
    cbn [fmap list_fmap fst] in Hnd. apply NoDup_cons in Hnd as [Hax Hnd].
    pose proof Hnd as Hnd'. apply NoDup_cons in Hnd' as [Hbx _].
    assert (Hab : a ≠ b) by set_solver.
    rewrite Hh, (ld_ok s a n) by done. cbn [obind]. rewrite Hnb, (ld_ok s b m) by done. cbn [obind].
    rewrite Hpm. destruct (del_ok s a n Hw Hn) as (h & E & Hw'). rewrite E. cbn [obind].
    erewrite modify_ok; [|cbn; by rewrite lookup_delete_ne|done]. cbn [obind hnodes hheap].
    rewrite w64_small by (simpl length in *; lia). eexists _, _. split_and!; [done| | |].
    + eapply hwf_upd; [exact Hw'|by rewrite lookup_delete_ne].
    + exists la. split; [|intros ?; by rewrite Ht by (simpl; lia)].
      constructor; cbn [head node_count hnodes tl]; [|done|simpl length; lia|simpl length in *; lia].
      eapply dseg_relink_first; [apply dseg_delete; [done|exact Hs]|done|by rewrite lookup_delete_ne|done..].
    + intros x nx Hx Hxx. cbn in *. rewrite lookup_insert_ne, lookup_delete_ne; set_solver.
Qed.

Lemma dll_remove_tail_ok l s xs :
  hwf s -> repr (hnodes s) l xs ->
  exists l' s', doubly_linked_list_remove_tail l s = Ok (l', s') /\ hwf s' /\
    repr (hnodes s') l' (removelast xs) /\ untouched xs.*1 s s'.
Proof.
  intros Hw (la & Hch & Ht). unfold doubly_linked_list_remove_tail. rewrite (chain_count _ _ _ _ Hch).
  destruct (decide (length xs < 2)%nat) as [Hl|Hl].
  { destruct xs as [|[a e] [|]]; [| |simpl in Hl; lia].
    - cbn. exists l, s. split_and!; try done; [|by intros a n]. by exists la.
    - destruct (remove_only_ok s l a e la Hw Hch) as (s' & E & Hw' & Hr' & Hu).
      cbn. rewrite (chain_count _ _ _ _ Hch) in Hr'. rewrite E. eexists _, s'.
    split_and!; [done|exact Hw'|exact Hr'|exact Hu]. }
  rewrite (proj2 (Z.eqb_neq _ 0)), (proj2 (Z.eqb_neq _ 1)) by lia. specialize (Ht ltac:(lia)).
  destruct (exists_last (l := xs)) as (ys & [a e] & ->); [by intros ->; simpl in Hl; lia|].
  destruct (exists_last (l := ys)) as (zs & [b f] & ->); [by intros ->; simpl in Hl; lia|].
  destruct Hch as [Hs Hnd Hc Hb]. pose proof (dseg_last _ _ _ _ _ _ _ _ Hs) as ->. rewrite Ht.
  apply dseg_app in Hs as (m & r & Hs & Hl2). cbn [dseg d_next d_prev d_data dll_dnode] in Hl2.
  destruct Hl2 as (-> & Han & na & Hna & _ & Hpa & Hnxa & _).
  pose proof (dseg_last _ _ _ _ _ _ _ _ Hs) as ->.
  pose proof (proj1 (dseg_app _ _ _ _ _ _ _) Hs) as (m2 & r2 & _ & Hl3).
  cbn [dseg d_next dll_dnode] in Hl3. destruct Hl3 as (_ & Hbn & nb & Hnb & _ & _ & Hnxb & _).
  rewrite (ld_ok s a na) by done. cbn [obind]. rewrite Hpa, (ld_ok s b nb) by done. cbn [obind]. rewrite Hnxb.
  rewrite fmap_app in Hnd. apply NoDup_app in Hnd as (Hnd & Hdis & _).
  assert (Hax : a ∉ (zs ++ [(b, f)]).*1) by (intros Hx; apply (Hdis a Hx); simpl; set_solver).
  pose proof Hax as Hax'. rewrite fmap_app in Hax'. simpl in Hax'.
  assert (Hba : b ≠ a) by set_solver.
  assert (Hbz : b ∉ zs.*1).
  { rewrite fmap_app in Hnd. apply NoDup_app in Hnd as (_ & Hd2 & _). intros Hx. apply (Hd2 b Hx). simpl. set_solver. }
  destruct (del_ok s a na Hw Hna) as (h & E & Hw'). rewrite E. cbn [obind].
  erewrite modify_ok; [|cbn; by rewrite lookup_delete_ne|done]. cbn [obind hnodes hheap].
  rewrite length_app in Hc, Hb, Hl |- *. simpl length in *. rewrite w64_small by lia.
  eexists _, _. split_and!; [done| | |].
  - eapply hwf_upd; [exact Hw'|by rewrite lookup_delete_ne].
  - rewrite removelast_last. exists b. split; [|done].
    constructor; cbn [head node_count hnodes]; [|done|lia|lia].
    eapply dseg_relink_last; [by apply dseg_delete|done|by rewrite lookup_delete_ne|done..].
  - intros x nx Hx Hxx. cbn. rewrite !fmap_app in Hxx. simpl in Hxx.
    rewrite lookup_insert_ne, lookup_delete_ne; set_solver.
Qed.

Lemma filter_middle (ys zs : list (Z * Z)) a e :
  NoDup (ys ++ (a, e) :: zs).*1 -> filter (fun x => x.1 ≠ a) (ys ++ (a, e) :: zs) = ys ++ zs.
Proof.
  rewrite fmap_app. cbn. intros (_ & Hdis & Hnd)%NoDup_app. apply NoDup_cons in Hnd as [Haz _].
  rewrite filter_app, filter_cons_False by (cbn; tauto). f_equal.
  - apply filter_all. intros [x d] Hx Hxa; cbn in Hxa; subst x. apply (Hdis a); [|set_solver].
    by apply (list_elem_of_fmap_2 fst _ (a, d)).
  - apply filter_all. intros [x d] Hx Hxa; cbn in Hxa; subst x. apply Haz.
    by apply (list_elem_of_fmap_2 fst _ (a, d)).
Qed.

(** The segment around an unlinked node, whatever is on its two sides: [ns'] is
    [ns] with the left neighbour's next and the right neighbour's prev moved. *)
Definition bypass (ns : gmap Z node) (b c : Z) : gmap Z node :=
  let ns1 := match ns !! b with Some n => <[b := set_next c n]> ns | None => ns end in
  match ns1 !! c with Some n => <[c := set_prev b n]> ns1 | None => ns1 end.

Lemma bypass_dseg ns hd ys a e zs la :
  ns !! NULL = None -> dseg ns NULL hd (ys ++ (a, e) :: zs) la NULL -> NoDup (ys ++ (a, e) :: zs).*1 ->
  exists b c n, ns !! a = Some n /\ prev n = b /\ next n = c /\ a ≠ NULL /\ b ≠ a /\ c ≠ a /\
    (b = NULL <-> ys = []) /\ (c = NULL <-> zs = []) /\
    (ys ≠ [] -> b ∈ ys.*1) /\ (zs ≠ [] -> c ∈ zs.*1) /\
    dseg (bypass ns b c) NULL (if decide (ys = []) then c else hd) (ys ++ zs)
      (if decide (zs = []) then b else la) NULL.
Proof.
  intros Hnull Hs Hnd. apply dseg_app in Hs as (b & r & Hy & Hz). cbn [dseg] in Hz.
  destruct Hz as (-> & Han & n & Hn & _ & Hp & Hz). cbn [d_next d_prev dll_dnode] in *.
  set (c := next n) in *. exists b, c, n.
  rewrite fmap_app in Hnd. cbn [fmap list_fmap fst] in Hnd. apply NoDup_app in Hnd as (Hndy & Hdis & Hndz).
  apply NoDup_cons in Hndz as [Haz Hndz]. assert (Hay : a ∉ ys.*1) by (intros Hx; apply (Hdis a Hx); set_solver).
  assert (Hyz : forall x, x ∈ ys.*1 -> x ∉ zs.*1) by (intros x Hx Hx'; apply (Hdis x Hx); set_solver).
  assert (Hb : (ys = [] /\ b = NULL /\ hd = a) \/ exists ys' f m, ys = ys' ++ [(b, f)] /\ ns !! b = Some m /\ b ≠ NULL).
  { destruct (decide (ys = [])) as [->|Hne]; [left; by destruct Hy as [-> ->]|right].
    destruct (exists_last Hne) as (ys' & [b' f] & ->). pose proof (dseg_last _ _ _ _ _ _ _ _ Hy) as ->.
    destruct (dseg_elem _ _ _ _ _ _ b' Hy) as (? & m & ?); [rewrite fmap_app; simpl; set_solver|].
    by exists ys', f, m. }
  assert (Hc : (zs = [] /\ c = NULL /\ la = a) \/ exists zs' f m, zs = (c, f) :: zs' /\ ns !! c = Some m /\ c ≠ NULL).
  { destruct zs as [|[c' f] zs]; [left; by destruct Hz as [? ->]|right].
    destruct Hz as (Hc & ? & m & ? & _). rewrite Hc. by exists zs, f, m. }
  assert (Hca : c ≠ a) by (destruct Hc as [(_ & -> & _)|(zs' & f & m & -> & _)]; [done|cbn in Haz; set_solver]).
  assert (Hcz : (c = NULL <-> zs = []) /\ (zs ≠ [] -> c ∈ zs.*1))
    by (destruct Hc as [(-> & -> & _)|(zs' & f & m & -> & _ & ?)]; [done|cbn; set_solver]).
  destruct Hcz as [Hcz1 Hcz2]. unfold bypass.
  destruct Hb as [(-> & -> & ->)|(ys' & f & m & -> & Hm & Hbn)].
  - rewrite Hnull. cbn [app]. rewrite decide_True by done.
    destruct Hc as [(-> & Hc & ->)|(zs' & f & m & -> & Hm & Hcn)].
    + rewrite Hc, Hnull in *. by split_and!.
    + rewrite Hm. split_and!; try done.
      rewrite decide_False by done. eapply dseg_relink_first with (n := m); [exact Hz|..]; try done.
      cbn in Hndz. by apply NoDup_cons in Hndz as [? _].
  - assert (Hby : b ∈ (ys' ++ [(b, f)]).*1) by (rewrite fmap_app; simpl; set_solver).
    assert (Hby' : b ∉ ys'.*1).
    { rewrite fmap_app in Hndy. apply NoDup_app in Hndy as (_ & Hd2 & _). intros Hx. apply (Hd2 b Hx). simpl. set_solver. }
    assert (Hba : b ≠ a) by (intros ->; done).
    assert (Hl : dseg (<[b := set_next c m]> ns) NULL hd (ys' ++ [(b, f)]) b c)
      by (by eapply dseg_relink_last with (n := m)).
    rewrite Hm. rewrite (decide_False (P := ys' ++ [(b, f)] = [])) by (by destruct ys').
    destruct Hc as [(-> & Hc & ->)|(zs' & g & k & -> & Hk & Hcn)].
    + rewrite Hc in *. rewrite lookup_insert_ne, Hnull by done. rewrite decide_True, app_nil_r by done.
      split_and!; try done; by destruct ys'.
    + assert (Hcb : c ≠ b) by (intros Hcb; apply (Hyz b Hby); rewrite Hcb; cbn; set_solver).
      rewrite lookup_insert_ne, Hk by done. rewrite decide_False by done.
      split_and!; try done; [by destruct ys'|].
      cbn in Hndz. apply NoDup_cons in Hndz as [Hcz _]. apply dseg_app. exists b, c. split.
      * apply dseg_insert; [|done]. intros Hx. apply (Hyz c Hx). cbn. set_solver.
      * eapply dseg_relink_first with (n := k); try done; [apply dseg_insert; [|exact Hz]|].
        -- by apply Hyz.
        -- by rewrite lookup_insert_ne.
Qed.

(** The four branches of remove_node_by_address all bypass the node. *)
Lemma remove_node_exec l s a n b c hd tl' :
  hwf s -> hnodes s !! a = Some n -> prev n = b -> next n = c -> b ≠ a -> c ≠ a ->
  (b ≠ NULL -> exists m, hnodes s !! b = Some m) -> (c ≠ NULL -> exists m, hnodes s !! c = Some m) ->
  hd = (if b =? NULL then c else head l) -> tl' = (if c =? NULL then b else tail l) ->
  doubly_linked_list_remove_node_by_address l a s
  = Ok (mk_dlist hd tl' (w64 (node_count l - 1)), mk_hmem (bypass (hnodes s) b c) (hheap s)).
Proof.
  intros Hw Hn Hb Hc Hba Hca Hb2 Hc2 -> ->. pose proof (hwf_null _ Hw) as Hnull.
  unfold doubly_linked_list_remove_node_by_address.
  rewrite (ld_ok s a n) by (try done; by eapply hwf_nonnull). cbn [obind]. rewrite Hb, Hc. unfold bypass.
  destruct (Z.eqb_spec c NULL) as [->|Hcn]; destruct (Z.eqb_spec b NULL) as [->|Hbn]; cbn [andb].
  - rewrite Hnull, Hnull. by destruct s.
  - destruct (Hb2 Hbn) as (m & Hm). rewrite Hm, lookup_insert_ne, Hnull by done.
    by erewrite modify_ok.
  - destruct (Hc2 Hcn) as (m & Hm). rewrite Hnull, Hm. by erewrite modify_ok.
  - destruct (Hb2 Hbn) as (m & Hm), (Hc2 Hcn) as (k & Hk). rewrite Hm. erewrite modify_ok by done. cbn [obind].
    erewrite ld_ok; [|cbn; rewrite lookup_insert_ne by done; exact Hn|by eapply hwf_nonnull].
    cbn [obind]. rewrite Hb, Hc. destruct (decide (c = b)) as [->|Hcb].
    + erewrite modify_ok; [|apply lookup_insert_eq|done]. cbn. by rewrite lookup_insert_eq.
    + erewrite modify_ok; [|cbn; rewrite lookup_insert_ne by done; exact Hk|done].
      cbn. by rewrite lookup_insert_ne, Hk by done.
Qed.

Lemma bypass_lookup ns b c x : x ≠ b -> x ≠ c -> bypass ns b c !! x = ns !! x.
Proof.
  intros Hb Hc. unfold bypass. destruct (ns !! b); case_match; by rewrite ?lookup_insert_ne.
Qed.

Lemma bypass_hwf s b c : hwf s -> hwf (mk_hmem (bypass (hnodes s) b c) (hheap s)).
Proof.
  intros Hw. unfold bypass.
  assert (Hw1 : hwf (mk_hmem (match hnodes s !! b with
    Some n => <[b := set_next c n]> (hnodes s) | None => hnodes s end) (hheap s))).
  { destruct (hnodes s !! b) as [n|] eqn:E; [by eapply hwf_insert|by destruct s]. }
  revert Hw1. generalize (match hnodes s !! b with Some n => <[b := set_next c n]> (hnodes s) | None => hnodes s end).
  intros ns Hw1. destruct (ns !! c) as [n|] eqn:E; [by eapply hwf_upd|done].
Qed.

Lemma remove_node_ok l s xs a :
  hwf s -> repr (hnodes s) l xs -> a ∈ xs.*1 ->
  exists l' s', doubly_linked_list_remove_node_by_address l a s = Ok (l', s') /\ hwf s' /\
    repr (hnodes s') l' (filter (fun x => x.1 ≠ a) xs) /\ untouched xs.*1 s s'.
Proof.
  intros Hw (la & [Hs Hnd Hc Hb] & Ht) Ha.
  apply list_elem_of_fmap in Ha as ([a' e] & Ha & Hx). cbn in Ha. subst a'.
  apply list_elem_of_split in Hx as (ys & zs & ->). rewrite filter_middle by done.
  destruct (bypass_dseg _ _ _ _ _ _ _ (hwf_null _ Hw) Hs Hnd)
    as (b & c & n & Hn & Hpb & Hnc & Han & Hba & Hca & Hb1 & Hc1 & Hb2 & Hc2 & Hs').
  assert (Hb3 : b ≠ NULL -> b ∈ ys.*1) by (intros Hx; apply Hb2; by rewrite <- Hb1).
  assert (Hc3 : c ≠ NULL -> c ∈ zs.*1) by (intros Hx; apply Hc2; by rewrite <- Hc1).
  assert (Hin : forall x, x ∈ ys.*1 \/ x ∈ zs.*1 -> x ∈ (ys ++ (a, e) :: zs).*1)
    by (intros x; rewrite fmap_app; cbn; set_solver).
  erewrite (remove_node_exec l s a n b c); [|done|done|done|done|done|done| | |done|done].
  2: { intros Hx. eapply dseg_elem; [exact Hs|]. auto. }
  2: { intros Hx. eapply dseg_elem; [exact Hs|]. auto. }
  rewrite length_app in Hc, Hb, Ht. simpl length in *. rewrite w64_small by lia.
  eexists _, _. split_and!; [done|by apply bypass_hwf| |].
  - exists (if decide (zs = []) then b else la). split.
    + constructor; cbn [head node_count hnodes].
      * replace (if b =? NULL then c else head l) with (if decide (ys = []) then c else head l); [done|].
        repeat case_decide; destruct (Z.eqb_spec b NULL); tauto.
      * rewrite fmap_app in *. cbn in Hnd. apply NoDup_app in Hnd as (? & Hd & Hz).
        apply NoDup_cons in Hz as [_ Hz]. apply NoDup_app. set_solver.
      * rewrite length_app. lia.
      * rewrite length_app. lia.
    + intros Hl. cbn [tail]. rewrite length_app in Hl.
      destruct (decide (zs = [])); destruct (Z.eqb_spec c NULL); try tauto. apply Ht. lia.
  - intros x nx Hx Hxx. cbn. rewrite bypass_lookup; [done|..].
    + intros ->. destruct (decide (b = NULL)) as [->|?]; [by rewrite (hwf_null _ Hw) in Hx|auto].
    + intros ->. destruct (decide (c = NULL)) as [Hz|?]; [rewrite Hz in Hx; by rewrite (hwf_null _ Hw) in Hx|auto].
Qed.


(** C38: two [insert_head] calls on an empty list leave [tail] NULL with two
    nodes in the list, and the next [insert_tail] or [remove_tail] dereferences
    it. *)
Theorem insert_head_twice_loses_tail l s d1 d2 l1 s1 l2 s2 :
  hwf s -> repr (hnodes s) l [] ->
  doubly_linked_list_insert_head l d1 s = Ok (l1, s1) ->
  doubly_linked_list_insert_head l1 d2 s1 = Ok (l2, s2) ->
  node_count l2 = 2 /\ tail l2 = NULL /\ doubly_linked_list_remove_tail l2 s2 = Fault /\
  forall d, kfresh sizeof_node (hheap s2) -> doubly_linked_list_insert_tail l2 d s2 = Fault.
Proof.
  intros Hw (la & Hch & _) E1 E2.
  assert (Hf : forall l s d r, doubly_linked_list_insert_head l d s = Ok r -> kfresh sizeof_node (hheap s)).
  { intros l0 s0 d r Hr. unfold doubly_linked_list_insert_head, new in Hr. obind_inv. by eexists _, _. }
  destruct (dll_insert_head_ok l s [] la d1 Hw Hch) as (p & l' & s' & E & Hw' & Hch' & Ht' & _); [by eauto|done|].
  rewrite E1 in E. injection E as <- <-.
  destruct (dll_insert_head_ok l1 s1 _ _ d2 Hw' Hch') as (p' & l' & s' & E & Hw2 & Hch2 & Ht2 & _); [by eauto|done|].
  rewrite E2 in E. injection E as <- <-. rewrite decide_True in Ht' by done. rewrite decide_False, Ht' in Ht2 by done.
  pose proof (chain_count _ _ _ _ Hch2) as Hc. split_and!; [done|done| |].
  - unfold doubly_linked_list_remove_tail. by rewrite Hc, Ht2.
  - intros d Hfr. destruct (dll_fresh_node_ok s2 _ _ _ _ _ _ d Hw2 eq_refl (chain_seg _ _ _ _ Hch2) Hfr)
      as (q & s3 & s4 & E3 & E4 & _).
    unfold doubly_linked_list_insert_tail. rewrite E3. cbn [obind]. rewrite E4. cbn [obind].
    by rewrite Hc, Ht2.
Qed.

Lemma dll_destroy_loop_ok xs : forall fuel s pr q la,
  hwf s -> dseg (hnodes s) pr q xs la NULL -> NoDup xs.*1 -> (length xs < fuel)%nat ->
  exists s', destroy_loop fuel false q s = Ok s' /\ hwf s' /\
    klive (hheap s') = klive (hheap s) ∖ list_to_set xs.*1 /\
    (forall a, a ∈ xs.*1 -> hnodes s' !! a = None) /\ untouched xs.*1 s s'.
Proof.
  induction xs as [|[a e] xs IH]; intros fuel s pr q la Hw Hs Hnd Hf; (destruct fuel as [|fuel]; [simpl in Hf; lia|]).
  - destruct Hs as [-> _]. cbn. exists s. split_and!; try done; [set_solver|set_solver|by intros ???].
  - cbn [dseg] in Hs. destruct Hs as (-> & Han & n & Hn & _ & _ & Hs). cbn [d_next dll_dnode] in Hs.
    cbn [fmap list_fmap fst] in *. apply NoDup_cons in Hnd as [Hax Hnd].
    cbn [destroy_loop]. rewrite (proj2 (Z.eqb_neq a NULL)) by done. rewrite (ld_ok s a n) by done. cbn [obind].
    destruct (kfree_spec a (hheap s) (hwf_heap _ Hw)) as (h' & Eh & _ & Hlv).
    { by apply (hwf_live _ Hw a n). }
    destruct (del_ok s a n Hw Hn) as (h & E & Hw1). pose proof E as E'. unfold del in E'. rewrite Eh in E'.
    injection E' as <-. rewrite E. cbn [obind].
    destruct (IH fuel _ a (next n) la Hw1) as (s' & E' & Hw' & Hlv' & Hg & Hu); [|done|simpl in Hf; lia|].
    { by apply dseg_delete. }
    exists s'. split_and!; try done.
    + rewrite Hlv'. cbn. rewrite Hlv. set_solver.
    + intros x Hx. apply elem_of_cons in Hx as [->|Hx]; [|auto].
      destruct (hnodes s' !! a) as [n'|] eqn:Ea; [|done].
      pose proof (hwf_live _ Hw' a n' Ea) as Hl. rewrite Hlv' in Hl. cbn in Hl. rewrite Hlv in Hl. set_solver.
    + intros x nx Hx Hxx. apply Hu; [|set_solver]. cbn. rewrite lookup_delete_ne; [done|set_solver].
Qed.

(** Destroying a list gives every node of it and the list itself back to
    the allocator, and nothing else. *)
Theorem dll_destroy_spec addr l s xs :
  hwf s -> repr (hnodes s) l xs -> addr ≠ NULL -> addr ∈ klive (hheap s) -> hnodes s !! addr = None ->
  exists s', doubly_linked_list_destroy addr l false s = Ok s' /\ kwf (hheap s') /\
    klive (hheap s') = klive (hheap s) ∖ (list_to_set xs.*1 ∪ {[addr]}) /\
    (forall a, a ∈ xs.*1 -> hnodes s' !! a = None) /\ untouched xs.*1 s s'.
Proof.
  intros Hw (la & [Hs Hnd _ _] & _) Hn Hlive Hna. unfold doubly_linked_list_destroy.
  rewrite (proj2 (Z.eqb_neq addr NULL)) by done.
  pose proof (dseg_size _ _ _ _ _ _ Hs Hnd) as Hsz.
  destruct (dll_destroy_loop_ok xs (S (size (hnodes s))) s _ _ _ Hw Hs Hnd) as (s' & E & Hw' & Hlv & Hg & Hu); [lia|].
  rewrite E. cbn [obind].
  destruct (kfree_spec addr (hheap s') (hwf_heap _ Hw')) as (h & Eh & Hk & Hl2).
  { rewrite Hlv. apply elem_of_difference. split; [done|]. intros Hx. apply elem_of_list_to_set in Hx.
    destruct (dseg_elem _ _ _ _ _ _ _ Hs Hx) as (_ & n & ?). congruence. }
  rewrite Eh. cbn [obind]. eexists. split_and!; [done|done| |done|done]. cbn. rewrite Hl2, Hlv. set_solver.
Qed.

End Spec.
End DLL.
