(* ===== verification/HeapExamples.v ===== *)
(** * Queues and doubly linked lists on concrete stores

    The theorems of Queue.v and DoublyLinkedList.v applied to stores built by
    the operations themselves on the reference allocator. *)

From S2P Require Import Prelude KAlloc HeapStore Queue DoublyLinkedList.

(** ** Checking the invariants of a concrete store by evaluation *)
Section Check.
Context {N : Type}.

Definition bump_ok (b : Bump.bump) : bool :=
  (Bump.bump_base <=? Bump.brk b) &&
  bool_decide (set_Forall (fun p => Bump.bump_base <= p < Bump.brk b) (Bump.live b)).

Lemma bump_ok_wf b : bump_ok b = true -> kwf b.
Proof.
  unfold bump_ok. intros Hb. apply andb_true_iff in Hb as [H1 H2].
  apply bool_decide_eq_true in H2. apply Z.leb_le in H1. by split.
Qed.

Definition store_ok (s : hmem N Bump.bump) : bool :=
  bump_ok (hheap s) &&
  bool_decide (set_Forall (fun p => p ∈ Bump.live (hheap s)) (dom (hnodes s))) &&
  negb (bool_decide (NULL ∈ dom (hnodes s))).

Lemma store_ok_hwf s : store_ok s = true -> hwf s.
Proof.
  unfold store_ok. intros Hs. apply andb_true_iff in Hs as [Hs H3]. apply andb_true_iff in Hs as [H1 H2].
  apply bool_decide_eq_true in H2. apply negb_true_iff, bool_decide_eq_false in H3.
  constructor; [by apply bump_ok_wf| |by apply not_elem_of_dom].
  intros p n Hp. apply H2, elem_of_dom. by exists n.
Qed.

End Check.

Module QueueExamples.
Import Queue.

Definition start : hmem queue_node Bump.bump := mk_hmem ∅ Bump.empty.
Definition fresh (mode : Z) : queue := mk_queue NULL NULL mode 0 0.

(** The queue of the given (datum, priority) pairs. *)
Fixpoint fill (ds : list (Z * Z)) (q : queue) (s : hmem queue_node Bump.bump)
  : outcome (queue * hmem queue_node Bump.bump) :=
  match ds with
  | [] => Ok (q, s)
  | (d, pr) :: ds => let! (q, s) := enqueue q d pr s in fill ds q s
  end.

Definition built (mode : Z) (ds : list (Z * Z)) : queue * hmem queue_node Bump.bump :=
  match fill ds (fresh mode) start with Ok r => r | _ => (fresh mode, start) end.

Definition addr (i : Z) : Z := Bump.bump_base + i * sizeof_queue_node.

Lemma start_hwf : hwf start.
Proof. apply store_ok_hwf. by vm_compute. Qed.

Definition check (qs : queue * hmem queue_node Bump.bump) (xs : list (Z * Z)) (la : Z) : bool :=
  store_ok qs.2 && dsegb (hnodes qs.2) NULL (head qs.1) xs la NULL && (tail qs.1 =? la) &&
  bool_decide (NoDup xs.*1) && (node_count qs.1 =? Z.of_nat (length xs)) &&
  (Z.of_nat (length xs) <? 2 ^ 32).

Lemma queue_check_sound qs xs la :
  check qs xs la = true -> hwf qs.2 /\ repr (hnodes qs.2) qs.1 xs.
Proof.
  unfold check. intros Hb. zbool. split; [by apply store_ok_hwf|].
  constructor; [|by eapply bool_decide_eq_true|done|done]. exists la. split; [by apply dsegb_sound|done].
Qed.

Definition two_fifo := built QUEUE_MODE_FIFO [(7, 0); (8, 0)].
Definition two_prio := built QUEUE_MODE_PRIORITY [(7, 5); (8, 1)].
Definition one_lifo := built QUEUE_MODE_LIFO [(7, 0)].
Definition xs78 : list (Z * Z) := [(addr 0, 7); (addr 1, 8)].

Lemma two_fifo_ok : hwf two_fifo.2 /\ repr (hnodes two_fifo.2) two_fifo.1 xs78.
Proof. apply (queue_check_sound _ _ (addr 1)). by vm_compute. Qed.
Lemma two_prio_ok : hwf two_prio.2 /\ repr (hnodes two_prio.2) two_prio.1 xs78.
Proof. apply (queue_check_sound _ _ (addr 1)). by vm_compute. Qed.
Lemma one_lifo_ok : hwf one_lifo.2 /\ repr (hnodes one_lifo.2) one_lifo.1 [(addr 0, 7)].
Proof. apply (queue_check_sound _ _ (addr 0)). by vm_compute. Qed.

Lemma queue_fresh_in (qs : queue * hmem queue_node Bump.bump) :
  is_ok (kalloc sizeof_queue_node (hheap qs.2)) = true -> kfresh sizeof_queue_node (hheap qs.2).
Proof. unfold kfresh. destruct (kalloc _ _) as [[p a']| | |]; try done. by exists p, a'. Qed.

Lemma enqueue_fifo_spec_witness :
  exists p q' s', enqueue two_fifo.1 9 0 two_fifo.2 = Ok (q', s') /\ hwf s' /\
    repr (hnodes s') q' (xs78 ++ [(p, 9)]) /\ queue_mode q' = queue_mode two_fifo.1 /\
    untouched xs78.*1 two_fifo.2 s'.
Proof.
  apply (enqueue_fifo_spec two_fifo.1 two_fifo.2 xs78 9 0);
    [apply two_fifo_ok|apply two_fifo_ok|by vm_compute|by vm_compute|apply queue_fresh_in; by vm_compute|by vm_compute].
Defined.

Lemma dequeue_spec_witness :
  exists q' s', dequeue two_prio.1 two_prio.2 = Ok (q', s') /\ hwf s' /\
    repr (hnodes s') q' [(addr 1, 8)].
Proof.
  destruct (dequeue_spec two_prio.1 two_prio.2 xs78) as (q' & s' & E & Hw & Hr & _);
    [apply two_prio_ok|apply two_prio_ok|right; by vm_compute|].
  exists q', s'. split; [exact E|split; [exact Hw|exact Hr]].
Defined.

Lemma lifo_dequeue_after_two_faults_witness :
  exists q' s', enqueue one_lifo.1 8 0 one_lifo.2 = Ok (q', s') /\
    node_count q' = Z.of_nat (length [(addr 0, 7)]) + 1 /\ dequeue q' s' = Fault.
Proof.
  apply (lifo_dequeue_after_two_faults one_lifo.1 one_lifo.2 [(addr 0, 7)] 8 0);
    [apply one_lifo_ok|apply one_lifo_ok|discriminate|by vm_compute|by vm_compute
    |apply queue_fresh_in; by vm_compute|by vm_compute].
Defined.

Lemma enqueue_priority_sorted_witness :
  exists p q' s' xs', enqueue two_prio.1 9 1 two_prio.2 = Ok (q', s') /\ hwf s' /\
    repr (hnodes s') q' xs' /\ xs' ≡ₚ xs78 ++ [(p, 9)] /\ desc (prios (hnodes s') xs') /\
    untouched xs78.*1 two_prio.2 s'.
Proof.
  apply (enqueue_priority_sorted two_prio.1 two_prio.2 xs78 9 1);
    [apply two_prio_ok|apply two_prio_ok|by vm_compute|by vm_compute|apply queue_fresh_in; by vm_compute
    |by vm_compute| |right; by vm_compute].
  vm_compute. repeat constructor; discriminate.
Defined.

Lemma enqueue_priority_middle_lost_witness :
  exists q' s', enqueue two_prio.1 9 3 two_prio.2 = Ok (q', s') /\
    fseg (hnodes s') (head q') xs78 NULL /\ node_count q' = 3.
Proof.
  apply (enqueue_priority_middle_lost two_prio.1 two_prio.2 (addr 0) 7 [(addr 1, 8)] 9 3
           (mk_node 7 (addr 1) NULL 5));
    [apply two_prio_ok|apply two_prio_ok|discriminate|by vm_compute|by vm_compute
    |apply queue_fresh_in; by vm_compute|by vm_compute|by vm_compute; intros []|by vm_compute|by vm_compute].
Defined.

Lemma enqueue_priority_highest_second_witness :
  exists p q' s', enqueue two_prio.1 9 6 two_prio.2 = Ok (q', s') /\
    fseg (hnodes s') (head q') [(addr 0, 7); (p, 9); (addr 1, 8)] NULL /\ node_count q' = 3.
Proof.
  apply (enqueue_priority_highest_second two_prio.1 two_prio.2 (addr 0) 7 [(addr 1, 8)] 9 6
           (mk_node 7 (addr 1) NULL 5));
    [apply two_prio_ok|apply two_prio_ok|discriminate|by vm_compute|by vm_compute
    |apply queue_fresh_in; by vm_compute|by vm_compute|by vm_compute; intros []|by vm_compute|by vm_compute].
Defined.

End QueueExamples.

Module DLLExamples.
Import DLL.

Definition start : hmem node Bump.bump := mk_hmem ∅ Bump.empty.
Definition addr (i : Z) : Z := Bump.bump_base + i * sizeof_node.

Definition built (cs : list cmd) : dlist * hmem node Bump.bump :=
  match foldl (fun r c => let! (l, s) := r in exec c l s) (Ok (doubly_linked_list_init, start)) cs with
  | Ok r => r
  | _ => (doubly_linked_list_init, start)
  end.

Definition check (ls : dlist * hmem node Bump.bump) (xs : list (Z * Z)) (la : Z) : bool :=
  store_ok ls.2 && dsegb (hnodes ls.2) NULL (head ls.1) xs la NULL &&
  (bool_decide (length xs < 2)%nat || (tail ls.1 =? la)) &&
  bool_decide (NoDup xs.*1) && (node_count ls.1 =? Z.of_nat (length xs)) &&
  (Z.of_nat (length xs) <? 2 ^ 64).

Lemma dll_check_sound ls xs la :
  check ls xs la = true -> hwf ls.2 /\ repr (hnodes ls.2) ls.1 xs.
Proof.
  unfold check. intros Hb. zbool. split; [by apply store_ok_hwf|]. exists la. split.
  - constructor; [by apply dsegb_sound|by eapply bool_decide_eq_true|done|done].
  - match goal with Ho : _ || _ = true |- _ => apply orb_true_iff in Ho as [Ho|Ho] end; zbool; [|done].
    match goal with Ho : bool_decide (_ < _)%nat = true |- _ => apply bool_decide_eq_true in Ho end. intros ?; lia.
Qed.

Lemma dll_fresh_in (h : Bump.bump) : is_ok (kalloc sizeof_node h) = true -> kfresh sizeof_node h.
Proof. unfold kfresh. destruct (kalloc _ _) as [[p a']| | |]; try done. by exists p, a'. Qed.

Definition three := built [InsertTail 7; InsertTail 8; InsertTail 9].
Definition xs789 : list (Z * Z) := [(addr 0, 7); (addr 1, 8); (addr 2, 9)].
Lemma three_ok : hwf three.2 /\ repr (hnodes three.2) three.1 xs789.
Proof. apply (dll_check_sound _ _ (addr 2)). by vm_compute. Qed.


Definition once := built [InsertHead 7].
Definition twice := built [InsertHead 7; InsertHead 8].

Lemma insert_head_twice_loses_tail_witness :
  node_count twice.1 = 2 /\ tail twice.1 = NULL /\
  doubly_linked_list_remove_tail twice.1 twice.2 = Fault.
Proof.
  destruct (insert_head_twice_loses_tail doubly_linked_list_init start 7 8 once.1 once.2 twice.1 twice.2)
    as (Hc & Ht & Hr & _).
  - apply store_ok_hwf. by vm_compute.
  - exists NULL. split; [|simpl; lia]. constructor; [done|apply NoDup_nil_2|done|done].
  - by vm_compute.
  - by vm_compute.
  - split; [exact Hc|split; [exact Ht|exact Hr]].
Defined.

(** The list's own struct is one more heap object. *)
Definition owner : Z * hmem node Bump.bump :=
  match kalloc 64 (hheap three.2) with
  | Ok (p, h) => (p, mk_hmem (hnodes three.2) h)
  | _ => (NULL, three.2)
  end.

Lemma dll_destroy_spec_witness :
  exists s', doubly_linked_list_destroy owner.1 three.1 false owner.2 = Ok s' /\ kwf (hheap s') /\
    klive (hheap s') = klive (hheap owner.2) ∖ (list_to_set xs789.*1 ∪ {[owner.1]}) /\
    (forall a, a ∈ xs789.*1 -> hnodes s' !! a = None) /\ untouched xs789.*1 owner.2 s'.
Proof.
  apply (DLL.dll_destroy_spec owner.1 three.1 owner.2 xs789);
    [apply store_ok_hwf; by vm_compute|apply (dll_check_sound (three.1, owner.2) xs789 (addr 2)); by vm_compute
    |by vm_compute|apply (bool_decide_unpack _); by vm_compute|by vm_compute].
Defined.

End DLLExamples.
