(* ===== verification/HashTable.v ===== *)
(** * Hash tables (kernel/src/data_structures/hash_table.c)

    The table of used physical blocks: an array of singly linked lists indexed
    by a mixing hash of the block's address. *)

From S2P Require Import Prelude KAlloc SinglyLinkedList.

Module HashTable.
Import SLL.

Definition HASH_TABLE_STATIC_POOL_SIZE : Z := 1500.
Definition sizeof_list : Z := 72.

(** One xor-shift and one multiplication of [hash], at 64 bits. *)
Definition xorshift (s key : Z) : Z := Z.lxor key (Z.shiftr key s).
Definition mul64 (c key : Z) : Z := w64 (key * c).

(** [hash] before the reduction by the modulus. *)
Definition mix (key : Z) : Z :=
  let key := xorshift 4 key in
  let key := mul64 0xBF58476D1CE4E5B9 key in
  let key := xorshift 31 key in
  let key := mul64 0x94D049BB133111EB key in
  let key := xorshift 30 key in
  let key := mul64 0x9E3779B97F4A7C15 key in
  xorshift 26 key.

Definition hash (key modulus : Z) : Z :=
  let key := mix key in
  if modulus <? key then key mod modulus else key.

(** struct static_hash_table: [table] is the array of 1500 lists *)
Record static_hash_table : Type := mk_sht { table : list list_head; size : Z }.

(** struct hash_table: the array is a heap object at [table_addr] *)
Record hash_table : Type := mk_ht { table_addr : Z; buckets : list list_head; hsize : Z }.

Section Ops.
Context {A : Type} `{KAlloc A}.
Implicit Types s : mem A.

(** [&t[i]] *)
Definition bucket (t : list list_head) (i : Z) : outcome list_head :=
  if i <? 0 then Fault else of_opt (t !! Z.to_nat i).

(** [t[i] = l] *)
Definition set_bucket (t : list list_head) (i : Z) (l : list_head) : list list_head :=
  <[Z.to_nat i := l]> t.

(** The loop that initialises the lists [i], [i+1], ... of a table, [k] of them;
    [base] is the address of the static node pool. *)
Fixpoint init_buckets (k : nat) (base i : Z) (t : list list_head) s
  : outcome (list list_head * mem A) :=
  match k with
  | O => Ok (t, s)
  | S k =>
    let! _ := bucket t i in
    let! (l, s) := singly_linked_list_init base 0 s in
    init_buckets k base (i + 1) (set_bucket t i l) s
  end.

(** static_hash_table_init.  Both branches of the source initialise every list;
    the first also copies the (zeroed) static bucket over it beforehand, which
    the initialisation overwrites, and sets [full]. *)
Definition static_hash_table_init (base : Z) (full : bool) (tbl : static_hash_table) (sz : Z) s
  : outcome (static_hash_table * bool * mem A) :=
  let! (t, s) := init_buckets (Z.to_nat sz) base 0 (table tbl) s in
  Ok (mk_sht t sz, true, s).

(** static_hash_table_destroy of the table at address [addr] *)
Definition static_hash_table_destroy (addr : Z) s : outcome (mem A) :=
  let! h := kfree addr (heap s) in Ok (with_heap s h).

Definition static_hash_table_insert (tbl : static_hash_table) (key d : Z) s
  : outcome (static_hash_table * mem A) :=
  let hash_key := hash key (size tbl) in
  let! l := bucket (table tbl) hash_key in
  let! (l, s) := singly_linked_list_insert_head l d s in
  Ok (mk_sht (set_bucket (table tbl) hash_key l) (size tbl), s).

Fixpoint check_loop (fuel : nat) (current d : Z) s : outcome bool :=
  match fuel with
  | O => Timeout
  | S fuel =>
    if current =? NULL then Ok false
    else
      let! n := load s current in
      if data n =? d then Ok true else check_loop fuel (next n) d s
  end.

Definition static_hash_table_check (tbl : static_hash_table) (hash_key d : Z) s : outcome bool :=
  let! l := bucket (table tbl) hash_key in
  check_loop (walk_fuel s) (head l) d s.

(** The bucket returned by reference. *)
Definition static_hash_table_retrieve (tbl : static_hash_table) (hash_key : Z) : outcome list_head :=
  bucket (table tbl) hash_key.

Definition hash_table_init (base : Z) (sz : Z) s : outcome (hash_table * mem A) :=
  let! (addr, h) := kalloc (w64 (sizeof_list * sz)) (heap s) in
  let s := with_heap s h in
  if addr =? NULL then Panic
  else
    let! (t, s) := init_buckets (Z.to_nat sz) base 0 (replicate (Z.to_nat sz) (mk_list 0 0 0 0)) s in
    Ok (mk_ht addr t sz, s).

Fixpoint destroy_buckets (k : nat) (i : Z) (t : list list_head) s : outcome (mem A) :=
  match k with
  | O => Ok s
  | S k =>
    let! l := bucket t i in
    let! s := singly_linked_list_destroy l s in
    destroy_buckets k (i + 1) t s
  end.

(** hash_table_destroy of the table at address [addr] *)
Definition hash_table_destroy (addr : Z) (tbl : hash_table) s : outcome (mem A) :=
  if addr =? NULL then Ok s
  else
    let! s := destroy_buckets (Z.to_nat (hsize tbl)) 0 (buckets tbl) s in
    let! h := kfree (table_addr tbl) (heap s) in
    let! h := kfree addr h in
    Ok (with_heap s h).

Definition hash_table_insert (tbl : hash_table) (key d : Z) s : outcome (hash_table * mem A) :=
  if table_addr tbl =? NULL then Panic
  else
    let hash_key := hash key (hsize tbl) in
    let! l := bucket (buckets tbl) hash_key in
    let! (l, s) := singly_linked_list_insert_head l d s in
    Ok (mk_ht (table_addr tbl) (set_bucket (buckets tbl) hash_key l) (hsize tbl), s).

Definition hash_table_retrieve (tbl : hash_table) (hash_key : Z) : outcome list_head :=
  if table_addr tbl =? NULL then Panic
  else if hsize tbl <=? hash_key then Panic
  else bucket (buckets tbl) hash_key.

End Ops.

(** ** The hash function *)

Lemma xorshift_range s key : 0 <= s -> 0 <= key < 2 ^ 64 -> 0 <= xorshift s key < 2 ^ 64.
Proof.
  intros Hs Hk. unfold xorshift.
  assert (H1 : 0 <= Z.shiftr key s) by (apply Z.shiftr_nonneg; lia).
  assert (H2 : 0 <= Z.lxor key (Z.shiftr key s)) by (apply Z.lxor_nonneg; lia).
  split; [done|]. destruct (decide (Z.lxor key (Z.shiftr key s) = 0)) as [->|Hne]; [lia|].
  apply Z.log2_lt_pow2; [lia|].
  eapply Z.le_lt_trans; [apply Z.log2_lxor; lia|]. apply Z.max_lub_lt.
  - destruct (decide (key = 0)) as [->|]; [done|]. apply Z.log2_lt_pow2; lia.
  - destruct (decide (Z.shiftr key s = 0)) as [->|]; [done|]. apply Z.log2_lt_pow2; [lia|].
    rewrite Z.shiftr_div_pow2 by done. eapply Z.le_lt_trans; [|apply Hk].
    apply Z.div_le_upper_bound; [lia|]. nia.
Qed.

(** An xor with its own high bits can be undone, bit by bit from the top. *)
Lemma xorshift_inj s x y :
  0 < s -> 0 <= x < 2 ^ 64 -> 0 <= y < 2 ^ 64 -> xorshift s x = xorshift s y -> x = y.
Proof.
  intros Hs Hx Hy E.
  assert (Hhigh : forall z n, 0 <= z < 2 ^ 64 -> 64 <= n -> Z.testbit z n = false).
  { intros z n Hz Hn. destruct (decide (z = 0)) as [->|]; [apply Z.bits_0|].
    assert (Z.log2 z < 64) by (apply Z.log2_lt_pow2; lia). apply Z.bits_above_log2; lia. }
  assert (Hbits : forall k : nat, forall n, 0 <= n -> 64 - Z.of_nat k <= n -> Z.testbit x n = Z.testbit y n).
  { induction k as [|k IH]; intros n Hn0 Hn; [rewrite !Hhigh by (try done; lia); done|].
    destruct (decide (64 - Z.of_nat k <= n)); [by apply IH|].
    assert (Eb : Z.testbit (xorshift s x) n = Z.testbit (xorshift s y) n) by (by rewrite E).
    unfold xorshift in Eb. rewrite !Z.lxor_spec, !Z.shiftr_spec in Eb by lia.
    rewrite (IH (n + s)) in Eb by lia. by destruct (Z.testbit x n), (Z.testbit y n), (Z.testbit y (n + s)). }
  apply Z.bits_inj'. intros n Hn. apply (Hbits 64%nat); lia.
Qed.

(** Multiplication by a constant that has an inverse mod 2^64. *)
Lemma mul64_inj c c' x y :
  w64 (c * c') = 1 -> 0 <= x < 2 ^ 64 -> 0 <= y < 2 ^ 64 -> mul64 c x = mul64 c y -> x = y.
Proof.
  intros Hc Hx Hy E. unfold mul64, w64 in *.
  assert (E2 : ((x * c) mod 2 ^ 64 * c') mod 2 ^ 64 = ((y * c) mod 2 ^ 64 * c') mod 2 ^ 64) by (by rewrite E).
  rewrite !Z.mul_mod_idemp_l, <- !Z.mul_assoc in E2 by done.
  rewrite (Z.mul_mod x), (Z.mul_mod y), Hc in E2 by done.
  rewrite !Z.mul_1_r, !Z.mod_mod, !Z.mod_small in E2 by (done || lia). done.
Qed.

Lemma mul64_range c x : 0 <= mul64 c x < 2 ^ 64.
Proof. apply w64_range. Qed.

#[local] Hint Resolve mul64_range : dion.

Lemma mix_range key : 0 <= key < 2 ^ 64 -> 0 <= mix key < 2 ^ 64.
Proof. intros. unfold mix. repeat (apply xorshift_range; [lia|]; try apply mul64_range). Qed.



Lemma hash_bounds key m : 0 <= key < 2 ^ 64 -> 0 < m -> 0 <= hash key m <= m.
Proof.
  intros Hk Hm. pose proof (mix_range key Hk). unfold hash.
  destruct (Z.ltb_spec m (mix key)) as [Hlt|Hge]; [|lia].
  pose proof (Z.mod_pos_bound (mix key) m Hm). lia.
Qed.

(** [hash] stays below the modulus except for the keys that mix to the
    modulus itself, for which it returns the modulus: one past the last bucket. *)
Theorem hash_range key m :
  0 <= key < 2 ^ 64 -> 0 < m ->
  0 <= hash key m <= m /\ (hash key m = m <-> mix key = m).
Proof.
  intros Hk Hm. split; [by apply hash_bounds|]. unfold hash.
  pose proof (Z.mod_pos_bound (mix key) m Hm). destruct (Z.ltb_spec m (mix key)); lia.
Qed.

Lemma hash_range_witness :
  0 <= hash 4096 1500 <= 1500 /\ (hash 4096 1500 = 1500 <-> mix 4096 = 1500).
Proof. apply (hash_range 4096 1500); lia. Defined.

(** The key that mixes to 1500. *)
Definition bad_key : Z := 0x216ca8846dbb3c70.

Lemma bucket_ok t i l : 0 <= i -> t !! Z.to_nat i = Some l -> bucket t i = Ok l.
Proof. intros Hi Hl. unfold bucket. destruct (Z.ltb_spec i 0); [lia|]. by rewrite Hl. Qed.

(** C40: inserting under the key 0x216ca8846dbb3c70 in a table of 1500 lists
    reaches past the end of the array. *)
Theorem static_insert_out_of_bounds {A} `{KAlloc A} (t : list list_head) d (s : mem A) :
  length t = Z.to_nat HASH_TABLE_STATIC_POOL_SIZE ->
  static_hash_table_insert (mk_sht t HASH_TABLE_STATIC_POOL_SIZE) bad_key d s = Fault.
Proof.
  intros Hl. unfold static_hash_table_insert. cbn [size table].
  assert (Hh : hash bad_key HASH_TABLE_STATIC_POOL_SIZE = HASH_TABLE_STATIC_POOL_SIZE) by (by vm_compute).
  rewrite Hh. unfold bucket. rewrite (proj2 (Z.ltb_ge _ _)) by done.
  rewrite (lookup_ge_None_2 t (Z.to_nat HASH_TABLE_STATIC_POOL_SIZE)) by lia. done.
Qed.

Lemma static_insert_out_of_bounds_witness :
  static_hash_table_insert (mk_sht (replicate 1500 (mk_list 0 0 0 0)) HASH_TABLE_STATIC_POOL_SIZE)
    bad_key 1 (mk_mem ∅ (mk_list 0 0 0 0) true Bump.empty) = Fault.
Proof. apply static_insert_out_of_bounds. by vm_compute. Defined.

(** ** The table as a multimap from bucket numbers to data *)
Section Spec.
Context {A : Type} `{KAllocSpec A}.
Context (pool : gset Z).
Hypothesis pool_static : forall a, a ∈ pool -> ~ kheap a.
Hypothesis pool_null : NULL ∉ pool.
Hypothesis pool_size : Z.of_nat (base.size pool) < 2 ^ 64.
Implicit Types (s : mem A) (fs : list Z) (t : list list_head) (xss : list (list (Z * Z))).

(** Bucket [i] holds the nodes [xss !! i]; no two buckets share a node. *)
Record trepr s fs t xss : Prop := mk_trepr {
  trepr_length : length t = length xss;
  trepr_owned : forall i l xs, t !! i = Some l -> xss !! i = Some xs -> owned s fs l xs;
  trepr_disj : forall i j xs ys, i ≠ j -> xss !! i = Some xs -> xss !! j = Some ys ->
    forall a, a ∈ xs.*1 -> a ∉ ys.*1;
}.

Lemma owned_frame s fs xs s' fs' xs' l ys :
  untouched s fs xs s' fs' xs' -> owned s fs l ys -> (forall a, a ∈ ys.*1 -> a ∉ xs) ->
  owned s' fs' l ys /\ forall a, a ∈ ys.*1 -> a ∉ xs'.
Proof.
  intros Hu [Hr Ho] Hd.
  assert (Hall : forall a, a ∈ ys.*1 -> nodes s' !! a = nodes s !! a /\ a ∉ fs' /\ a ∉ xs').
  { intros a Ha. destruct (lseg_elem _ _ _ _ _ (chain_seg _ _ _ (proj1 Hr)) Ha) as (_ & n & Hn).
    rewrite Hn. apply Hu; auto. }
  split; [split|]; [|intros a Ha; by apply Hall..].
  eapply repr_frame; [|exact Hr]. intros a Ha. by apply Hall.
Qed.

Lemma check_loop_ok xs : forall fuel q d s,
  lseg (nodes s) q xs NULL -> (length xs < fuel)%nat ->
  check_loop fuel q d s = Ok (bool_decide (d ∈ xs.*2)).
Proof.
  induction xs as [|[a e] xs IH]; intros fuel q d s Hs Hf; (destruct fuel as [|fuel]; [simpl in Hf; lia|]).
  - simpl in Hs. subst q. done.
  - cbn [lseg] in Hs. destruct Hs as (-> & Han & n & Hn & Hd & Hs). cbn [check_loop].
    rewrite (proj2 (Z.eqb_neq a NULL)) by done. rewrite (load_ok s a n) by done. cbn [obind].
    destruct (Z.eqb_spec (data n) d) as [E|E].
    + rewrite bool_decide_eq_true_2; [done|]. cbn. rewrite <- E, Hd. set_solver.
    + rewrite IH by (try done; simpl in Hf; lia). f_equal. apply bool_decide_ext. cbn. set_solver.
Qed.

Lemma check_ok s fs tbl xss i xs d :
  trepr s fs (table tbl) xss -> 0 <= i -> xss !! Z.to_nat i = Some xs ->
  static_hash_table_check tbl i d s = Ok (bool_decide (d ∈ xs.*2)).
Proof.
  intros Ht Hi Hx. destruct (table tbl !! Z.to_nat i) as [l|] eqn:Hl.
  2: { apply lookup_ge_None in Hl. apply lookup_lt_Some in Hx. rewrite (trepr_length _ _ _ _ Ht) in Hl. lia. }
  unfold static_hash_table_check. rewrite (bucket_ok _ _ _ Hi Hl). cbn [obind].
  destruct (trepr_owned _ _ _ _ Ht _ _ _ Hl Hx) as [[Hch _] _].
  apply check_loop_ok; [apply (chain_seg _ _ _ Hch)|]. unfold walk_fuel.
  pose proof (chain_size _ _ _ Hch). lia.
Qed.

Lemma trepr_insert s fs t xss i l xs l' s' fs' p d :
  trepr s fs t xss -> t !! i = Some l -> xss !! i = Some xs ->
  owned s' fs' l' ((p, d) :: xs) -> untouched s fs xs.*1 s' fs' (p :: xs.*1) ->
  trepr s' fs' (<[i := l']> t) (<[i := (p, d) :: xs]> xss).
Proof.
  intros [Hlen Hown Hdis] Hl Hx Ho Hu. constructor.
  - by rewrite !length_insert.
  - intros j lj xj Hj Hxj. apply list_lookup_insert_Some in Hj as [(-> & -> & _)|[Hne Hj]].
    + rewrite list_lookup_insert_eq in Hxj by (by eapply lookup_lt_Some). by injection Hxj as <-.
    + rewrite list_lookup_insert_ne in Hxj by done.
      eapply owned_frame; [exact Hu|by eapply Hown|]. intros a. apply (Hdis j i xj xs); auto.
  - assert (Hp : forall j yj, j ≠ i -> xss !! j = Some yj -> p ∉ yj.*1).
    { intros j yj Hne Hj Hin. assert (Hlt := lookup_lt_Some _ _ _ Hj). rewrite <- Hlen in Hlt.
      apply lookup_lt_is_Some in Hlt as (lj & Hlj).
      destruct (owned_frame _ _ _ _ _ _ lj yj Hu (Hown _ _ _ Hlj Hj)) as [_ Hn].
      - intros a Ha. by apply (Hdis j i yj xs).
      - apply (Hn p Hin). set_solver. }
    intros j k xj yk Hjk Hj Hk a Ha.
    apply list_lookup_insert_Some in Hj as [(-> & <- & _)|[Hji Hj]];
      apply list_lookup_insert_Some in Hk as [(-> & <- & _)|[Hki Hk]]; [done| | |by apply (Hdis j k xj yk)].
    + cbn in Ha. apply elem_of_cons in Ha as [->|Ha]; [by apply (Hp k)|by apply (Hdis j k xs)].
    + cbn. apply not_elem_of_cons. split; [intros ->; by apply (Hp j xj)|by apply (Hdis j k xj)].
Qed.

(** C25: insertion adds the datum to the bucket its key hashes to and to no
    other: afterwards [static_hash_table_check] finds in each bucket what it
    found before, and the new datum in that bucket. *)
Theorem static_insert_check s fs tbl xss key d xs :
  inv pool s fs -> trepr s fs (table tbl) xss -> can_alloc s fs ->
  0 <= key < 2 ^ 64 -> 0 < size tbl -> xss !! Z.to_nat (hash key (size tbl)) = Some xs ->
  Z.of_nat (length xs) + 1 < 2 ^ 64 ->
  exists tbl' s' fs' xss', static_hash_table_insert tbl key d s = Ok (tbl', s') /\
    inv pool s' fs' /\ trepr s' fs' (table tbl') xss' /\ length xss' = length xss /\
    size tbl' = size tbl /\
    forall i x ys, 0 <= i -> xss !! Z.to_nat i = Some ys ->
      static_hash_table_check tbl' i x s'
      = Ok (bool_decide (i = hash key (size tbl) /\ x = d \/ x ∈ ys.*2)).
Proof.
  intros Hi Ht Hc Hk Hm Hx Hb. pose proof (hash_bounds key (size tbl) Hk Hm) as Hh.
  set (h := hash key (size tbl)) in *.
  destruct (table tbl !! Z.to_nat h) as [l|] eqn:Hl.
  2: { apply lookup_ge_None in Hl. apply lookup_lt_Some in Hx. rewrite (trepr_length _ _ _ _ Ht) in Hl. lia. }
  destruct (insert_head_ok pool pool_static pool_null pool_size s fs l xs d Hi (trepr_owned _ _ _ _ Ht _ _ _ Hl Hx) Hc Hb)
    as (p & l' & s' & fs' & E & Hi' & Ho' & _ & Hu).
  pose proof (trepr_insert _ _ _ _ _ _ _ _ _ _ _ _ Ht Hl Hx Ho' Hu) as Ht'.
  eexists (mk_sht (set_bucket (table tbl) h l') (size tbl)), s', fs', _. split_and!; [|done|exact Ht'|by rewrite length_insert|done|].
  - unfold static_hash_table_insert. fold h. rewrite (bucket_ok _ _ _ (proj1 Hh) Hl). cbn [obind].
    by rewrite E.
  - intros i x ys Hi0 Hy. destruct (decide (i = h)) as [->|Hne].
    + erewrite check_ok; [|exact Ht'|done|rewrite list_lookup_insert_eq; [done|by eapply lookup_lt_Some]].
      f_equal. apply bool_decide_ext. rewrite Hx in Hy. injection Hy as <-. cbn. set_solver.
    + erewrite check_ok; [|exact Ht'|done|rewrite list_lookup_insert_ne; [done|lia]].
      f_equal. apply bool_decide_ext. naive_solver.
Qed.

End Spec.

End HashTable.
