(* ===== verification/HashExamples.v ===== *)
(** * Hash tables on a concrete store *)

From S2P Require Import Prelude KAlloc SinglyLinkedList SLLExamples HashTable.

Module HashExamples.
Import SLL HashTable.

Definition small : static_hash_table := mk_sht (replicate 7 SLLExamples.empty_list) 7.

Definition no_nodes : list (list (Z * Z)) := replicate 7 [].

Lemma small_repr : trepr SLLExamples.start (pushed SLLExamples.base 4) (table small) no_nodes.
Proof.
  constructor; [done| |].
  - intros i l xs Hl Hx. apply lookup_replicate in Hl as [-> _]. apply lookup_replicate in Hx as [-> _].
    apply SLLExamples.empty_owned.
  - intros i j xs ys _ Hx _ a Ha. apply lookup_replicate in Hx as [-> _]. by apply not_elem_of_nil in Ha.
Qed.

Lemma static_insert_check_witness :
  exists tbl' s' fs' xss', static_hash_table_insert small 4096 77 SLLExamples.start = Ok (tbl', s') /\
    inv SLLExamples.pool s' fs' /\ trepr s' fs' (table tbl') xss' /\ length xss' = length no_nodes /\
    size tbl' = size small /\
    forall i x ys, 0 <= i -> no_nodes !! Z.to_nat i = Some ys ->
      static_hash_table_check tbl' i x s' = Ok (bool_decide (i = hash 4096 7 /\ x = 77 \/ x ∈ ys.*2)).
Proof.
  apply (static_insert_check SLLExamples.pool SLLExamples.pool_static SLLExamples.pool_null
    SLLExamples.pool_size SLLExamples.start (pushed SLLExamples.base 4) small no_nodes 4096 77 []);
    [apply SLLExamples.start_inv|apply small_repr|by left|lia|by vm_compute|by vm_compute|by vm_compute].
Defined.

End HashExamples.
