(* ===== verification/Strings.v ===== *)
(** * C strings (kernel/src/definitions/string.c, include/definitions/math.h)

    A buffer is the list of its bytes; an access outside it is a [Fault].  Each
    loop's index walks the buffer, so its length bounds the number of turns. *)

From S2P Require Import Prelude.

Module Strings.

Definition LAST_TOKEN : Z := 0.
Definition NEXT_TOKEN : Z := 1.

Abbreviation buf := (list Z).

(** [b[i]] *)
Definition rd (b : buf) (i : nat) : outcome Z := of_opt (b !! i).
(** [b[i] = c] *)
Definition wr (b : buf) (i : nat) (c : Z) : outcome buf :=
  if decide (i < length b)%nat then Ok (<[i := c]> b) else Fault.

Fixpoint strcpy_loop (fuel : nat) (dest src : buf) (i : nat) : outcome buf :=
  match fuel with
  | O => Timeout
  | S fuel =>
    let! c := rd src i in
    let! dest := wr dest i c in
    if c =? 0 then Ok dest else strcpy_loop fuel dest src (S i)
  end.

Definition strcpy (dest src : buf) : outcome buf := strcpy_loop (S (length src)) dest src 0.

(** The loop of safe_strcpy: the number of bytes written and [pointer]. *)
Fixpoint safe_strcpy_loop (fuel : nat) (dest src : buf) (i : nat) (pointer dest_size : Z)
  : outcome (buf * nat * Z) :=
  match fuel with
  | O => Timeout
  | S fuel =>
    let! c := rd src i in
    let! dest := wr dest i c in
    if c =? 0 then Ok (dest, S i, pointer)
    else if pointer <? dest_size then safe_strcpy_loop fuel dest src (S i) (w64 (pointer + 1)) dest_size
    else Ok (dest, S i, w64 (pointer + 1))
  end.

(** safe_strcpy; [dest] has moved past the bytes written when the terminator is
    stored at [dest[dest_size - 1]]. *)
Definition safe_strcpy (dest src : buf) (dest_size : Z) : outcome buf :=
  let! (dest, written, pointer) := safe_strcpy_loop (S (length src)) dest src 0 0 dest_size in
  if pointer =? dest_size
  then wr dest (Z.to_nat (w64 (Z.of_nat written + dest_size - 1))) 0
  else Ok dest.

Fixpoint strlen_loop (fuel : nat) (src : buf) (i : nat) : outcome Z :=
  match fuel with
  | O => Timeout
  | S fuel =>
    let! c := rd src i in
    if c =? 0 then Ok (Z.of_nat i) else strlen_loop fuel src (S i)
  end.

Definition strlen (src : buf) : outcome Z := strlen_loop (S (length src)) src 0.

Fixpoint safe_strlen_loop (fuel : nat) (src : buf) (i : nat) (max : Z) : outcome Z :=
  match fuel with
  | O => Timeout
  | S fuel =>
    let! c := rd src i in
    if negb (c =? 0) && (Z.of_nat i <=? max) then safe_strlen_loop fuel src (S i) max
    else Ok (Z.of_nat i)
  end.

Definition safe_strlen (src : buf) (max : Z) : outcome Z :=
  let! length := safe_strlen_loop (S (length src)) src 0 max in
  if max <? length then Ok KERN_OVERFLOW else Ok length.

Fixpoint strcat_loop (fuel : nat) (str1 str2 : buf) (i j : nat) : outcome buf :=
  match fuel with
  | O => Timeout
  | S fuel =>
    let! c := rd str2 j in
    if c =? 0 then Ok str1
    else let! str1 := wr str1 i c in strcat_loop fuel str1 str2 (S i) (S j)
  end.

(** strcat: the first loop is that of strlen. *)
Definition strcat (str1 str2 : buf) : outcome buf :=
  let! i := strlen str1 in
  strcat_loop (S (length str2)) str1 str2 (Z.to_nat i) 0.

Fixpoint strcmp_loop (fuel : nat) (str1 str2 : buf) (i : nat) : outcome Z :=
  match fuel with
  | O => Timeout
  | S fuel =>
    let! a := rd str1 i in
    if a =? 0 then Ok 1
    else
      let! b := rd str2 i in
      if b =? 0 then Ok 1
      else if negb (a =? b) then Ok 0
      else strcmp_loop fuel str1 str2 (S i)
  end.

Definition strcmp (str1 str2 : buf) : outcome Z := strcmp_loop (S (length str1)) str1 str2 0.

Fixpoint safe_strcmp_loop (fuel : nat) (str1 str2 : buf) (i : nat) (max_len : Z) : outcome Z :=
  match fuel with
  | O => Timeout
  | S fuel =>
    let! a := rd str1 i in
    if a =? 0 then Ok 1
    else
      let! b := rd str2 i in
      if b =? 0 then Ok 1
      else if max_len <=? 0 then Ok 1
      else if negb (a =? b) then Ok 0
      else safe_strcmp_loop fuel str1 str2 (S i) (w64 (max_len - 1))
  end.

Definition safe_strcmp (str1 str2 : buf) (max_len : Z) : outcome Z :=
  safe_strcmp_loop (S (length str1)) str1 str2 0 max_len.

(** The loop of strtok at [str[i]] and [token[j]]: the place where it stops. *)
Fixpoint strtok_loop (fuel : nat) (str : buf) (delimiter : Z) (token : buf) (i j : nat)
    (current_token token_number : Z) : outcome (nat * buf * nat) :=
  match fuel with
  | O => Timeout
  | S fuel =>
    let! c := rd str i in
    if c =? 0 then Ok (i, token, j)
    else if (current_token =? token_number) && (c =? delimiter) then Ok (i, token, j)
    else
      let skip := (c =? delimiter) && negb (token_number =? current_token) in
      let i := if skip then S i else i in
      let current_token := if skip then w64 (current_token + 1) else current_token in
      if token_number =? current_token then
        let! c := rd str i in
        let! token := wr token j c in
        strtok_loop fuel str delimiter token (S i) (S j) current_token token_number
      else strtok_loop fuel str delimiter token (S i) j current_token token_number
  end.

Definition strtok (str : buf) (delimiter : Z) (token : buf) (token_number : Z) : outcome (buf * Z) :=
  let! c := rd str 0 in
  let start := if c =? delimiter then 1%nat else 0%nat in
  let! (i, token, j) := strtok_loop (S (length str)) str delimiter token start 0 1 token_number in
  let! token := wr token j 0 in
  let! c := rd str i in
  Ok (token, if c =? 0 then LAST_TOKEN else NEXT_TOKEN).

Fixpoint strtok_count_loop (fuel : nat) (str : buf) (delimiter last_token count : Z) : outcome Z :=
  match fuel with
  | O => Timeout
  | S fuel =>
    if last_token =? LAST_TOKEN then Ok count
    else
      let! (_, last_token) := strtok str delimiter (replicate 128 0) U64_MAX in
      strtok_count_loop fuel str delimiter last_token (w64 (count + 1))
  end.

(** strtok_count, with [fuel] turns at most; the contents of [temp_string] do
    not matter, it is written before it is read. *)
Definition strtok_count (fuel : nat) (str : buf) (delimiter : Z) : outcome Z :=
  strtok_count_loop fuel str delimiter NEXT_TOKEN 0.

(** pow of include/definitions/math.h, with [fuel] turns at most *)
Fixpoint pow_loop (fuel : nat) (base working_value index : Z) : outcome Z :=
  match fuel with
  | O => Timeout
  | S fuel =>
    if negb (w64 (index - 1) =? 0) && (base <=? working_value)
    then pow_loop fuel base (w64 (working_value * base)) (w64 (index - 1))
    else if working_value <? base then Ok 0
    else Ok working_value
  end.

Definition pow (fuel : nat) (base power : Z) : outcome Z := pow_loop fuel base base power.

(** ** Strings in buffers *)

(** [b] starts with the string [s], terminated. *)
Definition holds (b s : buf) : Prop := 0 ∉ s /\ exists rest, b = s ++ 0 :: rest.

Lemma holds_at b s i : holds b s -> (i < length s)%nat -> exists c, b !! i = Some c /\ s !! i = Some c /\ c ≠ 0.
Proof.
  intros [Hz (r & ->)] Hi. destruct (lookup_lt_is_Some_2 s i Hi) as (c & Hc). exists c.
  rewrite lookup_app_l by done. split_and!; [done|done|]. intros ->. apply Hz. by eapply list_elem_of_lookup_2.
Qed.

Lemma holds_end b s : holds b s -> b !! length s = Some 0.
Proof. intros [_ (r & ->)]. by rewrite lookup_app_r, Nat.sub_diag by lia. Qed.

Lemma holds_length b s : holds b s -> (length s < length b)%nat.
Proof. intros [_ (r & ->)]. rewrite length_app. simpl. lia. Qed.

Lemma rd_ok b i c : b !! i = Some c -> rd b i = Ok c.
Proof. unfold rd. by intros ->. Qed.

Lemma wr_ok b i c : (i < length b)%nat -> wr b i c = Ok (<[i := c]> b).
Proof. intros. unfold wr. by rewrite decide_True. Qed.

Lemma strlen_loop_ok b s : holds b s -> forall k i fuel, (i + k = length s)%nat -> (k < fuel)%nat ->
  strlen_loop fuel b i = Ok (Z.of_nat (length s)).
Proof.
  intros Hb. induction k as [|k IH]; intros i fuel Hik Hf; (destruct fuel as [|fuel]; [lia|]); cbn [strlen_loop].
  - replace i with (length s) by lia. rewrite (rd_ok _ _ _ (holds_end _ _ Hb)). done.
  - destruct (holds_at _ _ i Hb) as (c & Hc & _ & Hn); [lia|]. rewrite (rd_ok _ _ _ Hc). cbn [obind].
    rewrite (proj2 (Z.eqb_neq _ _) Hn). apply IH; lia.
Qed.

Lemma strlen_ok b s : holds b s -> strlen b = Ok (Z.of_nat (length s)).
Proof. intros Hb. apply (strlen_loop_ok b s Hb (length s)); pose proof (holds_length _ _ Hb); lia. Qed.

(** Writing [cs] one after the other from position [i]. *)
Lemma splice_snoc {A} (b cs : list A) (i : nat) c :
  (i + length cs < length b)%nat ->
  <[(i + length cs)%nat := c]> (splice i cs b) = splice i (cs ++ [c]) b.
Proof.
  intros Hl. apply list_eq. intros k. rewrite lookup_splice by lia.
  destruct (decide (k = i + length cs)%nat) as [->|Hne].
  - rewrite list_lookup_insert_eq by (rewrite length_splice by lia; lia).
    rewrite decide_False by lia. rewrite decide_True by (rewrite length_app; simpl; lia).
    rewrite lookup_app_r by lia. by replace (i + length cs - i - length cs)%nat with 0%nat by lia.
  - rewrite list_lookup_insert_ne by done. rewrite lookup_splice by lia.
    rewrite length_app. cbn [length]. repeat case_decide; try lia; try done.
    by rewrite lookup_app_l by lia.
Qed.

(** *** safe_strcpy *)
Lemma safe_strcpy_loop_short b s dest size : holds b s -> Z.of_nat (length s) < size -> size < 2 ^ 64 ->
  (length s < length dest)%nat -> forall k i fuel, (i + k = length s)%nat -> (k < fuel)%nat ->
  safe_strcpy_loop fuel (splice 0 (take i s) dest) b i (Z.of_nat i) size
  = Ok (splice 0 (s ++ [0]) dest, S (length s), Z.of_nat (length s)).
Proof.
  intros Hb Hs Hsz Hd. assert (Htk : forall i, (i <= length s)%nat -> length (take i s) = i).
  { intros i Hi. rewrite length_take. lia. }
  induction k as [|k IH]; intros i fuel Hik Hf; (destruct fuel as [|fuel]; [lia|]); cbn [safe_strcpy_loop].
  - replace i with (length s) by lia. rewrite (rd_ok _ _ _ (holds_end _ _ Hb)). cbn [obind].
    rewrite wr_ok by (rewrite length_splice; rewrite ?Htk by lia; lia). cbn.
    rewrite take_ge by lia. by rewrite <- (splice_snoc dest s 0 0) by lia.
  - destruct (holds_at _ _ i Hb) as (c & Hc & Hsc & Hn); [lia|]. rewrite (rd_ok _ _ _ Hc). cbn [obind].
    rewrite wr_ok by (rewrite length_splice; rewrite ?Htk by lia; lia). cbn [obind].
    rewrite (proj2 (Z.eqb_neq _ _) Hn), (proj2 (Z.ltb_lt _ _)) by lia.
    rewrite w64_small by lia. replace (Z.of_nat i + 1) with (Z.of_nat (S i)) by lia.
    pose proof (splice_snoc dest (take i s) 0 c) as Hsn. rewrite Htk in Hsn by lia. cbn [Nat.add] in Hsn.
    rewrite Hsn, <- take_S_r by (done || lia). apply IH; lia.
Qed.

Lemma safe_strcpy_ok b s dest size : holds b s -> Z.of_nat (length s) < size < 2 ^ 64 ->
  (length s < length dest)%nat -> safe_strcpy dest b size = Ok (splice 0 (s ++ [0]) dest).
Proof.
  intros Hb Hs Hd. pose proof (holds_length _ _ Hb) as Hl. unfold safe_strcpy.
  pose proof (safe_strcpy_loop_short b s dest size Hb ltac:(lia) ltac:(lia) Hd (length s) 0 (S (length b))) as E.
  change (take 0 s) with (@nil Z) in E. rewrite splice_nil in E. change (Z.of_nat 0) with 0 in E. rewrite E by lia. cbn [obind].
  by rewrite (proj2 (Z.eqb_neq _ _)) by lia.
Qed.

(** A string that does not fit: the byte at [dest[dest_size]] is written. *)
Lemma safe_strcpy_loop_long b s size : holds b s -> size <= Z.of_nat (length s) -> size < 2 ^ 64 ->
  forall k i fuel dest, length dest = Z.to_nat size -> (i + k = Z.to_nat size)%nat -> (k < fuel)%nat ->
  safe_strcpy_loop fuel dest b i (Z.of_nat i) size = Fault.
Proof.
  intros Hb Hs Hsz. assert (Hread : forall i, (i <= length s)%nat -> exists c, rd b i = Ok c /\ (c = 0 -> i = length s)).
  { intros i Hi. destruct (decide (i = length s)) as [->|].
    - exists 0. by rewrite (rd_ok _ _ _ (holds_end _ _ Hb)).
    - destruct (holds_at _ _ i Hb) as (c & Hc & _ & ?); [lia|]. exists c. by rewrite (rd_ok _ _ _ Hc). }
  induction k as [|k IH]; intros i fuel dest Hd Hik Hf; (destruct fuel as [|fuel]; [lia|]); cbn [safe_strcpy_loop].
  - destruct (Hread i) as (c & -> & _); [lia|]. cbn [obind]. unfold wr. by rewrite decide_False by lia.
  - destruct (Hread i) as (c & -> & Hc); [lia|]. cbn [obind]. rewrite wr_ok by lia. cbn [obind].
    rewrite (proj2 (Z.eqb_neq c 0)) by (intros ->; specialize (Hc eq_refl); lia).
    rewrite (proj2 (Z.ltb_lt _ _)) by lia. rewrite w64_small by lia.
    replace (Z.of_nat i + 1) with (Z.of_nat (S i)) by lia. apply IH; [by rewrite length_insert|lia|lia].
Qed.

(** C27: safe_strcpy copies a string that is shorter than the destination,
    terminator included; a string of [dest_size] bytes or more makes it write
    past a destination of [dest_size] bytes. *)
Theorem safe_strcpy_spec b s dest size :
  holds b s -> 0 < size < 2 ^ 63 -> length dest = Z.to_nat size ->
  safe_strcpy dest b size
  = if decide (Z.of_nat (length s) < size) then Ok (splice 0 (s ++ [0]) dest) else Fault.
Proof.
  intros Hb Hsz Hd. pose proof (holds_length _ _ Hb) as Hl. case_decide as Hs.
  - apply safe_strcpy_ok; [done|lia|lia].
  - unfold safe_strcpy. pose proof (safe_strcpy_loop_long b s size Hb ltac:(lia) ltac:(lia) (Z.to_nat size) 0 (S (length b)) dest) as E.
    change (Z.of_nat 0) with 0 in E. by rewrite E by lia.
Qed.

Lemma safe_strcpy_spec_witness :
  safe_strcpy [9; 9; 9; 9] [65; 66; 0; 7] 4
  = if decide (Z.of_nat (length [65; 66]) < 4) then Ok (splice 0 ([65; 66] ++ [0]) [9; 9; 9; 9]) else Fault.
Proof.
  apply (safe_strcpy_spec [65; 66; 0; 7] [65; 66] [9; 9; 9; 9] 4); [|lia|done].
  split; [apply (bool_decide_unpack _); by vm_compute|by exists [7]].
Defined.

(** *** strcmp *)
Lemma strcmp_loop_ok b1 s1 b2 s2 : holds b1 s1 -> holds b2 s2 ->
  forall k i fuel, (i + k = length s1)%nat -> (k < fuel)%nat -> (i <= length s2)%nat ->
  take i s1 = take i s2 ->
  strcmp_loop fuel b1 b2 i
  = Ok (if decide (s1 `prefix_of` s2 \/ s2 `prefix_of` s1) then 1 else 0).
Proof.
  intros H1 H2. induction k as [|k IH]; intros i fuel Hik Hf Hi2 Heq;
    (destruct fuel as [|fuel]; [lia|]); cbn [strcmp_loop].
  - replace i with (length s1) in * by lia. rewrite (rd_ok _ _ _ (holds_end _ _ H1)). cbn.
    rewrite decide_True; [done|]. left. rewrite take_ge in Heq by lia. rewrite Heq. apply prefix_take.
  - destruct (holds_at _ _ i H1) as (a & Ha & Hsa & Hna); [lia|]. rewrite (rd_ok _ _ _ Ha). cbn [obind].
    rewrite (proj2 (Z.eqb_neq _ _) Hna). destruct (decide (i = length s2)) as [->|Hne].
    { rewrite (rd_ok _ _ _ (holds_end _ _ H2)). cbn. rewrite decide_True; [done|]. right.
      rewrite (take_ge s2) in Heq by lia. rewrite <- Heq. apply prefix_take. }
    destruct (holds_at _ _ i H2) as (c & Hc & Hsc & Hnc); [lia|]. rewrite (rd_ok _ _ _ Hc). cbn [obind].
    rewrite (proj2 (Z.eqb_neq _ _) Hnc). destruct (Z.eqb_spec a c) as [->|Hac]; cbn [negb].
    + apply IH; [lia|lia|lia|]. by rewrite !(take_S_r _ _ c), Heq.
    + rewrite decide_False; [done|]. intros [Hp|Hp].
      * eapply prefix_lookup_Some in Hp; [|exact Hsa]. congruence.
      * eapply prefix_lookup_Some in Hp; [|exact Hsc]. congruence.
Qed.

(** Strcmp answers 1 exactly when one of the strings is a prefix of the
    other; equal strings and different lengths of the same beginning are not
    told apart. *)
Theorem strcmp_prefix b1 s1 b2 s2 :
  holds b1 s1 -> holds b2 s2 ->
  strcmp b1 b2 = Ok (if decide (s1 `prefix_of` s2 \/ s2 `prefix_of` s1) then 1 else 0).
Proof.
  intros H1 H2. pose proof (holds_length _ _ H1).
  apply (strcmp_loop_ok b1 s1 b2 s2 H1 H2 (length s1) 0); [lia|lia|lia|done].
Qed.

Lemma strcmp_prefix_witness :
  strcmp [97; 0] [97; 98; 0]
  = Ok (if decide ([97] `prefix_of` [97; 98] \/ [97; 98] `prefix_of` [97]) then 1 else 0).
Proof.
  apply strcmp_prefix; (split; [apply (bool_decide_unpack _); by vm_compute|by exists []]).
Defined.

(** *** strtok *)

(** The tokens [ts] separated by the delimiter. *)
Fixpoint join (d : Z) (ts : list (list Z)) : list Z :=
  match ts with
  | [] => []
  | [t] => t
  | t :: ts' => t ++ d :: join d ts'
  end.

(** A token: not empty, without delimiter or terminator. *)
Definition token_ok (d : Z) (t : list Z) : Prop := t ≠ [] /\ d ∉ t /\ 0 ∉ t.

(** [str] holds the bytes [cs] at [i]. *)
Definition at_pos (str : buf) (i : nat) (cs : list Z) : Prop :=
  forall k c, cs !! k = Some c -> str !! (i + k)%nat = Some c.

Lemma at_pos_app str i cs1 cs2 : at_pos str i (cs1 ++ cs2) <-> at_pos str i cs1 /\ at_pos str (i + length cs1) cs2.
Proof.
  unfold at_pos. split.
  - intros Ha. split; intros k c Hk; [apply Ha; by rewrite lookup_app_l by (by eapply lookup_lt_Some)|].
    rewrite <- Nat.add_assoc. apply Ha. rewrite lookup_app_r by lia. by rewrite Nat.add_sub_swap, Nat.sub_diag by lia.
  - intros [H1 H2] k c Hk. apply lookup_app_Some in Hk as [Hk|[Hge Hk]]; [auto|].
    specialize (H2 _ _ Hk). by replace (i + length cs1 + (k - length cs1))%nat with (i + k)%nat in H2 by lia.
Qed.

Lemma at_pos_cons str i c cs : at_pos str i (c :: cs) <-> str !! i = Some c /\ at_pos str (S i) cs.
Proof.
  unfold at_pos. split.
  - intros Ha. split; [by specialize (Ha 0%nat c eq_refl); rewrite Nat.add_0_r in Ha|].
    intros k x Hk. specialize (Ha (S k) x Hk). by rewrite Nat.add_succ_r in Ha.
  - intros [H0 H1] [|k] x Hk; [rewrite Nat.add_0_r; by injection Hk as <-|].
    rewrite Nat.add_succ_r. by apply H1.
Qed.

(** Characters of a token that is not asked for are skipped, ... *)
Lemma strtok_skip str d tok j num r : forall i fuel cur,
  at_pos str i r -> d ∉ r -> 0 ∉ r -> cur ≠ num ->
  strtok_loop (length r + fuel) str d tok i j cur num = strtok_loop fuel str d tok (i + length r) j cur num.
Proof.
  induction r as [|c r IH]; intros i fuel cur Ha Hd Hz Hne; [by rewrite Nat.add_0_r|].
  apply at_pos_cons in Ha as [Hc Ha]. apply not_elem_of_cons in Hd as [Hdc Hd]. apply not_elem_of_cons in Hz as [Hzc Hz].
  cbn [length Nat.add strtok_loop]. rewrite (rd_ok _ _ _ Hc). cbn [obind].
  rewrite (proj2 (Z.eqb_neq c 0)), (proj2 (Z.eqb_neq cur num)), (proj2 (Z.eqb_neq c d)), (proj2 (Z.eqb_neq num cur)) by congruence.
  cbn [andb]. rewrite (proj2 (Z.eqb_neq num cur)) by congruence. rewrite IH by done.
  by rewrite Nat.add_succ_l, Nat.add_succ_r.
Qed.

(** ... those of the one asked for are copied, ... *)
Lemma strtok_copy str d num r : forall i fuel tok j done_,
  at_pos str i r -> d ∉ r -> 0 ∉ r -> j = length done_ -> (length done_ + length r <= length tok)%nat ->
  strtok_loop (length r + fuel) str d (splice 0 done_ tok) i j num num
  = strtok_loop fuel str d (splice 0 (done_ ++ r) tok) (i + length r) (j + length r) num num.
Proof.
  induction r as [|c r IH]; intros i fuel tok j dn Ha Hd Hz -> Hl.
  { by rewrite app_nil_r, !Nat.add_0_r. }
  apply at_pos_cons in Ha as [Hc Ha]. apply not_elem_of_cons in Hd as [Hdc Hd]. apply not_elem_of_cons in Hz as [Hzc Hz].
  simpl length in *. cbn [Nat.add strtok_loop]. rewrite (rd_ok _ _ _ Hc). cbn [obind].
  rewrite (proj2 (Z.eqb_neq c 0)), (proj2 (Z.eqb_neq c d)) by congruence.
  rewrite Z.eqb_refl. cbn [andb negb]. rewrite (rd_ok _ _ _ Hc). cbn [obind].
  rewrite wr_ok by (rewrite length_splice by lia; lia). cbn [obind].
  pose proof (splice_snoc tok dn 0 c ltac:(lia)) as Hs. cbn [Nat.add] in Hs. rewrite Hs.
  rewrite IH; [|done|done|done|rewrite length_app; simpl; lia|rewrite length_app; simpl; lia].
  rewrite <- app_assoc. cbn [app]. by rewrite Z.eqb_refl, !Nat.add_succ_l, !Nat.add_succ_r.
Qed.

(** ... and a delimiter in between is stepped over. *)
Lemma strtok_delim str d tok j num i fuel cur c :
  d ≠ 0 -> str !! i = Some d -> str !! S i = Some c -> c ≠ d -> c ≠ 0 -> cur ≠ num -> 0 <= cur < 2 ^ 64 - 1 ->
  strtok_loop fuel str d tok i j cur num = strtok_loop fuel str d tok (S i) j (cur + 1) num.
Proof.
  intros Hd0 Hd Hc Hcd Hc0 Hne Hb. destruct fuel as [|fuel]; [done|]. cbn [strtok_loop].
  rewrite (rd_ok _ _ _ Hd), (rd_ok _ _ _ Hc). cbn [obind].
  rewrite (proj2 (Z.eqb_neq d 0)), (proj2 (Z.eqb_neq c 0)), (proj2 (Z.eqb_neq c d)), Z.eqb_refl by done.
  rewrite (proj2 (Z.eqb_neq cur num)), (proj2 (Z.eqb_neq num cur)) by congruence.
  cbn [andb negb]. rewrite andb_false_r, w64_small by lia. rewrite (rd_ok _ _ _ Hc). done.
Qed.

Lemma join_head d t ts : token_ok d t -> exists c r, join d (t :: ts) = c :: r /\ c ≠ d /\ c ≠ 0.
Proof.
  intros (Hne & Hd & Hz). destruct t as [|c t]; [done|].
  apply not_elem_of_cons in Hd as [? _]. apply not_elem_of_cons in Hz as [? _].
  destruct ts; cbn; eexists c, _; (split; [done|split; by intros ->]).
Qed.

(** Where the loop stops: after the copied token, or at the terminator when
    there is no such token. *)
Lemma strtok_loop_ok str d tok ts : forall i fuel cur num,
  d ≠ 0 -> Forall (token_ok d) ts -> at_pos str i (join d ts ++ [0]) ->
  (length (join d ts) < fuel)%nat -> 0 <= cur <= num -> num < 2 ^ 64 ->
  (forall t, ts !! Z.to_nat (num - cur) = Some t -> length t < length tok)%nat ->
  strtok_loop fuel str d tok i 0 cur num =
    match ts !! Z.to_nat (num - cur) with
    | Some t => Ok (i + length (join d (take (S (Z.to_nat (num - cur))) ts)), splice 0 t tok, length t)%nat
    | None => Ok (i + length (join d ts), tok, 0)%nat
    end.
Proof.
  induction ts as [|t ts IH]; intros i fuel cur num Hd0 Hts Hat Hf Hcur Hnum Htok.
  { apply at_pos_cons in Hat as [Hc _]. destruct fuel as [|fuel]; [simpl in Hf; lia|].
    cbn [strtok_loop]. rewrite (rd_ok _ _ _ Hc). cbn. by rewrite Nat.add_0_r. }
  apply Forall_cons in Hts as [Ht Hts]. destruct Ht as (Htne & Htd & Htz).
  assert (Hlen : (length t <= length (join d (t :: ts)))%nat) by (destruct ts; cbn; rewrite ?length_app; lia).
  assert (Hsplit : exists c cs, join d (t :: ts) ++ [0] = t ++ c :: cs /\
    (ts = [] /\ c = 0 \/ ts ≠ [] /\ c = d /\ cs = join d ts ++ [0])).
  { destruct ts as [|t2 ts]; [by exists 0, []; split; [|left]|].
    exists d, (join d (t2 :: ts) ++ [0]). cbn [join]. rewrite <- app_assoc. split; [done|by right]. }
  destruct Hsplit as (c & cs & Hj & Hcs). rewrite Hj in Hat. apply at_pos_app in Hat as [Hat Hat2].
  apply at_pos_cons in Hat2 as [Hc Hat2].
  replace fuel with (length t + S (fuel - length t - 1))%nat by lia.
  destruct (decide (cur = num)) as [<-|Hne].
  - rewrite Z.sub_diag in *. cbn [Z.to_nat lookup list_lookup take join] in *.
    rewrite <- (splice_nil tok 0) at 1.
    rewrite (strtok_copy str d cur t i _ tok 0 []) by (try done; simpl; specialize (Htok t eq_refl); lia).
    cbn [app Nat.add strtok_loop]. rewrite (rd_ok _ _ _ Hc). cbn [obind]. rewrite Z.eqb_refl.
    destruct Hcs as [(_ & ->)|(_ & -> & _)]; cbn; [done|].
    by rewrite (proj2 (Z.eqb_neq d 0)), Z.eqb_refl by done.
  - rewrite strtok_skip by done.
    replace (Z.to_nat (num - cur)) with (S (Z.to_nat (num - (cur + 1)))) in * by lia. cbn [lookup list_lookup] in *.
    destruct Hcs as [(-> & ->)|(Hts2 & -> & ->)].
    + cbn [strtok_loop]. rewrite (rd_ok _ _ _ Hc). done.
    + destruct ts as [|t2 ts]; [done|]. pose proof (proj1 (Forall_cons _ _ _) Hts) as [Ht2 _].
      destruct (join_head d t2 ts Ht2) as (c2 & r2 & Hj2 & Hc2d & Hc20).
      pose proof Hat2 as Hat3. rewrite Hj2 in Hat3. apply at_pos_cons in Hat3 as [Hc2 _].
      rewrite (strtok_delim str d tok 0 num _ _ cur c2) by (done || lia).
      rewrite IH; [|done|done|done| |lia|lia|].
      * cbn [join length take]. rewrite !length_app. cbn [length].
        destruct ((t2 :: ts) !! Z.to_nat (num - (cur + 1))) eqn:E; rewrite ?length_app; cbn [length];
          do 3 f_equal; lia.
      * cbn [join] in Hf. rewrite length_app in Hf. cbn [length join] in *. lia.
      * done.
Qed.

(** A path: an optional leading delimiter and the tokens. *)
Definition path (d : Z) (lead : list Z) (ts : list (list Z)) : Prop :=
  d ≠ 0 /\ (lead = [] \/ lead = [d]) /\ Forall (token_ok d) ts.

Lemma join_take d ts k : (S k < length ts)%nat ->
  exists r, join d ts = join d (take (S k) ts) ++ d :: r.
Proof.
  revert k. induction ts as [|t [|t2 ts] IH]; intros k Hk; [simpl in Hk; lia..|].
  destruct k as [|k]; [by exists (join d (t2 :: ts))|].
  destruct (IH k) as (r & Hr); [simpl in *; lia|]. exists r. cbn [join take] in *.
  rewrite Hr. by rewrite <- app_assoc.
Qed.

(** strtok up to its loop, on a path. *)
Lemma strtok_path str d lead ts tok num :
  path d lead ts -> holds str (lead ++ join d ts) -> 1 <= num < 2 ^ 64 ->
  (forall t, ts !! Z.to_nat (num - 1) = Some t -> length t < length tok)%nat ->
  strtok str d tok num =
    let! (i, token, j) := match ts !! Z.to_nat (num - 1) with
      | Some t => Ok (length lead + length (join d (take (S (Z.to_nat (num - 1))) ts)), splice 0 t tok, length t)%nat
      | None => Ok (length lead + length (join d ts), tok, 0)%nat
      end in
    let! token := wr token j 0 in let! c := rd str i in
    Ok (token, if c =? 0 then LAST_TOKEN else NEXT_TOKEN).
Proof.
  intros (Hd0 & Hlead & Hts) [Hz (rest & Hstr)] Hnum Htok.
  assert (Hat : at_pos str (length lead) (join d ts ++ [0])).
  { intros k c Hk. rewrite Hstr. rewrite <- app_assoc. rewrite lookup_app_r by lia.
    replace (length lead + k - length lead)%nat with k by lia.
    change (0 :: rest) with ([0] ++ rest). rewrite app_assoc. apply lookup_app_l_Some. done. }
  assert (Hc : exists c, rd str 0 = Ok c /\ (if c =? d then 1%nat else 0%nat) = length lead).
  { destruct Hlead as [-> | ->]; [|exists d; rewrite Hstr; cbn; by rewrite Z.eqb_refl].
    destruct ts as [|t ts]; [exists 0; split; [by rewrite Hstr|by rewrite (proj2 (Z.eqb_neq 0 d)) by congruence]|].
    apply Forall_cons in Hts as [Ht _]. destruct (join_head d t ts Ht) as (c & r & Hj & Hcd & _).
    exists c. rewrite Hstr, Hj. cbn. by rewrite (proj2 (Z.eqb_neq c d)) by done. }
  destruct Hc as (c & Hc & Hst). unfold strtok. rewrite Hc. cbn [obind]. rewrite Hst.
  rewrite (strtok_loop_ok str d tok ts); [done|done|done|done| |lia|lia|done].
  rewrite Hstr, !length_app. simpl. lia.
Qed.

(** C26: strtok finds the tokens of a path by number.  Token [num] is copied out
    with its terminator, NEXT_TOKEN when others follow it; past the last token
    the result is the empty string and LAST_TOKEN. *)
Theorem strtok_spec str d lead ts tok num :
  path d lead ts -> holds str (lead ++ join d ts) -> 1 <= num < 2 ^ 64 ->
  (0 < length tok)%nat -> (forall t, ts !! Z.to_nat (num - 1) = Some t -> length t < length tok)%nat ->
  strtok str d tok num =
    Ok (match ts !! Z.to_nat (num - 1) with Some t => splice 0 (t ++ [0]) tok | None => splice 0 [0] tok end,
        if num <? Z.of_nat (length ts) then NEXT_TOKEN else LAST_TOKEN).
Proof.
  intros Hp Hh Hnum Htl Htok. rewrite (strtok_path str d lead ts) by done.
  pose proof (holds_end _ _ Hh) as Hend. rewrite length_app in Hend. destruct Hh as [_ (rest & Hstr)].
  destruct (ts !! Z.to_nat (num - 1)) as [t|] eqn:Ht; cbn [obind].
  - pose proof (lookup_lt_Some _ _ _ Ht) as Hlt. specialize (Htok t eq_refl).
    rewrite wr_ok by (rewrite length_splice by lia; lia). cbn [obind].
    pose proof (splice_snoc tok t 0 0 ltac:(lia)) as Hs. cbn [Nat.add] in Hs. rewrite Hs. destruct (Z.ltb_spec num (Z.of_nat (length ts))) as [Hl|Hl].
    + destruct (join_take d ts (Z.to_nat (num - 1))) as (r & Hr); [lia|].
      erewrite rd_ok; [cbn [obind]|]; cycle 1.
      { rewrite Hstr, Hr, <- !app_assoc. rewrite lookup_app_r by lia.
        rewrite lookup_app_r by lia. rewrite Nat.add_comm, Nat.add_sub, Nat.sub_diag. done. }
      by rewrite (proj2 (Z.eqb_neq d 0)) by apply Hp.
    + rewrite take_ge by lia. by rewrite (rd_ok _ _ _ Hend).
  - apply lookup_ge_None in Ht. rewrite wr_ok by done. cbn [obind]. rewrite (rd_ok _ _ _ Hend). cbn.
    rewrite (proj2 (Z.ltb_ge _ _)) by lia. destruct tok; [simpl in Htl; lia|done].
Qed.

Lemma strtok_spec_witness :
  strtok [47; 97; 47; 98; 0] 47 [9; 9; 9] 1 =
    Ok (match [[97]; [98]] !! Z.to_nat (1 - 1) with Some t => splice 0 (t ++ [0]) [9; 9; 9] | None => splice 0 [0] [9; 9; 9] end,
        if 1 <? Z.of_nat (length [[97]; [98]]) then NEXT_TOKEN else LAST_TOKEN).
Proof.
  apply (strtok_spec [47; 97; 47; 98; 0] 47 [47] [[97]; [98]]).
  - split; [done|split; [by right|]]. unfold token_ok. repeat constructor; (discriminate || set_solver).
  - split; [apply (bool_decide_unpack _); by vm_compute|by exists []].
  - lia.
  - simpl; lia.
  - intros t [= <-]. simpl. lia.
Defined.

(** Strtok_count answers 1 for every path, however many tokens it has. *)
Theorem strtok_count_always_one str d lead ts fuel :
  path d lead ts -> holds str (lead ++ join d ts) -> Z.of_nat (length ts) < U64_MAX -> (2 <= fuel)%nat ->
  strtok_count fuel str d = Ok 1.
Proof.
  intros Hp Hh Hl Hf. destruct fuel as [|[|fuel]]; [lia..|]. unfold strtok_count. cbn [strtok_count_loop].
  assert (Hnone : ts !! Z.to_nat (U64_MAX - 1) = None).
  { apply lookup_ge_None. unfold U64_MAX in *. lia. }
  rewrite (strtok_path str d lead ts); [|done|done|unfold U64_MAX; lia|by intros t; rewrite Hnone].
  rewrite Hnone. cbn [obind]. rewrite wr_ok by (by rewrite length_replicate; lia). cbn [obind].
  pose proof (holds_end _ _ Hh) as Hend. rewrite length_app in Hend. by rewrite (rd_ok _ _ _ Hend).
Qed.

Lemma strtok_count_always_one_witness : strtok_count 2 [47; 97; 47; 98; 0] 47 = Ok 1.
Proof.
  apply (strtok_count_always_one [47; 97; 47; 98; 0] 47 [47] [[97]; [98]]).
  - split; [done|split; [by right|]]. unfold token_ok. repeat constructor; (discriminate || set_solver).
  - split; [apply (bool_decide_unpack _); by vm_compute|by exists []].
  - by vm_compute.
  - lia.
Defined.

(** A path that ends with the delimiter makes strtok, asked for the token
    behind it, step over the terminator and read past the end of the string. *)
Theorem strtok_trailing_delimiter :
  strtok [97; 47; 0] 47 (replicate 8 0) 2 = Fault.
Proof. by vm_compute. Qed.

(** *** pow *)
Lemma pow_loop_ok base n : 2 <= base -> forall k i, (1 <= i)%nat -> (i + k = n)%nat -> base ^ Z.of_nat n < 2 ^ 64 ->
  pow_loop (S k) base (base ^ Z.of_nat i) (Z.of_nat (S k)) = Ok (base ^ Z.of_nat n).
Proof.
  intros Hb. assert (Hle : forall i, (1 <= i)%nat -> base <= base ^ Z.of_nat i).
  { intros i Hi. rewrite <- (Z.pow_1_r base) at 1. apply Z.pow_le_mono_r; lia. }
  induction k as [|k IH]; intros i Hi Hik Hn.
  - replace i with n by lia. cbn [pow_loop]. change (w64 (Z.of_nat 1 - 1)) with 0. cbn.
    rewrite (proj2 (Z.ltb_ge _ _)); [done|]. apply Hle. lia.
  - assert (Z.of_nat n < 2 ^ 64).
    { eapply Z.lt_le_trans; [apply (Z.pow_gt_lin_r 2); lia|]. etrans; [apply (Z.pow_le_mono_l 2 base); lia|lia]. }
    cbn [pow_loop]. rewrite (w64_small (Z.of_nat (S (S k)) - 1)) by lia.
    rewrite (proj2 (Z.eqb_neq _ 0)) by lia. rewrite (proj2 (Z.leb_le _ _)) by (by apply Hle). cbn [negb andb].
    assert (Hst : base ^ Z.of_nat i * base = base ^ Z.of_nat (S i)).
    { rewrite Nat2Z.inj_succ, Z.pow_succ_r by lia. lia. }
    assert (base ^ Z.of_nat (S i) <= base ^ Z.of_nat n) by (apply Z.pow_le_mono_r; lia).
    rewrite Hst, (w64_small (base ^ Z.of_nat (S i))) by (split; [apply Z.pow_nonneg; lia|lia]).
    replace (Z.of_nat (S (S k)) - 1) with (Z.of_nat (S k)) by lia. apply IH; [lia|lia|done].
Qed.

(** [pow] computes the power whenever the exponent is positive and the
    result fits in 64 bits, in as many turns as the exponent. *)
Theorem pow_spec base power :
  2 <= base -> 1 <= power -> base ^ power < 2 ^ 64 ->
  pow (Z.to_nat power) base power = Ok (base ^ power).
Proof.
  intros Hb Hp Hlt. unfold pow.
  pose proof (pow_loop_ok base (Z.to_nat power) Hb (Z.to_nat power - 1) 1 ltac:(lia) ltac:(lia)) as E.
  replace (S (Z.to_nat power - 1)) with (Z.to_nat power) in E by lia.
  rewrite Z2Nat.id in E by lia. rewrite Z.pow_1_r in E. by apply E.
Qed.

Lemma pow_spec_witness : pow (Z.to_nat 10) 2 10 = Ok (2 ^ 10).
Proof. apply (pow_spec 2 10); lia. Defined.

End Strings.
