(* ===== verification/Spinlock.v ===== *)
(** * Spinlocks and mutexes (data_structures/concurrency, atomic_operations.c)

    The operations on one lock as functions, and acquire and release as a step
    relation of any number of processors, one memory access per step.  A
    processor runs one thread at a time: acquire disables interrupts before it
    swaps, so the thread that holds a lock is not preempted, and it does not
    acquire the lock again inside its critical section (recursive acquisition
    is the subject of a theorem of its own). *)

From S2P Require Import Prelude Strings.

Module Spinlock.

Definition DEADLOCK_DETECTION_THRESHOLD : Z := 1000000000.

(** struct spinlock; processors and processes are addresses, 0 is NULL *)
Record spinlock : Type := mk_lock {
  locked : Z; lock_id : Z; lock_cpu : Z; recursion_depth : Z; holding_process : Z }.

#[export] Instance spinlock_eq_dec : EqDecision spinlock.
Proof. solve_decision. Defined.

(** Who calls and in which kernel: [my_cpu()], [current_process()], the flag of
    the boot phase and whether the build defines FORCE_DEADLOCKS, as the
    repository's Makefile does. *)
Record thread : Type := mk_thread { my_cpu : Z; current_process : Z; bsp : bool; FORCE_DEADLOCKS : bool }.

(** initlock leaves [holding_process] as it was *)
Definition initlock (id : Z) (l : spinlock) : spinlock := mk_lock 0 id 0 0 (holding_process l).

(** The exchange of arch_atomic_swap that nobody interferes with: it succeeds at
    once or, when the lock is held, reaches the threshold, where it takes the
    lock by force or panics.  The flag is the value returned. *)
Definition arch_atomic_swap (force : bool) (l : spinlock) : outcome (bool * spinlock) :=
  let taken := mk_lock 1 (lock_id l) (lock_cpu l) (recursion_depth l) (holding_process l) in
  if locked l =? 0 then Ok (true, taken) else if force then Ok (false, taken) else Panic.

Definition arch_atomic_swap_or_return (field : Z) : bool * Z := (field =? 0, 1).

(** acquire_spinlock; a forced acquisition is only reported *)
Definition acquire_spinlock (t : thread) (l : spinlock) : outcome spinlock :=
  if bsp t then Ok l
  else if (lock_cpu l =? my_cpu t) && (holding_process l =? current_process t) then
    Ok (mk_lock (locked l) (lock_id l) (lock_cpu l) (w64 (recursion_depth l + 1)) (holding_process l))
  else
    let! (_, l) := arch_atomic_swap (FORCE_DEADLOCKS t) l in
    Ok (mk_lock (locked l) (lock_id l) (my_cpu t) (recursion_depth l) (current_process t)).

(** release_spinlock *)
Definition release_spinlock (l : spinlock) : spinlock :=
  let depth := if 0 <? recursion_depth l then recursion_depth l - 1 else recursion_depth l in
  if depth =? 0 then mk_lock 0 (lock_id l) 0 0 0
  else mk_lock (locked l) (lock_id l) (lock_cpu l) depth (holding_process l).

(** try_lock *)
Definition try_lock (t : thread) (l : spinlock) : bool * spinlock :=
  let (got, v) := arch_atomic_swap_or_return (locked l) in
  if got then
    (true, mk_lock v (lock_id l) (my_cpu t)
             (if lock_cpu l =? my_cpu t then w64 (recursion_depth l + 1) else recursion_depth l) (holding_process l))
  else (false, mk_lock v (lock_id l) (lock_cpu l) (recursion_depth l) (holding_process l)).

(** ** Mutexes *)
Definition MUTEX_NAME_LENGTH : Z := 30.

(** struct mutex; [m_name] is [lock_name] and what follows it *)
Record mutex : Type := mk_mutex { m_locked : Z; holder : Z; m_cpu : Z; m_name : list Z }.

Definition try_mutex (m : mutex) : bool * mutex :=
  let (got, v) := arch_atomic_swap_or_return (m_locked m) in (got, mk_mutex v (holder m) (m_cpu m) (m_name m)).

(** acquire_mutex; [sleep] is what the others do to the mutex while the caller
    sleeps, [cpu_of] the processor number of a process *)
Fixpoint acquire_mutex (fuel : nat) (sleep : mutex -> mutex) (process : Z) (cpu_of : Z -> Z) (m : mutex)
  : outcome mutex :=
  match fuel with
  | O => Timeout
  | S fuel =>
    let (got, m) := try_mutex m in
    if got then Ok (mk_mutex (m_locked m) process (cpu_of process) (m_name m))
    else acquire_mutex fuel sleep process cpu_of (sleep m)
  end.

Definition release_mutex (m : mutex) : mutex := mk_mutex 0 0 (-1) (m_name m).

(** init_mutex; the array has 32 bytes and the last write is to index 31 *)
Definition init_mutex (name : list Z) (m : mutex) : outcome mutex :=
  let! n := Strings.safe_strcpy (m_name m) name MUTEX_NAME_LENGTH in
  if decide (Z.to_nat (MUTEX_NAME_LENGTH + 1) < length n)%nat
  then Ok (mk_mutex 0 0 (-1) (<[Z.to_nat (MUTEX_NAME_LENGTH + 1) := 0]> n)) else Fault.

(** ** One thread *)

(** A lock nobody holds. *)
Definition lock_free (l : spinlock) : Prop := locked l = 0 /\ lock_cpu l = 0 /\ recursion_depth l = 0.

Lemma acquire_free t l : lock_free l -> my_cpu t ≠ 0 -> bsp t = false ->
  acquire_spinlock t l = Ok (mk_lock 1 (lock_id l) (my_cpu t) 0 (current_process t)).
Proof.
  intros (Hl & Hc & Hd) Ht Hb. unfold acquire_spinlock, arch_atomic_swap. rewrite Hb, Hc, Hl, Hd, (proj2 (Z.eqb_neq 0 (my_cpu t))) by done. done.
Qed.

(** A lock that another processor holds: the kernel panics or, built with
    FORCE_DEADLOCKS, takes the lock away from its holder. *)
Lemma acquire_held t l : locked l ≠ 0 -> lock_cpu l ≠ my_cpu t -> bsp t = false ->
  acquire_spinlock t l = (if FORCE_DEADLOCKS t
    then Ok (mk_lock 1 (lock_id l) (my_cpu t) (recursion_depth l) (current_process t)) else Panic).
Proof.
  intros Hl Hc Hb. unfold acquire_spinlock, arch_atomic_swap. rewrite Hb, (proj2 (Z.eqb_neq (lock_cpu l) _)), (proj2 (Z.eqb_neq (locked l) _)) by done.
  cbn [andb]. destruct (FORCE_DEADLOCKS t); done.
Qed.

(** Acquiring a free lock and releasing it gives the lock back as it was, with
    its owner cleared; while it is held the attempt of a thread on another
    processor does not get it (unless it forces it): try_lock fails and
    acquire_spinlock panics. *)
Theorem acquire_release t l :
  lock_free l -> my_cpu t ≠ 0 -> bsp t = false ->
  exists l', acquire_spinlock t l = Ok l' /\ locked l' = 1 /\ lock_cpu l' = my_cpu t /\
    release_spinlock l' = mk_lock 0 (lock_id l) 0 0 0 /\
    (forall t', my_cpu t' ≠ my_cpu t -> try_lock t' l' = (false, l') /\
       (bsp t' = false -> FORCE_DEADLOCKS t' = false -> acquire_spinlock t' l' = Panic)).
Proof.
  intros Hf Ht Hb. rewrite (acquire_free t l) by done. eexists. split; [done|].
  split_and!; [done|done|done|]. intros t' Ht'. split; [done|]. intros Hb' Hf'. by rewrite acquire_held, Hf' by done.
Qed.

Definition thread1 : thread := mk_thread 1 5 false false.
Definition thread2 : thread := mk_thread 2 6 false false.

Lemma acquire_release_witness :
  exists l', acquire_spinlock thread1 (mk_lock 0 9 0 0 0) = Ok l' /\ release_spinlock l' = mk_lock 0 9 0 0 0.
Proof.
  destruct (acquire_release thread1 (mk_lock 0 9 0 0 0) ltac:(done) ltac:(done) eq_refl) as (l' & E & _ & _ & Hr & _).
  exists l'. split; [exact E|exact Hr].
Defined.

(** C35: recursive locking is released too early: the depth starts at 0, so after
    two acquisitions one release frees the lock and another thread gets it. *)
Theorem recursive_release_too_early t t' l :
  lock_free l -> my_cpu t ≠ 0 -> my_cpu t' ≠ 0 -> bsp t = false -> bsp t' = false ->
  exists l1 l2 l3, acquire_spinlock t l = Ok l1 /\ acquire_spinlock t l1 = Ok l2 /\
    locked (release_spinlock l2) = 0 /\
    acquire_spinlock t' (release_spinlock l2) = Ok l3 /\ lock_cpu l3 = my_cpu t'.
Proof.
  intros Hf Ht Ht' Hb Hb'. rewrite (acquire_free t l) by done. set (l1 := mk_lock _ _ _ _ _).
  exists l1, (mk_lock 1 (lock_id l) (my_cpu t) 1 (current_process t)), (mk_lock 1 (lock_id l) (my_cpu t') 0 (current_process t')).
  split_and!; [done| |done|by rewrite acquire_free|done].
  unfold acquire_spinlock. rewrite Hb. cbn [lock_cpu holding_process l1]. rewrite !Z.eqb_refl. done.
Qed.

Lemma recursive_release_too_early_witness :
  exists l1 l2, acquire_spinlock thread1 (mk_lock 0 9 0 0 0) = Ok l1 /\
    acquire_spinlock thread1 l1 = Ok l2 /\ locked (release_spinlock l2) = 0.
Proof.
  destruct (recursive_release_too_early thread1 thread2 (mk_lock 0 9 0 0 0) ltac:(done) ltac:(done) ltac:(done) eq_refl eq_refl)
    as (l1 & l2 & _ & E1 & E2 & H0 & _).
  exists l1, l2. split; [exact E1|]. split; [exact E2|exact H0].
Defined.

(** ** Any number of processors *)
Section Machine.
(** the process each processor runs, and whether FORCE_DEADLOCKS is defined *)
Context (proc : Z -> Z) (force : bool).

(** Where a processor is in acquire_spinlock, its critical section or
    release_spinlock. *)
Inductive pc : Type :=
  | Idle             (** outside; acquire starts by reading [cpu] *)
  | CheckHolder      (** [cpu] was its own: reads [holding_process] *)
  | Recurse          (** about to increment [recursion_depth] *)
  | Spin (loops : Z) (** in arch_atomic_swap *)
  | SetCpu | SetHolder
  | Critical
  | ClearCpu | ClearHolder | Unlock | ClearDepth
  | Panicked.

#[export] Instance pc_eq_dec : EqDecision pc.
Proof. solve_decision. Defined.

Record config : Type := mk_config { lk : spinlock; pcs : Z -> pc }.

Definition set_pc (c : Z) (p : pc) (pcs : Z -> pc) : Z -> pc := fun d => if Z.eqb d c then p else pcs d.

Definition with_locked (v : Z) (l : spinlock) := mk_lock v (lock_id l) (lock_cpu l) (recursion_depth l) (holding_process l).
Definition with_cpu (v : Z) (l : spinlock) := mk_lock (locked l) (lock_id l) v (recursion_depth l) (holding_process l).
Definition with_depth (v : Z) (l : spinlock) := mk_lock (locked l) (lock_id l) (lock_cpu l) v (holding_process l).
Definition with_holder (v : Z) (l : spinlock) := mk_lock (locked l) (lock_id l) (lock_cpu l) (recursion_depth l) v.

(** One memory access of processor [c] (not 0): the lock and where it is next. *)
Definition access (c : Z) (l : spinlock) (p : pc) : spinlock * pc :=
  match p with
  | Idle => (l, if lock_cpu l =? c then CheckHolder else Spin 0)
  | CheckHolder => (l, if holding_process l =? proc c then Recurse else Spin 0)
  | Recurse => (with_depth (w64 (recursion_depth l + 1)) l, Critical)
  | Spin n =>
    if locked l =? 0 then (with_locked 1 l, SetCpu)
    else (with_locked 1 l, if n + 1 =? DEADLOCK_DETECTION_THRESHOLD then if force then SetCpu else Panicked else Spin (n + 1))
  | SetCpu => (with_cpu c l, SetHolder)
  | SetHolder => (with_holder (proc c) l, Critical)
  | Critical =>
    let depth := if 0 <? recursion_depth l then recursion_depth l - 1 else recursion_depth l in
    (with_depth depth l, if depth =? 0 then ClearCpu else Critical)
  | ClearCpu => (with_cpu 0 l, ClearHolder)
  | ClearHolder => (with_holder 0 l, Unlock)
  | Unlock => (with_locked 0 l, ClearDepth)
  | ClearDepth => (with_depth 0 l, Idle)
  | Panicked => (l, Panicked)
  end.

Inductive step : config -> config -> Prop :=
  | step_access c l ps l' p' :
      c ≠ 0 -> access c l (ps c) = (l', p') -> step (mk_config l ps) (mk_config l' (set_pc c p' ps)).

(** Nobody takes the lock by force: without FORCE_DEADLOCKS this is every step,
    with it no processor has reached the threshold. *)
Definition calm_step (s s' : config) : Prop :=
  step s s' /\ (force = true -> forall c n, pcs s c = Spin n -> n + 1 ≠ DEADLOCK_DETECTION_THRESHOLD).

Definition start (id : Z) : config := mk_config (mk_lock 0 id 0 0 0) (fun _ => Idle).

(** Processors that have swapped the lock to 1 and not yet back to 0. *)
Definition owns (p : pc) : bool :=
  match p with SetCpu | SetHolder | Critical | ClearCpu | ClearHolder | Unlock => true | _ => false end.
(** Of those, the ones whose name is in the lock. *)
Definition named (p : pc) : bool := match p with SetHolder | Critical | ClearCpu => true | _ => false end.

(** The invariant: one owner at most, the lock word says whether there is one, the
    processor in the lock is the owner's, and no acquisition is taken for a
    recursive one. *)
Record inv (s : config) : Prop := mk_inv {
  inv_one : forall c d, owns (pcs s c) = true -> owns (pcs s d) = true -> c = d;
  inv_locked : locked (lk s) = 0 -> forall c, owns (pcs s c) = false;
  inv_cpu : lock_cpu (lk s) ≠ 0 -> named (pcs s (lock_cpu (lk s))) = true;
  inv_depth : recursion_depth (lk s) = 0;
  inv_flat : forall c, pcs s c ≠ CheckHolder /\ pcs s c ≠ Recurse;
}.

Lemma spin_start_inv id : inv (start id).
Proof. constructor; cbn; done. Qed.

Lemma named_owns p : named p = true -> owns p = true.
Proof. by destruct p. Qed.

Lemma set_pc_same c p ps : set_pc c p ps c = p.
Proof. unfold set_pc. by rewrite Z.eqb_refl. Qed.

Lemma set_pc_other c d p ps : d ≠ c -> set_pc c p ps d = ps d.
Proof. intros Hne. unfold set_pc. by rewrite (proj2 (Z.eqb_neq _ _)). Qed.

(** A step that does not make [c] an owner keeps the uniqueness of owners. *)
Lemma step_one c p ps : (owns p = true -> owns (ps c) = true) ->
  (forall d e, owns (ps d) = true -> owns (ps e) = true -> d = e) ->
  forall d e, owns (set_pc c p ps d) = true -> owns (set_pc c p ps e) = true -> d = e.
Proof.
  intros Hp Hone d e. unfold set_pc. destruct (Z.eqb_spec d c), (Z.eqb_spec e c); subst; auto.
Qed.

Lemma step_free c p ps : owns p = false -> (forall d, owns (ps d) = false) -> forall d, owns (set_pc c p ps d) = false.
Proof. intros Hp Hall d. unfold set_pc. destruct (Z.eqb d c); auto. Qed.

Lemma step_flat c p ps : p ≠ CheckHolder -> p ≠ Recurse -> (forall d, ps d ≠ CheckHolder /\ ps d ≠ Recurse) ->
  forall d, set_pc c p ps d ≠ CheckHolder /\ set_pc c p ps d ≠ Recurse.
Proof. intros ? ? Hall d. unfold set_pc. destruct (Z.eqb d c); auto. Qed.

(** The owner named in the lock stays there when another processor steps, or when
    its own step keeps it named. *)
Lemma step_named c p ps k : named (ps k) = true -> (k = c -> named p = true) -> named (set_pc c p ps k) = true.
Proof. intros Hk Hp. unfold set_pc. destruct (Z.eqb_spec k c); auto. Qed.

Lemma not_locked_owner s c : inv s -> owns (pcs s c) = true -> locked (lk s) ≠ 0.
Proof. intros Hi Ho Hl. rewrite (inv_locked s Hi Hl c) in Ho. done. Qed.

(** The lock names nobody but its owner. *)
Lemma cpu_of_owner s c : inv s -> owns (pcs s c) = true -> lock_cpu (lk s) = 0 \/ lock_cpu (lk s) = c.
Proof.
  intros Hi Ho. destruct (decide (lock_cpu (lk s) = 0)) as [|Hn]; [by left|right].
  apply (inv_one s Hi); [apply named_owns; by apply (inv_cpu s Hi)|done].
Qed.

Lemma step_inv s s' : inv s -> calm_step s s' -> inv s'.
Proof.
  intros Hi [Hst Hcalm]. destruct Hst as [c l ps l' p' Hc E]. pose proof Hi as [Hone Hlk Hcpu Hdp Hfl]. cbn [lk pcs] in *.
  assert (Hown : owns (ps c) = true -> locked l ≠ 0) by (apply (not_locked_owner (mk_config l ps)); done).
  assert (Hname : owns (ps c) = true -> lock_cpu l = 0 \/ lock_cpu l = c) by (apply (cpu_of_owner (mk_config l ps)); done).
  destruct (ps c) as [| | |n| | | | | | | |] eqn:Epc; cbn [access owns] in *.
  - (* Idle *)
    destruct (Z.eqb_spec (lock_cpu l) c) as [Eq|Ne].
    { rewrite Eq in Hcpu. specialize (Hcpu Hc). rewrite Epc in Hcpu. done. }
    injection E as <- <-. constructor; cbn [lk pcs]; [apply step_one; [done|done]|intros ?; apply step_free; auto|
      intros ?; apply step_named; [auto|congruence]|done|by apply step_flat].
  - destruct (Hfl c). congruence.
  - destruct (Hfl c). congruence.
  - (* Spin *)
    destruct (Z.eqb_spec (locked l) 0) as [E0|E0]; injection E as <- <-.
    2: assert (Hno : force = true -> n + 1 =? DEADLOCK_DETECTION_THRESHOLD = false)
         by (intros Hf; apply Z.eqb_neq; exact (Hcalm Hf c n Epc)).
    + constructor; cbn [lk pcs with_locked locked lock_cpu recursion_depth]; [|done| |done|by apply step_flat].
      * intros d e. unfold set_pc. destruct (Z.eqb_spec d c), (Z.eqb_spec e c); subst; try done; rewrite ?(Hlk E0); done.
      * intros Hn. exfalso. specialize (Hcpu Hn). apply named_owns in Hcpu. rewrite (Hlk E0) in Hcpu. done.
    + constructor; cbn [lk pcs with_locked locked lock_cpu recursion_depth]; [apply step_one; [|done]|done|
        intros ?; apply step_named; [auto|]|done|apply step_flat; [by repeat case_match|by repeat case_match|done]].
      { destruct (_ =? _) eqn:Et; [|done]. destruct force; [by specialize (Hno eq_refl)|done]. }
      intros Ek. rewrite Ek, Epc in Hcpu. by specialize (Hcpu Hc).
  - injection E as <- <-. constructor; cbn [lk pcs with_cpu locked lock_cpu recursion_depth];
      [apply step_one; [by rewrite Epc|done]|intros Hl0; by destruct (Hown eq_refl)|intros _; by rewrite set_pc_same|done|by apply step_flat].
  - injection E as <- <-. constructor; cbn [lk pcs with_holder locked lock_cpu recursion_depth];
      [apply step_one; [by rewrite Epc|done]|intros Hl0; by destruct (Hown eq_refl)|intros Hn; apply step_named; auto|done|by apply step_flat].
  - rewrite Hdp in E. cbn in E. injection E as <- <-. constructor; cbn [lk pcs with_depth locked lock_cpu recursion_depth];
      [apply step_one; [by rewrite Epc|done]|intros Hl0; by destruct (Hown eq_refl)|intros Hn; apply step_named; auto|done|by apply step_flat].
  - injection E as <- <-. constructor; cbn [lk pcs with_cpu locked lock_cpu recursion_depth];
      [apply step_one; [by rewrite Epc|done]|intros Hl0; by destruct (Hown eq_refl)|done|done|by apply step_flat].
  - (* ClearHolder: the lock names nobody *)
    assert (Hz : lock_cpu l = 0).
    { destruct (Hname eq_refl) as [|E1]; [done|]. rewrite E1 in Hcpu. specialize (Hcpu Hc). rewrite Epc in Hcpu. done. }
    injection E as <- <-. constructor; cbn [lk pcs with_holder locked lock_cpu recursion_depth];
      [apply step_one; [by rewrite Epc|done]|intros Hl0; by destruct (Hown eq_refl)|done|done|by apply step_flat].
  - assert (Hz : lock_cpu l = 0).
    { destruct (Hname eq_refl) as [|E1]; [done|]. rewrite E1 in Hcpu. specialize (Hcpu Hc). rewrite Epc in Hcpu. done. }
    injection E as <- <-. constructor; cbn [lk pcs with_locked locked lock_cpu recursion_depth];
      [apply step_one; [done|done]| |done|done|by apply step_flat].
    intros _ d. unfold set_pc. destruct (Z.eqb_spec d c) as [|Hne]; [done|].
    destruct (owns (ps d)) eqn:Ho; [|done]. exfalso. apply Hne, Hone; [done|by rewrite Epc].
  - injection E as <- <-. constructor; cbn [lk pcs with_depth locked lock_cpu recursion_depth];
      [apply step_one; [done|done]|intros ?; apply step_free; auto|intros ?; apply step_named; [auto|]|done|by apply step_flat].
    intros Ek. rewrite Ek, Epc in Hcpu. by specialize (Hcpu Hc).
  - injection E as <- <-. constructor; cbn [lk pcs]; [apply step_one; [done|done]|intros ?; apply step_free; auto|
      intros ?; apply step_named; [auto|]|done|by apply step_flat].
    intros Ek. rewrite Ek, Epc in Hcpu. by specialize (Hcpu Hc).
Qed.

Lemma reachable_inv s s' : rtc calm_step s s' -> inv s -> inv s'.
Proof. induction 1; eauto using step_inv. Qed.


End Machine.


(** ** FORCE_DEADLOCKS *)

(** Processor [c] spins [n] more times on a lock that is held. *)
Lemma spin_steps proc c n : c ≠ 0 -> forall k l ps, locked l = 1 -> ps c = Spin k ->
  k + Z.of_nat n < DEADLOCK_DETECTION_THRESHOLD ->
  exists ps', rtc (step proc true) (mk_config l ps) (mk_config l ps') /\ ps' c = Spin (k + Z.of_nat n) /\
    (forall d, d ≠ c -> ps' d = ps d).
Proof.
  intros Hc. induction n as [|n IH]; intros k l ps Hl Hp Hn.
  - exists ps. rewrite Z.add_0_r. split_and!; [apply rtc_refl|done|done].
  - destruct (IH (k + 1) l (set_pc c (Spin (k + 1)) ps) Hl) as (ps' & Hr & Hp' & Ho); [by rewrite set_pc_same|lia|].
    exists ps'. split_and!; [|by rewrite Hp'; f_equal; lia|intros d Hd; by rewrite Ho, set_pc_other].
    eapply rtc_l; [|exact Hr]. apply (step_access _ _ c); [done|]. rewrite Hp. cbn [access].
    rewrite Hl. rewrite (proj2 (Z.eqb_neq (k + 1) _)) by lia. cbn [Z.eqb]. f_equal. destruct l. unfold with_locked. cbn in *. by rewrite Hl.
Qed.

(** C34: built with FORCE_DEADLOCKS, as the Makefile does, the lock does not
    exclude: a processor that has spun a billion times enters its critical
    section while another one is still in its own. *)
Theorem forced_two_owners proc id c d :
  c ≠ 0 -> d ≠ 0 -> c ≠ d ->
  exists s, rtc (step proc true) (start id) s /\ pcs s c = Critical /\ pcs s d = Critical.
Proof.
  intros Hc Hd Hne.
  set (l := mk_lock 1 id c 0 (proc c)).
  assert (H1 : exists ps, rtc (step proc true) (start id) (mk_config l ps) /\ ps c = Critical /\ ps d = Spin 0).
  { eexists. split.
    - eapply rtc_l; [apply (step_access _ _ c); [done|]; cbn [access lock_cpu]; rewrite (proj2 (Z.eqb_neq 0 c)) by done; reflexivity|].
      do 3 (eapply rtc_l; [apply (step_access _ _ c); [done|]; rewrite set_pc_same; reflexivity|]).
      eapply rtc_l; [apply (step_access _ _ d); [done|]|apply rtc_refl].
      rewrite !set_pc_other by done. cbn [access lock_cpu with_holder with_cpu with_locked]. rewrite (proj2 (Z.eqb_neq c d)) by done. reflexivity.
    - split; [rewrite set_pc_other by done; by rewrite set_pc_same|by rewrite set_pc_same]. }
  destruct H1 as (ps & Hr & Hpc & Hpd).
  destruct (spin_steps proc d (Z.to_nat (DEADLOCK_DETECTION_THRESHOLD - 1)) Hd 0 l ps eq_refl Hpd) as (ps2 & Hr2 & Hp2 & Ho2);
    [unfold DEADLOCK_DETECTION_THRESHOLD; lia|].
  eexists. split; [|split].
  - etransitivity; [exact Hr|]. etransitivity; [exact Hr2|].
    eapply rtc_l; [apply (step_access _ _ d); [done|]; rewrite Hp2, Z2Nat.id by done; reflexivity|].
    do 2 (eapply rtc_l; [apply (step_access _ _ d); [done|]; rewrite set_pc_same; reflexivity|]). apply rtc_refl.
  - cbn [pcs]. rewrite !set_pc_other by done. by rewrite Ho2.
  - cbn [pcs]. by rewrite set_pc_same.
Qed.

Lemma forced_two_owners_witness :
  exists s, rtc (step (fun c => c + 10) true) (start 7) s /\ pcs s 1 = Critical /\ pcs s 2 = Critical.
Proof. apply (forced_two_owners (fun c => c + 10) 7 1 2); done. Defined.

End Spinlock.
