(* ===== verification/Pmm.v ===== *)
(** * The physical memory manager (memory/pmm.c)

    Powers of two, the memory map of the boot loader, its sorting and the cutting
    of memory into blocks of 1024 pages and spare pages (phys_init), and the
    size arithmetic of large allocations. *)

From Stdlib Require Import Sorting.Sorted.
From S2P Require Import Prelude.

Module Pmm.

Definition MAX_ORDER : Z := 10.
Definition STATIC_POOL_FLAG : Z := 2 ^ 5.
Definition FIRST_BLOCK_FLAG : Z := 2 ^ 6.
Definition STATIC_POOL_SIZE : Z := 48000.
Definition PAGE_RANGE_SIZE : Z := 20.
Definition FREE : Z := 1.
Definition KERNEL_POOL : Z := 0.
Definition USER_POOL : Z := 1.

(** ** Powers of two *)
Definition is_power_of_two (x : Z) : bool := negb (x =? 0) && (Z.land x (w64 (x - 1)) =? 0).

Definition smear (x s : Z) : Z := Z.lor x (Z.shiftr x s).

Definition next_power_of_two (x : Z) : Z :=
  if x =? 0 then 1
  else
    let x := x - 1 in
    let x := smear x 1 in
    let x := smear x 2 in
    let x := smear x 4 in
    let x := smear x 8 in
    let x := smear x 16 in
    let x := smear x 32 in
    w64 (x + 1).

(** The number of blocks of buddy_alloc_large_range: [%] binds tighter than
    [<<], so the remainder is that of a division by 1. *)
Definition max_blocks (pages : Z) : Z :=
  pages / Z.shiftl 1 MAX_ORDER + (if negb (Z.shiftl (pages mod 1) MAX_ORDER =? 0) then 1 else 0).

(** ** The memory map *)

(** struct limine_memmap_entry *)
Record memmap_entry : Type := mk_entry { e_base : Z; e_length : Z; e_type : Z }.
Definition LIMINE_MEMMAP_USABLE : Z := 0.
Definition LIMINE_MEMMAP_KERNEL_AND_MODULES : Z := 6.

(** struct contiguous_page_range *)
Record page_range : Type := mk_range { start_address : Z; end_address : Z; pages : Z }.

#[export] Instance page_range_eq_dec : EqDecision page_range.
Proof. solve_decision. Defined.

(** What phys_init accumulates: the ranges in use, and the totals. *)
Record totals : Type := mk_totals { ranges : list page_range; usable_pages : Z; reserved_pages : Z; highest_address : Z }.

Definition add_entry (e : memmap_entry) (t : totals) : outcome totals :=
  if e_type e =? LIMINE_MEMMAP_USABLE then
    if PAGE_RANGE_SIZE <=? Z.of_nat (length (ranges t)) then Fault
    else
      let end_ := w64 (e_base e + e_length e) in
      Ok (mk_totals (ranges t ++ [mk_range (e_base e) end_ (e_length e / PAGE_SIZE)])
            (w64 (usable_pages t + w64 (e_length e + (PAGE_SIZE - 1)) / PAGE_SIZE)) (reserved_pages t)
            (if end_ <? highest_address t then highest_address t else end_))
  else if e_type e =? LIMINE_MEMMAP_KERNEL_AND_MODULES then
    Ok (mk_totals (ranges t) (usable_pages t)
          (w64 (reserved_pages t + w64 (e_length e + (PAGE_SIZE - 1)) / PAGE_SIZE)) (highest_address t))
  else Ok t.

Fixpoint read_memmap (es : list memmap_entry) (t : totals) : outcome totals :=
  match es with
  | [] => Ok t
  | e :: es => let! t := add_entry e t in read_memmap es t
  end.

(** ** The bubble sort, from the largest range to the smallest *)

(** One pass of [turns] comparisons from index [i]: the array and the number of
    exchanges. *)
Fixpoint bubble_pass (turns i : nat) (a : list page_range) (local_changes : Z) : outcome (list page_range * Z) :=
  match turns with
  | O => Ok (a, local_changes)
  | S turns =>
    let! x := of_opt (a !! i) in
    let! y := of_opt (a !! S i) in
    if pages x <? pages y
    then bubble_pass turns (S i) (<[S i := x]> (<[i := y]> a)) (local_changes + 1)
    else bubble_pass turns (S i) a local_changes
  end.

(** The outer loop.  With no range at all the number of comparisons wraps around
    and the first is outside the array. *)
Fixpoint bubble_sort (fuel : nat) (a : list page_range) : outcome (list page_range) :=
  match fuel with
  | O => Timeout
  | S fuel =>
    match a with
    | [] => Fault
    | _ =>
      let! (a, changes) := bubble_pass (length a - 1) 0 a 0 in
      if changes =? 0 then Ok a else bubble_sort fuel a
    end
  end.

(** ** Cutting the ranges *)

(** struct buddy_block; [next] is the index of a block of the static pool *)
Record buddy_block : Type := mk_block {
  next : option nat; zone : Z; block_start : Z; flags : Z; order : Z; is_free : Z }.

Definition BLOCK_PAGES : Z := Z.shiftl 1 MAX_ORDER.

Definition set_block_next (n : option nat) (b : buddy_block) : buddy_block :=
  mk_block n (zone b) (block_start b) (flags b) (order b) (is_free b).
Definition mark_first (b : buddy_block) : buddy_block :=
  mk_block (next b) (zone b) (block_start b) (Z.lor (flags b) FIRST_BLOCK_FLAG) (order b) (is_free b).

(** Spare pages [k], [k+1], ... of a range, pushed in front of the list. *)
Fixpoint spare_loop (turns : nat) (k : Z) (r : page_range) (spare : list Z) : list Z :=
  match turns with
  | O => spare
  | S turns => spare_loop turns (k + 1) r (w64 (start_address r + k * PAGE_SIZE) :: spare)
  end.

(** The block at page [j] of range [i], added to the pool; its predecessor of the
    same range is linked to it. *)
Definition add_block (i j : Z) (r : page_range) (pool : list buddy_block) : outcome (list buddy_block) :=
  let index := length pool in
  let b := mk_block None i (Z.land (w64 (start_address r + j * PAGE_SIZE)) (w64 (Z.lnot (PAGE_SIZE - 1))))
             STATIC_POOL_FLAG MAX_ORDER FREE in
  let pool := match last pool with
              | Some p => if zone p =? i
                          then alter (fun p => mark_first (set_block_next (Some index) p)) (index - 1)%nat pool else pool
              | None => pool
              end in
  if Z.of_nat (S index) =? STATIC_POOL_SIZE then Panic else Ok (pool ++ [b]).

(** The inner loop over one range, from page [j]. *)
Fixpoint cut_range (fuel : nat) (i j : Z) (r : page_range) (pool : list buddy_block) (spare : list Z)
  : outcome (list buddy_block * list Z) :=
  match fuel with
  | O => Timeout
  | S fuel =>
    if pages r <=? j then Ok (pool, spare)
    else if pages r - j <? BLOCK_PAGES
    then cut_range fuel i (j + BLOCK_PAGES) r pool (spare_loop (Z.to_nat (pages r - j)) j r spare)
    else
      let! pool := add_block i j r pool in
      cut_range fuel i (j + BLOCK_PAGES) r pool spare
  end.

(** The loop over the ranges. *)
Fixpoint cut_ranges (i : Z) (rs : list page_range) (pool : list buddy_block) (spare : list Z)
  : outcome (list buddy_block * list Z) :=
  match rs with
  | [] => Ok (pool, spare)
  | r :: rs =>
    if pages r <? BLOCK_PAGES
    then cut_ranges (i + 1) rs pool (spare_loop (Z.to_nat (pages r)) 0 r spare)
    else
      let! (pool, spare) := cut_range (S (Z.to_nat (pages r))) i 0 r pool spare in
      let pool := alter (set_block_next (Some (length pool))) (length pool - 1)%nat pool in
      cut_ranges (i + 1) rs pool spare
  end.

(** ** The zones

    Each block goes to the kernel's or the users' free tree by its address; the
    bounds of user memory are kept. *)
Record user_bounds : Type := mk_bounds { lowest_user_phys_addr : Z; highest_user_phys_addr : Z }.

(** the part of memory given to users *)
Definition USER_SPAN_SIZE (highest_address : Z) : Z := highest_address / 2 + highest_address / 4.

Definition place_block (highest : Z) (b : buddy_block) (u : user_bounds) : Z * user_bounds :=
  if USER_SPAN_SIZE highest <? block_start b then (KERNEL_POOL, u)
  else
    let top := w64 (block_start b + BLOCK_PAGES * PAGE_SIZE) in
    (USER_POOL, mk_bounds
       (if block_start b <? lowest_user_phys_addr u then block_start b else lowest_user_phys_addr u)
       (if highest_user_phys_addr u <? top then top else highest_user_phys_addr u)).

(** ** Powers of two *)

(** The top [m] bits below and including bit [n] are set, none above. *)
Definition top_bits (n m x : Z) : Prop :=
  0 <= x /\ (forall i, 0 <= i -> n - m < i <= n -> Z.testbit x i = true) /\ (forall i, n < i -> Z.testbit x i = false).

Lemma smear_top n m x : 0 <= n -> 0 < m -> top_bits n m x -> top_bits n (2 * m) (smear x m).
Proof.
  intros Hn Hm (Hx & Hset & Hclear). unfold smear. split_and!.
  - apply Z.lor_nonneg. split; [done|by apply Z.shiftr_nonneg].
  - intros i Hi Hr. rewrite Z.lor_spec, Z.shiftr_spec by lia. apply orb_true_iff.
    destruct (Z.le_gt_cases (i + m) n); [right; apply Hset; lia|left; apply Hset; lia].
  - intros i Hi. destruct (Z.lt_ge_cases i 0); [by apply Z.testbit_neg_r|].
    rewrite Z.lor_spec, Z.shiftr_spec by lia. rewrite !Hclear by lia. done.
Qed.

Lemma top_bits_all n m x : 0 <= n -> n < m -> top_bits n m x -> x + 1 = 2 ^ (n + 1).
Proof.
  intros Hn Hm (Hx & Hset & Hclear). assert (x = Z.ones (n + 1)) as ->.
  { apply Z.bits_inj'. intros i Hi. rewrite Z.testbit_ones_nonneg by lia.
    destruct (Z.ltb_spec i (n + 1)); [apply Hset; lia|apply Hclear; lia]. }
  rewrite Z.ones_equiv. lia.
Qed.

(** C16: next_power_of_two is the least power of two that is not smaller than its
    argument, for every argument whose result fits in 64 bits. *)
Theorem next_power_of_two_spec x :
  1 <= x <= 2 ^ 63 ->
  exists k, 0 <= k <= 63 /\ next_power_of_two x = 2 ^ k /\ x <= 2 ^ k /\ forall j, 0 <= j -> x <= 2 ^ j -> k <= j.
Proof.
  intros Hx. unfold next_power_of_two. rewrite (proj2 (Z.eqb_neq x 0)) by lia.
  destruct (Z.eq_dec x 1) as [->|Hne]; [exists 0; split_and!; [lia|lia|by vm_compute|lia|lia]|].
  set (y := x - 1). set (n := Z.log2 y). assert (Hy : 0 < y) by lia.
  pose proof (Z.log2_spec y Hy) as [Hlo Hhi]. fold n in Hlo, Hhi. pose proof (Z.log2_nonneg y) as Hn0. fold n in Hn0.
  assert (Hn63 : n < 63) by (apply (Z.pow_lt_mono_r_iff 2); lia).
  assert (H1 : top_bits n 1 y).
  { split_and!; [lia| |].
    - intros i Hi Hr. replace i with n by lia. by apply Z.bit_log2.
    - intros i Hi. destruct (Z.lt_ge_cases i 0); [by apply Z.testbit_neg_r|]. apply Z.bits_above_log2; lia. }
  do 6 (apply smear_top in H1; [|lia|lia];
    match type of H1 with top_bits _ ?m _ => let v := eval vm_compute in m in change m with v in H1 end).
  apply top_bits_all in H1; [|lia|lia]. rewrite H1.
  exists (n + 1). rewrite w64_small by (split; [apply Z.pow_nonneg; lia|apply Z.pow_lt_mono_r; lia]).
  replace (Z.succ n) with (n + 1) in Hhi by lia.
  split_and!; [lia|lia|done|lia|]. intros j Hj Hle. apply Z.lt_succ_r.
  assert (n < j) by (apply (Z.pow_lt_mono_r_iff 2); lia). lia.
Qed.

Lemma next_power_of_two_spec_witness : exists k, 0 <= k <= 63 /\ next_power_of_two 1000 = 2 ^ k /\ 1000 <= 2 ^ k.
Proof.
  destruct (next_power_of_two_spec 1000 ltac:(lia)) as (k & Hk & E & Hle & _). exists k. split; [exact Hk|]. split; [exact E|exact Hle].
Defined.

(** Is_power_of_two recognises exactly the powers of two. *)
Theorem is_power_of_two_spec x : 0 <= x < 2 ^ 64 -> is_power_of_two x = true <-> exists k, 0 <= k /\ x = 2 ^ k.
Proof.
  intros Hx. unfold is_power_of_two. rewrite andb_true_iff, negb_true_iff, Z.eqb_neq, Z.eqb_eq. split.
  - intros [Hne Hland]. rewrite w64_small in Hland by lia. pose proof (Z.log2_spec x ltac:(lia)) as [Hlo Hhi].
    exists (Z.log2 x). split; [apply Z.log2_nonneg|]. destruct (Z.eq_dec x (2 ^ Z.log2 x)) as [|Hn]; [done|exfalso].
    assert (Hl : Z.log2 (x - 1) = Z.log2 x) by (apply Z.log2_unique; [apply Z.log2_nonneg|lia]).
    assert (Hp : 0 < x - 1) by (pose proof (Z.log2_nonneg x); pose proof (Z.pow_pos_nonneg 2 (Z.log2 x)); lia).
    assert (Hb : Z.testbit (Z.land x (x - 1)) (Z.log2 x) = true).
    { rewrite Z.land_spec, Z.bit_log2 by lia. rewrite <- Hl at 1. by rewrite Z.bit_log2. }
    rewrite Hland, Z.testbit_0_l in Hb. done.
  - intros (k & Hk & ->). pose proof (Z.pow_pos_nonneg 2 k ltac:(lia) Hk). split; [lia|]. rewrite w64_small by lia.
    replace (2 ^ k - 1) with (Z.ones k) by (rewrite Z.ones_equiv; lia). rewrite Z.land_ones by done. by apply Z.mod_same; lia.
Qed.

Lemma is_power_of_two_spec_witness : is_power_of_two 64 = true.
Proof. apply (is_power_of_two_spec 64 ltac:(lia)). exists 6. lia. Defined.

(** A large allocation gets too few blocks: [pages % 1 << MAX_ORDER] is always
    zero, so a remainder is not counted and the blocks hold fewer pages than
    were asked for unless the request is a multiple of 1024 pages. *)
Theorem max_blocks_too_few pages :
  0 <= pages -> pages mod BLOCK_PAGES ≠ 0 -> max_blocks pages * BLOCK_PAGES < pages.
Proof.
  intros Hp Hm. unfold max_blocks. rewrite Z.mod_1_r. change (Z.shiftl 0 MAX_ORDER =? 0) with true.
  change (Z.shiftl 1 MAX_ORDER) with 1024. change BLOCK_PAGES with 1024 in *. cbn [negb].
  pose proof (Z.div_mod pages 1024 ltac:(lia)). pose proof (Z.mod_pos_bound pages 1024 ltac:(lia)). lia.
Qed.

Lemma max_blocks_too_few_witness : max_blocks 1500 * BLOCK_PAGES < 1500.
Proof. apply (max_blocks_too_few 1500); [lia|by vm_compute]. Defined.

(** ** The sort *)
Abbreviation larger := (fun x y : page_range => pages y <= pages x).

(** Pairs in the wrong order. *)
Fixpoint inversions (a : list page_range) : nat :=
  match a with
  | [] => 0
  | x :: a => length (filter (fun y => pages x < pages y) a) + inversions a
  end.

Lemma inversions_swap pre x y post : pages x < pages y ->
  inversions (pre ++ x :: y :: post) = S (inversions (pre ++ y :: x :: post)).
Proof.
  intros Hxy. induction pre as [|z pre IH]; cbn [app inversions].
  - rewrite (filter_cons_True _ y) by done. rewrite (filter_cons_False _ x) by lia. cbn [length]. lia.
  - rewrite IH. assert (Hp : z :: pre ++ x :: y :: post ≡ₚ z :: pre ++ y :: x :: post) by (constructor; apply Permutation_app_head; constructor).
    apply Permutation_cons_inv in Hp. rewrite (Permutation_length (filter_Permutation (fun u => pages z < pages u) _ _ Hp)). lia.
Qed.

Lemma inversions_bound a : (inversions a <= length a * length a)%nat.
Proof.
  induction a as [|x a IH]; cbn [inversions length]; [lia|]. pose proof (length_filter (fun y => pages x < pages y) a). nia.
Qed.

(** Exchanging two neighbours of an array. *)
Lemma swap_split (a : list page_range) i x y : a !! i = Some x -> a !! S i = Some y ->
  exists pre post, a = pre ++ x :: y :: post /\ length pre = i /\ <[S i := x]> (<[i := y]> a) = pre ++ y :: x :: post.
Proof.
  intros Hx Hy. exists (take i a), (drop (S (S i)) a). pose proof (lookup_lt_Some _ _ _ Hx). pose proof (lookup_lt_Some _ _ _ Hy).
  assert (Hl : length (take i a) = i) by (rewrite length_take; lia).
  assert (Ha : a = take i a ++ x :: y :: drop (S (S i)) a).
  { by rewrite <- (drop_S _ _ _ Hy), <- (drop_S _ _ _ Hx), take_drop. }
  split; [done|]. split; [done|]. rewrite Ha at 1. rewrite <- Hl at 1 2.
  rewrite insert_app_r_alt by lia. rewrite Nat.sub_diag. cbn [insert list_insert].
  rewrite insert_app_r_alt by lia. replace (S (length (take i a)) - length (take i a))%nat with 1%nat by lia. done.
Qed.

(** One pass: a permutation, each exchange removes an inversion, and without an
    exchange the neighbours it compared are in order. *)
Lemma bubble_pass_ok turns : forall i a c, (i + turns < length a)%nat ->
  exists a' n, bubble_pass turns i a c = Ok (a', c + Z.of_nat n) /\ a' ≡ₚ a /\ inversions a = (inversions a' + n)%nat /\
    (n = 0%nat -> forall k x y, (i <= k < i + turns)%nat -> a !! k = Some x -> a !! S k = Some y -> pages y <= pages x).
Proof.
  induction turns as [|turns IH]; intros i a c Hl; cbn [bubble_pass].
  { exists a, 0%nat. split_and!; [by rewrite Z.add_0_r|done|lia|lia]. }
  destruct (lookup_lt_is_Some_2 a i) as (x & Hx); [lia|]. destruct (lookup_lt_is_Some_2 a (S i)) as (y & Hy); [lia|].
  rewrite Hx, Hy. cbn [of_opt obind]. destruct (Z.ltb_spec (pages x) (pages y)) as [Hlt|Hge].
  - destruct (swap_split a i x y Hx Hy) as (pre & post & Ha & Hpre & ->).
    destruct (IH (S i) (pre ++ y :: x :: post) (c + 1)) as (a' & n & E & Hp & Hinv & _).
    { rewrite Ha, length_app in Hl. rewrite length_app. cbn [length] in *. lia. }
    exists a', (S n). split_and!; [rewrite E; do 2 f_equal; lia| | |done].
    + rewrite Hp, Ha. apply Permutation_app_head. constructor.
    + rewrite Ha, inversions_swap by done. lia.
  - destruct (IH (S i) a c ltac:(lia)) as (a' & n & E & Hp & Hinv & Hsort). exists a', n. split_and!; [done|done|done|].
    intros Hn k u v Hk Hu Hv. destruct (decide (k = i)) as [->|Hne]; [congruence|]. apply (Hsort Hn k); [lia|done|done].
Qed.

(** A pass without an exchange changes nothing. *)
Lemma bubble_pass_mono turns : forall i a c a' c', bubble_pass turns i a c = Ok (a', c') -> c <= c' /\ (c' = c -> a' = a).
Proof.
  induction turns as [|turns IH]; intros i a c a' c' E; cbn [bubble_pass] in E; [by injection E as <- <-|].
  destruct (a !! i) as [x|]; [|done]. destruct (a !! S i) as [y|]; [|done]. cbn [of_opt obind] in E.
  destruct (pages x <? pages y); apply IH in E as [Hle Heq]; [|by split]. split; [lia|]. lia.
Qed.

Lemma bubble_pass_fixed turns i a c a' : bubble_pass turns i a c = Ok (a', c + Z.of_nat 0) -> a' = a.
Proof. intros E. apply bubble_pass_mono in E as [_ Heq]. apply Heq. lia. Qed.

Lemma sorted_by_index a : (forall k x y, a !! k = Some x -> a !! S k = Some y -> pages y <= pages x) -> Sorted larger a.
Proof.
  induction a as [|x a IH]; intros Hall; constructor.
  - apply IH. intros k. apply (Hall (S k)).
  - destruct a as [|y a]; constructor. by apply (Hall 0%nat).
Qed.

Lemma bubble_sort_ok fuel : forall a, a ≠ [] -> (inversions a < fuel)%nat ->
  exists a', bubble_sort fuel a = Ok a' /\ a' ≡ₚ a /\ Sorted larger a'.
Proof.
  induction fuel as [|fuel IH]; intros a Hne Hf; [lia|]. cbn [bubble_sort]. destruct a as [|z rest] eqn:Ea; [done|]. rewrite <- Ea in *.
  assert (Hlen : (0 < length a)%nat) by (rewrite Ea; cbn; lia).
  destruct (bubble_pass_ok (length a - 1) 0 a 0 ltac:(lia)) as (a' & n & E & Hp & Hinv & Hsort).
  rewrite E. cbn [obind]. rewrite Z.add_0_l. destruct (Z.eqb_spec (Z.of_nat n) 0) as [Hn|Hn].
  - exists a'. split_and!; [done|done|]. assert (n = 0%nat) as -> by lia.
    rewrite (bubble_pass_fixed (length a - 1) 0 a 0 a' E).
    apply sorted_by_index. intros k x y Hx Hy. apply (Hsort eq_refl k); [|done|done]. apply lookup_lt_Some in Hy. lia.
  - destruct (IH a') as (a'' & E'' & Hp'' & Hs''); [intros ->; apply Permutation_nil_l in Hp; congruence|lia|].
    exists a''. split_and!; [done|by rewrite Hp''|done].
Qed.

(** C15: the sort of the page ranges ends, permutes them and leaves them in order of
    size, the largest first. *)
Theorem bubble_sort_spec a :
  a ≠ [] -> exists a', bubble_sort (S (length a * length a)) a = Ok a' /\ a' ≡ₚ a /\ Sorted larger a'.
Proof. intros Hne. apply bubble_sort_ok; [done|]. pose proof (inversions_bound a). lia. Qed.

Lemma bubble_sort_spec_witness :
  exists a', bubble_sort 10 [mk_range 0 0 3; mk_range 4096 0 9; mk_range 8192 0 5] = Ok a' /\ Sorted larger a'.
Proof.
  destruct (bubble_sort_spec [mk_range 0 0 3; mk_range 4096 0 9; mk_range 8192 0 5] ltac:(done)) as (a' & E & _ & Hs).
  exists a'. split; [exact E|exact Hs].
Defined.

(** ** The cutting *)

(** Page [k] of a range, its pages from [k] on, and the pages of a block. *)
Definition page_at (r : page_range) (k : Z) : Z := start_address r + k * PAGE_SIZE.
Definition pages_from (r : page_range) (k n : Z) : list Z := map (page_at r) (seqZ k n).
Definition block_pages (b : buddy_block) : list Z := map (fun k => block_start b + k * PAGE_SIZE) (seqZ 0 BLOCK_PAGES).
Definition pool_pages (pool : list buddy_block) : list Z := pool ≫= block_pages.

(** A range of whole pages inside the 64-bit address space. *)
Definition range_ok (r : page_range) : Prop :=
  0 <= pages r /\ 0 <= start_address r /\ start_address r mod PAGE_SIZE = 0 /\
  start_address r + pages r * PAGE_SIZE < 2 ^ 64.

Lemma spare_loop_ok r spare t : forall k, 0 <= k -> range_ok r -> k + Z.of_nat t <= pages r ->
  spare_loop t k r spare ≡ₚ pages_from r k (Z.of_nat t) ++ spare.
Proof.
  revert spare. induction t as [|t IH]; intros spare k Hk Hr Hle; cbn [spare_loop]; [done|].
  rewrite IH by (done || lia). pose proof Hr as (_ & ? & _ & ?). unfold PAGE_SIZE in *.
  replace (Z.of_nat (S t)) with (1 + Z.of_nat t) by lia. unfold pages_from. rewrite seqZ_app, map_app by lia.
  rewrite (seqZ_cons k 1) by lia. change (seqZ (Z.succ k) (Z.pred 1)) with (@nil Z). cbn [map app].
  rewrite w64_small by lia. unfold page_at at 3. unfold PAGE_SIZE. symmetry. apply Permutation_middle.
Qed.

Lemma pool_pages_alter (f : buddy_block -> buddy_block) n pool : (forall b, block_start (f b) = block_start b) ->
  pool_pages (alter f n pool) = pool_pages pool.
Proof.
  intros Hf. unfold pool_pages. revert n. induction pool as [|b pool IH]; intros n; [done|].
  destruct n as [|n]; cbn [alter list_alter mbind list_bind].
  - f_equal. unfold block_pages. by rewrite Hf.
  - fold (alter f n pool). change (list_alter f n pool) with (alter f n pool). f_equal. apply IH.
Qed.

Lemma aligned_land z : 0 <= z < 2 ^ 64 -> z mod PAGE_SIZE = 0 -> Z.land z (w64 (Z.lnot (PAGE_SIZE - 1))) = z.
Proof.
  intros Hz Hm. change (w64 (Z.lnot (PAGE_SIZE - 1))) with (Z.shiftl (Z.ones 52) 12). unfold PAGE_SIZE in Hm.
  apply Z.bits_inj'. intros k Hk. rewrite Z.land_spec, Z.shiftl_spec by lia. destruct (Z.lt_ge_cases k 12).
  - rewrite (Z.testbit_neg_r _ (k - 12)) by lia. rewrite andb_false_r. symmetry.
    rewrite <- (Z.mod_pow2_bits_low z 12) by lia. change (2 ^ 12) with 4096. rewrite Hm. apply Z.testbit_0_l.
  - rewrite Z.testbit_ones_nonneg by lia. destruct (Z.ltb_spec (k - 12) 52); [apply andb_true_r|].
    rewrite andb_false_r. symmetry. destruct (Z.eq_dec z 0) as [->|]; [apply Z.testbit_0_l|].
    apply Z.bits_above_log2; [lia|]. assert (Z.log2 z < 64) by (apply Z.log2_lt_pow2; lia). lia.
Qed.

Lemma add_block_ok i j r pool : range_ok r -> 0 <= j -> j + BLOCK_PAGES <= pages r ->
  Z.of_nat (S (length pool)) < STATIC_POOL_SIZE ->
  exists pool', add_block i j r pool = Ok pool' /\ length pool' = S (length pool) /\
    pool_pages pool' = pool_pages pool ++ pages_from r j BLOCK_PAGES.
Proof.
  intros (Hp & Hs & Hal & Hmax) Hj Hle Hlen. unfold add_block. rewrite (proj2 (Z.eqb_neq _ _)) by lia. eexists. split; [done|].
  set (pool1 := match last pool with Some _ => _ | None => _ end).
  assert (H1 : length pool1 = length pool /\ pool_pages pool1 = pool_pages pool).
  { subst pool1. destruct (last pool); [|done]. case_match; [|done]. rewrite length_alter. split; [done|by apply pool_pages_alter]. }
  destruct H1 as [Hl1 Hp1]. split; [rewrite length_app, Hl1; cbn; lia|].
  change BLOCK_PAGES with 1024 in *. unfold PAGE_SIZE in *.
  unfold pool_pages at 1. rewrite bind_app. fold (pool_pages pool1). rewrite Hp1. f_equal. cbn [mbind list_bind]. rewrite app_nil_r.
  unfold block_pages, pages_from. cbn [block_start]. rewrite w64_small by lia. rewrite aligned_land.
  - change BLOCK_PAGES with 1024. replace (seqZ j 1024) with (map (Z.add j) (seqZ 0 1024)).
    + rewrite map_map. apply map_ext. intros k. unfold page_at, PAGE_SIZE. lia.
    + apply list_eq. intros k. rewrite list_lookup_fmap. destruct (decide (Z.of_nat k < 1024)).
      * rewrite !lookup_seqZ_lt by lia. done.
      * rewrite !lookup_seqZ_ge by lia. done.
  - unfold PAGE_SIZE. lia.
  - unfold PAGE_SIZE. rewrite Z.mod_add by lia. done.
Qed.

Lemma cut_range_ok i r : range_ok r -> forall fuel j pool spare, 0 <= j -> j mod BLOCK_PAGES = 0 ->
  j < pages r + BLOCK_PAGES <= j + Z.of_nat fuel * BLOCK_PAGES ->
  Z.of_nat (length pool) + (pages r - j) / BLOCK_PAGES + 1 < STATIC_POOL_SIZE ->
  exists pool' spare', cut_range fuel i j r pool spare = Ok (pool', spare') /\
    Z.of_nat (length pool') = Z.of_nat (length pool) + Z.max 0 ((pages r - j) / BLOCK_PAGES) /\
    pool_pages pool' ++ spare' ≡ₚ pool_pages pool ++ pages_from r j (pages r - j) ++ spare.
Proof.
  intros Hr. change BLOCK_PAGES with 1024 in *. induction fuel as [|fuel IH]; intros j pool spare Hj Hm Hf Hlen.
  all: destruct (Z.leb_spec (pages r) j) as [Hend|Hmore];
    [ assert (Hneg : (pages r - j) / 1024 <= 0) by (apply Z.div_le_upper_bound; lia);
      assert (Hnil : seqZ j (pages r - j) = []) by (apply seqZ_nil; lia) | ].
  - lia.
  - lia.
  - exists pool, spare. cbn [cut_range]. rewrite (proj2 (Z.leb_le _ _)) by lia. split; [done|]. split; [lia|].
    unfold pages_from. by rewrite Hnil.
  - cbn [cut_range]. rewrite (proj2 (Z.leb_gt _ _)) by lia. change BLOCK_PAGES with 1024 in *.
    assert (Hnext : (j + 1024) mod 1024 = 0) by (rewrite Zplus_mod, Hm; done).
    destruct (Z.ltb_spec (pages r - j) 1024) as [Hlast|Hblock].
    + assert (Hd0 : (pages r - j) / 1024 = 0) by (apply Z.div_small; lia).
      assert (Hd1 : (pages r - (j + 1024)) / 1024 <= 0) by (apply Z.div_le_upper_bound; lia).
      destruct (IH (j + 1024) pool (spare_loop (Z.to_nat (pages r - j)) j r spare)) as (pool' & spare' & E & Hl & Hp); try lia.
      exists pool', spare'. split; [done|]. split; [lia|]. rewrite Hp. unfold pages_from at 1. rewrite seqZ_nil by lia. cbn [map app].
      apply Permutation_app_head. rewrite spare_loop_ok by (done || lia). rewrite Z2Nat.id by lia. done.
    + assert (Hd1 : (pages r - j) / 1024 = (pages r - (j + 1024)) / 1024 + 1).
      { replace (pages r - j) with (pages r - (j + 1024) + 1 * 1024) by lia. apply Z.div_add. lia. }
      assert (Hd0 : 0 <= (pages r - (j + 1024)) / 1024) by (apply Z.div_pos; lia).
      destruct (add_block_ok i j r pool Hr Hj) as (pool1 & E1 & Hl1 & Hp1); [change BLOCK_PAGES with 1024; lia|lia|].
      rewrite E1. cbn [obind]. destruct (IH (j + 1024) pool1 spare) as (pool' & spare' & E & Hl & Hp); try lia.
      exists pool', spare'. split; [done|]. split; [lia|]. rewrite Hp, Hp1, <- app_assoc. apply Permutation_app_head.
      rewrite app_assoc. apply Permutation_app_tail. change BLOCK_PAGES with 1024. unfold pages_from. rewrite <- map_app.
      replace (pages r - j) with (1024 + (pages r - (j + 1024))) by lia. rewrite seqZ_app by lia. done.
Qed.

(** Blocks a list of ranges needs. *)
Definition blocks_needed (rs : list page_range) : Z := foldr (fun r n => pages r / BLOCK_PAGES + n) 0 rs.

Lemma blocks_needed_nonneg rs : Forall range_ok rs -> 0 <= blocks_needed rs.
Proof.
  induction 1 as [|r rs (Hp & _) _ IH]; cbn [blocks_needed foldr]; [lia|]. fold (blocks_needed rs).
  change BLOCK_PAGES with 1024. pose proof (Z.div_pos (pages r) 1024). lia.
Qed.

Lemma cut_ranges_ok rs : Forall range_ok rs -> forall i pool spare,
  Z.of_nat (length pool) + blocks_needed rs + 1 < STATIC_POOL_SIZE ->
  exists pool' spare', cut_ranges i rs pool spare = Ok (pool', spare') /\
    pool_pages pool' ++ spare' ≡ₚ pool_pages pool ++ spare ++ concat (map (fun r => pages_from r 0 (pages r)) rs).
Proof.
  induction 1 as [|r rs Hr Hrs IH]; intros i pool spare Hlen; cbn [cut_ranges].
  { exists pool, spare. split; [done|]. cbn. by rewrite app_nil_r. }
  pose proof (blocks_needed_nonneg rs Hrs) as Hnn. cbn [blocks_needed foldr] in Hlen. fold (blocks_needed rs) in Hlen.
  pose proof Hr as (Hp0 & _). change BLOCK_PAGES with 1024 in *. pose proof (Z.div_pos (pages r) 1024 Hp0 ltac:(lia)).
  cbn [map concat]. destruct (Z.ltb_spec (pages r) 1024) as [Hsmall|Hbig].
  - destruct (IH (i + 1) pool (spare_loop (Z.to_nat (pages r)) 0 r spare)) as (pool' & spare' & E & Hp); [lia|].
    exists pool', spare'. split; [done|]. rewrite Hp. apply Permutation_app_head. rewrite spare_loop_ok by (done || lia).
    rewrite Z2Nat.id by lia. rewrite (Permutation_app_comm (pages_from r 0 (pages r)) spare). by rewrite <- app_assoc.
  - destruct (cut_range_ok i r Hr (S (Z.to_nat (pages r))) 0 pool spare) as (pool1 & spare1 & E1 & Hl1 & Hp1);
      rewrite ?Z.sub_0_r; change BLOCK_PAGES with 1024; try done; try lia.
    rewrite E1. cbn [obind]. rewrite Z.sub_0_r in Hl1, Hp1. change BLOCK_PAGES with 1024 in Hl1.
    destruct (IH (i + 1) (alter (set_block_next (Some (length pool1))) (length pool1 - 1)%nat pool1) spare1) as (pool' & spare' & E & Hp).
    { rewrite length_alter. lia. }
    exists pool', spare'. split; [done|]. rewrite Hp, pool_pages_alter by done. rewrite app_assoc, Hp1.
    rewrite <- !app_assoc. apply Permutation_app_head. rewrite !app_assoc. apply Permutation_app_tail, Permutation_app_comm.
Qed.

(** C7: phys_init gives out every page of usable memory exactly once: the pages of
    the blocks it cuts and the spare pages are, together, the pages of the page
    ranges. *)
Theorem cut_ranges_partition rs :
  Forall range_ok rs -> blocks_needed rs + 1 < STATIC_POOL_SIZE ->
  exists pool spare, cut_ranges 0 rs [] [] = Ok (pool, spare) /\
    pool_pages pool ++ spare ≡ₚ concat (map (fun r => pages_from r 0 (pages r)) rs).
Proof. intros Hr Hn. apply (cut_ranges_ok rs Hr 0 [] []). cbn. lia. Qed.

Lemma cut_ranges_partition_witness :
  exists pool spare, cut_ranges 0 [mk_range 1048576 0 2050; mk_range 4096 0 3] [] [] = Ok (pool, spare) /\
    length (pool_pages pool ++ spare) = 2053%nat.
Proof.
  destruct (cut_ranges_partition [mk_range 1048576 0 2050; mk_range 4096 0 3]) as (pool & spare & E & Hp).
  - repeat (apply Forall_cons; split; [repeat split; by vm_compute|]). by apply Forall_nil.
  - by vm_compute.
  - exists pool, spare. split; [exact E|]. rewrite Hp. by vm_compute.
Defined.

End Pmm.
