(* ===== verification/Slab.v ===== *)
(** * The kernel heap (memory/slab.c, memory/kmalloc.c)

    Slabs of equal objects with a free list threaded through the objects, and
    kmalloc, kfree and krealloc on top of them, with their locks.  Memory is
    byte addressed.  What the heap uses of the physical page allocator is the
    class [PhysAlloc].  The theorems: creating a slab chains all of its objects,
    allocation and freeing keep the chain, an object of kmalloc is freed into
    the slab it came from, on a page boundary too. *)

From S2P Require Import Prelude Spinlock.
Import Spinlock.Spinlock.

Module Slab.

Definition NUM_SLABS : Z := 10.
Definition DEFAULT_SLAB_SIZE_PAGES : Z := 32.

(** ** Memory *)
Definition mem : Type := Z -> Z.

Definition ld64 (m : mem) (a : Z) : Z := le_val (map (fun k => m (a + k)) (seqZ 0 8)).
Definition st64 (m : mem) (a v : Z) : mem :=
  fun x => if (a <=? x) && (x <? a + 8) then nth (Z.to_nat (x - a)) (le_bytes 8 v) 0 else m x.
(** memset(a, 0, n) and memcpy(dst, src, n) *)
Definition memzero (m : mem) (a n : Z) : mem := fun x => if (a <=? x) && (x <? a + n) then 0 else m x.
Definition memcpy (m : mem) (dst src n : Z) : mem :=
  fun x => if (dst <=? x) && (x <? dst + n) then m (src + (x - dst)) else m x.

(** ** One slab *)

(** struct slab *)
Record slab : Type := mk_slab { first_free : Z; entry_size : Z; start_address : Z; end_address : Z }.
Definition zero_slab : slab := mk_slab 0 0 0 0.

Fixpoint link_loop (turns : nat) (i : Z) (array factor : Z) (m : mem) : mem :=
  match turns with
  | O => m
  | S turns => link_loop turns (i + 1) array factor (st64 m (array + 8 * (i * factor)) (array + 8 * ((i + 1) * factor)))
  end.

(** heap_create_slab; [self] is the address of the slab structure and [region]
    the virtual address of the pages it got *)
Definition heap_create_slab (self region entry_size pages : Z) (m : mem) : slab * mem :=
  let header_offset := (8 + entry_size) / entry_size * entry_size in
  let available_size := pages * PAGE_SIZE - header_offset in
  let m := st64 m region self in
  let array := region + header_offset in
  let max := available_size / entry_size - 1 in
  let factor := entry_size / 8 in
  let m := link_loop (Z.to_nat max) 0 array factor m in
  let m := st64 m (array + 8 * (max * factor)) NULL in
  (mk_slab array entry_size region (region + pages * PAGE_SIZE), m).

(** Taking the first object of the free list, which is cleared. *)
Definition pop_free (s : slab) (m : mem) : Z * slab * mem :=
  let old_free := first_free s in
  (old_free, mk_slab (ld64 m old_free) (entry_size s) (start_address s) (end_address s), memzero m old_free (entry_size s)).

(** heap_free_in_slab; no slab is [None].  The end address itself passes the test. *)
Definition heap_free_in_slab (s : option slab) (address : Z) (m : mem) : option slab * mem :=
  match s with
  | None => (None, m)
  | Some s =>
    if address =? NULL then (Some s, m)
    else if (end_address s <? address) || (address <? start_address s) then (Some s, m)
    else (Some (mk_slab address (entry_size s) (start_address s) (end_address s)), st64 m address (first_free s))
  end.

(** ** The heap *)

(** What kmalloc uses of the physical page allocator (memory/pmm.c):
    phys_alloc(pages, pool), which panics when there is no block, and the part
    of buddy_free that looks the address up in the table of used blocks and
    frees the block; [None] when the table has no such block. *)
Class PhysAlloc (A : Type) : Type := {
  phys_alloc : Z -> Z -> A -> outcome (Z * A);
  buddy_release : Z -> A -> option (outcome A);
}.

(** The kernel's static state: [slabs], both locks of kmalloc.c, the memory and
    the page allocator. *)
Record heap (A : Type) : Type := mk_heap {
  slabs : list slab; memory : mem; phys : A; alloc_lock : spinlock; userlock : spinlock }.
Arguments mk_heap {A}.
Arguments slabs {A}.
Arguments memory {A}.
Arguments phys {A}.
Arguments alloc_lock {A}.
Arguments userlock {A}.

Definition KERNEL_POOL : Z := 0.
Definition USER_POOL : Z := 1.

Section Heap.
Context {A : Type} `{PhysAlloc A}.
(** the offset of the direct map, the address of [slabs[i]] and the caller *)
Context (hhdm_offset : Z) (slab_addr : Z -> Z) (t : thread).

Definition Phys2Virt (a : Z) : Z := w64 (a + hhdm_offset).
Definition Virt2Phys (a : Z) : Z := w64 (a - hhdm_offset).

Definition with_memory (m : mem) (h : heap A) : heap A := mk_heap (slabs h) m (phys h) (alloc_lock h) (userlock h).
Definition with_phys (a : A) (h : heap A) : heap A := mk_heap (slabs h) (memory h) a (alloc_lock h) (userlock h).
Definition with_alloc_lock (l : spinlock) (h : heap A) : heap A := mk_heap (slabs h) (memory h) (phys h) l (userlock h).
Definition with_userlock (l : spinlock) (h : heap A) : heap A := mk_heap (slabs h) (memory h) (phys h) (alloc_lock h) l.
Definition get_slab (i : Z) (h : heap A) : outcome slab := of_opt (slabs h !! Z.to_nat i).
Definition put_slab (i : Z) (s : slab) (h : heap A) : heap A :=
  mk_heap (<[Z.to_nat i := s]> (slabs h)) (memory h) (phys h) (alloc_lock h) (userlock h).

(** heap_create_slab(&slabs[i], entry_size, pages) *)
Definition new_slab (i entry_size pages : Z) (h : heap A) : outcome (heap A) :=
  let! (p, a) := phys_alloc pages KERNEL_POOL (phys h) in
  if entry_size =? 0 then Fault
  else
    let (s, m) := heap_create_slab (slab_addr i) (Phys2Virt p) entry_size pages (memory h) in
    Ok (put_slab i s (with_memory m (with_phys a h))).

Definition heap_allocate_from_slab (i : Z) (h : heap A) : outcome (Z * heap A) :=
  let! s := get_slab i h in
  let! h := (if first_free s =? NULL then new_slab i (entry_size s) DEFAULT_SLAB_SIZE_PAGES h else Ok h) in
  let! s := get_slab i h in
  let '(p, s, m) := pop_free s (memory h) in
  Ok (p, put_slab i s (with_memory m h)).

(** heap_slab_for: the first slab whose entries are large enough *)
Fixpoint slab_for_loop (l : list slab) (i size : Z) : option Z :=
  match l with
  | [] => None
  | s :: l => if size <=? entry_size s then Some i else slab_for_loop l (i + 1) size
  end.
Definition heap_slab_for (size : Z) (h : heap A) : option Z := slab_for_loop (slabs h) 0 size.

(** heap_init; every turn creates the slab of the next size *)
Fixpoint heap_init_loop (turns : nat) (i size : Z) (h : heap A) : outcome (heap A) :=
  match turns with
  | O => Ok h
  | S turns =>
    let! h := new_slab i size DEFAULT_SLAB_SIZE_PAGES h in
    let size := Z.shiftl size 1 in
    if PAGE_SIZE <=? size then Ok h else heap_init_loop turns (i + 1) size h
  end.
Definition heap_init (ALLOC_LOCK : Z) (h : heap A) : outcome (heap A) :=
  let h := with_alloc_lock (initlock ALLOC_LOCK (alloc_lock h)) h in
  let h := with_userlock (initlock ALLOC_LOCK (userlock h)) h in
  heap_init_loop (Z.to_nat NUM_SLABS) 0 8 h.

(** _kalloc *)
Definition kalloc_ (size : Z) (h : heap A) : outcome (Z * heap A) :=
  let pages :=
    let! (p, a) := phys_alloc (w64 (size + PAGE_SIZE) / PAGE_SIZE) KERNEL_POOL (phys h) in
    Ok (Phys2Virt p, with_phys a h) in
  if size <? PAGE_SIZE
  then match heap_slab_for size h with Some i => heap_allocate_from_slab i h | None => pages end
  else pages.

(** The slab a header names, by its address. *)
Fixpoint index_of (turns : nat) (i a : Z) : option Z :=
  match turns with O => None | S turns => if slab_addr i =? a then Some i else index_of turns (i + 1) a end.
Definition header_slab (header : Z) (h : heap A) : outcome (option Z) :=
  let s := ld64 (memory h) header in
  if s =? NULL then Ok None else let! i := of_opt (index_of (length (slabs h)) 0 s) in Ok (Some i).

(** heap_free_in_slab on the slab [oi] of the array, NULL is [None] *)
Definition free_in (oi : option Z) (address : Z) (h : heap A) : outcome (heap A) :=
  match oi with
  | None => let (_, m) := heap_free_in_slab None address (memory h) in Ok (with_memory m h)
  | Some i =>
    let! s := get_slab i h in
    match heap_free_in_slab (Some s) address (memory h) with
    | (Some s, m) => Ok (put_slab i s (with_memory m h))
    | (None, m) => Ok (with_memory m h)
    end
  end.

(** where the header of the slab around [address] is *)
Definition slab_header (address : Z) : Z :=
  Z.land address (w64 (Z.lnot (DEFAULT_SLAB_SIZE_PAGES * PAGE_SIZE - 1))).

(** phys_dealloc: buddy_free; an address that no used block starts at is taken
    for a slab object on a page boundary *)
Definition phys_dealloc (address : Z) (h : heap A) : outcome (heap A) :=
  match buddy_release address (phys h) with
  | Some r => let! a := r in Ok (with_phys a h)
  | None => let! oi := header_slab (slab_header (Phys2Virt address)) h in free_in oi (Phys2Virt address) h
  end.

(** _kfree *)
Definition kfree_ (address : Z) (h : heap A) : outcome (heap A) :=
  if address =? NULL then Ok h
  else if Z.land address 0xFFF =? 0 then phys_dealloc (Virt2Phys address) h
  else let! oi := header_slab (slab_header address) h in free_in oi address h.

Definition acquire_alloc_lock (h : heap A) : outcome (heap A) :=
  let! l := acquire_spinlock t (alloc_lock h) in Ok (with_alloc_lock l h).
Definition release_alloc_lock (h : heap A) : heap A := with_alloc_lock (release_spinlock (alloc_lock h)) h.

Definition kmalloc (size : Z) (h : heap A) : outcome (Z * heap A) :=
  let! h := acquire_alloc_lock h in
  let! (ret, h) := kalloc_ size h in
  Ok (ret, release_alloc_lock h).

Definition kzmalloc (size : Z) (h : heap A) : outcome (Z * heap A) :=
  let! h := acquire_alloc_lock h in
  let! (ret, h) := kalloc_ size h in
  Ok (ret, release_alloc_lock (with_memory (memzero (memory h) ret size) h)).

Definition kfree (address : Z) (h : heap A) : outcome (heap A) :=
  let! h := acquire_alloc_lock h in
  let! h := kfree_ address h in
  Ok (release_alloc_lock h).

Definition umalloc (pages : Z) (h : heap A) : outcome (Z * heap A) :=
  let! l := acquire_spinlock t (userlock h) in
  let! (p, a) := phys_alloc pages USER_POOL (phys h) in
  Ok (p, with_userlock (release_spinlock l) (with_phys a h)).

Definition ufree (address : Z) (h : heap A) : outcome (heap A) :=
  let! l := acquire_spinlock t (userlock h) in
  let! h := phys_dealloc address (with_userlock l h) in
  Ok (with_userlock (release_spinlock (userlock h)) h).

(** krealloc; for a page-aligned address the size is read from the page in front
    of it, for a slab object the header from the object's own page.  Two returns
    leave the lock held. *)
Definition krealloc (address new_size : Z) (h : heap A) : outcome (Z * heap A) :=
  let! h := acquire_alloc_lock h in
  if address =? NULL then kalloc_ new_size h
  else if Z.land address 0xFFF =? 0 then
    let size_field := address - PAGE_SIZE + 8 in
    if w64 (ld64 (memory h) size_field + (PAGE_SIZE - 1)) / PAGE_SIZE =? w64 (new_size + (PAGE_SIZE - 1)) / PAGE_SIZE
    then Ok (address, release_alloc_lock (with_memory (st64 (memory h) size_field new_size) h))
    else
      let! (new_address, h) := kalloc_ new_size h in
      if new_address =? NULL then Ok (NULL, release_alloc_lock h)
      else
        let size := ld64 (memory h) size_field in
        let n := if new_size <? size then new_size else size in
        let! h := kfree_ address (with_memory (memcpy (memory h) new_address address n) h) in
        Ok (new_address, release_alloc_lock h)
  else
    let! oi := header_slab (Z.land address (w64 (Z.lnot 0xFFF))) h in
    let! i := of_opt oi in
    let! s := get_slab i h in
    if entry_size s <? new_size then
      let! (new_address, h) := kalloc_ new_size h in
      if new_address =? NULL then Ok (NULL, h)
      else
        let! s := get_slab i h in
        let! h := free_in (Some i) address (with_memory (memcpy (memory h) new_address address (entry_size s)) h) in
        Ok (new_address, release_alloc_lock h)
    else Ok (address, release_alloc_lock h).

End Heap.

(** ** Loads after stores *)
Lemma ld64_ext m m' a : (forall x, a <= x < a + 8 -> m' x = m x) -> ld64 m' a = ld64 m a.
Proof.
  intros Hx. unfold ld64. f_equal. apply map_ext_in. intros k Hk. apply list_elem_of_In, elem_of_seqZ in Hk. apply Hx. lia.
Qed.

Lemma st64_in m a v x : a <= x < a + 8 -> st64 m a v x = nth (Z.to_nat (x - a)) (le_bytes 8 v) 0.
Proof. intros Hx. unfold st64. by rewrite (proj2 (Z.leb_le _ _)), (proj2 (Z.ltb_lt _ _)) by lia. Qed.

Lemma st64_out m a v x : ~ a <= x < a + 8 -> st64 m a v x = m x.
Proof.
  intros Hx. unfold st64. destruct (Z.leb_spec a x); [|done]. by rewrite (proj2 (Z.ltb_ge _ _)) by lia.
Qed.

Lemma memzero_in m a n x : a <= x < a + n -> memzero m a n x = 0.
Proof. intros Hx. unfold memzero. by rewrite (proj2 (Z.leb_le _ _)), (proj2 (Z.ltb_lt _ _)) by lia. Qed.

Lemma memzero_out m a n x : ~ a <= x < a + n -> memzero m a n x = m x.
Proof.
  intros Hx. unfold memzero. destruct (Z.leb_spec a x); [|done]. by rewrite (proj2 (Z.ltb_ge _ _)) by lia.
Qed.

Lemma ld64_st64_same m a v : 0 <= v < 2 ^ 64 -> ld64 (st64 m a v) a = v.
Proof.
  intros Hv. transitivity (le_val (le_bytes 8 v)); [|by apply le_val_bytes_small]. unfold ld64. f_equal.
  apply list_eq. intros i. rewrite list_lookup_fmap. destruct (decide (i < 8)%nat) as [Hi|Hi].
  - rewrite lookup_seqZ_lt by lia. cbn [fmap option_fmap option_map]. rewrite st64_in by lia.
    replace (Z.to_nat (a + (0 + Z.of_nat i) - a)) with i by lia. rewrite nth_lookup.
    destruct (lookup_lt_is_Some_2 (le_bytes 8 v) i) as (b & ->); [by rewrite length_le_bytes|done].
  - rewrite lookup_seqZ_ge by lia. symmetry. apply lookup_ge_None_2. rewrite length_le_bytes. lia.
Qed.

Lemma ld64_st64_other m a v b : (a + 8 <= b \/ b + 8 <= a) -> ld64 (st64 m a v) b = ld64 m b.
Proof. intros Hd. apply ld64_ext. intros x Hx. apply st64_out. lia. Qed.

Lemma ld64_memzero_other m a n b : (a + n <= b \/ b + 8 <= a) -> ld64 (memzero m a n) b = ld64 m b.
Proof. intros Hd. apply ld64_ext. intros x Hx. apply memzero_out. lia. Qed.

(** ** The free list *)

(** The objects from [p] on, linked through their first words. *)
Fixpoint flist (m : mem) (p : Z) (l : list Z) : Prop :=
  match l with
  | [] => p = NULL
  | q :: l => p = q /\ q ≠ NULL /\ flist m (ld64 m q) l
  end.

Lemma flist_ext m m' l : forall p, (forall q, q ∈ l -> ld64 m' q = ld64 m q) -> flist m p l -> flist m' p l.
Proof.
  induction l as [|q l IH]; intros p Hext Hf; [done|]. destruct Hf as (-> & Hq & Hf). cbn [flist].
  rewrite Hext by (apply list_elem_of_here). split_and!; [done|done|]. apply IH; [|done]. intros r Hr. apply Hext. by apply list_elem_of_further.
Qed.

(** Where the objects of a slab start, and all of them. *)
Definition base (s : slab) : Z := start_address s + (8 + entry_size s) / entry_size s * entry_size s.
Definition capacity (s : slab) : Z := (end_address s - base s) / entry_size s.
Definition object (s : slab) (k : Z) : Z := base s + entry_size s * k.
Definition objects (s : slab) : list Z := map (object s) (seqZ 0 (capacity s)).

(** The shape of a slab: objects of a positive multiple of 8 bytes in the
    address space. *)
Definition shape (s : slab) : Prop :=
  0 < entry_size s /\ entry_size s mod 8 = 0 /\ 0 < start_address s /\ base s <= end_address s < 2 ^ 64.

(** The invariant: the free list is a list of different objects of the slab. *)
Record slab_wf (s : slab) (m : mem) (l : list Z) : Prop := mk_slab_wf {
  sw_shape : shape s;
  sw_list : flist m (first_free s) l;
  sw_nodup : NoDup l;
  sw_objects : forall p, p ∈ l -> p ∈ objects s;
}.

Lemma object_range s p : shape s -> p ∈ objects s ->
  exists k, 0 <= k /\ p = object s k /\ start_address s + 8 <= p /\ 0 < p /\ 8 <= entry_size s /\ p + entry_size s <= end_address s.
Proof.
  intros (He & H8 & Hs & Hb & Hmax) Hp. unfold objects in Hp. apply list_elem_of_fmap in Hp as (k & -> & Hk).
  apply elem_of_seqZ in Hk as [Hk0 Hk1]. exists k. split; [done|]. split; [done|]. unfold capacity in Hk1.
  assert (Hle : entry_size s * (k + 1) <= end_address s - base s).
  { pose proof (Z.mul_div_le (end_address s - base s) (entry_size s) He). nia. }
  assert (8 <= entry_size s) by (apply Z.mod_divide in H8 as (c & Hc); lia).
  assert (Hd : 1 <= (8 + entry_size s) / entry_size s) by (apply Z.div_le_lower_bound; lia).
  unfold object, base in *. nia.
Qed.

(** Two different objects do not overlap. *)
Lemma object_apart s p q : shape s -> p ∈ objects s -> q ∈ objects s -> p ≠ q ->
  p + entry_size s <= q \/ q + entry_size s <= p.
Proof.
  intros Hsh Hp Hq Hne. destruct (object_range s p Hsh Hp) as (i & Hi & -> & _). destruct (object_range s q Hsh Hq) as (j & Hj & -> & _).
  destruct Hsh as (He & _). unfold object in *. destruct (Z.lt_trichotomy i j) as [?|[->|?]]; [left; nia|done|right; nia].
Qed.

(** Allocation from a slab takes the first object of its free list, clears it
    and leaves every byte outside it alone, so the rest of the list stays the
    free list. *)
Lemma pop_free_ok s m p l :
  slab_wf s m (p :: l) ->
  exists s' m', pop_free s m = (p, s', m') /\ slab_wf s' m' l /\ objects s' = objects s /\ p ∉ l /\
    (forall x, p <= x < p + entry_size s -> m' x = 0) /\ (forall x, ~ p <= x < p + entry_size s -> m' x = m x).
Proof.
  intros [Hsh (Hff & Hp0 & Hf) [Hni Hnd]%NoDup_cons Hob]. unfold pop_free. rewrite Hff. do 2 eexists. split; [done|].
  split_and!; [|done|done|intros; by apply memzero_in|intros; by apply memzero_out].
  constructor; [done| |done|intros q Hq; apply Hob; by apply list_elem_of_further].
  cbn [first_free]. apply (flist_ext m); [|done]. intros q Hq. apply ld64_memzero_other.
  assert (Hpo : p ∈ objects s) by (apply Hob, list_elem_of_here). assert (Hqo : q ∈ objects s) by (apply Hob; by apply list_elem_of_further).
  destruct (object_range s p Hsh Hpo) as (_ & _ & _ & _ & _ & H8 & _).
  destruct (object_apart s p q Hsh Hpo Hqo) as [?|?]; [by intros ->|lia|lia].
Qed.

(** Freeing an object of the slab puts it in front of the free list; only its
    first word changes. *)
Lemma free_in_slab_ok s m p l :
  slab_wf s m l -> p ∈ objects s -> p ∉ l ->
  exists s' m', heap_free_in_slab (Some s) p m = (Some s', m') /\ slab_wf s' m' (p :: l) /\ objects s' = objects s /\
    (forall x, ~ p <= x < p + 8 -> m' x = m x) /\ start_address s' = start_address s /\ end_address s' = end_address s.
Proof.
  intros [Hsh Hf Hnd Hob] Hp Hni. destruct (object_range s p Hsh Hp) as (k & _ & _ & Hst & Hp0 & H8 & Hend).
  pose proof Hsh as (He & _ & Hs0 & Hb & Hmax).
  unfold heap_free_in_slab. rewrite (proj2 (Z.eqb_neq p NULL)) by (unfold NULL; lia).
  rewrite !(proj2 (Z.ltb_ge _ _)) by lia. cbn [orb]. do 2 eexists. split; [done|].
  split_and!; [|done|intros; by apply st64_out|done|done].
  assert (Hff : 0 <= first_free s < 2 ^ 64).
  { destruct l as [|q l]; [cbn in Hf; rewrite Hf; unfold NULL; lia|]. destruct Hf as (-> & _ & _).
    destruct (object_range s q Hsh (Hob q (list_elem_of_here _ _))) as (_ & _ & _ & _ & ? & _ & ?). lia. }
  constructor; [done| |by apply NoDup_cons|].
  - cbn [flist first_free]. rewrite ld64_st64_same by done. split_and!; [done|unfold NULL; lia|].
    apply (flist_ext m); [|done]. intros q Hq. apply ld64_st64_other.
    destruct (object_apart s p q Hsh Hp (Hob q Hq)) as [?|?]; [by intros ->|lia|lia].
  - intros q Hq. apply elem_of_cons in Hq as [->|Hq]; [done|by apply Hob].
Qed.

(** ** Creating a slab *)

(** The loop writes the words of the entries [i], ..., [i + n - 1] and no other. *)
Lemma link_loop_spec n : forall i array f m,
  0 <= i -> 1 <= f -> 0 <= array -> array + 8 * ((i + Z.of_nat n) * f) < 2 ^ 64 ->
  (forall k, i <= k < i + Z.of_nat n ->
     ld64 (link_loop n i array f m) (array + 8 * (k * f)) = array + 8 * ((k + 1) * f)) /\
  (forall x, (forall k, i <= k < i + Z.of_nat n -> ~ array + 8 * (k * f) <= x < array + 8 * (k * f) + 8) ->
     link_loop n i array f m x = m x).
Proof.
  induction n as [|n IH]; intros i array f m Hi Hf Ha Hmax; [split; [lia|done]|]. cbn [link_loop].
  destruct (IH (i + 1) array f (st64 m (array + 8 * (i * f)) (array + 8 * ((i + 1) * f)))) as [Hld Hout]; [lia..| |].
  { replace (i + 1 + Z.of_nat n) with (i + Z.of_nat (S n)) by lia. done. }
  split.
  - intros k Hk. destruct (decide (k = i)) as [->|Hne]; [|apply Hld; lia].
    rewrite (ld64_ext (st64 m (array + 8 * (i * f)) (array + 8 * ((i + 1) * f)))).
    + apply ld64_st64_same. nia.
    + intros x Hx. apply Hout. intros j Hj. assert (i * f + 1 <= j * f) by nia. lia.
  - intros x Hx. rewrite Hout by (intros k Hk; apply Hx; lia). apply st64_out. apply Hx. lia.
Qed.

(** Entries that each name the next one are a list. *)
Lemma flist_chain m (obj : Z -> Z) n : forall k,
  (forall j, k <= j <= k + Z.of_nat n -> obj j ≠ NULL) ->
  (forall j, k <= j < k + Z.of_nat n -> ld64 m (obj j) = obj (j + 1)) -> ld64 m (obj (k + Z.of_nat n)) = NULL ->
  flist m (obj k) (map obj (seqZ k (Z.of_nat n + 1))).
Proof.
  induction n as [|n IH]; intros k Hnz Hld Hend.
  - rewrite seqZ_cons by lia. cbn [map]. rewrite (seqZ_nil (Z.succ k)) by lia. cbn [map flist].
    rewrite Z.add_0_r in Hend. split_and!; [done|apply Hnz; lia|done].
  - rewrite seqZ_cons by lia. cbn [map flist]. split_and!; [done|apply Hnz; lia|].
    rewrite Hld by lia. replace (Z.pred (Z.of_nat (S n) + 1)) with (Z.of_nat n + 1) by lia.
    replace (k + 1) with (Z.succ k) by lia.
    apply IH; [intros; apply Hnz; lia|intros; apply Hld; lia|].
    by replace (Z.succ k + Z.of_nat n) with (k + Z.of_nat (S n)) by lia.
Qed.

Lemma objects_nodup s : 0 < entry_size s -> NoDup (objects s).
Proof.
  intros He. unfold objects. apply NoDup_fmap_2_strong; [|apply NoDup_seqZ].
  intros x y _ _ E. unfold object in E. nia.
Qed.

(** Creating a slab of [pages] pages at [region] writes the slab's address in
    its header and chains every object of the region, one after the other; no
    byte outside the region changes. *)
Lemma create_slab_ok self region e pages m :
  0 < e -> e mod 8 = 0 -> 0 < region -> region + pages * PAGE_SIZE < 2 ^ 64 ->
  (8 + e) / e * e + e <= pages * PAGE_SIZE -> 0 <= self < 2 ^ 64 ->
  exists s m', heap_create_slab self region e pages m = (s, m') /\
    slab_wf s m' (objects s) /\ ld64 m' region = self /\
    length (objects s) = Z.to_nat ((pages * PAGE_SIZE - (8 + e) / e * e) / e) /\
    (forall x, ~ region <= x < region + pages * PAGE_SIZE -> m' x = m x).
Proof.
  intros He H8 Hr Hmax Hfit Hself. set (off := (8 + e) / e * e) in *.
  assert (exists f, 1 <= f /\ e = 8 * f) as (f & Hf & Ef) by (apply Z.mod_divide in H8 as (c & Hc); [exists c; lia|lia]).
  assert (Hoff : e <= off /\ 8 < off).
  { unfold off. assert (1 <= (8 + e) / e) by (apply Z.div_le_lower_bound; lia).
    pose proof (Z.mul_div_le (8 + e) e He). pose proof (Z.mod_pos_bound (8 + e) e He). pose proof (Z.div_mod (8 + e) e). nia. }
  set (n := (pages * PAGE_SIZE - off) / e).
  assert (Hn : 1 <= n) by (apply Z.div_le_lower_bound; lia).
  assert (Hne : n * e <= pages * PAGE_SIZE - off) by (rewrite Z.mul_comm; apply Z.mul_div_le; lia).
  set (s := mk_slab (region + off) e region (region + pages * PAGE_SIZE)).
  assert (Hb : base s = region + off) by reflexivity.
  assert (Hc : capacity s = n) by (unfold capacity; rewrite Hb; cbn [end_address entry_size s]; unfold n; f_equal; lia).
  assert (Hfe : e / 8 = f) by (rewrite Ef, Z.mul_comm; apply Z.div_mul; lia).
  destruct (link_loop_spec (Z.to_nat (n - 1)) 0 (region + off) f (st64 m region self)) as [Hld Hout]; [lia..|nia|].
  set (m1 := link_loop (Z.to_nat (n - 1)) 0 (region + off) f (st64 m region self)) in *.
  exists s, (st64 m1 (region + off + 8 * ((n - 1) * f)) NULL). split_and!.
  - unfold heap_create_slab. fold off. fold n. rewrite Hfe. done.
  - constructor; [split_and!; cbn [entry_size start_address end_address s]; try done; rewrite Hb; lia| |by apply objects_nodup|done].
    assert (Hsq : seqZ 0 n = seqZ 0 (Z.of_nat (Z.to_nat (n - 1)) + 1)) by (f_equal; lia).
    assert (Hfst : first_free s = object s 0) by (unfold object; rewrite Hb; cbn [first_free s]; lia).
    unfold objects. rewrite Hc, Hsq, Hfst.
    assert (Ho : forall j, object s j = region + off + 8 * (j * f)) by (intros j; unfold object; rewrite Hb; cbn [entry_size s]; nia).
    apply flist_chain.
    + intros j Hj. rewrite Ho. unfold NULL. nia.
    + intros j Hj. rewrite !Ho. rewrite ld64_st64_other by nia. apply Hld. lia.
    + rewrite Ho. replace (0 + Z.of_nat (Z.to_nat (n - 1))) with (n - 1) by lia. apply ld64_st64_same. unfold NULL. lia.
  - rewrite ld64_st64_other by nia. rewrite (ld64_ext (st64 m region self)); [by apply ld64_st64_same|].
    intros x Hx. apply Hout. intros k Hk. nia.
  - unfold objects. rewrite length_map, length_seqZ, Hc. done.
  - intros x Hx. rewrite st64_out by nia. unfold m1. rewrite Hout by (intros k Hk; nia). apply st64_out. lia.
Qed.

(** ** kmalloc and kfree *)

(** Masking the low bits of an address. *)
Lemma land_lnot_ones a k : 0 <= a < 2 ^ 64 -> 0 <= k -> Z.land a (w64 (Z.lnot (2 ^ k - 1))) = a - a mod 2 ^ k.
Proof.
  intros Ha Hk. unfold w64. rewrite <-Z.land_ones, (Z.land_comm (Z.lnot _)), Z.land_assoc by lia.
  rewrite (Z.land_ones a 64), (Z.mod_small a) by lia.
  replace (2 ^ k - 1) with (Z.ones k) by (rewrite Z.ones_equiv; lia).
  rewrite <-Z.ldiff_land, Z.ldiff_ones_r, Z.shiftr_div_pow2, Z.shiftl_mul_pow2 by lia.
  pose proof (Z.div_mod a (2 ^ k)). lia.
Qed.

Lemma slab_header_eq start a : 0 <= start -> start mod (DEFAULT_SLAB_SIZE_PAGES * PAGE_SIZE) = 0 ->
  start <= a < start + DEFAULT_SLAB_SIZE_PAGES * PAGE_SIZE -> a < 2 ^ 64 -> slab_header a = start.
Proof.
  unfold slab_header. change (DEFAULT_SLAB_SIZE_PAGES * PAGE_SIZE) with (2 ^ 17). intros Hs Hm Ha Hmax.
  rewrite land_lnot_ones by lia. apply Z.mod_divide in Hm as (c & ->); [|lia].
  rewrite <-(Z.mod_unique_pos a (2 ^ 17) c (a - c * 2 ^ 17)) by lia. lia.
Qed.

Section HeapProofs.
Context {A : Type} `{PhysAlloc A}.
Context (hhdm_offset : Z) (slab_addr : Z -> Z).

(** Slab [i] of the heap has the free list [l], its region is aligned as _kfree
    expects and its header names it. *)
Record in_heap (i : Z) (s : slab) (l : list Z) (h : heap A) : Prop := mk_in_heap {
  ih_slab : 0 <= i /\ slabs h !! Z.to_nat i = Some s;
  ih_wf : slab_wf s (memory h) l;
  ih_region : start_address s mod (DEFAULT_SLAB_SIZE_PAGES * PAGE_SIZE) = 0 /\
              end_address s = start_address s + DEFAULT_SLAB_SIZE_PAGES * PAGE_SIZE;
  ih_header : ld64 (memory h) (start_address s) = slab_addr i;
  ih_addr : slab_addr i ≠ NULL /\ index_of slab_addr (length (slabs h)) 0 (slab_addr i) = Some i;
}.

Lemma in_heap_lock i s l h lk : in_heap i s l h -> in_heap i s l (with_alloc_lock lk h).
Proof. intros [? ? ? ? ?]. by constructor. Qed.

(** Taking an object of a slab that has free objects; [heap_allocate_from_slab]
    does this after a refill too. *)
Lemma allocate_ok i s p l h :
  in_heap i s (p :: l) h ->
  exists h' s',
    (let! s := get_slab i h in let '(p, s, m) := pop_free s (memory h) in Ok (p, put_slab i s (with_memory m h))) = Ok (p, h') /\ in_heap i s' l h' /\ objects s' = objects s /\
    entry_size s' = entry_size s /\ start_address s' = start_address s /\ end_address s' = end_address s /\
    phys h' = phys h /\ alloc_lock h' = alloc_lock h /\
    (forall x, p <= x < p + entry_size s -> memory h' x = 0) /\ (forall x, ~ p <= x < p + entry_size s -> memory h' x = memory h x).
Proof.
  intros [[Hi Hs] Hwf Hreg Hhd [Ha0 Hai]].
  destruct (pop_free_ok s (memory h) p l Hwf) as (s' & m' & Hpop & Hwf' & Hob & Hni & Hin & Hout).
  pose proof Hpop as Hpop0. unfold pop_free in Hpop0. injection Hpop0 as _ Es' Em'.
  destruct (object_range s p (sw_shape _ _ _ Hwf) (sw_objects _ _ _ Hwf p (list_elem_of_here _ _))) as (_ & _ & _ & Hst & _).
  unfold get_slab. rewrite Hs. cbn [of_opt obind]. rewrite Hpop.
  do 2 eexists. split; [done|]. split_and!; try done; try (by rewrite <-Es').
  constructor; cbn [slabs memory put_slab with_memory].
  - split; [done|]. apply list_lookup_insert_eq. by eapply lookup_lt_Some.
  - done.
  - by rewrite <-Es'.
  - rewrite <-Es'. cbn [start_address]. rewrite <-Hhd. apply ld64_ext. intros x Hx. apply Hout. lia.
  - by rewrite length_insert.
Qed.

(** _kalloc from a slab with free objects *)
Lemma kalloc_ok i s p l h size :
  in_heap i s (p :: l) h -> size < PAGE_SIZE -> heap_slab_for size h = Some i ->
  exists h' s', kalloc_ hhdm_offset slab_addr size h = Ok (p, h') /\ in_heap i s' l h' /\ objects s' = objects s /\
    entry_size s' = entry_size s /\ start_address s' = start_address s /\ end_address s' = end_address s /\
    phys h' = phys h /\ alloc_lock h' = alloc_lock h /\
    (forall x, p <= x < p + entry_size s -> memory h' x = 0) /\ (forall x, ~ p <= x < p + entry_size s -> memory h' x = memory h x).
Proof.
  intros Hih Hsz Hfor. destruct (allocate_ok i s p l h Hih) as (h' & s' & E & Hrest). exists h', s'. split; [|done].
  destruct Hih as [[Hi Hs] Hwf _ _ _]. destruct (sw_list _ _ _ Hwf) as (Hff & Hp0 & _).
  unfold kalloc_. rewrite (proj2 (Z.ltb_lt _ _)), Hfor by done. unfold heap_allocate_from_slab.
  assert (Eg : get_slab i h = Ok s) by (unfold get_slab; by rewrite Hs). rewrite Eg. cbn [obind].
  rewrite Hff, (proj2 (Z.eqb_neq p NULL)) by done. cbn [obind]. exact E.
Qed.

Lemma header_slab_ok i s l h a : in_heap i s l h -> a ∈ objects s -> header_slab slab_addr (slab_header a) h = Ok (Some i).
Proof.
  intros [[Hi Hs] Hwf [Hal Hend] Hhd [Ha0 Hai]] Ha.
  destruct (object_range s a (sw_shape _ _ _ Hwf) Ha) as (_ & _ & _ & Hst & _ & H8 & He).
  destruct (sw_shape _ _ _ Hwf) as (_ & _ & Hs0 & _ & Hmax).
  rewrite (slab_header_eq (start_address s)) by (done || lia). unfold header_slab. rewrite Hhd.
  rewrite (proj2 (Z.eqb_neq _ _)), Hai by done. done.
Qed.

Lemma free_in_ok i s l h p : in_heap i s l h -> p ∈ objects s -> p ∉ l ->
  exists h' s', free_in (Some i) p h = Ok h' /\ in_heap i s' (p :: l) h' /\ objects s' = objects s /\
    alloc_lock h' = alloc_lock h /\ (forall x, ~ p <= x < p + 8 -> memory h' x = memory h x).
Proof.
  intros [[Hi Hs] Hwf Hreg Hhd [Ha0 Hai]] Hp Hni.
  destruct (free_in_slab_ok s (memory h) p l Hwf Hp Hni) as (s' & m' & Hfr & Hwf' & Hob & Hout & Hst' & Hen').
  destruct (object_range s p (sw_shape _ _ _ Hwf) Hp) as (_ & _ & _ & Hst & _).
  unfold free_in, get_slab. rewrite Hs. cbn [of_opt obind]. rewrite Hfr. do 2 eexists. split; [done|]. split_and!; try done.
  constructor; cbn [slabs memory put_slab with_memory].
  - split; [done|]. apply list_lookup_insert_eq. by eapply lookup_lt_Some.
  - done.
  - by rewrite Hst', Hen'.
  - rewrite Hst', <-Hhd. apply ld64_ext. intros x Hx. apply Hout. lia.
  - by rewrite length_insert.
Qed.

(** _kfree of an object of slab [i]; on a page boundary it goes through
    phys_dealloc, where no used block starts at it *)
Lemma kfree_ok i s l h p : in_heap i s l h -> p ∈ objects s -> p ∉ l ->
  buddy_release (Virt2Phys hhdm_offset p) (phys h) = None ->
  exists h' s', kfree_ hhdm_offset slab_addr p h = Ok h' /\ in_heap i s' (p :: l) h' /\ objects s' = objects s /\
    alloc_lock h' = alloc_lock h /\ (forall x, ~ p <= x < p + 8 -> memory h' x = memory h x).
Proof.
  intros Hih Hp Hni Hbr. destruct (free_in_ok i s l h p Hih Hp Hni) as (h' & s' & Hfr & Hrest). exists h', s'. split; [|done].
  destruct (object_range s p (sw_shape _ _ _ (ih_wf _ _ _ _ Hih)) Hp) as (_ & _ & _ & _ & Hp0 & H8 & He).
  destruct (sw_shape _ _ _ (ih_wf _ _ _ _ Hih)) as (_ & _ & _ & _ & Hmax).
  unfold kfree_. rewrite (proj2 (Z.eqb_neq p NULL)) by (unfold NULL; lia). destruct (Z.land p 0xFFF =? 0).
  - unfold phys_dealloc. rewrite Hbr. assert (Hpv : Phys2Virt hhdm_offset (Virt2Phys hhdm_offset p) = p).
    { unfold Phys2Virt, Virt2Phys, w64. rewrite Zplus_mod_idemp_l. replace (p - hhdm_offset + hhdm_offset) with p by lia. apply Z.mod_small. lia. }
    rewrite Hpv, (header_slab_ok i s l h p Hih Hp). done.
  - rewrite (header_slab_ok i s l h p Hih Hp). done.
Qed.

(** heap_create_slab on slab [i] with a block of the page allocator *)
Lemma new_slab_ok i e h q a :
  phys_alloc DEFAULT_SLAB_SIZE_PAGES KERNEL_POOL (phys h) = Ok (q, a) ->
  let region := Phys2Virt hhdm_offset q in
  0 <= i < Z.of_nat (length (slabs h)) -> 8 <= e <= 2048 -> e mod 8 = 0 ->
  0 < region -> region mod (DEFAULT_SLAB_SIZE_PAGES * PAGE_SIZE) = 0 ->
  region + DEFAULT_SLAB_SIZE_PAGES * PAGE_SIZE < 2 ^ 64 ->
  0 < slab_addr i < 2 ^ 64 -> index_of slab_addr (length (slabs h)) 0 (slab_addr i) = Some i ->
  exists h' s', new_slab hhdm_offset slab_addr i e DEFAULT_SLAB_SIZE_PAGES h = Ok h' /\
    in_heap i s' (objects s') h' /\ entry_size s' = e /\ start_address s' = region /\ objects s' ≠ [] /\
    (forall x, ~ region <= x < region + DEFAULT_SLAB_SIZE_PAGES * PAGE_SIZE -> memory h' x = memory h x).
Proof.
  intros Hq region Hi He H8 Hr Hal Hmax Ha Hix.
  assert (Hfit : (8 + e) / e * e + e <= DEFAULT_SLAB_SIZE_PAGES * PAGE_SIZE).
  { pose proof (Z.mul_div_le (8 + e) e). change (DEFAULT_SLAB_SIZE_PAGES * PAGE_SIZE) with 131072. lia. }
  destruct (create_slab_ok (slab_addr i) region e DEFAULT_SLAB_SIZE_PAGES (memory h)) as (s & m & E & Hwf & Hhd & Hlen & Hout); [lia..|].
  assert (Es : start_address s = region /\ end_address s = region + DEFAULT_SLAB_SIZE_PAGES * PAGE_SIZE /\ entry_size s = e).
  { unfold heap_create_slab in E. injection E as <- _. done. }
  destruct Es as (Es & Ee & Esz).
  unfold new_slab. rewrite Hq. cbn [obind]. rewrite (proj2 (Z.eqb_neq e 0)) by lia. fold region. rewrite E.
  do 2 eexists. split; [done|]. split_and!; [|done|done| |done].
  - constructor; cbn [slabs memory put_slab with_memory with_phys].
    + split; [lia|]. apply list_lookup_insert_eq. lia.
    + done.
    + by rewrite Es, Ee.
    + by rewrite Es.
    + rewrite length_insert. split; [unfold NULL; lia|done].
  - intros E0. rewrite E0 in Hlen. cbn [length] in Hlen.
    assert (1 <= (DEFAULT_SLAB_SIZE_PAGES * PAGE_SIZE - (8 + e) / e * e) / e) by (apply Z.div_le_lower_bound; lia). lia.
Qed.

(** Freeing an address outside slab [i] does nothing. *)
Lemma free_in_outside i s l h p : in_heap i s l h -> p < start_address s \/ end_address s < p -> free_in (Some i) p h = Ok h.
Proof.
  intros [[Hi Hs] _ _ _ _] Hp. unfold free_in, get_slab. rewrite Hs. cbn [of_opt obind]. unfold heap_free_in_slab.
  assert (Hid : put_slab i s (with_memory (memory h) h) = h).
  { unfold put_slab, with_memory. cbn. rewrite list_insert_id by done. by destruct h. }
  destruct (p =? NULL); [by rewrite Hid|].
  assert (Ho : (end_address s <? p) || (p <? start_address s) = true).
  { destruct Hp; [rewrite (proj2 (Z.ltb_lt p _)) by done; apply orb_true_r|by rewrite (proj2 (Z.ltb_lt _ p))]. }
  by rewrite Ho, Hid.
Qed.

(** C14: a slab with no free object gets a new region of 32 pages: the allocation
    returns the first of its objects, all the others are the free list.  The slab
    then describes the new region alone: freeing an object of the old one does
    nothing, and its memory is lost. *)
Theorem slab_refill_spec i s h q a :
  in_heap i s [] h -> 8 <= entry_size s <= 2048 ->
  phys_alloc DEFAULT_SLAB_SIZE_PAGES KERNEL_POOL (phys h) = Ok (q, a) ->
  let region := Phys2Virt hhdm_offset q in
  0 < region -> region mod (DEFAULT_SLAB_SIZE_PAGES * PAGE_SIZE) = 0 ->
  region + DEFAULT_SLAB_SIZE_PAGES * PAGE_SIZE < 2 ^ 64 -> 0 <= slab_addr i < 2 ^ 64 ->
  end_address s <= region \/ region + DEFAULT_SLAB_SIZE_PAGES * PAGE_SIZE <= start_address s ->
  exists p l h' s', heap_allocate_from_slab hhdm_offset slab_addr i h = Ok (p, h') /\ in_heap i s' l h' /\
    objects s' = p :: l /\ start_address s' = region /\ entry_size s' = entry_size s /\
    (forall o, o ∈ objects s -> free_in (Some i) o h' = Ok h').
Proof.
  intros Hih He Hq region Hr Hal Hmax Ha Hd. pose proof Hih as [[Hi Hs] Hwf [Hal0 Hen0] _ [Ha0 Hix]].
  destruct (new_slab_ok i (entry_size s) h q a Hq) as (h1 & s1 & E1 & Hih1 & Hes1 & Hst1 & Hne & _);
    [apply lookup_lt_Some in Hs; lia|done|by destruct (sw_shape _ _ _ Hwf) as (_ & ? & _)|done..|unfold NULL in Ha0; lia|done|].
  destruct (objects s1) as [|p l1] eqn:Eo; [done|].
  destruct (allocate_ok i s1 p l1 h1 Hih1) as (h2 & s2 & E2 & Hih2 & Ho2 & He2 & Hs2 & Hen2 & _).
  assert (Hff : first_free s = NULL) by exact (sw_list _ _ _ Hwf).
  exists p, l1, h2, s2. split_and!; [|done|by rewrite Ho2|by rewrite Hs2|by rewrite He2|].
  - unfold heap_allocate_from_slab, get_slab. rewrite Hs. cbn [of_opt obind]. rewrite Hff, Z.eqb_refl, E1. cbn [obind]. exact E2.
  - intros o Ho. destruct (object_range s o (sw_shape _ _ _ Hwf) Ho) as (_ & _ & _ & Hlo & _ & H8 & Hhi).
    apply (free_in_outside i s2 l1 h2 o Hih2). destruct (ih_region _ _ _ _ Hih2) as [_ He2']. fold region in Hst1. lia.
Qed.

(** C5: kmalloc hands out a cleared object of the first slab that is large enough,
    and kfree puts it back in front of that slab's free list, whether the object
    lies on a page boundary (freed through the page allocator, which finds no
    block there) or not; no byte outside the object changes and the lock is free
    after each. *)
Theorem kmalloc_kfree t i s p l h size :
  in_heap i s (p :: l) h -> size < PAGE_SIZE -> heap_slab_for size h = Some i ->
  buddy_release (Virt2Phys hhdm_offset p) (phys h) = None ->
  lock_free (alloc_lock h) -> my_cpu t ≠ 0 -> bsp t = false ->
  exists h1 s1 h2 s2,
    kmalloc hhdm_offset slab_addr t size h = Ok (p, h1) /\ in_heap i s1 l h1 /\ lock_free (alloc_lock h1) /\
    (forall x, p <= x < p + entry_size s -> memory h1 x = 0) /\
    kfree hhdm_offset slab_addr t p h1 = Ok h2 /\ in_heap i s2 (p :: l) h2 /\ lock_free (alloc_lock h2) /\
    (forall x, ~ p <= x < p + entry_size s -> memory h2 x = memory h x).
Proof.
  intros Hih Hsz Hfor Hbr Hlk Ht Hb. unfold kmalloc, acquire_alloc_lock. rewrite (acquire_free t (alloc_lock h)) by done. cbn [obind].
  set (l1 := mk_lock _ _ _ _ _).
  destruct (kalloc_ok i s p l (with_alloc_lock l1 h) size) as (h1 & s1 & E1 & Hih1 & Hob & He & Hs1 & Hen1 & Hph & Hl1 & Hz & Hout); [by apply in_heap_lock|done|done|].
  rewrite E1. cbn [obind]. assert (Hlk1 : lock_free (release_spinlock (alloc_lock h1))) by (rewrite Hl1; done).
  pose proof (sw_objects _ _ _ (ih_wf _ _ _ _ Hih) p (list_elem_of_here _ _)) as Hp. pose proof (sw_nodup _ _ _ (ih_wf _ _ _ _ Hih)) as [Hni _]%NoDup_cons.
  destruct (object_range s p (sw_shape _ _ _ (ih_wf _ _ _ _ Hih)) Hp) as (_ & _ & _ & _ & _ & H8 & _).
  do 2 eexists. unfold kfree, acquire_alloc_lock.
  rewrite (acquire_free t (alloc_lock (release_alloc_lock h1))) by done. cbn [obind].
  set (l2 := mk_lock _ _ _ _ _).
  destruct (kfree_ok i s1 l (with_alloc_lock l2 (release_alloc_lock h1)) p) as (h2 & s2 & E2 & Hih2 & _ & Hl2 & Hout2);
    [by apply in_heap_lock, in_heap_lock|by rewrite Hob|done|by cbn; rewrite Hph|].
  rewrite E2. cbn [obind]. do 2 eexists. split; [done|]. split_and!; [by apply in_heap_lock|done|done|done|by apply in_heap_lock| |].
  - cbn. rewrite Hl2. done.
  - intros x Hx. cbn. rewrite Hout2 by lia. cbn. rewrite Hout by lia. done.
Qed.

(** Krealloc(NULL, size) returns with the allocator's lock held by its caller;
    without FORCE_DEADLOCKS the next kmalloc of another processor spins until it
    panics. *)
Theorem krealloc_null_keeps_lock t t' i s p l h size n :
  in_heap i s (p :: l) h -> size < PAGE_SIZE -> heap_slab_for size h = Some i ->
  lock_free (alloc_lock h) -> my_cpu t ≠ 0 -> bsp t = false ->
  my_cpu t' ≠ my_cpu t -> bsp t' = false -> FORCE_DEADLOCKS t' = false ->
  exists h1, krealloc hhdm_offset slab_addr t NULL size h = Ok (p, h1) /\
    locked (alloc_lock h1) = 1 /\ lock_cpu (alloc_lock h1) = my_cpu t /\
    kmalloc hhdm_offset slab_addr t' n h1 = Panic.
Proof.
  intros Hih Hsz Hfor Hlk Ht Hb Ht' Hb' Hf'. unfold krealloc, acquire_alloc_lock. rewrite (acquire_free t (alloc_lock h)) by done. cbn [obind].
  set (l1 := mk_lock _ _ _ _ _). rewrite Z.eqb_refl.
  destruct (kalloc_ok i s p l (with_alloc_lock l1 h) size) as (h1 & s1 & E1 & Hih1 & _ & _ & _ & _ & _ & Hl1 & _); [by apply in_heap_lock|done|done|].
  exists h1. split; [done|]. rewrite Hl1. split; [done|]. split; [done|]. unfold kmalloc, acquire_alloc_lock.
  rewrite Hl1, acquire_held, Hf' by done. done.
Qed.

End HeapProofs.

(** ** A heap that was initialised *)
Module SlabExamples.

(** A page allocator that hands out consecutive blocks of 128 KiB. *)
Record bump_pages : Type := mk_bump_pages { next_page : Z; used_blocks : list Z }.
#[export] Instance bump_phys : PhysAlloc bump_pages := {
  phys_alloc pages zone a :=
    let n := DEFAULT_SLAB_SIZE_PAGES * PAGE_SIZE in
    Ok (next_page a, mk_bump_pages (next_page a + (pages * PAGE_SIZE + n - 1) / n * n) (next_page a :: used_blocks a));
  buddy_release p a :=
    if bool_decide (p ∈ used_blocks a)
    then Some (Ok (mk_bump_pages (next_page a) (filter (fun q => q ≠ p) (used_blocks a)))) else None;
}.

Definition hhdm : Z := 0xFFFF800000000000.
Definition slab_at (i : Z) : Z := 0xFFFFFFFF80100000 + 32 * i.
Definition no_lock : spinlock := mk_lock 0 0 0 0 0.
Definition boot : heap bump_pages :=
  mk_heap (replicate 10 zero_slab) (fun _ => 0) (mk_bump_pages 0x20000 []) no_lock no_lock.

(** The slab of 2048-byte objects alone: half of its objects are on page
    boundaries. *)
Definition one_slab : heap bump_pages :=
  match new_slab hhdm slab_at 0 2048 DEFAULT_SLAB_SIZE_PAGES boot with Ok h => h | _ => boot end.

Definition first_slab : slab := mk_slab 0xFFFF800000020800 2048 0xFFFF800000020000 0xFFFF800000040000.

Lemma one_slab_wf : in_heap slab_at 0 first_slab (objects first_slab) one_slab.
Proof.
  destruct (new_slab_ok hhdm slab_at 0 2048 boot 0x20000 (mk_bump_pages 0x40000 [0x20000]))
    as (h & s & E & Hih & _ & _ & _ & _); [reflexivity|vm_compute; by split..|reflexivity|].
  assert (Hh : h = one_slab) by (unfold one_slab; by rewrite E). subst h.
  pose proof (ih_slab _ _ _ _ _ Hih) as [_ Hs].
  assert (Hs0 : slabs one_slab !! Z.to_nat 0 = Some first_slab) by (vm_compute; reflexivity).
  rewrite Hs0 in Hs. injection Hs as <-. done.
Qed.

Lemma kmalloc_kfree_witness : exists h1 h2,
  kmalloc hhdm slab_at thread1 2000 one_slab = Ok (0xFFFF800000020800, h1) /\
  kfree hhdm slab_at thread1 0xFFFF800000020800 h1 = Ok h2.
Proof.
  assert (Ho : objects first_slab = 0xFFFF800000020800 :: tail (objects first_slab)) by (vm_compute; reflexivity).
  pose proof one_slab_wf as Hwf. rewrite Ho in Hwf.
  destruct (kmalloc_kfree hhdm slab_at thread1 0 first_slab 0xFFFF800000020800 _ one_slab 2000 Hwf) as (h1 & s1 & h2 & s2 & E1 & _ & _ & _ & E2 & _).
  - done.
  - vm_compute; reflexivity.
  - vm_compute; reflexivity.
  - vm_compute; done.
  - done.
  - reflexivity.
  - exists h1, h2. split; [exact E1|exact E2].
Defined.

Lemma krealloc_null_keeps_lock_witness : exists h1,
  krealloc hhdm slab_at thread1 NULL 2000 one_slab = Ok (0xFFFF800000020800, h1) /\
  kmalloc hhdm slab_at thread2 8 h1 = Panic.
Proof.
  assert (Ho : objects first_slab = 0xFFFF800000020800 :: tail (objects first_slab)) by (vm_compute; reflexivity).
  pose proof one_slab_wf as Hwf. rewrite Ho in Hwf.
  destruct (krealloc_null_keeps_lock hhdm slab_at thread1 thread2 0 first_slab 0xFFFF800000020800 _ one_slab 2000 8 Hwf)
    as (h1 & E1 & _ & _ & E2).
  - done.
  - vm_compute; reflexivity.
  - vm_compute; done.
  - done.
  - reflexivity.
  - done.
  - reflexivity.
  - reflexivity.
  - exists h1. split; [exact E1|exact E2].
Defined.

(** The same heap with every object handed out. *)
Definition full_slab : slab := mk_slab 0 2048 0xFFFF800000020000 0xFFFF800000040000.
Definition full : heap bump_pages :=
  mk_heap (full_slab :: replicate 9 zero_slab) (memory one_slab) (phys one_slab) no_lock no_lock.

Lemma full_wf : in_heap slab_at 0 full_slab [] full.
Proof.
  constructor.
  - split; [lia|reflexivity].
  - constructor; [vm_compute; split_and!; done|reflexivity|constructor|by intros p Hp%not_elem_of_nil].
  - vm_compute. by split.
  - vm_compute. reflexivity.
  - split; [done|vm_compute; reflexivity].
Qed.

Lemma slab_refill_spec_witness : exists p l h' s',
  heap_allocate_from_slab hhdm slab_at 0 full = Ok (p, h') /\ objects s' = p :: l /\
  (forall o, o ∈ objects full_slab -> free_in (Some 0) o h' = Ok h').
Proof.
  destruct (slab_refill_spec hhdm slab_at 0 full_slab full 0x40000 (mk_bump_pages 0x60000 [0x40000; 0x20000]) full_wf)
    as (p & l & h' & s' & E & _ & Ho & _ & _ & Hf).
  - vm_compute. by split.
  - vm_compute. reflexivity.
  - vm_compute. reflexivity.
  - vm_compute. reflexivity.
  - vm_compute. reflexivity.
  - vm_compute. by split.
  - left. vm_compute. done.
  - exists p, l, h', s'. split; [exact E|]. split; [exact Ho|exact Hf].
Defined.

End SlabExamples.

End Slab.
