(* ===== verification/BlockDevice.v ===== *)
(** * Block devices and the ramdisk (kernel/src/drivers/block/ramdisk.c)

    [struct block_device_ops] is the interface between a filesystem and its
    disk.  The class states it with what diosfs relies on; the ramdisk driver
    is modelled below and shown to satisfy it. *)

From S2P Require Import Prelude.

(** block_read and block_write return a code and move [count] blocks between
    the disk and the caller's buffer. *)
Class BlockDevice (D : Type) : Type := {
  block_read : Z -> Z -> list Z -> D -> outcome (Z * list Z);
  block_write : Z -> Z -> list Z -> D -> outcome (Z * D);
  (** the disk as one array of bytes, its block size and the largest transfer *)
  bd_bytes : D -> list Z;
  bd_size : Z;
  bd_max : Z;
  bd_wf : D -> Prop;
}.

(** The byte range of [count] blocks from [b] on. *)
Definition in_range {D} `{BlockDevice D} (d : D) (b count : Z) : Prop :=
  0 <= b /\ 0 <= count /\ (b + count) * bd_size <= Z.of_nat (length (bd_bytes d)) /\
  count * bd_size <= bd_max.

Class BlockDeviceSpec (D : Type) `{BlockDevice D} : Prop := {
  bd_size_pos : 0 < bd_size;
  block_read_spec d b count buf :
    bd_wf d -> in_range d b count -> count * bd_size <= Z.of_nat (length buf) ->
    block_read b count buf d
    = Ok (KERN_SUCCESS,
          splice 0 (slice (Z.to_nat (b * bd_size)) (Z.to_nat (count * bd_size)) (bd_bytes d)) buf);
  block_write_spec d b count buf :
    bd_wf d -> in_range d b count -> count * bd_size <= Z.of_nat (length buf) ->
    exists d', block_write b count buf d = Ok (KERN_SUCCESS, d') /\ bd_wf d' /\
      bd_bytes d' = splice (Z.to_nat (b * bd_size)) (take (Z.to_nat (count * bd_size)) buf) (bd_bytes d);
}.

(** A reference device: an array of bytes with exact range checks. *)
Module RefDisk.

Definition ref_in_range (b count : Z) (d : list Z) : bool :=
  (0 <=? b) && (0 <=? count) && ((b + count) * 1024 <=? Z.of_nat (length d)) && (count * 1024 <=? PAGE_SIZE * 100).

#[global] Instance ref_device : BlockDevice (list Z) := {
  block_read b c buf d :=
    if ref_in_range b c d && (c * 1024 <=? Z.of_nat (length buf))
    then Ok (KERN_SUCCESS, splice 0 (slice (Z.to_nat (b * 1024)) (Z.to_nat (c * 1024)) d) buf) else Ok (1, buf);
  block_write b c buf d :=
    if ref_in_range b c d && (c * 1024 <=? Z.of_nat (length buf))
    then Ok (KERN_SUCCESS, splice (Z.to_nat (b * 1024)) (take (Z.to_nat (c * 1024)) buf) d) else Ok (1, d);
  bd_bytes d := d; bd_size := 1024; bd_max := PAGE_SIZE * 100; bd_wf _ := True;
}.

Lemma ref_in_range_spec b c d : ref_in_range b c d = true <-> in_range d b c.
Proof.
  unfold ref_in_range, in_range. cbn [bd_size bd_bytes bd_max ref_device].
  rewrite !andb_true_iff, !Z.leb_le. tauto.
Qed.

#[global] Instance ref_device_spec : BlockDeviceSpec (list Z).
Proof.
  split.
  - done.
  - intros d b c buf _ Hr Hl. cbn [block_read ref_device bd_size] in *.
    by rewrite (proj2 (ref_in_range_spec _ _ _) Hr), (proj2 (Z.leb_le _ _) Hl).
  - intros d b c buf _ Hr Hl. cbn [block_write ref_device bd_size] in *.
    rewrite (proj2 (ref_in_range_spec _ _ _) Hr), (proj2 (Z.leb_le _ _) Hl). by eexists.
Qed.

End RefDisk.

Module Ramdisk.

Definition RAMDISK_COUNT : Z := 5.
Definition SIZE_TOO_SMALL : Z := 0x4.
Definition ID_OUT_OF_RANGE : Z := 0x8.
Definition OFFSET_OUT_OF_RANGE : Z := 0x20.
Definition READ_SIZE_OUT_OF_BOUNDS : Z := 0x30.
Definition BLOCK_OUT_OF_RANGE : Z := 0x40.
Definition DEFAULT_RAMDISK_SIZE : Z := 0xFF * PAGE_SIZE.

(** struct ramdisk; [contents] is the memory at [ramdisk_start] *)
Record ramdisk : Type := mk_ramdisk {
  ramdisk_start : Z; ramdisk_end : Z; ramdisk_size_pages : Z; block_size : Z; contents : list Z }.

(** The array [ramdisk[RAMDISK_COUNT]]. *)
Abbreviation disks := (list ramdisk).

Definition get (id : Z) (rds : disks) : outcome ramdisk := of_opt (rds !! Z.to_nat id).
Definition put (id : Z) (r : ramdisk) (rds : disks) : disks := <[Z.to_nat id := r]> rds.

(** ramdisk_init without a boot module.  [kmalloc] is the allocation of the
    disk's memory: its address and contents. *)
Definition ramdisk_init (kmalloc : Z -> outcome (Z * list Z)) (size_bytes id bsize : Z) (rds : disks)
  : outcome disks :=
  if RAMDISK_COUNT <? id then Ok rds
  else
    let size_bytes := if size_bytes =? 0 then DEFAULT_RAMDISK_SIZE else size_bytes in
    let! _ := get id rds in
    let! (start, mem) := kmalloc size_bytes in
    let pages := w64 (size_bytes / PAGE_SIZE + 1) in
    Ok (put id (mk_ramdisk start (w64 (start + pages * PAGE_SIZE)) pages bsize mem) rds).

(** ramdisk_disk_image_init: the boot module [img] at [start]; the block size is
    the third 64-bit field of its superblock. *)
Definition ramdisk_disk_image_init (start : Z) (img : list Z) (id : Z) (rds : disks) : outcome disks :=
  let! _ := get id rds in
  let pages := w64 (Z.of_nat (length img) / PAGE_SIZE + 1) in
  if decide (24 <= length img)%nat
  then Ok (put id (mk_ramdisk start (w64 (start + pages * PAGE_SIZE)) pages (le_val (slice 16 8 img)) img) rds)
  else Fault.

Definition ramdisk_mkfs (image : list Z) (size_bytes id : Z) (rds : disks) : outcome (Z * disks) :=
  if RAMDISK_COUNT <? id then Ok (ID_OUT_OF_RANGE, rds)
  else
    let! r := get id rds in
    if size_bytes / PAGE_SIZE <? ramdisk_size_pages r then Ok (SIZE_TOO_SMALL, rds)
    else
      let! mem := copy_loop (Z.to_nat size_bytes) (contents r) 0 image 0 in
      Ok (KERN_SUCCESS,
          put id (mk_ramdisk (ramdisk_start r) (ramdisk_end r) (ramdisk_size_pages r) (block_size r) mem) rds).

Definition ramdisk_destroy (kfree : Z -> outcome unit) (id : Z) (rds : disks) : outcome disks :=
  if RAMDISK_COUNT <? id then Ok rds
  else
    let! r := get id rds in
    let! _ := kfree (ramdisk_start r) in
    Ok (put id (mk_ramdisk NULL NULL 0 (block_size r) []) rds).

Definition ramdisk_read (buffer : list Z) (block offset read_size buffer_size id : Z) (rds : disks)
  : outcome (Z * list Z) :=
  if RAMDISK_COUNT <? id then Ok (ID_OUT_OF_RANGE, buffer)
  else
    let! r := get id rds in
    if block_size r <? offset then Ok (OFFSET_OUT_OF_RANGE, buffer)
    else if buffer_size <? read_size then Ok (READ_SIZE_OUT_OF_BOUNDS, buffer)
    else if block_size r =? 0 then Fault
    else if w64 (ramdisk_size_pages r * PAGE_SIZE) / block_size r <? block then Ok (BLOCK_OUT_OF_RANGE, buffer)
    else
      let! buffer := copy_loop (Z.to_nat read_size) buffer 0 (contents r)
                       (Z.to_nat (w64 (block * block_size r + offset))) in
      Ok (KERN_SUCCESS, buffer).

(** The loop of ramdisk_write for a buffer written many times over. *)
Fixpoint repeat_loop (fuel : nat) (mem : list Z) (start : nat) (buffer : list Z)
    (index total write_size buffer_size : Z) : outcome (list Z) :=
  match fuel with
  | O => Timeout
  | S fuel =>
    if total <? write_size then
      let! mem := copy_loop 1 mem (start + Z.to_nat index) buffer (Z.to_nat index) in
      let index := if index =? buffer_size then 0 else index in
      repeat_loop fuel mem start buffer (index + 1) (total + 2) write_size buffer_size
    else Ok mem
  end.

Definition ramdisk_write (buffer : list Z) (block offset write_size buffer_size id : Z) (rds : disks)
  : outcome (Z * disks) :=
  if RAMDISK_COUNT <? id then Ok (ID_OUT_OF_RANGE, rds)
  else
    let! r := get id rds in
    let with_mem mem :=
      put id (mk_ramdisk (ramdisk_start r) (ramdisk_end r) (ramdisk_size_pages r) (block_size r) mem) rds in
    let start := Z.to_nat (w64 (block * block_size r + offset)) in
    if block_size r <? offset then Ok (OFFSET_OUT_OF_RANGE, rds)
    else if block_size r =? 0 then Fault
    else if w64 (ramdisk_size_pages r * PAGE_SIZE) / block_size r <? block then Ok (BLOCK_OUT_OF_RANGE, rds)
    else if (buffer_size <? write_size) && (write_size mod buffer_size =? 0) then
      let! mem := repeat_loop (S (Z.to_nat write_size)) (contents r) start buffer 0 0 write_size buffer_size in
      Ok (KERN_SUCCESS, with_mem mem)
    else if buffer_size <? write_size then Ok (READ_SIZE_OUT_OF_BOUNDS, rds)
    else
      let! mem := copy_loop (Z.to_nat write_size) (contents r) start buffer 0 in
      Ok (KERN_SUCCESS, with_mem mem).

(** The device operations; [bs] is [rd->block_size] of the device's ramdisk and
    [minor] its number. *)
Definition ramdisk_device_ops_read (minor block_number block_count : Z) (buffer : list Z) (rds : disks)
  : outcome (Z * list Z) :=
  let! rd := get minor rds in
  ramdisk_read buffer block_number 0 (w64 (block_count * block_size rd)) (PAGE_SIZE * 100) minor rds.

Definition ramdisk_device_ops_write (minor block_number block_count : Z) (buffer : list Z) (rds : disks)
  : outcome (Z * disks) :=
  let! rd := get minor rds in
  ramdisk_write buffer block_number 0 (w64 (block_count * block_size rd)) (PAGE_SIZE * 100) minor rds.

(** ** The interface *)
Section Spec.
Context (minor bs : Z).
Hypothesis minor_ok : 0 <= minor < RAMDISK_COUNT.
Hypothesis bs_ok : 0 < bs <= PAGE_SIZE.

Definition disk_of (rds : disks) : list Z :=
  match rds !! Z.to_nat minor with Some r => contents r | None => [] end.

(** The device is there, with memory for at least its whole pages and less than
    2^63 bytes of it. *)
Definition ramdisk_wf (rds : disks) : Prop :=
  exists r, rds !! Z.to_nat minor = Some r /\ block_size r = bs /\
    Z.of_nat (length (contents r)) <= ramdisk_size_pages r * PAGE_SIZE < 2 ^ 63.

Instance ramdisk_device : BlockDevice disks := {
  block_read b c buf d := ramdisk_device_ops_read minor b c buf d;
  block_write b c buf d := ramdisk_device_ops_write minor b c buf d;
  bd_bytes := disk_of;
  bd_size := bs;
  bd_max := PAGE_SIZE * 100;
  bd_wf := ramdisk_wf;
}.

Lemma range_facts rds b c : ramdisk_wf rds -> in_range rds b c ->
  exists r, rds !! Z.to_nat minor = Some r /\ block_size r = bs /\ disk_of rds = contents r /\
    w64 (c * bs) = c * bs /\ w64 (b * bs + 0) = b * bs /\ 0 <= b * bs /\ 0 <= c * bs /\
    b * bs + c * bs <= Z.of_nat (length (contents r)) /\ c * bs <= PAGE_SIZE * 100 /\
    b <= w64 (ramdisk_size_pages r * PAGE_SIZE) / bs.
Proof.
  intros (r & Hr & Hb & Hl) (H0 & H1 & H2 & H3). cbn [bd_size bd_bytes bd_max ramdisk_device] in *.
  unfold disk_of in *. rewrite Hr in *. exists r. unfold PAGE_SIZE in *.
  rewrite (w64_small (ramdisk_size_pages r * 4096)) by lia.
  rewrite (w64_small (c * bs)), (w64_small (b * bs + 0)) by nia.
  split_and!; try done; try nia. apply Z.div_le_lower_bound; nia.
Qed.

#[global] Instance ramdisk_device_spec : BlockDeviceSpec disks.
Proof.
  split.
  - cbn. lia.
  - intros d b c buf Hw Hr Hlen. cbn [block_read ramdisk_device bd_size bd_bytes] in *.
    destruct (range_facts _ _ _ Hw Hr) as (r & Hd & Hbs & -> & Hc & Hst & Hb0 & Hc0 & Hin & Hmax & Hblk).
    unfold ramdisk_device_ops_read, ramdisk_read, get. rewrite Hd. cbn [of_opt obind]. rewrite Hbs, Hc.
    unfold RAMDISK_COUNT in *. rewrite !(proj2 (Z.ltb_ge _ _)) by lia. rewrite (proj2 (Z.eqb_neq bs 0)) by lia.
    rewrite Hst, copy_loop_ok by lia. done.
  - intros d b c buf Hw Hr Hlen. cbn [block_write ramdisk_device bd_size bd_bytes bd_wf] in *.
    destruct (range_facts _ _ _ Hw Hr) as (r & Hd & Hbs & Hdk & Hc & Hst & Hb0 & Hc0 & Hin & Hmax & Hblk).
    unfold ramdisk_device_ops_write, ramdisk_write, get. rewrite Hd. cbn [of_opt obind]. rewrite Hbs, Hc.
    unfold RAMDISK_COUNT in *. rewrite !(proj2 (Z.ltb_ge _ _)) by lia. rewrite (proj2 (Z.eqb_neq bs 0)) by lia.
    cbn [andb]. rewrite Hst, copy_loop_ok by lia. cbn [obind]. eexists. split; [done|].
    assert (Hput : forall x : ramdisk, put minor x d !! Z.to_nat minor = Some x).
    { intros x. unfold put. apply list_lookup_insert_eq. by eapply lookup_lt_Some. }
    split.
    + eexists. rewrite Hput. split; [done|]. split; [done|]. cbn [contents ramdisk_size_pages].
      destruct Hw as (r' & Hd' & _ & Hl). rewrite Hd in Hd'. injection Hd' as <-.
      rewrite length_splice; [done|]. rewrite length_slice by lia. lia.
    + unfold disk_of. rewrite Hput, Hd. done.
Qed.

(** C23: what is written to a ramdisk is read back, from the same blocks, and
    blocks outside the written range read as before. *)
Theorem ramdisk_write_read rds b c buf buf2 :
  ramdisk_wf rds -> in_range rds b c -> Z.of_nat (length buf) = c * bs -> length buf2 = length buf ->
  exists rds', ramdisk_device_ops_write minor b c buf rds = Ok (KERN_SUCCESS, rds') /\ ramdisk_wf rds' /\
    ramdisk_device_ops_read minor b c buf2 rds' = Ok (KERN_SUCCESS, buf) /\
    forall b', in_range rds b' c -> b' + c <= b \/ b + c <= b' ->
      ramdisk_device_ops_read minor b' c buf2 rds' = ramdisk_device_ops_read minor b' c buf2 rds.
Proof.
  intros Hw Hr Hl Hl2. pose proof Hr as Hr'. destruct Hr' as (H0 & H1 & H2 & H3).
  cbn [bd_size bd_bytes bd_max ramdisk_device] in *.
  destruct (@block_write_spec disks ramdisk_device ramdisk_device_spec rds b c buf Hw Hr) as (rds' & E & Hw' & Hbytes); [cbn; lia|].
  cbn [block_write block_read bd_bytes bd_size bd_wf ramdisk_device] in *.
  assert (Hlen : length (disk_of rds') = length (disk_of rds)).
  { rewrite Hbytes, length_splice; [done|]. rewrite length_take. lia. }
  assert (Hrange : forall b', in_range rds b' c -> in_range rds' b' c).
  { intros b' (? & ? & ? & ?). unfold in_range. cbn [bd_size bd_bytes bd_max ramdisk_device] in *. by rewrite Hlen. }
  exists rds'. split_and!; [done|done| |].
  - pose proof (@block_read_spec disks ramdisk_device ramdisk_device_spec rds' b c buf2 Hw' (Hrange _ Hr)) as Hrd.
    cbn [block_read bd_bytes bd_size ramdisk_device] in Hrd. rewrite Hrd by lia.
    rewrite Hbytes, take_ge by lia. rewrite slice_splice_same by lia.
    unfold splice. by rewrite take_0, Nat.add_0_l, drop_ge, app_nil_r by lia.
  - intros b' Hr' Hd. pose proof Hr' as (? & ? & Hin' & ?). cbn [bd_size bd_bytes ramdisk_device] in Hin'.
    pose proof (@block_read_spec disks ramdisk_device ramdisk_device_spec rds' b' c buf2 Hw' (Hrange _ Hr')) as Hrd.
    pose proof (@block_read_spec disks ramdisk_device ramdisk_device_spec rds b' c buf2 Hw Hr') as Hrd2.
    cbn [block_read bd_bytes bd_size ramdisk_device] in Hrd, Hrd2. rewrite Hrd, Hrd2 by lia.
    rewrite Hbytes, slice_splice_disj; [done|lia|]. rewrite length_take. nia.
Qed.

(** The range checks of the ramdisk admit one id and one block too many: id 5
    passes the check and indexes past the array of five disks, and the block just
    past the end passes it and is read outside the disk's memory. *)
Theorem ramdisk_checks_off_by_one rds r buf :
  length rds = Z.to_nat RAMDISK_COUNT -> rds !! Z.to_nat minor = Some r -> block_size r = bs ->
  PAGE_SIZE mod bs = 0 -> 0 <= ramdisk_size_pages r * PAGE_SIZE < 2 ^ 63 ->
  Z.of_nat (length (contents r)) = ramdisk_size_pages r * PAGE_SIZE ->
  ramdisk_read buf 0 0 bs bs RAMDISK_COUNT rds = Fault /\
  ramdisk_read buf (ramdisk_size_pages r * PAGE_SIZE / bs) 0 bs bs minor rds = Fault.
Proof.
  intros Hl Hr Hbs Hdiv Hsz Hmem. unfold ramdisk_read, get. split.
  - rewrite Z.ltb_irrefl. rewrite (lookup_ge_None_2 rds) by lia. done.
  - rewrite (proj2 (Z.ltb_ge RAMDISK_COUNT minor)) by lia. rewrite Hr. cbn [of_opt obind].
    rewrite Hbs. rewrite (proj2 (Z.ltb_ge bs 0)), Z.ltb_irrefl, (proj2 (Z.eqb_neq bs 0)) by lia.
    rewrite (w64_small (ramdisk_size_pages r * PAGE_SIZE)), Z.ltb_irrefl by lia.
    assert (Hm : ramdisk_size_pages r * PAGE_SIZE / bs * bs = ramdisk_size_pages r * PAGE_SIZE).
    { apply Z.mod_divide in Hdiv as (k & Hk); [|lia]. rewrite Hk, Z.mul_assoc, Z.div_mul by lia. done. }
    rewrite Hm, Z.add_0_r, w64_small by lia. rewrite copy_loop_fault by lia. done.
Qed.

End Spec.

(** The branch for a write larger than its buffer advances its count twice
    per byte and never restarts the buffer on the disk: asked to write a
    two-byte pattern over eight bytes, it stores it in the first two and then
    writes past the pattern. *)
Theorem ramdisk_repeated_write_incomplete :
  ramdisk_write [1; 2; 3] 0 0 8 2 0 [mk_ramdisk 0 0 1 4 (replicate 8 0)]
  = Ok (KERN_SUCCESS, [mk_ramdisk 0 0 1 4 [1; 2; 3; 0; 0; 0; 0; 0]]).
Proof. by vm_compute. Qed.

(** ** A concrete disk *)
Definition one_page : disks := replicate 5 (mk_ramdisk 0 4096 1 1024 (replicate 4096 0)).

Lemma one_page_wf : ramdisk_wf 0 1024 one_page.
Proof. eexists. split; [reflexivity|]. split; [done|]. cbn [contents]. rewrite length_replicate. by vm_compute. Qed.

Lemma one_page_range b c : 0 <= b -> 0 <= c -> (b + c) * 1024 <= 4096 ->
  @in_range disks (ramdisk_device 0 1024) one_page b c.
Proof.
  intros. unfold in_range. cbn [bd_size bd_bytes bd_max ramdisk_device].
  assert (Hl : length (disk_of 0 one_page) = 4096%nat) by (by vm_compute). rewrite Hl. unfold PAGE_SIZE. lia.
Qed.

Lemma ramdisk_write_read_witness :
  exists rds', ramdisk_device_ops_write 0 1 1 (replicate 1024 7) one_page = Ok (KERN_SUCCESS, rds') /\
    ramdisk_device_ops_read 0 1 1 (replicate 1024 0) rds' = Ok (KERN_SUCCESS, replicate 1024 7).
Proof.
  destruct (ramdisk_write_read 0 1024 ltac:(by vm_compute) ltac:(by vm_compute) one_page 1 1
    (replicate 1024 7) (replicate 1024 0)) as (rds' & E & _ & Hr & _).
  - apply one_page_wf.
  - apply one_page_range; lia.
  - rewrite length_replicate. lia.
  - by rewrite !length_replicate.
  - exists rds'. split; [exact E|exact Hr].
Defined.

Lemma ramdisk_checks_off_by_one_witness :
  ramdisk_read [] 0 0 1024 1024 RAMDISK_COUNT one_page = Fault /\
  ramdisk_read [] (1 * PAGE_SIZE / 1024) 0 1024 1024 0 one_page = Fault.
Proof.
  apply (ramdisk_checks_off_by_one 0 1024 ltac:(by vm_compute) ltac:(by vm_compute) one_page
    (mk_ramdisk 0 4096 1 1024 (replicate 4096 0)) []); try (by vm_compute).
Defined.

End Ramdisk.
