(* ===== verification/DiosfsLayout.v ===== *)
(** * The on-disk format of diosfs (include/filesystem/diosfs.h, filesystem/diosfs.c)

    Superblock, inodes and directory entries as records and as the bytes the
    kernel copies between memory and disk (x86-64 layout, little endian, padding
    included), and the arithmetic that places a file's blocks. *)

From S2P Require Import Prelude.

Module Layout.

Definition DIOSFS_BLOCKSIZE : Z := 1024.
Definition DIOSFS_MAGIC : Z := 0x7777777777777777.
Definition DIOSFS_VERSION : Z := 1.
Definition MAX_FILENAME_LENGTH : Z := 128.
Definition NUM_BLOCKS_IN_INDIRECTION_BLOCK : Z := DIOSFS_BLOCKSIZE / 8.
Definition DIOSFS_NUM_INODE_POINTER_BLOCKS : Z := 16.
Definition DIOSFS_NUM_BLOCK_POINTER_BLOCKS : Z := 128.
Definition DIOSFS_NUM_BLOCKS : Z := DIOSFS_NUM_BLOCK_POINTER_BLOCKS * DIOSFS_BLOCKSIZE * 8.
Definition DIOSFS_NUM_INODES : Z := DIOSFS_NUM_INODE_POINTER_BLOCKS * DIOSFS_BLOCKSIZE * 8.
Definition sizeof_inode : Z := 256.
Definition sizeof_dirent : Z := 144.
Definition NUM_INODES_PER_BLOCK : Z := DIOSFS_BLOCKSIZE / sizeof_inode.
Definition NUM_BLOCKS_DIRECT : Z := 10.
Definition NUM_BLOCKS_DOUBLE_INDIRECTION : Z :=
  NUM_BLOCKS_IN_INDIRECTION_BLOCK * NUM_BLOCKS_IN_INDIRECTION_BLOCK.
Definition NUM_BLOCKS_TRIPLE_INDIRECTION : Z :=
  NUM_BLOCKS_IN_INDIRECTION_BLOCK * NUM_BLOCKS_IN_INDIRECTION_BLOCK * NUM_BLOCKS_IN_INDIRECTION_BLOCK.
Definition MAX_BLOCKS_IN_INODE : Z :=
  NUM_BLOCKS_DIRECT * DIOSFS_BLOCKSIZE * NUM_BLOCKS_IN_INDIRECTION_BLOCK
  * NUM_BLOCKS_IN_INDIRECTION_BLOCK * NUM_BLOCKS_IN_INDIRECTION_BLOCK.
Definition DEFAULT_DIOSFS_SIZE : Z :=
  DIOSFS_BLOCKSIZE + DIOSFS_NUM_INODE_POINTER_BLOCKS * DIOSFS_BLOCKSIZE
  + DIOSFS_NUM_BLOCK_POINTER_BLOCKS * DIOSFS_BLOCKSIZE + DIOSFS_NUM_BLOCKS * DIOSFS_BLOCKSIZE
  + DIOSFS_NUM_INODES * DIOSFS_BLOCKSIZE.

Definition DIOSFS_SUPERBLOCK : Z := 0.
Definition DIOSFS_START_INODE_BITMAP : Z := 1.
Definition DIOSFS_START_BLOCK_BITMAP : Z := DIOSFS_START_INODE_BITMAP + DIOSFS_NUM_INODE_POINTER_BLOCKS.
Definition DIOSFS_START_INODES : Z := DIOSFS_START_BLOCK_BITMAP + DIOSFS_NUM_BLOCK_POINTER_BLOCKS.
Definition DIOSFS_START_BLOCKS : Z :=
  DIOSFS_START_INODES + DIOSFS_NUM_INODE_POINTER_BLOCKS * DIOSFS_BLOCKSIZE * 8 / NUM_INODES_PER_BLOCK.

(** enum diosfs_error *)
Definition DIOSFS_SUCCESS : Z := 0.
Definition DIOSFS_NOT_FOUND : Z := 1.
Definition DIOSFS_BUFFER_TOO_SMALL : Z := 1.
Definition DIOSFS_NOT_A_DIRECTORY : Z := 2.
Definition DIOSFS_CANT_ALLOCATE_BLOCKS_FOR_DIR : Z := 3.
Definition DIOSFS_CANNOT_WRITE_DIRECTORY : Z := 4.
Definition DIOSFS_BAD_SYMLINK : Z := 5.
Definition DIOSFS_UNEXPECTED_SYMLINK_TYPE : Z := 6.
Definition DIOSFS_ERROR : Z := 7.

(** enum vnode_types, as far as diosfs uses them *)
Definition VNODE_DIRECTORY : Z := 0.
Definition VNODE_FILE : Z := 1.
Definition VNODE_HARD_LINK : Z := 2.
Definition VNODE_SYM_LINK : Z := 8.

(** struct diosfs_superblock *)
Record superblock : Type := mk_superblock {
  magic : Z; version : Z; sb_block_size : Z; num_blocks : Z; num_inodes : Z; total_size : Z;
  inode_bitmap_size : Z; block_bitmap_size : Z;
  inode_bitmap_pointers_start : Z; block_bitmap_pointers_start : Z;
  inode_start_pointer : Z; block_start_pointer : Z; reserved : list Z }.

(** The superblock diosfs_create_new_ramdisk_fs writes. *)
Definition new_superblock : superblock :=
  mk_superblock DIOSFS_MAGIC DIOSFS_VERSION DIOSFS_BLOCKSIZE DIOSFS_NUM_BLOCKS DIOSFS_NUM_INODES
    DEFAULT_DIOSFS_SIZE DIOSFS_NUM_INODE_POINTER_BLOCKS DIOSFS_NUM_BLOCK_POINTER_BLOCKS
    DIOSFS_START_INODE_BITMAP DIOSFS_START_BLOCK_BITMAP DIOSFS_START_INODES DIOSFS_START_BLOCKS
    (replicate 116 0).

(** struct diosfs_inode; [pad1] and [pad2] are the compiler's padding *)
Record inode : Type := mk_inode {
  uid : Z; inode_number : Z; parent_inode_number : Z; itype : Z; refcount : Z;
  iname : list Z; pad1 : Z; isize : Z; block_count : Z; pad2 : Z; blocks : list Z;
  single_indirect : Z; double_indirect : Z; triple_indirect : Z }.

Definition zero_inode : inode :=
  mk_inode 0 0 0 0 0 (replicate 128 0) 0 0 0 0 (replicate 10 0) 0 0 0.

(** struct diosfs_directory_entry *)
Record dirent : Type := mk_dirent {
  dname : list Z; d_inode_number : Z; d_parent_inode_number : Z; dtype : Z; device_number : Z; dsize : Z }.

Definition zero_dirent : dirent := mk_dirent (replicate 128 0) 0 0 0 0 0.

(** ** Encoding *)
Definition le_array (n : nat) (xs : list Z) : list Z := xs ≫= le_bytes n.

Fixpoint le_vals (n k : nat) (bs : list Z) : list Z :=
  match k with
  | O => []
  | S k => le_val (take n bs) :: le_vals n k (drop n bs)
  end.

(** The unsigned integer of [n] bytes at offset [o]. *)
Definition field (bs : list Z) (o n : nat) : Z := le_val (slice o n bs).

Definition encode_superblock (s : superblock) : list Z :=
  le_array 8 ([magic s; version s; sb_block_size s; num_blocks s; num_inodes s; total_size s;
    inode_bitmap_size s; block_bitmap_size s; inode_bitmap_pointers_start s;
    block_bitmap_pointers_start s; inode_start_pointer s; block_start_pointer s] ++ reserved s).

Definition decode_superblock (bs : list Z) : superblock :=
  mk_superblock (field bs 0 8) (field bs 8 8) (field bs 16 8) (field bs 24 8) (field bs 32 8)
    (field bs 40 8) (field bs 48 8) (field bs 56 8) (field bs 64 8) (field bs 72 8) (field bs 80 8)
    (field bs 88 8) (le_vals 8 116 (drop 96 bs)).

Definition encode_inode (i : inode) : list Z :=
  le_bytes 2 (uid i) ++ le_bytes 2 (inode_number i) ++ le_bytes 2 (parent_inode_number i) ++
  le_bytes 2 (itype i) ++ le_bytes 2 (refcount i) ++ iname i ++ le_bytes 2 (pad1 i) ++
  le_bytes 4 (isize i) ++ le_bytes 4 (block_count i) ++ le_bytes 4 (pad2 i) ++
  le_array 8 (blocks i) ++ le_bytes 8 (single_indirect i) ++ le_bytes 8 (double_indirect i) ++
  le_bytes 8 (triple_indirect i).

Definition decode_inode (bs : list Z) : inode :=
  mk_inode (field bs 0 2) (field bs 2 2) (field bs 4 2) (field bs 6 2) (field bs 8 2) (slice 10 128 bs) (field bs 138 2) (field bs 140 4) (field bs 144 4)
    (field bs 148 4) (le_vals 8 10 (slice 152 80 bs)) (field bs 232 8) (field bs 240 8) (field bs 248 8).

Definition encode_dirent (d : dirent) : list Z :=
  dname d ++ le_bytes 4 (d_inode_number d) ++ le_bytes 4 (d_parent_inode_number d) ++
  le_bytes 2 (dtype d) ++ le_bytes 2 (device_number d) ++ le_bytes 4 (dsize d).

Definition decode_dirent (bs : list Z) : dirent :=
  mk_dirent (slice 0 128 bs) (field bs 128 4) (field bs 132 4) (field bs 136 2) (field bs 138 2) (field bs 140 4).

(** ** diosfs_get_size_info *)
Record size_calculation : Type := mk_size {
  total_blocks : Z; total_inodes : Z; total_data_blocks : Z;
  total_block_bitmap_blocks : Z; total_inode_bitmap_blocks : Z }.

Definition diosfs_get_size_info (c : size_calculation) (gigabytes bsize : Z) : size_calculation :=
  if gigabytes =? 0 then c
  else
    let size_bytes := w64 (Z.shiftl gigabytes 30) in
    let total := size_bytes / bsize in
    let split := total / 32 in
    let inodes := w64 (split * (bsize / sizeof_inode)) in
    mk_size (w64 (total + 1)) inodes (w64 (total - split)) (total / bsize / 8) (inodes / 8 / bsize).

(** ** Block indices

    struct diosfs_byte_offset_indices; [None] is the panic for a block number
    past the last triple-indirect block. *)
Record indices : Type := mk_indices {
  direct_block_number : Z; third_level : Z; second_level : Z; first_level : Z; levels_indirection : Z }.

#[export] Instance indices_eq_dec : EqDecision indices.
Proof. solve_decision. Defined.

Definition diosfs_indirection_indices_for_block_number (n : Z) : outcome indices :=
  if n <? NUM_BLOCKS_DIRECT then Ok (mk_indices n 0 0 0 0)
  else if n <? NUM_BLOCKS_IN_INDIRECTION_BLOCK + NUM_BLOCKS_DIRECT then
    let n := n - NUM_BLOCKS_DIRECT in
    Ok (mk_indices 0 0 0 (n mod NUM_BLOCKS_IN_INDIRECTION_BLOCK) 1)
  else if n <? NUM_BLOCKS_DOUBLE_INDIRECTION + NUM_BLOCKS_IN_INDIRECTION_BLOCK + NUM_BLOCKS_DIRECT then
    let n := n - (NUM_BLOCKS_IN_INDIRECTION_BLOCK + NUM_BLOCKS_DIRECT) in
    Ok (mk_indices 0 0 (w16 (n / NUM_BLOCKS_IN_INDIRECTION_BLOCK)) (n mod NUM_BLOCKS_IN_INDIRECTION_BLOCK) 2)
  else if n <? NUM_BLOCKS_TRIPLE_INDIRECTION + NUM_BLOCKS_DOUBLE_INDIRECTION
               + NUM_BLOCKS_IN_INDIRECTION_BLOCK + NUM_BLOCKS_DIRECT then
    let n := n - (NUM_BLOCKS_DOUBLE_INDIRECTION + NUM_BLOCKS_IN_INDIRECTION_BLOCK + NUM_BLOCKS_DIRECT) in
    let third := w16 (n / NUM_BLOCKS_DOUBLE_INDIRECTION) in
    Ok (mk_indices 0 third
          (w16 ((n - third * NUM_BLOCKS_DOUBLE_INDIRECTION) / NUM_BLOCKS_IN_INDIRECTION_BLOCK))
          (n mod NUM_BLOCKS_IN_INDIRECTION_BLOCK) 3)
  else Panic.

(** The block number a set of indices stands for. *)
Definition block_of_indices (x : indices) : Z :=
  match levels_indirection x with
  | 0 => direct_block_number x
  | 1 => NUM_BLOCKS_DIRECT + first_level x
  | 2 => NUM_BLOCKS_DIRECT + NUM_BLOCKS_IN_INDIRECTION_BLOCK
         + second_level x * NUM_BLOCKS_IN_INDIRECTION_BLOCK + first_level x
  | _ => NUM_BLOCKS_DIRECT + NUM_BLOCKS_IN_INDIRECTION_BLOCK + NUM_BLOCKS_DOUBLE_INDIRECTION
         + third_level x * NUM_BLOCKS_DOUBLE_INDIRECTION
         + second_level x * NUM_BLOCKS_IN_INDIRECTION_BLOCK + first_level x
  end.

(** Every index is inside the table it indexes. *)
Definition indices_ok (x : indices) : Prop :=
  0 <= direct_block_number x < NUM_BLOCKS_DIRECT /\
  0 <= first_level x < NUM_BLOCKS_IN_INDIRECTION_BLOCK /\
  0 <= second_level x < NUM_BLOCKS_IN_INDIRECTION_BLOCK /\
  0 <= third_level x < NUM_BLOCKS_IN_INDIRECTION_BLOCK /\ 0 <= levels_indirection x <= 3.

Definition MAX_FILE_BLOCKS : Z :=
  NUM_BLOCKS_DIRECT + NUM_BLOCKS_IN_INDIRECTION_BLOCK + NUM_BLOCKS_DOUBLE_INDIRECTION
  + NUM_BLOCKS_TRIPLE_INDIRECTION.

(** C19: the indices of a block number are in bounds and determine it: the
    decomposition has [block_of_indices] as its inverse.  Past the last
    addressable block the kernel panics. *)
Theorem indirection_indices_spec n :
  0 <= n < 2 ^ 64 ->
  if n <? MAX_FILE_BLOCKS
  then exists x, diosfs_indirection_indices_for_block_number n = Ok x /\ indices_ok x /\ block_of_indices x = n
  else diosfs_indirection_indices_for_block_number n = Panic.
Proof.
  intros Hn. change MAX_FILE_BLOCKS with 2113674.
  unfold diosfs_indirection_indices_for_block_number.
  change NUM_BLOCKS_TRIPLE_INDIRECTION with 2097152. change NUM_BLOCKS_DOUBLE_INDIRECTION with 16384.
  change NUM_BLOCKS_IN_INDIRECTION_BLOCK with 128. change NUM_BLOCKS_DIRECT with 10.
  change (2097152 + 16384 + 128 + 10) with 2113674. change (16384 + 128 + 10) with 16522. change (128 + 10) with 138.
  destruct (Z.ltb_spec n 2113674) as [Hlt|Hge].
  2: { rewrite !(proj2 (Z.ltb_ge _ _)) by lia. done. }
  assert (Hok : forall a b c d e, 0 <= a < 10 -> 0 <= b < 128 -> 0 <= c < 128 -> 0 <= d < 128 -> 0 <= e <= 3 ->
    indices_ok (mk_indices a b c d e)).
  { intros. unfold indices_ok. cbn. change NUM_BLOCKS_IN_INDIRECTION_BLOCK with 128. unfold NUM_BLOCKS_DIRECT. lia. }
  repeat (zcase; [|]).
  - eexists. split; [done|]. split; [apply Hok; lia|done].
  - eexists. split; [done|]. rewrite Z.mod_small by lia. split; [apply Hok; lia|].
    cbn. change NUM_BLOCKS_DIRECT with 10. lia.
  - set (m := n - 138). assert (0 <= m < 16384) by lia.
    pose proof (Z.mod_pos_bound m 128 ltac:(lia)). assert (0 <= m / 128 < 128) by (split; [apply Z.div_pos; lia|apply Z.div_lt_upper_bound; lia]).
    rewrite w16_small by lia. eexists. split; [done|]. split; [apply Hok; lia|].
    cbn [block_of_indices levels_indirection first_level second_level]. change NUM_BLOCKS_DIRECT with 10.
    change NUM_BLOCKS_IN_INDIRECTION_BLOCK with 128. pose proof (Z.div_mod m 128 ltac:(lia)). lia.
  - set (m := n - 16522). assert (0 <= m < 2097152) by lia.
    assert (0 <= m / 16384 < 128) by (split; [apply Z.div_pos; lia|apply Z.div_lt_upper_bound; lia]).
    rewrite (w16_small (m / 16384)) by lia. replace (m - m / 16384 * 16384) with (m mod 16384)
      by (pose proof (Z.div_mod m 16384 ltac:(lia)); lia).
    pose proof (Z.mod_pos_bound m 16384 ltac:(lia)). pose proof (Z.mod_pos_bound m 128 ltac:(lia)).
    assert (0 <= m mod 16384 / 128 < 128) by (split; [apply Z.div_pos; lia|apply Z.div_lt_upper_bound; lia]).
    rewrite w16_small by lia. eexists. split; [done|]. split; [apply Hok; lia|].
    cbn [block_of_indices levels_indirection first_level second_level third_level]. change NUM_BLOCKS_DIRECT with 10.
    change NUM_BLOCKS_IN_INDIRECTION_BLOCK with 128. change NUM_BLOCKS_DOUBLE_INDIRECTION with 16384.
    pose proof (Z.div_mod m 16384 ltac:(lia)). pose proof (Z.div_mod (m mod 16384) 128 ltac:(lia)).
    assert (m mod 16384 mod 128 = m mod 128)
      by (apply Z.mod_mod_divide; by exists 128).
    lia.
Qed.

Lemma indirection_indices_spec_witness :
  exists x, diosfs_indirection_indices_for_block_number 20000 = Ok x /\ indices_ok x /\ block_of_indices x = 20000.
Proof. apply (indirection_indices_spec 20000). lia. Defined.

(** ** Round trips *)

(** The fields are in the range of their C types. *)
Definition u16 (z : Z) : Prop := 0 <= z < 2 ^ 16.
Definition u32 (z : Z) : Prop := 0 <= z < 2 ^ 32.
Definition u64 (z : Z) : Prop := 0 <= z < 2 ^ 64.

Record inode_wf (i : inode) : Prop := mk_inode_wf {
  iwf_16 : u16 (uid i) /\ u16 (inode_number i) /\ u16 (parent_inode_number i) /\ u16 (itype i) /\
           u16 (refcount i) /\ u16 (pad1 i);
  iwf_32 : u32 (isize i) /\ u32 (block_count i) /\ u32 (pad2 i);
  iwf_64 : u64 (single_indirect i) /\ u64 (double_indirect i) /\ u64 (triple_indirect i);
  iwf_name : length (iname i) = 128%nat /\ Forall byte (iname i);
  iwf_blocks : length (blocks i) = 10%nat /\ Forall u64 (blocks i);
}.

Record dirent_wf (d : dirent) : Prop := mk_dirent_wf {
  dwf_name : length (dname d) = 128%nat /\ Forall byte (dname d);
  dwf_32 : u32 (d_inode_number d) /\ u32 (d_parent_inode_number d) /\ u32 (dsize d);
  dwf_16 : u16 (dtype d) /\ u16 (device_number d);
}.

Lemma length_le_array n xs : length (le_array n xs) = (n * length xs)%nat.
Proof.
  unfold le_array. induction xs as [|x xs IH]; cbn; [lia|]. rewrite length_app, length_le_bytes, IH. lia.
Qed.

Lemma le_vals_array n xs bs :
  Forall (fun x => 0 <= x < 256 ^ Z.of_nat n) xs -> le_vals n (length xs) (le_array n xs ++ bs) = xs.
Proof.
  induction 1 as [|x xs Hx _ IH]; [done|]. cbn [length le_vals le_array mbind list_bind].
  fold (le_array n xs). rewrite <- app_assoc.
  rewrite take_app_length', drop_app_length' by (by rewrite length_le_bytes).
  by rewrite le_val_bytes_small, IH.
Qed.

Lemma le_array_vals n k bs :
  length bs = (n * k)%nat -> Forall byte bs -> le_array n (le_vals n k bs) = bs.
Proof.
  revert bs. induction k as [|k IH]; intros bs Hl Hb.
  - destruct bs; [done|simpl in Hl; lia].
  - cbn [le_vals le_array mbind list_bind]. fold (le_array n (le_vals n k (drop n bs))).
    rewrite IH by (rewrite ?length_drop; first [by apply Forall_drop | lia]).
    replace n with (length (take n bs)) at 1 by (rewrite length_take; lia).
    rewrite le_bytes_val by (by apply Forall_take). apply take_drop.
Qed.

Lemma length_le_vals n k bs : length (le_vals n k bs) = k.
Proof. revert bs. induction k; intros; cbn; auto. Qed.

Lemma le_vals_range n k bs :
  length bs = (n * k)%nat -> Forall byte bs -> Forall (fun x => 0 <= x < 256 ^ Z.of_nat n) (le_vals n k bs).
Proof.
  revert bs. induction k as [|k IH]; intros bs Hl Hb; cbn [le_vals]; constructor.
  - pose proof (le_val_range (take n bs) ltac:(by apply Forall_take)) as Hr.
    rewrite length_take, Nat.min_l in Hr by lia. done.
  - apply IH; [rewrite length_drop; lia|by apply Forall_drop].
Qed.

(** Reading a field of a concatenation. *)
Lemma slice_app_here {A} (n : nat) (l r : list A) : n = length l -> slice 0 n (l ++ r) = l.
Proof. intros ->. unfold slice. by rewrite drop_0, take_app_length. Qed.

Lemma slice_app_skip {A} (o n : nat) (l r : list A) :
  (length l <= o)%nat -> slice o n (l ++ r) = slice (o - length l) n r.
Proof. intros Hl. unfold slice. by rewrite drop_app_ge. Qed.

Lemma field_here n z r : 0 <= z < 256 ^ Z.of_nat n -> field (le_bytes n z ++ r) 0 n = z.
Proof.
  intros Hz. unfold field. rewrite slice_app_here by (by rewrite length_le_bytes). by apply le_val_bytes_small.
Qed.

Lemma field_last n z : 0 <= z < 256 ^ Z.of_nat n -> field (le_bytes n z) 0 n = z.
Proof. intros Hz. rewrite <- (app_nil_r (le_bytes n z)). by apply field_here. Qed.

Lemma field_skip o n l r : (length l <= o)%nat -> field (l ++ r) o n = field r (o - length l) n.
Proof. intros. unfold field. by rewrite slice_app_skip. Qed.

(** A list cut at [o] and [o + n]. *)
Lemma slice_cons_app {A} (o n o' : nat) (l : list A) : o' = (o + n)%nat -> slice o n l ++ drop o' l = drop o l.
Proof. intros ->. unfold slice. rewrite <- drop_drop. apply take_drop. Qed.

Lemma le_bytes_field n o bs :
  (o + n <= length bs)%nat -> Forall byte bs -> le_bytes n (field bs o n) = slice o n bs.
Proof.
  intros Hl Hb. unfold field. rewrite <- (length_slice o n bs Hl) at 1. apply le_bytes_val.
  by apply Forall_take, Forall_drop.
Qed.

Lemma length_encode_inode i : inode_wf i -> length (encode_inode i) = 256%nat.
Proof.
  intros [_ _ _ [Hn _] [Hb _]]. unfold encode_inode.
  rewrite !length_app, !length_le_bytes, length_le_array, Hn, Hb. done.
Qed.

(** Look up every field of a concatenation of encoded fields; [len] proves facts
    about the lengths of the parts, [rw] rewrites with them. *)
Ltac fields len rw :=
  repeat first
    [ rewrite field_here by done
    | rewrite field_last by done
    | rewrite field_skip by len
    | rewrite (slice_app_here 128) by len
    | rewrite (slice_app_here 80) by len
    | rewrite slice_app_skip by len
    | rewrite length_le_bytes | rewrite length_le_array | rw
    | progress cbn [Nat.sub Nat.mul Nat.add] ].

Lemma decode_encode_inode i : inode_wf i -> decode_inode (encode_inode i) = i.
Proof.
  intros [H16 H32 H64 [Hn _] [Hb Hbr]]. destruct H16 as (? & ? & ? & ? & ? & ?).
  destruct H32 as (? & ? & ?), H64 as (? & ? & ?). unfold u16, u32, u64 in *.
  unfold decode_inode, encode_inode.
  fields ltac:(rewrite ?length_le_bytes, ?length_le_array, ?Hn, ?Hb; simpl; lia) ltac:(first [rewrite Hn | rewrite Hb]).
  rewrite <- (app_nil_r (le_array 8 (blocks i))), <- Hb, le_vals_array by done.
  by destruct i.
Qed.

Lemma decode_inode_wf bs : length bs = 256%nat -> Forall byte bs -> inode_wf (decode_inode bs).
Proof.
  intros Hl Hb.
  assert (Hf : forall o n, (o + n <= 256)%nat -> 0 <= field bs o n < 256 ^ Z.of_nat n).
  { intros o n Ho. unfold field. pose proof (le_val_range (slice o n bs)) as Hr.
    rewrite length_slice in Hr by lia. apply Hr. by apply Forall_take, Forall_drop. }
  constructor; unfold decode_inode, u16, u32, u64;
    cbn [uid inode_number parent_inode_number itype refcount iname pad1 isize block_count pad2 blocks
         single_indirect double_indirect triple_indirect].
  - split_and!; apply (Hf _ 2%nat); lia.
  - split_and!; apply (Hf _ 4%nat); lia.
  - split_and!; apply (Hf _ 8%nat); lia.
  - split; [rewrite length_slice; lia|by apply Forall_take, Forall_drop].
  - split; [apply length_le_vals|]. apply (le_vals_range 8 10); [rewrite length_slice; lia|].
    by apply Forall_take, Forall_drop.
Qed.

Lemma encode_decode_inode bs : length bs = 256%nat -> Forall byte bs -> encode_inode (decode_inode bs) = bs.
Proof.
  intros Hl Hb. unfold encode_inode, decode_inode.
  cbn [uid inode_number parent_inode_number itype refcount iname pad1 isize block_count pad2 blocks
       single_indirect double_indirect triple_indirect].
  rewrite !le_bytes_field by (done || lia).
  rewrite le_array_vals by (first [by apply Forall_take, Forall_drop | rewrite length_slice; lia]).
  assert (Hlast : slice 248 8 bs = drop 248 bs) by (unfold slice; apply take_ge; rewrite length_drop; lia).
  rewrite Hlast.
  rewrite (slice_cons_app 240 8 248), (slice_cons_app 232 8 240), (slice_cons_app 152 80 232), (slice_cons_app 148 4 152), (slice_cons_app 144 4 148), (slice_cons_app 140 4 144), (slice_cons_app 138 2 140), (slice_cons_app 10 128 138), (slice_cons_app 8 2 10), (slice_cons_app 6 2 8), (slice_cons_app 4 2 6), (slice_cons_app 2 2 4), (slice_cons_app 0 2 2) by done.
  apply drop_0.
Qed.


Lemma length_encode_dirent d : dirent_wf d -> length (encode_dirent d) = 144%nat.
Proof. intros [[Hn _] _ _]. unfold encode_dirent. by rewrite !length_app, !length_le_bytes, Hn. Qed.

Lemma decode_encode_dirent d : dirent_wf d -> decode_dirent (encode_dirent d) = d.
Proof.
  intros [[Hn _] (? & ? & ?) (? & ?)]. unfold u16, u32 in *. unfold decode_dirent, encode_dirent.
  fields ltac:(rewrite ?length_le_bytes, ?Hn; simpl; lia) ltac:(rewrite Hn). by destruct d.
Qed.

Lemma length_encode_superblock s : length (reserved s) = 116%nat -> length (encode_superblock s) = 1024%nat.
Proof. intros Hr. unfold encode_superblock. by rewrite length_le_array, length_app, Hr. Qed.

Record superblock_wf (s : superblock) : Prop := mk_superblock_wf {
  swf_fields : Forall u64 [magic s; version s; sb_block_size s; num_blocks s; num_inodes s; total_size s;
    inode_bitmap_size s; block_bitmap_size s; inode_bitmap_pointers_start s;
    block_bitmap_pointers_start s; inode_start_pointer s; block_start_pointer s];
  swf_reserved : length (reserved s) = 116%nat /\ Forall u64 (reserved s);
}.

Lemma field_array xs k o x : o = (8 * k)%nat -> Forall u64 xs -> xs !! k = Some x -> field (le_array 8 xs) o 8 = x.
Proof.
  intros -> Hall. revert k. induction Hall as [|y ys Hy Hall IH]; intros k Hk; [done|].
  cbn [le_array mbind list_bind]. fold (le_array 8 ys). destruct k as [|k].
  - injection Hk as ->. by rewrite field_here.
  - rewrite field_skip by (rewrite length_le_bytes; lia). rewrite length_le_bytes.
    replace (8 * S k - 8)%nat with (8 * k)%nat by lia. by apply IH.
Qed.

Lemma decode_encode_superblock s : superblock_wf s -> decode_superblock (encode_superblock s) = s.
Proof.
  intros [Hf [Hl Hr]]. assert (Hall : Forall u64 ([magic s; version s; sb_block_size s; num_blocks s; num_inodes s;
    total_size s; inode_bitmap_size s; block_bitmap_size s; inode_bitmap_pointers_start s;
    block_bitmap_pointers_start s; inode_start_pointer s; block_start_pointer s] ++ reserved s)) by (by apply Forall_app).
  unfold decode_superblock, encode_superblock.
  rewrite (field_array _ 0 0 (magic s)), (field_array _ 1 8 (version s)), (field_array _ 2 16 (sb_block_size s)),
    (field_array _ 3 24 (num_blocks s)), (field_array _ 4 32 (num_inodes s)), (field_array _ 5 40 (total_size s)),
    (field_array _ 6 48 (inode_bitmap_size s)), (field_array _ 7 56 (block_bitmap_size s)),
    (field_array _ 8 64 (inode_bitmap_pointers_start s)), (field_array _ 9 72 (block_bitmap_pointers_start s)),
    (field_array _ 10 80 (inode_start_pointer s)), (field_array _ 11 88 (block_start_pointer s)) by done.
  assert (Happ : forall xs ys, le_array 8 (xs ++ ys) = le_array 8 xs ++ le_array 8 ys)
    by (intros; unfold le_array; apply bind_app).
  rewrite Happ, drop_app_length' by (by rewrite length_le_array).
  rewrite <- (app_nil_r (le_array 8 (reserved s))), <- Hl, le_vals_array by done. by destruct s.
Qed.

(** The layout of a new filesystem: its regions follow each other on the disk. *)
Lemma new_superblock_regions :
  let s := new_superblock in
  inode_bitmap_pointers_start s = 1 /\
  block_bitmap_pointers_start s = inode_bitmap_pointers_start s + inode_bitmap_size s /\
  inode_start_pointer s = block_bitmap_pointers_start s + block_bitmap_size s /\
  block_start_pointer s = inode_start_pointer s + num_inodes s / NUM_INODES_PER_BLOCK /\
  num_blocks s = block_bitmap_size s * sb_block_size s * 8 /\
  num_inodes s = inode_bitmap_size s * sb_block_size s * 8.
Proof. by vm_compute. Qed.

End Layout.
