(* ===== verification/DiosfsBitmap.v ===== *)
(** * The bitmaps of diosfs (filesystem/diosfs.c)

    Allocation and release of inode and block numbers: the bitmap is read from
    the device into a buffer, searched or changed there and written back. *)

From S2P Require Import Prelude BlockDevice DiosfsLayout.

Module Bitmap.
Import Layout.

Definition BITMAP_TYPE_BLOCK : Z := 0.
Definition BITMAP_TYPE_INODE : Z := 1.

Section Ops.
Context {D : Type} `{BlockDevice D}.
(** the filesystem's superblock, [fs->superblock] *)
Context (sb : superblock).
(** what a new buffer of [n] bytes from [kmalloc] contains *)
Context (fresh : Z -> list Z).

(** A device call whose error code is turned into a panic. *)
Definition dread (block count : Z) (buffer : list Z) (dev : D) : outcome (list Z) :=
  let! (ret, buffer) := block_read block count buffer dev in
  if ret =? DIOSFS_SUCCESS then Ok buffer else Panic.
Definition dwrite (block count : Z) (buffer : list Z) (dev : D) : outcome D :=
  let! (ret, dev) := block_write block count buffer dev in
  if ret =? DIOSFS_SUCCESS then Ok dev else Panic.

(** diosfs_clear_bitmap; the codes of both device calls are ignored *)
Definition diosfs_clear_bitmap (type number : Z) (dev : D) : outcome D :=
  if negb (type =? BITMAP_TYPE_BLOCK) && negb (type =? BITMAP_TYPE_INODE) then Panic
  else
    let block_to_read := number / (sb_block_size sb * 8) in
    let block := if type =? BITMAP_TYPE_BLOCK
                 then block_bitmap_pointers_start sb + block_to_read
                 else inode_bitmap_pointers_start sb + block_to_read in
    let bit := number mod 8 in
    let! (_, buffer) := block_read block 1 (replicate (Z.to_nat PAGE_SIZE) 0) dev in
    let index := Z.to_nat (number / 8) in
    let! c := of_opt (buffer !! index) in
    let buffer := <[index := Z.land c (w8 (Z.lnot (2 ^ bit)))]> buffer in
    let! (_, dev) := block_write block 1 buffer dev in
    Ok dev.

(** The inner loop of the searches, [i] from [i] on for [k] turns.  The buffer's
    elements are (signed) chars. *)
Fixpoint find_bit_loop (k : nat) (i c : Z) : option Z :=
  match k with
  | O => None
  | S k => if Z.land (s8 c) (2 ^ i) =? 0 then Some i else find_bit_loop k (i + 1) c
  end.
Definition find_bit (c : Z) : option Z := find_bit_loop 9 0 c.

Definition set_bit (buffer : list Z) (index : nat) (bit : Z) : outcome (list Z) :=
  let! c := of_opt (buffer !! index) in
  Ok (<[index := w8 (Z.lor c (2 ^ bit))]> buffer).

(** The search of diosfs_get_free_inode_and_mark_bitmap.  The bit found at
    [buffer[block * block_size + byte]] is set in [buffer[byte]]. *)
Fixpoint inode_scan (fuel : nat) (buffer : list Z) (block byte_ : Z) : outcome (list Z * Z) :=
  match fuel with
  | O => Timeout
  | S fuel =>
    let! c := of_opt (buffer !! Z.to_nat (block * sb_block_size sb + byte_)) in
    let next_byte := byte_ + 1 in
    let wrap := next_byte =? sb_block_size sb in
    let block' := if wrap then block + 1 else block in
    let byte' := if wrap then 0 else next_byte in
    if negb (s8 c =? 0xFF) then
      match find_bit c with
      | Some bit =>
          let! buffer := set_bit buffer (Z.to_nat byte_) bit in
          Ok (buffer, block * sb_block_size sb * 8 + byte_ * 8 + bit)
      | None =>
          if DIOSFS_NUM_INODE_POINTER_BLOCKS <? block' then Panic
          else inode_scan fuel buffer block' byte'
      end
    else inode_scan fuel buffer block' byte'
  end.

(** The inode handed out for a number. *)
Definition new_inode (number : Z) : inode :=
  mk_inode 0 (w16 number) 0 0 0 (replicate 128 0) 0 0 0 0 (replicate 10 0) 0 0 0.

Definition diosfs_get_free_inode_and_mark_bitmap (dev : D) : outcome (inode * D) :=
  let! buffer := dread (inode_bitmap_pointers_start sb) (inode_bitmap_size sb) (fresh (PAGE_SIZE * 16)) dev in
  let! (buffer, number) := inode_scan (S (length buffer)) buffer 0 0 in
  let! dev := dwrite (inode_bitmap_pointers_start sb) (inode_bitmap_size sb) buffer dev in
  Ok (new_inode number, dev).

(** The search of diosfs_get_free_block_and_mark_bitmap; the branch for a full
    byte does not wrap [byte]. *)
Fixpoint block_scan (fuel : nat) (buffer : list Z) (block byte_ : Z) : outcome (list Z * Z) :=
  match fuel with
  | O => Timeout
  | S fuel =>
    let index := Z.to_nat (block * sb_block_size sb + byte_) in
    let! c := of_opt (buffer !! index) in
    let next_byte := byte_ + 1 in
    if negb (s8 c =? 0xFF) then
      match find_bit c with
      | Some bit =>
          let! buffer := set_bit buffer index bit in
          Ok (buffer, block * sb_block_size sb * 8 + byte_ * 8 + bit)
      | None =>
          let wrap := next_byte =? sb_block_size sb in
          let block' := if wrap then block + 1 else block in
          let byte' := if wrap then 0 else next_byte in
          if DIOSFS_NUM_BLOCK_POINTER_BLOCKS <? block' then Panic
          else block_scan fuel buffer block' byte'
      end
    else block_scan fuel buffer block next_byte
  end.

(** The number of blocks read and written is [block_bitmap_pointers_start]. *)
Definition diosfs_get_free_block_and_mark_bitmap (dev : D) : outcome (Z * D) :=
  let! buffer := dread (block_bitmap_pointers_start sb) (block_bitmap_pointers_start sb)
                   (fresh (block_bitmap_size sb * sb_block_size sb)) dev in
  let! (buffer, number) := block_scan (S (length buffer)) buffer 0 0 in
  let! dev := dwrite (block_bitmap_pointers_start sb) (block_bitmap_pointers_start sb) buffer dev in
  Ok (number, dev).

End Ops.

(** ** Bitmaps as sequences of bits *)

(** Bit [n] of a bitmap. *)
Definition marked (bm : list Z) (n : Z) : bool :=
  match bm !! Z.to_nat (n / 8) with Some c => Z.testbit c (n mod 8) | None => false end.

(** The bitmap with bit [n] set, or cleared. *)
Definition with_bit (bm : list Z) (n : Z) (v : bool) : list Z :=
  alter (fun c => if v then Z.setbit c (n mod 8) else Z.clearbit c (n mod 8)) (Z.to_nat (n / 8)) bm.

(** [n] is the first bit that is not set. *)
Definition first_free (bm : list Z) (n : Z) : Prop :=
  0 <= n < 8 * Z.of_nat (length bm) /\ marked bm n = false /\ forall m, 0 <= m < n -> marked bm m = true.

Lemma length_with_bit bm n v : length (with_bit bm n v) = length bm.
Proof. apply length_alter. Qed.

Lemma marked_with_bit bm n v m :
  0 <= n < 8 * Z.of_nat (length bm) -> 0 <= m ->
  marked (with_bit bm n v) m = if decide (m = n) then v else marked bm m.
Proof.
  intros Hn Hm. unfold marked, with_bit. pose proof (Z.mod_pos_bound n 8 ltac:(lia)). pose proof (Z.mod_pos_bound m 8 ltac:(lia)).
  destruct (decide (m / 8 = n / 8)) as [E|E].
  - rewrite E, list_lookup_alter_eq.
    assert (Hlt : (Z.to_nat (n / 8) < length bm)%nat).
    { assert (n / 8 < Z.of_nat (length bm)) by (apply Z.div_lt_upper_bound; lia). pose proof (Z.div_pos n 8). lia. }
    destruct (lookup_lt_is_Some_2 bm _ Hlt) as (c & Hc). rewrite Hc. cbn.
    destruct (decide (m = n)) as [->|Hne].
    + destruct v; [by rewrite Z.setbit_eq by lia|by rewrite Z.clearbit_eq].
    + assert (n mod 8 ≠ m mod 8).
      { intros Hmod. apply Hne. rewrite (Z.div_mod m 8), (Z.div_mod n 8) by lia. lia. }
      destruct v; [by rewrite Z.setbit_neq by lia|by rewrite Z.clearbit_neq by lia].
  - rewrite list_lookup_alter_ne.
    + destruct (decide (m = n)) as [->|]; [done|done].
    + pose proof (Z.div_pos n 8). pose proof (Z.div_pos m 8). lia.
Qed.

Lemma with_bit_undo bm n : marked bm n = false -> with_bit (with_bit bm n true) n false = bm.
Proof.
  intros Hm. unfold with_bit. apply list_eq. intros i.
  destruct (decide (Z.to_nat (n / 8) = i)) as [<-|Hne]; [|by rewrite !list_lookup_alter_ne].
  rewrite !list_lookup_alter_eq. unfold marked in Hm. destruct (bm !! Z.to_nat (n / 8)) as [c|]; [|done]. cbn.
  f_equal. pose proof (Z.mod_pos_bound n 8 ltac:(lia)). apply Z.bits_inj'. intros k Hk.
  destruct (decide (k = n mod 8)) as [->|Hk2]; [by rewrite Z.clearbit_eq|].
  by rewrite Z.clearbit_neq, Z.setbit_neq by lia.
Qed.

(** ** One byte *)
Lemma byte_cases (P : Z -> Prop) : Forall P (seqZ 0 256) -> forall c, byte c -> P c.
Proof. intros Hall c Hc. eapply Forall_forall; [exact Hall|]. apply elem_of_seqZ. unfold byte in Hc. lia. Qed.

(** The search within a byte finds its lowest clear bit, the byte 0xFF has none. *)
Definition find_bit_ok (c : Z) : bool :=
  negb (s8 c =? 0xFF) &&
  match find_bit c with
  | Some i => (0 <=? i) && (i <? 8) && negb (Z.testbit c i) &&
              forallb (fun j => Z.testbit c j) (seqZ 0 i) && (w8 (Z.lor c (2 ^ i)) =? Z.setbit c i)
  | None => c =? 255
  end.

Lemma find_bit_spec c : byte c -> find_bit_ok c = true.
Proof.
  apply (byte_cases (fun c => find_bit_ok c = true)). apply (bool_decide_unpack _). by vm_compute.
Qed.

Lemma clear_byte c i : byte c -> 0 <= i < 8 -> Z.land c (w8 (Z.lnot (2 ^ i))) = Z.clearbit c i.
Proof.
  intros Hc Hi. revert c Hc.
  apply (byte_cases (fun c => Z.land c (w8 (Z.lnot (2 ^ i))) = Z.clearbit c i)).
  assert (Hin : i ∈ seqZ 0 8) by (apply elem_of_seqZ; lia). revert i Hin Hi.
  assert (Hall : Forall (fun i => Forall (fun c => Z.land c (w8 (Z.lnot (2 ^ i))) = Z.clearbit c i) (seqZ 0 256)) (seqZ 0 8))
    by (apply (bool_decide_unpack _); by vm_compute).
  intros i Hin _. by apply (proj1 (Forall_forall _ _) Hall).
Qed.

(** ** The searches *)
Lemma marked_at bm p c j : bm !! Z.to_nat p = Some c -> 0 <= p -> 0 <= j < 8 -> marked bm (8 * p + j) = Z.testbit c j.
Proof.
  intros Hc Hp Hj. unfold marked. rewrite Z.mul_comm, Z.div_add_l, (Z.div_small j), Z.add_0_r by lia.
  rewrite Z.add_comm, Z.mod_add, Z.mod_small by lia. by rewrite Hc.
Qed.

(** A byte with all its bits set. *)
Lemma full_byte bm p c : Forall byte bm -> bm !! Z.to_nat p = Some c -> 0 <= p ->
  (forall j, 0 <= j < 8 -> marked bm (8 * p + j) = true) -> c = 255.
Proof.
  intros Hb Hc Hp Hall. assert (Hbc : byte c) by (by eapply Forall_lookup_1).
  pose proof (find_bit_spec c Hbc) as Hf. unfold find_bit_ok in Hf. zbool.
  destruct (find_bit c) as [i|]; zbool; [|done]. specialize (Hall i ltac:(lia)).
  rewrite (marked_at bm p c i) in Hall by (done || lia). congruence.
Qed.

(** The byte that holds the first clear bit. *)
Lemma found_byte bm k c : Forall byte bm -> first_free bm k -> bm !! Z.to_nat (k / 8) = Some c ->
  find_bit c = Some (k mod 8) /\ (s8 c =? 0xFF) = false /\ w8 (Z.lor c (2 ^ (k mod 8))) = Z.setbit c (k mod 8).
Proof.
  intros Hb (Hk & Hf & Hbefore) Hc. assert (Hbc : byte c) by (by eapply Forall_lookup_1).
  pose proof (Z.mod_pos_bound k 8 ltac:(lia)) as Hm. pose proof (Z.div_pos k 8 ltac:(lia) ltac:(lia)) as Hd.
  pose proof (Z.div_mod k 8 ltac:(lia)) as Hdm.
  assert (Hbit : forall j, 0 <= j < 8 -> marked bm (8 * (k / 8) + j) = Z.testbit c j) by (intros; by apply marked_at).
  pose proof (find_bit_spec c Hbc) as Hs. unfold find_bit_ok in Hs. zbool.
  assert (Hck : Z.testbit c (k mod 8) = false) by (by rewrite <- Hbit, <- Hdm by lia).
  destruct (find_bit c) as [i|]; zbool.
  - assert (i = k mod 8) as ->; [|split_and!; [done|by apply Z.eqb_neq|done]]. destruct (Z.lt_trichotomy i (k mod 8)) as [Hlt|[?|Hgt]]; [|done|].
    + specialize (Hbefore (8 * (k / 8) + i) ltac:(lia)). rewrite Hbit in Hbefore by lia. congruence.
    + assert (Hin : k mod 8 ∈ seqZ 0 i) by (apply elem_of_seqZ; lia).
      match goal with Hfa : forallb _ _ = true |- _ => rewrite forallb_forall in Hfa; specialize (Hfa (k mod 8)) end.
      rewrite Hck in *. apply list_elem_of_In in Hin. naive_solver.
  - subst c. exfalso. revert Hck. assert (Hin : k mod 8 ∈ seqZ 0 8) by (apply elem_of_seqZ; lia).
    revert Hin. generalize (k mod 8). apply (Forall_forall (fun j => Z.testbit 255 j = false -> False)).
    apply (bool_decide_unpack _). by vm_compute.
Qed.

(** From one byte to the next. *)
Lemma next_pos bs p : 0 < bs -> 0 <= p ->
  (if p mod bs + 1 =? bs then p / bs + 1 else p / bs) = (p + 1) / bs /\
  (if p mod bs + 1 =? bs then 0 else p mod bs + 1) = (p + 1) mod bs.
Proof.
  intros Hb Hp. pose proof (Z.mod_pos_bound p bs Hb). pose proof (Z.div_mod p bs ltac:(lia)) as Hdm.
  destruct (Z.eqb_spec (p mod bs + 1) bs) as [E|E].
  - split; [apply (Z.div_unique _ _ _ 0); lia|apply (Z.mod_unique _ _ (p / bs + 1)); lia].
  - split; [apply (Z.div_unique _ _ _ (p mod bs + 1)); lia|apply (Z.mod_unique _ _ (p / bs)); lia].
Qed.

Section Scan.
Context (sb : superblock).
Hypothesis bs_pos : 0 < sb_block_size sb.
Abbreviation bs := (sb_block_size sb).

Lemma pos_split p : p / bs * bs + p mod bs = p.
Proof. pose proof (Z.div_mod p bs). lia. Qed.

Lemma number_split k : k / 8 / bs * bs * 8 + (k / 8) mod bs * 8 + k mod 8 = k.
Proof. pose proof (Z.div_mod k 8). pose proof (pos_split (k / 8)). lia. Qed.

Lemma block_scan_ok bm k : Forall byte bm -> first_free bm k ->
  k / 8 / bs <= DIOSFS_NUM_BLOCK_POINTER_BLOCKS ->
  forall n p fuel, 0 <= p -> p + Z.of_nat n = k / 8 -> (n < fuel)%nat ->
  block_scan sb fuel bm (p / bs) (p mod bs) = Ok (with_bit bm k true, k).
Proof.
  intros Hb Hff Hlim. pose proof Hff as (Hk & Hf & Hbefore).
  assert (Hlt : k / 8 < Z.of_nat (length bm)) by (apply Z.div_lt_upper_bound; lia).
  induction n as [|n IH]; intros p fuel Hp Hpn Hfu; (destruct fuel as [|fuel]; [lia|]); cbn [block_scan];
    rewrite pos_split.
  - replace p with (k / 8) in * by lia.
    destruct (lookup_lt_is_Some_2 bm (Z.to_nat (k / 8))) as (c & Hc); [lia|]. rewrite Hc. cbn [of_opt obind].
    destruct (found_byte bm k c Hb Hff Hc) as (-> & -> & Hor). cbn [negb]. unfold set_bit. rewrite Hc. cbn [of_opt obind].
    rewrite number_split, Hor. f_equal. f_equal. unfold with_bit. apply list_eq. intros i.
    destruct (decide (Z.to_nat (k / 8) = i)) as [<-|Hne].
    + rewrite list_lookup_insert_eq, list_lookup_alter_eq, Hc by lia. done.
    + by rewrite list_lookup_insert_ne, list_lookup_alter_ne by done.
  - destruct (lookup_lt_is_Some_2 bm (Z.to_nat p)) as (c & Hc); [lia|]. rewrite Hc. cbn [of_opt obind].
    assert (c = 255) as ->.
    { apply (full_byte bm p); try done. intros j Hj. apply Hbefore. pose proof (Z.div_mod k 8 ltac:(lia)).
      pose proof (Z.mod_pos_bound k 8). lia. }
    cbn [negb]. change (s8 255 =? 255) with false. change (find_bit 255) with (@None Z). cbn [negb].
    destruct (next_pos bs p bs_pos Hp) as [-> ->].
    assert ((p + 1) / bs <= k / 8 / bs) by (apply Z.div_le_mono; lia).
    rewrite (proj2 (Z.ltb_ge _ _)) by lia. apply IH; lia.
Qed.

Lemma inode_scan_ok bm k : Forall byte bm -> first_free bm k ->
  k / 8 / bs <= DIOSFS_NUM_INODE_POINTER_BLOCKS -> bs <= Z.of_nat (length bm) ->
  forall n p fuel, 0 <= p -> p + Z.of_nat n = k / 8 -> (n < fuel)%nat ->
  inode_scan sb fuel bm (p / bs) (p mod bs)
  = Ok (if k <? 8 * bs then with_bit bm k true else bm, k).
Proof.
  intros Hb Hff Hlim Hlen. pose proof Hff as (Hk & Hf & Hbefore).
  assert (Hlt : k / 8 < Z.of_nat (length bm)) by (apply Z.div_lt_upper_bound; lia).
  pose proof (Z.div_mod k 8 ltac:(lia)) as Hdm. pose proof (Z.mod_pos_bound k 8 ltac:(lia)) as Hm8.
  assert (Hfull : forall p c, 0 <= p < k / 8 -> bm !! Z.to_nat p = Some c -> c = 255).
  { intros p c Hp Hc. apply (full_byte bm p); [done|done|lia|]. intros j Hj. apply Hbefore. lia. }
  induction n as [|n IH]; intros p fuel Hp Hpn Hfu; (destruct fuel as [|fuel]; [lia|]); cbn [inode_scan];
    rewrite pos_split.
  - replace p with (k / 8) in * by lia.
    destruct (lookup_lt_is_Some_2 bm (Z.to_nat (k / 8))) as (c & Hc); [lia|]. rewrite Hc. cbn [of_opt obind].
    destruct (found_byte bm k c Hb Hff Hc) as (-> & -> & Hor). cbn [negb].
    pose proof (Z.mod_pos_bound (k / 8) bs bs_pos) as Hmb. rewrite number_split.
    destruct (Z.ltb_spec k (8 * bs)) as [Hin|Hout].
    + rewrite (Z.mod_small (k / 8) bs) by (split; [lia|apply Z.div_lt_upper_bound; lia]).
      unfold set_bit. rewrite Hc. cbn [of_opt obind]. rewrite Hor. f_equal. f_equal.
      unfold with_bit. apply list_eq. intros i. destruct (decide (Z.to_nat (k / 8) = i)) as [<-|Hne].
      * rewrite list_lookup_insert_eq, list_lookup_alter_eq, Hc by lia. done.
      * by rewrite list_lookup_insert_ne, list_lookup_alter_ne by done.
    + unfold set_bit. destruct (lookup_lt_is_Some_2 bm (Z.to_nat ((k / 8) mod bs))) as (c2 & Hc2); [lia|].
      rewrite Hc2. cbn [of_opt obind]. assert (bs <= k / 8) by (apply Z.div_le_lower_bound; lia).
      assert (c2 = 255) as -> by (apply (Hfull ((k / 8) mod bs)); [lia|done]).
      assert (Hor255 : w8 (Z.lor 255 (2 ^ (k mod 8))) = 255).
      { assert (Hin8 : k mod 8 ∈ seqZ 0 8) by (apply elem_of_seqZ; lia). revert Hin8. generalize (k mod 8).
        apply (Forall_forall (fun j => w8 (Z.lor 255 (2 ^ j)) = 255)). apply (bool_decide_unpack _). by vm_compute. }
      rewrite Hor255. by rewrite list_insert_id.
  - destruct (lookup_lt_is_Some_2 bm (Z.to_nat p)) as (c & Hc); [lia|]. rewrite Hc. cbn [of_opt obind].
    assert (c = 255) as -> by (apply (Hfull p); [lia|done]).
    change (s8 255 =? 255) with false. change (find_bit 255) with (@None Z). cbn [negb].
    destruct (next_pos bs p bs_pos Hp) as [-> ->].
    assert ((p + 1) / bs <= k / 8 / bs) by (apply Z.div_le_mono; lia).
    rewrite (proj2 (Z.ltb_ge _ _)) by lia. apply IH; lia.
Qed.

End Scan.

(** ** The operations on a device *)
Section Spec.
Context {D : Type} `{BlockDeviceSpec D}.
Context (sb : superblock) (fresh : Z -> list Z).
Abbreviation bs := (sb_block_size sb).
Hypothesis size_ok : bd_size = bs.
Hypothesis fresh_length : forall n, 0 <= n -> length (fresh n) = Z.to_nat n.
Hypothesis fresh_bytes : forall n, Forall byte (fresh n).

(** [count] blocks of the disk from block [b] on. *)
Definition region (b count : Z) (dev : D) : list Z :=
  slice (Z.to_nat (b * bs)) (Z.to_nat (count * bs)) (bd_bytes dev).

Lemma bs_pos : 0 < bs.
Proof. rewrite <- size_ok. apply bd_size_pos. Qed.

Lemma range_length b c dev : in_range dev b c ->
  0 <= b /\ 0 <= c /\ 0 <= b * bs /\ 0 <= c * bs /\ b * bs + c * bs <= Z.of_nat (length (bd_bytes dev)).
Proof. pose proof bs_pos. unfold in_range. rewrite size_ok. intros (? & ? & ? & ?). nia. Qed.

Lemma length_region b c dev : in_range dev b c -> length (region b c dev) = Z.to_nat (c * bs).
Proof. intros Hr. pose proof (range_length _ _ _ Hr). unfold region. rewrite length_slice; lia. Qed.

Lemma block_read_region b c buf dev :
  bd_wf dev -> in_range dev b c -> c * bs <= Z.of_nat (length buf) ->
  block_read b c buf dev = Ok (DIOSFS_SUCCESS, splice 0 (region b c dev) buf).
Proof. intros Hw Hr Hl. rewrite block_read_spec by (rewrite ?size_ok; done). by rewrite size_ok. Qed.

Lemma dread_ok b c buf dev :
  bd_wf dev -> in_range dev b c -> c * bs <= Z.of_nat (length buf) ->
  dread b c buf dev = Ok (splice 0 (region b c dev) buf).
Proof. intros. unfold dread. by rewrite block_read_region. Qed.

Lemma block_write_region b c buf dev :
  bd_wf dev -> in_range dev b c -> c * bs <= Z.of_nat (length buf) ->
  exists dev', block_write b c buf dev = Ok (DIOSFS_SUCCESS, dev') /\ bd_wf dev' /\
    bd_bytes dev' = splice (Z.to_nat (b * bs)) (take (Z.to_nat (c * bs)) buf) (bd_bytes dev).
Proof.
  intros Hw Hr Hl. destruct (block_write_spec dev b c buf Hw Hr) as (dev' & E & Hw' & Hb); [by rewrite size_ok|].
  rewrite size_ok in Hb. by exists dev'.
Qed.

Lemma dwrite_ok b c buf dev :
  bd_wf dev -> in_range dev b c -> c * bs <= Z.of_nat (length buf) ->
  exists dev', dwrite b c buf dev = Ok dev' /\ bd_wf dev' /\
    bd_bytes dev' = splice (Z.to_nat (b * bs)) (take (Z.to_nat (c * bs)) buf) (bd_bytes dev).
Proof.
  intros Hw Hr Hl. destruct (block_write_region b c buf dev Hw Hr Hl) as (dev' & E & ?).
  exists dev'. unfold dwrite. by rewrite E.
Qed.

Lemma splice_byte (o : nat) (xs ys : list Z) : Forall byte xs -> Forall byte ys -> Forall byte (splice o xs ys).
Proof. intros. unfold splice. apply Forall_app; split; [by apply Forall_take|]. apply Forall_app; split; [done|by apply Forall_drop]. Qed.

(** A bitmap read into the front of a longer buffer. *)
Lemma lookup_front (r buf : list Z) i : (i < length r)%nat -> splice 0 r buf !! i = r !! i.
Proof. intros Hi. rewrite lookup_splice by lia. rewrite decide_False, decide_True by lia. by rewrite Nat.sub_0_r. Qed.

Lemma marked_front r buf n : 0 <= n < 8 * Z.of_nat (length r) -> marked (splice 0 r buf) n = marked r n.
Proof.
  intros Hn. unfold marked. rewrite lookup_front; [done|].
  assert (n / 8 < Z.of_nat (length r)) by (apply Z.div_lt_upper_bound; lia). pose proof (Z.div_pos n 8). lia.
Qed.

Lemma first_free_front r buf k : (length r <= length buf)%nat -> first_free r k -> first_free (splice 0 r buf) k.
Proof.
  intros Hl (Hk & Hf & Hb). split_and!; [lia|rewrite length_splice by lia; lia|by rewrite marked_front|].
  intros m Hm. rewrite marked_front by lia. by apply Hb.
Qed.

Lemma take_front (r buf : list Z) : take (length r) (splice 0 r buf) = r.
Proof. unfold splice. change (take 0 buf) with (@nil Z). cbn [app]. apply take_app_length. Qed.

Lemma with_bit_front r buf k v : (length r <= length buf)%nat -> 0 <= k < 8 * Z.of_nat (length r) ->
  with_bit (splice 0 r buf) k v = splice 0 (with_bit r k v) buf.
Proof.
  intros Hl Hk. assert (k / 8 < Z.of_nat (length r)) by (apply Z.div_lt_upper_bound; lia). pose proof (Z.div_pos k 8).
  unfold with_bit, splice. change (take 0 buf) with (@nil Z). cbn [app Nat.add].
  rewrite alter_app_l by lia. by rewrite length_alter.
Qed.

(** C8: allocating a block.  The block returned is the first free one, its bit is
    set on the disk and nothing else changes there, as long as the part of the
    bitmap that is read (its first [block_bitmap_pointers_start] blocks) has a
    free bit. *)
Theorem get_free_block_spec dev k :
  let c := block_bitmap_pointers_start sb in
  bd_wf dev -> in_range dev c c -> c <= block_bitmap_size sb -> c <= DIOSFS_NUM_BLOCK_POINTER_BLOCKS ->
  Forall byte (region c c dev) -> first_free (region c c dev) k ->
  exists dev', diosfs_get_free_block_and_mark_bitmap sb fresh dev = Ok (k, dev') /\ bd_wf dev' /\
    bd_bytes dev' = splice (Z.to_nat (c * bs)) (with_bit (region c c dev) k true) (bd_bytes dev).
Proof.
  intros c Hw Hr Hsz Hlim Hby Hff. pose proof bs_pos as Hbs. pose proof (range_length _ _ _ Hr) as (Hc0 & _ & _ & Hcb & Hin).
  pose proof (length_region _ _ _ Hr) as Hlen. unfold diosfs_get_free_block_and_mark_bitmap. fold c.
  set (buf := fresh (block_bitmap_size sb * bs)).
  assert (Hbl : c * bs <= Z.of_nat (length buf)) by (subst buf; rewrite fresh_length by nia; nia).
  rewrite dread_ok by done. cbn [obind].
  set (b0 := splice 0 (region c c dev) buf).
  assert (Hl0 : length b0 = length buf) by (subst b0; rewrite length_splice; lia).
  assert (Hff0 : first_free b0 k) by (apply first_free_front; [lia|done]).
  destruct Hff as (Hk & _ & _). rewrite Hlen in Hk.
  assert (Hk8 : k / 8 < c * bs) by (apply Z.div_lt_upper_bound; lia).
  pose proof (block_scan_ok sb Hbs b0 k) as Hs. specialize (Hs ltac:(apply splice_byte; [done|apply fresh_bytes]) Hff0).
  specialize (Hs ltac:(assert (k / 8 / bs < c) by (apply Z.div_lt_upper_bound; lia); lia) (Z.to_nat (k / 8)) 0 (S (length b0)) ltac:(lia)).
  pose proof (Z.div_pos k 8 ltac:(lia) ltac:(lia)). rewrite Z.div_0_l, Z.mod_0_l in Hs by lia. rewrite Hs by lia. cbn [obind].
  destruct (dwrite_ok c c (with_bit b0 k true) dev Hw Hr) as (dev' & E & Hw' & Hb'); [rewrite length_with_bit; lia|].
  rewrite E. cbn [obind]. exists dev'. split_and!; [done|done|]. rewrite Hb'. f_equal.
  subst b0. rewrite with_bit_front by lia. rewrite <- Hlen, <- (length_with_bit (region c c dev) k true). apply take_front.
Qed.

(** One call when the part of the bitmap that is read is full. *)
Lemma get_free_block_past d k :
  let c := block_bitmap_pointers_start sb in
  bd_wf d -> in_range d c c -> c <= block_bitmap_size sb -> Forall byte (region c c d) ->
  (forall m, 0 <= m < 8 * c * bs -> marked (region c c d) m = true) ->
  first_free (splice 0 (region c c d) (fresh (block_bitmap_size sb * bs))) k ->
  k / 8 / bs <= DIOSFS_NUM_BLOCK_POINTER_BLOCKS ->
  exists d', diosfs_get_free_block_and_mark_bitmap sb fresh d = Ok (k, d') /\ bd_wf d' /\ bd_bytes d' = bd_bytes d.
Proof.
  intros c Hw Hr Hsz Hby Hfull Hff Hlim. pose proof bs_pos as Hbs.
  pose proof (range_length _ _ _ Hr) as (Hc0 & _ & Hcb & _ & Hin).
  pose proof (length_region _ _ _ Hr) as Hlen. unfold diosfs_get_free_block_and_mark_bitmap. fold c.
  set (buf := fresh (block_bitmap_size sb * bs)) in *.
  assert (Hbl : c * bs <= Z.of_nat (length buf)) by (subst buf; rewrite fresh_length by nia; nia).
  rewrite dread_ok by done. cbn [obind]. set (b0 := splice 0 (region c c d) buf) in *.
  assert (Hl0 : length b0 = length buf) by (subst b0; rewrite length_splice; lia).
  pose proof (block_scan_ok sb Hbs b0 k) as Hs. specialize (Hs ltac:(apply splice_byte; [done|apply fresh_bytes]) Hff Hlim).
  destruct Hff as (Hk & Hkf & _). pose proof (Z.div_pos k 8 ltac:(lia) ltac:(lia)).
  assert (k / 8 < Z.of_nat (length b0)) by (apply Z.div_lt_upper_bound; lia).
  specialize (Hs (Z.to_nat (k / 8)) 0 (S (length b0)) ltac:(lia) ltac:(lia) ltac:(lia)).
  rewrite Z.div_0_l, Z.mod_0_l in Hs by lia. rewrite Hs. cbn [obind].
  destruct (dwrite_ok c c (with_bit b0 k true) d Hw Hr) as (d' & E & Hw' & Hb'); [rewrite length_with_bit; lia|].
  rewrite E. cbn [obind]. exists d'. split_and!; [done|done|]. rewrite Hb'.
  assert (Hge : 8 * c * bs <= k).
  { destruct (Z.le_gt_cases (8 * c * bs) k) as [?|Hlt]; [done|]. subst b0. rewrite marked_front in Hkf by lia.
    rewrite Hfull in Hkf by lia. done. }
  assert (c * bs <= k / 8) by (apply Z.div_le_lower_bound; lia).
  assert (Ht : take (Z.to_nat (c * bs)) (with_bit b0 k true) = region c c d).
  { unfold with_bit. rewrite take_alter_ge by lia. rewrite <- Hlen. apply take_front. }
  rewrite Ht. apply splice_slice_id. lia.
Qed.

(** The same contents make the same call. *)
Lemma same_range d d' b c : bd_bytes d' = bd_bytes d -> in_range d b c -> in_range d' b c.
Proof. intros E (? & ? & ? & ?). unfold in_range. by rewrite E. Qed.

Lemma same_region d d' b c : bd_bytes d' = bd_bytes d -> region b c d' = region b c d.
Proof. intros E. unfold region. by rewrite E. Qed.


Lemma get_free_inode_ok dev k :
  let b := inode_bitmap_pointers_start sb in let c := inode_bitmap_size sb in
  bd_wf dev -> in_range dev b c -> 1 <= c <= DIOSFS_NUM_INODE_POINTER_BLOCKS -> bs <= PAGE_SIZE ->
  Forall byte (region b c dev) -> first_free (region b c dev) k ->
  exists dev', diosfs_get_free_inode_and_mark_bitmap sb fresh dev = Ok (new_inode k, dev') /\ bd_wf dev' /\
    bd_bytes dev' = if k <? 8 * bs
      then splice (Z.to_nat (b * bs)) (with_bit (region b c dev) k true) (bd_bytes dev)
      else bd_bytes dev.
Proof.
  intros b c Hw Hr Hc Hpg Hby Hff. pose proof bs_pos as Hbs. pose proof (range_length _ _ _ Hr) as (_ & _ & Hb0 & Hcb & Hin).
  pose proof (length_region _ _ _ Hr) as Hlen. unfold diosfs_get_free_inode_and_mark_bitmap. fold b c.
  unfold PAGE_SIZE, DIOSFS_NUM_INODE_POINTER_BLOCKS in *. set (buf := fresh (4096 * 16)).
  assert (Hbl : Z.of_nat (length buf) = 65536) by (subst buf; rewrite fresh_length by lia; lia).
  rewrite dread_ok by (try done; nia). cbn [obind]. set (b0 := splice 0 (region b c dev) buf).
  assert (Hl0 : length b0 = length buf) by (subst b0; rewrite length_splice; nia).
  assert (Hff0 : first_free b0 k) by (apply first_free_front; [nia|done]).
  destruct Hff as (Hk & _ & _). rewrite Hlen in Hk. pose proof (Z.div_pos k 8 ltac:(lia) ltac:(lia)) as Hd0.
  assert (Hk8 : k / 8 < c * bs) by (apply Z.div_lt_upper_bound; lia).
  assert (k / 8 / bs < c) by (apply Z.div_lt_upper_bound; lia).
  pose proof (inode_scan_ok sb Hbs b0 k ltac:(apply splice_byte; [done|apply fresh_bytes]) Hff0
    ltac:(unfold DIOSFS_NUM_INODE_POINTER_BLOCKS; lia) ltac:(nia) (Z.to_nat (k / 8)) 0 (S (length b0)) ltac:(lia) ltac:(lia) ltac:(nia)) as Hs.
  rewrite Z.div_0_l, Z.mod_0_l in Hs by lia. rewrite Hs. cbn [obind].
  set (b1 := if k <? 8 * bs then _ else _).
  assert (Hl1 : length b1 = length buf) by (subst b1; case_match; rewrite ?length_with_bit; done).
  destruct (dwrite_ok b c b1 dev Hw Hr) as (dev' & E & Hw' & Hb'); [nia|]. rewrite E. cbn [obind].
  exists dev'. split_and!; [done|done|]. rewrite Hb'. subst b1. destruct (Z.ltb_spec k (8 * bs)).
  - f_equal. subst b0. rewrite with_bit_front by nia.
    rewrite <- Hlen, <- (length_with_bit (region b c dev) k true). apply take_front.
  - subst b0. rewrite <- Hlen, take_front. apply splice_slice_id. lia.
Qed.

(** C21: allocating an inode.  The number returned is the first free one.  Below
    [8 * block_size] its bit is set on the disk and nothing else changes; from
    there on the bit is set in the wrong byte, which is full already, so the
    disk does not change and the number stays free. *)
Theorem get_free_inode_spec dev k :
  let b := inode_bitmap_pointers_start sb in let c := inode_bitmap_size sb in
  bd_wf dev -> in_range dev b c -> 1 <= c <= DIOSFS_NUM_INODE_POINTER_BLOCKS -> bs <= PAGE_SIZE ->
  Forall byte (region b c dev) -> first_free (region b c dev) k ->
  exists dev', diosfs_get_free_inode_and_mark_bitmap sb fresh dev = Ok (new_inode k, dev') /\ bd_wf dev' /\
    bd_bytes dev' = if k <? 8 * bs
      then splice (Z.to_nat (b * bs)) (with_bit (region b c dev) k true) (bd_bytes dev)
      else bd_bytes dev.
Proof. apply get_free_inode_ok. Qed.

(** Which bitmap a type selects. *)
Definition bitmap_start (type : Z) : Z :=
  if type =? BITMAP_TYPE_BLOCK then block_bitmap_pointers_start sb else inode_bitmap_pointers_start sb.

(** C22: releasing a number.  In the first block of the bitmap its bit is cleared
    and nothing else changes.  A number of a later block is never released: the
    byte that is changed lies behind the block in the buffer, so the disk keeps
    its bit, and from [8 * PAGE_SIZE] on the access is outside the buffer. *)
Theorem clear_bitmap_spec dev type n :
  let b := bitmap_start type + n / (bs * 8) in
  bd_wf dev -> (type = BITMAP_TYPE_BLOCK \/ type = BITMAP_TYPE_INODE) -> 0 <= n -> bs <= PAGE_SIZE ->
  in_range dev b 1 -> Forall byte (region b 1 dev) ->
  if n <? 8 * PAGE_SIZE
  then exists dev', diosfs_clear_bitmap sb type n dev = Ok dev' /\ bd_wf dev' /\
    bd_bytes dev' = if n <? 8 * bs
      then splice (Z.to_nat (b * bs)) (with_bit (region b 1 dev) n false) (bd_bytes dev)
      else bd_bytes dev
  else diosfs_clear_bitmap sb type n dev = Fault.
Proof.
  intros b Hw Hty Hn Hpg Hr Hby. pose proof bs_pos as Hbs. unfold PAGE_SIZE in *.
  pose proof (range_length _ _ _ Hr) as (_ & _ & Hb0 & _ & Hin). pose proof (length_region _ _ _ Hr) as Hlen.
  rewrite Z.mul_1_l in Hin, Hlen. pose proof (Z.div_pos n 8 Hn ltac:(lia)) as Hd.
  set (buf := replicate (Z.to_nat 4096) 0).
  assert (Hbl : Z.of_nat (length buf) = 4096) by (subst buf; rewrite length_replicate; lia).
  assert (Hop : diosfs_clear_bitmap sb type n dev =
    let! c := of_opt (splice 0 (region b 1 dev) buf !! Z.to_nat (n / 8)) in
    let! (_, dev) := block_write b 1 (<[Z.to_nat (n / 8) := Z.land c (w8 (Z.lnot (2 ^ (n mod 8))))]>
                       (splice 0 (region b 1 dev) buf)) dev in Ok dev).
  { unfold diosfs_clear_bitmap. replace (negb (type =? BITMAP_TYPE_BLOCK) && negb (type =? BITMAP_TYPE_INODE)) with false
      by (by destruct Hty as [-> | ->]).
    replace (if type =? BITMAP_TYPE_BLOCK then _ else _) with b by (unfold b, bitmap_start; by case_match).
    unfold PAGE_SIZE. fold buf. rewrite block_read_region by (try done; lia). done. }
  assert (Hlb : length (splice 0 (region b 1 dev) buf) = length buf) by (rewrite length_splice; lia).
  rewrite Hop. destruct (Z.ltb_spec n (8 * 4096)) as [Hlt|Hge].
  2: { rewrite lookup_ge_None_2; [done|]. assert (4096 <= n / 8) by (apply Z.div_le_lower_bound; lia). lia. }
  assert (n / 8 < 4096) by (apply Z.div_lt_upper_bound; lia).
  destruct (lookup_lt_is_Some_2 (splice 0 (region b 1 dev) buf) (Z.to_nat (n / 8))) as (c & Hc); [lia|].
  rewrite Hc. cbn [of_opt obind]. set (b1 := <[_ := _]> _).
  assert (Hb1 : b1 = with_bit (splice 0 (region b 1 dev) buf) n false).
  { subst b1. rewrite clear_byte; [|by eapply Forall_lookup_1; [|exact Hc];
      apply splice_byte; [|apply Forall_replicate; unfold byte; lia]|apply Z.mod_pos_bound; lia].
    unfold with_bit. apply list_eq. intros i. destruct (decide (Z.to_nat (n / 8) = i)) as [<-|Hne].
    - by rewrite list_lookup_insert_eq, list_lookup_alter_eq, Hc by (by eapply lookup_lt_Some).
    - by rewrite list_lookup_insert_ne, list_lookup_alter_ne. }
  destruct (block_write_region b 1 b1 dev Hw Hr) as (dev' & E & Hw' & Hb'); [rewrite Hb1, length_with_bit; lia|].
  rewrite E. cbn [obind]. exists dev'. split_and!; [done|done|]. rewrite Hb', Hb1, Z.mul_1_l.
  destruct (Z.ltb_spec n (8 * bs)) as [Hin8|Hout].
  - f_equal. rewrite with_bit_front by lia.
    rewrite <- Hlen, <- (length_with_bit (region b 1 dev) n false). apply take_front.
  - assert (bs <= n / 8) by (apply Z.div_le_lower_bound; lia). unfold with_bit. rewrite take_alter_ge by lia.
    rewrite <- Hlen, take_front. unfold region. rewrite Z.mul_1_l. apply splice_slice_id. lia.
Qed.

End Spec.

End Bitmap.
