(* ===== verification/Diosfs.v ===== *)
(** * Inodes, files and directories of diosfs (filesystem/diosfs.c)

    The operations on the disk, over any block device.  Locks are left out: each
    entry point holds the filesystem's lock from beginning to end. *)

From S2P Require Import Prelude BlockDevice DiosfsLayout DiosfsBitmap Strings.

Module Diosfs.
Import Layout Bitmap.

(** ** Updates of one field *)
Definition i_set_number (v : Z) (i : inode) : inode :=
  mk_inode (uid i) v (parent_inode_number i) (itype i) (refcount i) (iname i) (pad1 i) (isize i)
    (block_count i) (pad2 i) (blocks i) (single_indirect i) (double_indirect i) (triple_indirect i).
Definition i_set_refcount (v : Z) (i : inode) : inode :=
  mk_inode (uid i) (inode_number i) (parent_inode_number i) (itype i) v (iname i) (pad1 i) (isize i)
    (block_count i) (pad2 i) (blocks i) (single_indirect i) (double_indirect i) (triple_indirect i).
Definition i_set_name (v : list Z) (i : inode) : inode :=
  mk_inode (uid i) (inode_number i) (parent_inode_number i) (itype i) (refcount i) v (pad1 i) (isize i)
    (block_count i) (pad2 i) (blocks i) (single_indirect i) (double_indirect i) (triple_indirect i).
Definition i_set_size (v : Z) (i : inode) : inode :=
  mk_inode (uid i) (inode_number i) (parent_inode_number i) (itype i) (refcount i) (iname i) (pad1 i) (w32 v)
    (block_count i) (pad2 i) (blocks i) (single_indirect i) (double_indirect i) (triple_indirect i).
Definition i_set_count (v : Z) (i : inode) : inode :=
  mk_inode (uid i) (inode_number i) (parent_inode_number i) (itype i) (refcount i) (iname i) (pad1 i) (isize i)
    (w32 v) (pad2 i) (blocks i) (single_indirect i) (double_indirect i) (triple_indirect i).
Definition i_set_blocks (v : list Z) (i : inode) : inode :=
  mk_inode (uid i) (inode_number i) (parent_inode_number i) (itype i) (refcount i) (iname i) (pad1 i) (isize i)
    (block_count i) (pad2 i) v (single_indirect i) (double_indirect i) (triple_indirect i).
Definition i_set_single (v : Z) (i : inode) : inode :=
  mk_inode (uid i) (inode_number i) (parent_inode_number i) (itype i) (refcount i) (iname i) (pad1 i) (isize i)
    (block_count i) (pad2 i) (blocks i) v (double_indirect i) (triple_indirect i).
Definition i_set_double (v : Z) (i : inode) : inode :=
  mk_inode (uid i) (inode_number i) (parent_inode_number i) (itype i) (refcount i) (iname i) (pad1 i) (isize i)
    (block_count i) (pad2 i) (blocks i) (single_indirect i) v (triple_indirect i).
Definition i_set_triple (v : Z) (i : inode) : inode :=
  mk_inode (uid i) (inode_number i) (parent_inode_number i) (itype i) (refcount i) (iname i) (pad1 i) (isize i)
    (block_count i) (pad2 i) (blocks i) (single_indirect i) (double_indirect i) v.

(** [inode->blocks[k]], read and written; outside the ten it is a [Fault] *)
Definition get_block (i : inode) (k : Z) : outcome Z := of_opt (blocks i !! Z.to_nat k).
Definition set_block (i : inode) (k v : Z) : outcome inode :=
  if decide (Z.to_nat k < length (blocks i))%nat
  then Ok (i_set_blocks (<[Z.to_nat k := v]> (blocks i)) i) else Fault.

(** [memcpy(&dst[o], src, length src)] *)
Definition blit (dst : list Z) (o : nat) (src : list Z) : outcome (list Z) :=
  if decide (o + length src <= length dst)%nat then Ok (splice o src dst) else Fault.
(** [memcpy(dst, &src[o], n)] *)
Definition peek (src : list Z) (o n : nat) : outcome (list Z) :=
  if decide (o + n <= length src)%nat then Ok (slice o n src) else Fault.

(** Element [k] of a buffer used as an array of 64-bit block numbers. *)
Definition get_u64 (buf : list Z) (k : Z) : outcome Z :=
  let! bs := peek buf (Z.to_nat (8 * k)) 8 in Ok (le_val bs).
Definition set_u64 (buf : list Z) (k v : Z) : outcome (list Z) := blit buf (Z.to_nat (8 * k)) (le_bytes 8 v).

(** Element [k] of a buffer used as an array of directory entries. *)
Definition get_dirent (buf : list Z) (k : Z) : outcome dirent :=
  let! bs := peek buf (Z.to_nat (sizeof_dirent * k)) (Z.to_nat sizeof_dirent) in Ok (decode_dirent bs).
Definition set_dirent (buf : list Z) (k : Z) (d : dirent) : outcome (list Z) :=
  blit buf (Z.to_nat (sizeof_dirent * k)) (encode_dirent d).

Section Ops.
Context {D : Type} `{BlockDevice D}.
Context (sb : superblock) (fresh : Z -> list Z).
Abbreviation bsize := (sb_block_size sb).
Abbreviation get_free_block := (diosfs_get_free_block_and_mark_bitmap sb fresh).
Abbreviation page := (fresh PAGE_SIZE).

(** DIOSFS_MAX_FILES_IN_DIRENT_BLOCK and DIOSFS_MAX_FILES_IN_DIRECTORY *)
Definition dirents_per_block : Z := bsize / sizeof_dirent.
Definition max_dirents : Z := NUM_BLOCKS_DIRECT * bsize / sizeof_dirent.

(** ** Blocks and inodes

    The offset and size that diosfs_read_block_by_number and its counterpart
    compute are not used: they move the whole block.  [pos] is where in the
    caller's buffer it starts. *)
Definition diosfs_read_block_by_number (n : Z) (buffer : list Z) (pos : nat) (dev : D) : outcome (list Z) :=
  let! r := dread (w64 (block_start_pointer sb + n)) 1 (drop pos buffer) dev in
  Ok (take pos buffer ++ r).

Definition diosfs_write_block_by_number (n : Z) (buffer : list Z) (pos : nat) (dev : D) : outcome D :=
  dwrite (w64 (block_start_pointer sb + n)) 1 (drop pos buffer) dev.

(** The block and the offset in it of an inode. *)
Definition inode_block (n : Z) : Z := inode_start_pointer sb + n / NUM_INODES_PER_BLOCK.
Definition inode_offset (n : Z) : nat := Z.to_nat (n mod NUM_INODES_PER_BLOCK * sizeof_inode).

Definition diosfs_write_inode (i : inode) (dev : D) : outcome D :=
  let! (_, block) := block_read (inode_block (inode_number i)) 1 (replicate (Z.to_nat bsize) 0) dev in
  let! block := blit block (inode_offset (inode_number i)) (encode_inode i) in
  dwrite (inode_block (inode_number i)) 1 block dev.

Definition diosfs_read_inode (n : Z) (dev : D) : outcome inode :=
  let! block := dread (inode_block n) 1 (replicate (Z.to_nat bsize) 0) dev in
  let! bs := peek block (inode_offset n) (Z.to_nat sizeof_inode) in
  Ok (decode_inode bs).

(** ** Releasing *)
Definition diosfs_free_block_and_mark_bitmap (n : Z) (dev : D) : outcome D :=
  let! buffer := blit page 0 (replicate (Z.to_nat bsize) 0) in
  let! dev := diosfs_write_block_by_number n buffer 0 dev in
  diosfs_clear_bitmap sb BITMAP_TYPE_BLOCK n dev.

(** The inode is zeroed but for its number; then the block with the number of
    its inode block (counted from the first data block) is overwritten with an
    uninitialised buffer. *)
Definition diosfs_free_inode_and_mark_bitmap (n : Z) (dev : D) : outcome D :=
  let! _ := diosfs_read_inode n dev in
  let! dev := diosfs_write_inode (i_set_number (w16 n) zero_inode) dev in
  let! dev := diosfs_write_block_by_number (inode_start_pointer sb + n / NUM_INODES_PER_BLOCK) page 0 dev in
  diosfs_clear_bitmap sb BITMAP_TYPE_INODE n dev.

(** ** Finding a file's blocks *)
Definition diosfs_get_relative_block_number_from_file (i : inode) (n : Z) (dev : D) : outcome Z :=
  let! x := diosfs_indirection_indices_for_block_number n in
  match levels_indirection x with
  | 0 => get_block i (direct_block_number x)
  | 1 =>
    let! buf := diosfs_read_block_by_number (single_indirect i) page 0 dev in
    get_u64 buf (first_level x)
  | 2 =>
    let! buf := diosfs_read_block_by_number (double_indirect i) page 0 dev in
    let! b := get_u64 buf (second_level x) in
    let! buf := diosfs_read_block_by_number b buf 0 dev in
    get_u64 buf (first_level x)
  | 3 =>
    let! buf := diosfs_read_block_by_number (triple_indirect i) page 0 dev in
    let! b := get_u64 buf (third_level x) in
    let! buf := diosfs_read_block_by_number b buf 0 dev in
    let! b := get_u64 buf (second_level x) in
    let! buf := diosfs_read_block_by_number b buf 0 dev in
    get_u64 buf (first_level x)
  | _ => Panic
  end.

(** ** Allocating a file's blocks *)

(** Fresh blocks for the entries [i], [i+1], ... of an indirection block. *)
Fixpoint alloc_entries (k : nat) (i : Z) (buf : list Z) (dev : D) : outcome (list Z * D) :=
  match k with
  | O => Ok (buf, dev)
  | S k =>
    let! (n, dev) := get_free_block dev in
    let! buf := set_u64 buf i n in
    alloc_entries k (i + 1) buf dev
  end.

Definition diosfs_allocate_single_indirect_block (i : inode) (num_allocated num_to_allocate : Z)
    (higher_order : bool) (block_number : Z) (dev : D) : outcome (Z * inode * D) :=
  let num_to_allocate :=
    if NUM_BLOCKS_IN_INDIRECTION_BLOCK <=? w64 (num_allocated + num_to_allocate)
    then w64 (NUM_BLOCKS_IN_INDIRECTION_BLOCK - num_allocated) else num_to_allocate in
  let! (single, i, dev) :=
    (if higher_order && (block_number =? 0) then
       let! (n, dev) := get_free_block dev in Ok (n, i, dev)
     else if negb higher_order && (block_number =? 0) then
       let! (n, dev) := (if single_indirect i =? 0 then get_free_block dev else Ok (single_indirect i, dev)) in
       Ok (n, i_set_single n i, dev)
     else Ok (block_number, i, dev)) in
  let! buf := diosfs_read_block_by_number single page 0 dev in
  let! (buf, dev) := alloc_entries (Z.to_nat (w64 (num_to_allocate + num_allocated) - num_allocated)) num_allocated buf dev in
  let! dev := diosfs_write_block_by_number single buf 0 dev in
  let! dev := diosfs_write_inode i dev in
  Ok (single, i, dev).

(** The loop of diosfs_allocate_double_indirect_block. *)
Fixpoint double_loop (fuel : nat) (i : inode) (num index allocated block : Z) (buf : list Z) (dev : D)
  : outcome (inode * list Z * D) :=
  match fuel with
  | O => Timeout
  | S fuel =>
    if num <=? 0 then Ok (i, buf, dev)
    else
      let amount := if num <? NUM_BLOCKS_IN_INDIRECTION_BLOCK then num else NUM_BLOCKS_IN_INDIRECTION_BLOCK in
      let! (n, i, dev) := diosfs_allocate_single_indirect_block i allocated amount true block dev in
      let! buf := set_u64 buf index n in
      let! block := get_u64 buf (index + 1) in
      double_loop fuel i (num - amount) (index + 1) 0 block buf dev
  end.

Definition diosfs_allocate_double_indirect_block (i : inode) (num_allocated num_to_allocate : Z)
    (higher_order : bool) (block_number : Z) (dev : D) : outcome (Z * inode * D) :=
  let! (double, i, dev) :=
    (if higher_order && (block_number =? 0) then
       let! (n, dev) := get_free_block dev in Ok (n, i, dev)
     else if negb higher_order && (block_number =? 0) then
       let! (n, dev) := (if double_indirect i =? 0 then get_free_block dev else Ok (double_indirect i, dev)) in
       Ok (n, i_set_double n i, dev)
     else Ok (block_number, i, dev)) in
  let! buf := diosfs_read_block_by_number double page 0 dev in
  let index := num_allocated / NUM_BLOCKS_IN_INDIRECTION_BLOCK in
  let allocated := num_allocated mod NUM_BLOCKS_IN_INDIRECTION_BLOCK in
  let! block := (if 0 <? num_allocated then get_u64 buf index else Ok 0) in
  let! (i, buf, dev) := double_loop (S (Z.to_nat num_to_allocate)) i num_to_allocate index allocated block buf dev in
  let! dev := diosfs_write_block_by_number double buf 0 dev in
  let! dev := diosfs_write_inode i dev in
  Ok (double, i, dev).

Fixpoint triple_loop (fuel : nat) (i : inode) (num index allocated : Z) (buf : list Z) (dev : D)
  : outcome (inode * list Z * D) :=
  match fuel with
  | O => Timeout
  | S fuel =>
    if num <=? 0 then Ok (i, buf, dev)
    else
      let amount := if num <? NUM_BLOCKS_DOUBLE_INDIRECTION then num else NUM_BLOCKS_DOUBLE_INDIRECTION in
      let! (n, i, dev) := diosfs_allocate_double_indirect_block i allocated amount true 0 dev in
      let! buf := set_u64 buf index n in
      triple_loop fuel i (num - amount) (index + 1) 0 buf dev
  end.

Definition diosfs_allocate_triple_indirect_block (i : inode) (num_allocated num_to_allocate : Z) (dev : D)
  : outcome (Z * inode * D) :=
  let! (triple, dev) := (if triple_indirect i =? 0 then get_free_block dev else Ok (triple_indirect i, dev)) in
  let i := i_set_triple triple i in
  let! buf := diosfs_read_block_by_number triple page 0 dev in
  let index := num_allocated / NUM_BLOCKS_DOUBLE_INDIRECTION in
  let allocated := num_allocated mod NUM_BLOCKS_DOUBLE_INDIRECTION in
  let! (i, buf, dev) := triple_loop (S (Z.to_nat num_to_allocate)) i num_to_allocate index allocated buf dev in
  let! dev := diosfs_write_block_by_number triple buf 0 dev in
  Ok (triple, i, dev).

(** The direct blocks [k] onwards, [turns] of them at most: the inode, how many
    blocks are still wanted and whether that reached zero in the loop. *)
Fixpoint direct_loop (turns : nat) (k num : Z) (i : inode) (dev : D) : outcome (inode * Z * bool * D) :=
  match turns with
  | O => Ok (i, num, false, dev)
  | S turns =>
    let! (n, dev) := get_free_block dev in
    let! i := set_block i k n in
    let i := i_set_count (block_count i + 1) i in
    let num := w32 (num - 1) in
    if num =? 0 then Ok (i, num, true, dev) else direct_loop turns (k + 1) num i dev
  end.

(** How many of [num] blocks fit behind [allocated] of [total]. *)
Definition fit (num allocated total : Z) : Z :=
  if total <? w64 (num + allocated) then w64 (total - allocated) else num.

Definition level_three (num : Z) (i : inode) (dev : D) : outcome (inode * Z * D) :=
  let allocated := w64 (w32 (block_count i - NUM_BLOCKS_DIRECT) - NUM_BLOCKS_IN_INDIRECTION_BLOCK
                        - NUM_BLOCKS_DOUBLE_INDIRECTION) in
  let here := fit num allocated NUM_BLOCKS_TRIPLE_INDIRECTION in
  let! (_, i, dev) := diosfs_allocate_triple_indirect_block i allocated here dev in
  Ok (i_set_count (block_count i + here) i, w32 (num - here), dev).

Definition level_two (num : Z) (i : inode) (dev : D) : outcome (inode * Z * D) :=
  let allocated := w64 (w32 (block_count i - NUM_BLOCKS_DIRECT) - NUM_BLOCKS_IN_INDIRECTION_BLOCK) in
  let here := fit num allocated NUM_BLOCKS_DOUBLE_INDIRECTION in
  let! (_, i, dev) := diosfs_allocate_double_indirect_block i allocated here false 0 dev in
  let i := i_set_count (block_count i + here) i in
  let num := w32 (num - here) in
  if num =? 0 then Ok (i, num, dev) else level_three num i dev.

Definition level_one (num : Z) (i : inode) (dev : D) : outcome (inode * Z * D) :=
  let allocated := w32 (block_count i - NUM_BLOCKS_DIRECT) in
  let here := fit num allocated NUM_BLOCKS_IN_INDIRECTION_BLOCK in
  let! (_, i, dev) := diosfs_allocate_single_indirect_block i allocated here false 0 dev in
  let i := i_set_count (block_count i + here) i in
  let num := w32 (num - here) in
  if num =? 0 then Ok (i, num, dev) else level_two num i dev.

Definition level_zero (num : Z) (i : inode) (dev : D) : outcome (inode * Z * D) :=
  let! (i, num, finished, dev) :=
    direct_loop (Z.to_nat (NUM_BLOCKS_DIRECT - block_count i)) (block_count i) num i dev in
  if (finished : bool) then Ok (i, num, dev) else level_one num i dev.

(** diosfs_inode_allocate_new_blocks; the labels of its gotos are the levels. *)
Definition diosfs_inode_allocate_new_blocks (i : inode) (num : Z) (dev : D) : outcome (Z * inode * D) :=
  if (itype i =? VNODE_DIRECTORY) && (NUM_BLOCKS_DIRECT <? num + isize i / bsize) then Ok (DIOSFS_ERROR, i, dev)
  else if MAX_BLOCKS_IN_INODE <? num + isize i / bsize then Ok (DIOSFS_ERROR, i, dev)
  else
    let! x := diosfs_indirection_indices_for_block_number
                (if isize i mod bsize =? 0 then isize i / bsize else isize i / bsize + 1) in
    let! (i, num, dev) :=
      match levels_indirection x with
      | 0 => level_zero num i dev
      | 1 => level_one num i dev
      | 2 => level_two num i dev
      | 3 => level_three num i dev
      | _ => Panic
      end in
    if negb (num =? 0) then Panic
    else
      let! dev := diosfs_write_inode i dev in
      Ok (DIOSFS_SUCCESS, i, dev).

End Ops.
End Diosfs.
