(* ===== verification/DiosfsFile.v ===== *)
(** * Files and directories of diosfs (filesystem/diosfs.c)

    Reading and writing the bytes of a file, the entries of a directory and
    removal.  An in-memory inode that a C function changes through its pointer is
    returned next to the device. *)

From S2P Require Import Prelude BlockDevice DiosfsLayout DiosfsBitmap Strings Diosfs.

Module Files.
Import Layout Bitmap Diosfs.

(** [dst] with the C string of [src] copied to offset [o] by safe_strcpy. *)
Definition strcpy_at (dst : list Z) (o : nat) (src : list Z) (size : Z) : outcome (list Z) :=
  let! r := Strings.safe_strcpy (drop o dst) src size in
  Ok (take o dst ++ r).

(** The bytes from [inode->name] to the end of the inode, as a source string. *)
Definition name_of (i : inode) : list Z := drop 10 (encode_inode i).

(** safe_strcpy into [inode->name] *)
Definition set_name (i : inode) (src : list Z) : outcome inode :=
  let! bs := strcpy_at (encode_inode i) 10 src MAX_FILENAME_LENGTH in
  Ok (decode_inode bs).

Section Ops.
Context {D : Type} `{BlockDevice D}.
Context (sb : superblock) (fresh : Z -> list Z).
Abbreviation bsize := (sb_block_size sb).
Abbreviation page := (fresh PAGE_SIZE).
Abbreviation dpb := (dirents_per_block sb).
Abbreviation read_block := (diosfs_read_block_by_number sb).
Abbreviation write_block := (diosfs_write_block_by_number sb).
Abbreviation read_inode := (diosfs_read_inode sb).
Abbreviation write_inode := (diosfs_write_inode sb).
Abbreviation get_free_block := (diosfs_get_free_block_and_mark_bitmap sb fresh).
Abbreviation get_free_inode := (diosfs_get_free_inode_and_mark_bitmap sb fresh).
Abbreviation free_block := (diosfs_free_block_and_mark_bitmap sb fresh).

(** ** Reading a file *)

(** Blocks [i], [i+1], ...: [done_] bytes are in the buffer, [left] are wanted. *)
Fixpoint read_loop (turns : nat) (i : Z) (node : inode) (done_ left start_offset : Z)
    (buffer : list Z) (dev : D) : outcome (list Z) :=
  match turns with
  | O => Ok buffer
  | S turns =>
    let byte_size := if w64 (bsize - start_offset) <? left then w64 (bsize - start_offset) else left in
    let! n := diosfs_get_relative_block_number_from_file sb fresh node i dev in
    let! buffer := read_block n buffer (Z.to_nat done_) dev in
    read_loop turns (i + 1) node (done_ + byte_size) (left - byte_size) 0 buffer dev
  end.

Definition diosfs_read_bytes_from_inode (node : inode) (buffer : list Z) (buffer_size offset read_size : Z)
    (dev : D) : outcome (Z * list Z) :=
  let num := read_size / bsize in
  if negb (itype node =? VNODE_FILE) then Panic
  else if (buffer_size <? bsize) || (buffer_size <? w64 (bsize * num)) then Ok (DIOSFS_BUFFER_TOO_SMALL, buffer)
  else if isize node <? offset then Panic
  else
    let! buffer := read_loop (S (Z.to_nat num)) (offset / bsize) node 0 read_size (offset mod bsize) buffer dev in
    Ok (DIOSFS_SUCCESS, buffer).

(** ** Directories *)

(** One block of entries copied to the caller's array: the entries from [i] on,
    for [turns] of them; the flag says whether [total] entries were reached. *)
Fixpoint copy_dirents (turns : nat) (i : Z) (block : list Z) (read total : Z) (children : list Z)
  : outcome (Z * list Z * bool) :=
  match turns with
  | O => Ok (read, children, false)
  | S turns =>
    if read =? total then Ok (read, children, true)
    else
      let! e := peek block (Z.to_nat (sizeof_dirent * i)) (Z.to_nat sizeof_dirent) in
      let! children := blit children (Z.to_nat (sizeof_dirent * read)) e in
      copy_dirents turns (i + 1) block (read + 1) total children
  end.

(** [fuel] bounds the blocks: the eleventh is outside the array of ten. *)
Fixpoint entries_loop (fuel : nat) (node : inode) (k : Z) (buf : list Z) (read : Z) (children : list Z) (dev : D)
  : outcome (list Z) :=
  match fuel with
  | O => Timeout
  | S fuel =>
    let! n := get_block node k in
    let! buf := read_block n buf 0 dev in
    let! (read, children, finished) := copy_dirents (Z.to_nat dpb) 0 buf read (isize node) children in
    if (finished : bool) then Ok children else entries_loop fuel node (k + 1) buf read children dev
  end.

Definition diosfs_get_directory_entries (children : list Z) (number children_size : Z) (dev : D)
  : outcome (Z * list Z) :=
  let! node := read_inode number dev in
  if negb (itype node =? VNODE_DIRECTORY) then Ok (DIOSFS_NOT_A_DIRECTORY, children)
  else if children_size <? w64 (block_count node * bsize) then Ok (DIOSFS_BUFFER_TOO_SMALL, children)
  else
    let! children := entries_loop 11 node 0 page 0 children dev in
    Ok (DIOSFS_SUCCESS, children).

(** The search of diosfs_find_directory_entry_and_update in one block.  Its
    count of entries read stays 0, so only an empty directory ends it early. *)
Fixpoint find_dirent (turns : nat) (i : Z) (block : list Z) (number size : Z) : outcome (option Z) :=
  match turns with
  | O => Ok None
  | S turns =>
    if size =? 0 then Panic
    else
      let! e := get_dirent block i in
      if d_inode_number e =? number then Ok (Some i) else find_dirent turns (i + 1) block number size
  end.

Fixpoint find_loop (fuel : nat) (dir : inode) (k : Z) (buf : list Z) (number : Z) (dev : D)
  : outcome (Z * Z * list Z) :=
  match fuel with
  | O => Timeout
  | S fuel =>
    let! n := get_block dir k in
    let! buf := read_block n buf 0 dev in
    let! r := find_dirent (Z.to_nat dpb) 0 buf number (isize dir) in
    match r with
    | Some i => Ok (n, i, buf)
    | None => find_loop fuel dir (k + 1) buf number dev
    end
  end.

Definition update_dirent (buf : list Z) (i : Z) (entry : inode) : outcome (list Z) :=
  let o := Z.to_nat (sizeof_dirent * i) in
  let! buf := strcpy_at buf o (name_of entry) MAX_FILENAME_LENGTH in
  let! buf := blit buf (o + 140) (le_bytes 4 (isize entry)) in
  blit buf (o + 132) (le_bytes 4 (parent_inode_number entry)).

Definition diosfs_find_directory_entry_and_update (number directory : Z) (dev : D) : outcome (Z * D) :=
  let! entry := read_inode number dev in
  let! dir := read_inode directory dev in
  if negb (itype dir =? VNODE_DIRECTORY) then Ok (DIOSFS_NOT_A_DIRECTORY, dev)
  else
    let! (n, i, buf) := find_loop 11 dir 0 page number dev in
    let! buf := update_dirent buf i entry in
    if negb (parent_inode_number entry =? directory) then Panic
    else
      let! dev := write_block n buf 0 dev in
      Ok (DIOSFS_SUCCESS, dev).

(** diosfs_write_dirent; the inode is read again from the disk *)
Definition diosfs_write_dirent (dir : inode) (entry : dirent) (dev : D) : outcome (Z * inode * D) :=
  if isize dir =? max_dirents sb then Ok (DIOSFS_CANT_ALLOCATE_BLOCKS_FOR_DIR, dir, dev)
  else
    let! dir := read_inode (inode_number dir) dev in
    let block := isize dir / dpb in
    let entry_in_block := isize dir mod dpb in
    let! (dir, dev) :=
      (if ((entry_in_block =? 0) && (block_count dir <? block)) || (block_count dir =? 0) then
         let! (n, dev) := get_free_block dev in
         let! dir := set_block dir block n in
         Ok (i_set_count (block_count dir + 1) dir, dev)
       else Ok (dir, dev)) in
    let! n := get_block dir block in
    let! buf := read_block n page 0 dev in
    let! buf := set_dirent buf entry_in_block entry in
    let dir := i_set_size (isize dir + 1) dir in
    let! dev := write_block n buf 0 dev in
    let! dev := write_inode dir dev in
    Ok (DIOSFS_SUCCESS, dir, dev).

(** ** Writing a file *)

(** Each block receives [block_size] bytes from the caller's pointer [pos]. *)
Fixpoint write_loop (turns : nat) (i : Z) (node : inode) (pos left start_offset : Z)
    (buffer : list Z) (dev : D) : outcome D :=
  match turns with
  | O => Ok dev
  | S turns =>
    let byte_size := if w64 (bsize - start_offset) <? left then w64 (bsize - start_offset) else left in
    let! n := diosfs_get_relative_block_number_from_file sb fresh node i dev in
    let! dev := write_block n buffer (Z.to_nat pos) dev in
    write_loop turns (i + 1) node (pos + byte_size) (left - byte_size) 0 buffer dev
  end.

Definition diosfs_write_bytes_to_inode (node : inode) (buffer : list Z) (buffer_size offset write_size : Z)
    (dev : D) : outcome (Z * inode * D) :=
  if negb (itype node =? VNODE_FILE) then Panic
  else
    let num := write_size / bsize in
    let start_block := offset / bsize in
    let start_offset := offset mod bsize in
    let num := if negb (w64 (start_offset + write_size) / bsize =? 0) && (num =? 0) then 1 else num in
    if buffer_size <? write_size then Ok (DIOSFS_BUFFER_TOO_SMALL, node, dev)
    else if isize node <? offset then Panic
    else
      let added := if isize node <? w64 (offset + write_size) then w64 (offset + write_size) - isize node else 0 in
      let! (node, dev) :=
        (if isize node =? 0 then
           let node := i_set_count (block_count node + 1) node in
           let! (n, dev) := get_free_block dev in
           let! node := set_block node 0 n in
           let! dev := write_inode node dev in
           let! node := read_inode (inode_number node) dev in
           Ok (node, dev)
         else Ok (node, dev)) in
      let end_block := w64 (start_block + num) in
      let! (node, dev) :=
        (if block_count node <? w64 (end_block + 1) then
           let! (_, node, dev) := diosfs_inode_allocate_new_blocks sb fresh node
                                    (w32 (end_block + 1 - block_count node)) dev in
           Ok (i_set_count (end_block + 1) node, dev)
         else Ok (node, dev)) in
      let! dev := write_loop (S (Z.to_nat num)) start_block node 0 write_size start_offset buffer dev in
      let node := i_set_size (isize node + added) node in
      let! dev := write_inode node dev in
      let! (_, dev) := diosfs_find_directory_entry_and_update (inode_number node) (parent_inode_number node) dev in
      Ok (DIOSFS_SUCCESS, node, dev).

(** ** Removal *)

(** One turn of the loops of free_blocks_from_inode. *)
Definition free_one (n num : Z) (dev : D) : outcome (Z * D) :=
  let! dev := free_block n dev in Ok (w64 (num - 1), dev).

(** The block numbers [get i], [get (i+1)], ... are released until [num] is
    zero; the flag says whether it got there. *)
Fixpoint free_run (get : Z -> outcome Z) (turns : nat) (i num : Z) (dev : D) : outcome (Z * bool * D) :=
  match turns with
  | O => Ok (num, false, dev)
  | S turns =>
    let! n := get i in
    let! (num, dev) := free_one n num dev in
    if num =? 0 then Ok (num, true, dev) else free_run get turns (i + 1) num dev
  end.

Abbreviation PER := NUM_BLOCKS_IN_INDIRECTION_BLOCK.

(** Indirection blocks [get i], [get (i+1)], ..., each read and passed to
    [inner]; [buf2] is the buffer they are read into. *)
Fixpoint free_blocks_of (get : Z -> outcome Z) (inner : list Z -> Z -> D -> outcome (Z * bool * D))
    (turns : nat) (i : Z) (buf2 : list Z) (num : Z) (dev : D) : outcome (Z * bool * D) :=
  match turns with
  | O => Ok (num, false, dev)
  | S turns =>
    let! n := get i in
    let! buf2 := read_block n buf2 0 dev in
    let! (num, finished, dev) := inner buf2 num dev in
    if (finished : bool) then Ok (num, true, dev) else free_blocks_of get inner turns (i + 1) buf2 num dev
  end.

(** [from]..128 of the block numbers in a buffer. *)
Definition free_entries (from : Z) (buf : list Z) (num : Z) (dev : D) : outcome (Z * bool * D) :=
  free_run (get_u64 buf) (Z.to_nat (PER - from)) from num dev.

(** The labels level_three to level_zero of free_blocks_from_inode.  Of a buffer
    only the block last read into it is used. *)
Definition free_level_three (t : Z) (node : inode) (num : Z) (dev : D) : outcome (Z * D) :=
  let! buf := read_block (triple_indirect node) page 0 dev in
  let inner2 (buf2 : list Z) :=
    free_blocks_of (get_u64 buf2) (free_entries (t mod PER)) (Z.to_nat (PER - t / PER)) (t / PER) page in
  let first := t / NUM_BLOCKS_DOUBLE_INDIRECTION in
  let! (num, _, dev) := free_blocks_of (get_u64 buf) inner2 (Z.to_nat (PER - first)) first page num dev in
  Ok (num, dev).

Definition free_level_two (t : Z) (node : inode) (num : Z) (dev : D) : outcome (Z * D) :=
  let! buf := read_block (double_indirect node) page 0 dev in
  let! (num, finished, dev) :=
    free_blocks_of (get_u64 buf) (free_entries (t mod PER)) (Z.to_nat (PER - t / PER)) (t / PER) page num dev in
  if (finished : bool) then Ok (num, dev) else free_level_three 0 node num dev.

Definition free_level_one (t : Z) (node : inode) (num : Z) (dev : D) : outcome (Z * D) :=
  let! buf := read_block (single_indirect node) page 0 dev in
  let! (num, finished, dev) := free_entries t buf num dev in
  if (finished : bool) then Ok (num, dev) else free_level_two 0 node num dev.

Definition free_level_zero (t : Z) (node : inode) (num : Z) (dev : D) : outcome (Z * D) :=
  let! (num, finished, dev) :=
    free_run (get_block node) (Z.to_nat (NUM_BLOCKS_DIRECT - t)) t num dev in
  if (finished : bool) then Ok (num, dev) else free_level_one 0 node num dev.

(** free_blocks_from_inode; what is subtracted from the block count at the end
    is the number of blocks that were not released *)
Definition free_blocks_from_inode (block_start num : Z) (node : inode) (dev : D) : outcome (inode * D) :=
  if block_count node =? 0 then Ok (node, dev)
  else
    let! x := diosfs_indirection_indices_for_block_number block_start in
    let! (num, dev) :=
      match levels_indirection x with
      | 0 => free_level_zero (direct_block_number x) node num dev
      | 1 => free_level_one (first_level x) node num dev
      | 2 => free_level_two (second_level x) node num dev
      | 3 => free_level_three (third_level x) node num dev
      | _ => Panic
      end in
    Ok (i_set_count (block_count node - num) node, dev).

Definition diosfs_remove_file (node : inode) (dev : D) : outcome (inode * D) :=
  let! (node, dev) := free_blocks_from_inode 0 (block_count node) node dev in
  let node := i_set_name (replicate 128 0) node in
  let! dev := write_inode node dev in
  let! dev := diosfs_free_inode_and_mark_bitmap sb fresh (inode_number node) dev in
  Ok (node, dev).

(** The removal of a file's last link, or of one of several. *)
Definition drop_link (number : Z) (dev : D) : outcome D :=
  let! node := read_inode number dev in
  if refcount node <=? 1 then let! (_, dev) := diosfs_remove_file node dev in Ok dev
  else write_inode (i_set_refcount (w16 (refcount node - 1)) node) dev.

(** The loop of diosfs_recursive_directory_entry_free over the entries of [node];
    [rec] is the recursive call.  The types are taken from [entries[i]] and the
    numbers of files from [entries[i % 7]]. *)
Fixpoint recursive_loop (rec : dirent -> D -> outcome D) (turns : nat) (i : Z) (node : inode)
    (buf : list Z) (dev : D) : outcome D :=
  match turns with
  | O => Ok dev
  | S turns =>
    let! buf := (if i mod dpb =? 0
                 then let! n := get_block node (i / dpb) in read_block n buf 0 dev
                 else Ok buf) in
    let! e := get_dirent buf i in
    let! m := get_dirent buf (i mod dpb) in
    let! dev :=
      (if dtype e =? VNODE_FILE then drop_link (d_inode_number m) dev
       else if dtype e =? VNODE_DIRECTORY then rec e dev
       else
         let! t := read_inode (d_inode_number m) dev in
         let! (_, dev) := diosfs_remove_file t dev in Ok dev) in
    recursive_loop rec turns (i + 1) node buf dev
  end.

(** [fuel] bounds the depth of the directory tree. *)
Fixpoint diosfs_recursive_directory_entry_free (fuel : nat) (entry : option dirent) (number : Z) (dev : D)
  : outcome D :=
  match fuel with
  | O => Timeout
  | S fuel =>
    let! node := read_inode (match entry with Some e => d_inode_number e | None => number end) dev in
    let! dev := recursive_loop (fun e => diosfs_recursive_directory_entry_free fuel (Some e) 0)
                  (Z.to_nat (isize node)) 0 node page dev in
    let! (node, dev) := diosfs_remove_file node dev in
    write_inode node dev
  end.

(** What diosfs_directory_entry_free does when it has found the entry, [i], in
    the block of entries [buf]: the entry at index [size], one past the last, is
    moved to its place. *)
Definition remove_dirent (depth : nat) (parent : inode) (i : Z) (buf : list Z) (dev : D) : outcome (Z * D) :=
  let j := i mod dpb in
  let! e := get_dirent buf j in
  let! dev :=
    (if dtype e =? VNODE_DIRECTORY then diosfs_recursive_directory_entry_free depth (Some e) 0 dev
     else
       let! e' := get_dirent buf i in
       if dtype e' =? VNODE_FILE then drop_link (d_inode_number e) dev else Ok dev) in
  let! target := get_block parent (i / dpb) in
  let! (parent, buf, dev) :=
    (if 1 <? isize parent then
       let! last := get_block parent (isize parent / dpb) in
       let! shift := read_block last page 0 dev in
       let! moved := peek shift (Z.to_nat (sizeof_dirent * (isize parent mod dpb))) (Z.to_nat sizeof_dirent) in
       let! buf := blit buf (Z.to_nat (sizeof_dirent * j)) moved in
       let! (parent, dev) :=
         (if isize parent mod dpb =? 0 then
            let! dev := free_block last dev in
            Ok (i_set_count (block_count parent - 1) parent, dev)
          else Ok (parent, dev)) in
       let! dev := write_block target buf 0 dev in
       Ok (parent, buf, dev)
     else
       let! buf := set_dirent buf j zero_dirent in
       Ok (parent, buf, dev)) in
  let! dev := write_block target buf 0 dev in
  let! dev := write_inode (i_set_size (isize parent - 1) parent) dev in
  Ok (DIOSFS_SUCCESS, dev).

Fixpoint free_dirent_loop (depth turns : nat) (i : Z) (parent : inode) (number : Z) (buf : list Z) (dev : D)
  : outcome (Z * D) :=
  match turns with
  | O => Ok (DIOSFS_NOT_FOUND, dev)
  | S turns =>
    let! buf := (if i mod dpb =? 0
                 then let! n := get_block parent (i / dpb) in read_block n buf 0 dev
                 else Ok buf) in
    let! e := get_dirent buf (i mod dpb) in
    if d_inode_number e =? number then remove_dirent depth parent i buf dev
    else free_dirent_loop depth turns (i + 1) parent number buf dev
  end.

(** diosfs_directory_entry_free; the entry, or the inode when it is absent *)
Definition diosfs_directory_entry_free (depth : nat) (entry : option dirent) (node : inode) (dev : D)
  : outcome (Z * D) :=
  let! parent := read_inode (match entry with Some e => d_parent_inode_number e
                                            | None => parent_inode_number node end) dev in
  let number := match entry with Some e => d_inode_number e | None => inode_number node end in
  free_dirent_loop depth (Z.to_nat (isize parent)) 0 parent number page dev.

(** shift_directory_entry; [last_entry] is [size - (1 % 7)], and the entry that
    is cleared is the one with the number of the last block *)
Definition shift_directory_entry (entry_number : Z) (parent : inode) (dev : D) : outcome D :=
  if entry_number =? w32 (isize parent - 1) then Ok dev
  else
    let! target := get_block parent (entry_number / dpb) in
    let! last := get_block parent (isize parent / dpb) in
    let last_entry := w64 (isize parent - 1 mod dpb) in
    let! buf := read_block target page 0 dev in
    let! shift := read_block last page 0 dev in
    let! moved := peek shift (Z.to_nat (sizeof_dirent * last_entry)) (Z.to_nat sizeof_dirent) in
    let! buf := blit buf (Z.to_nat (sizeof_dirent * (entry_number mod dpb))) moved in
    let! shift := set_dirent shift last zero_dirent in
    let! dev := write_block target buf 0 dev in
    let! dev := write_block last shift 0 dev in
    write_inode parent dev.

End Ops.
End Files.
