(* ===== verification/DiosfsBlocks.v ===== *)
(** * Blocks and inodes of a diosfs disk, abstractly

    The disk as a map from block numbers to blocks and from inode numbers to
    inodes, and what the operations of Diosfs.v do to it. *)

From S2P Require Import Prelude BlockDevice DiosfsLayout DiosfsBitmap Diosfs.

Module DiosfsBlocks.
Import Layout Bitmap Diosfs.

Section Spec.
Context {D : Type} `{BlockDeviceSpec D}.
Context (sb : superblock) (fresh : Z -> list Z).
Abbreviation bs := (sb_block_size sb).
Hypothesis size_ok : bd_size = bs.
Hypothesis bs_ok : bs = DIOSFS_BLOCKSIZE.
Hypothesis fresh_length : forall n, 0 <= n -> length (fresh n) = Z.to_nat n.

(** Block [b] of the disk. *)
Definition blk (b : Z) (dev : D) : list Z := region sb b 1 dev.

(** The disks of the same size on which one block, [b], may differ. *)
Record wrote (dev : D) (b : Z) (new : list Z) (dev' : D) : Prop := mk_wrote {
  wrote_wf : bd_wf dev';
  wrote_range : forall b' c, in_range dev' b' c <-> in_range dev b' c;
  wrote_here : blk b dev' = new;
  wrote_else : forall b', b' ≠ b -> in_range dev b' 1 -> blk b' dev' = blk b' dev;
}.

Lemma length_blk b dev : in_range dev b 1 -> length (blk b dev) = 1024%nat.
Proof.
  intros Hr. unfold blk. rewrite (length_region sb size_ok) by done. rewrite bs_ok. done.
Qed.

Lemma block_read_blk b buf dev :
  bd_wf dev -> in_range dev b 1 -> (1024 <= length buf)%nat ->
  block_read b 1 buf dev = Ok (DIOSFS_SUCCESS, splice 0 (blk b dev) buf).
Proof.
  intros. apply (block_read_region sb size_ok); [done|done|]. rewrite bs_ok. change (1 * DIOSFS_BLOCKSIZE) with 1024. lia.
Qed.

Lemma dread_blk b buf dev :
  bd_wf dev -> in_range dev b 1 -> (1024 <= length buf)%nat ->
  dread b 1 buf dev = Ok (splice 0 (blk b dev) buf).
Proof. intros. unfold dread. by rewrite block_read_blk. Qed.

Lemma blk_range b dev : in_range dev b 1 ->
  0 <= b /\ b * 1024 + 1024 <= Z.of_nat (length (bd_bytes dev)).
Proof.
  intros Hr. pose proof (range_length sb size_ok _ _ _ Hr) as Hx. rewrite bs_ok in Hx.
  change DIOSFS_BLOCKSIZE with 1024 in Hx. lia.
Qed.

Lemma blk_eq b dev : blk b dev = slice (Z.to_nat (b * 1024)) 1024 (bd_bytes dev).
Proof. unfold blk, region. by rewrite bs_ok. Qed.

Lemma dwrite_blk b buf dev :
  bd_wf dev -> in_range dev b 1 -> (1024 <= length buf)%nat ->
  exists dev', dwrite b 1 buf dev = Ok dev' /\ wrote dev b (take 1024 buf) dev'.
Proof.
  intros Hw Hr Hl. destruct (dwrite_ok sb size_ok b 1 buf dev) as (dev' & E & Hw' & Hb'); [done|done| |].
  { rewrite bs_ok. change (1 * DIOSFS_BLOCKSIZE) with 1024. lia. }
  exists dev'. split; [done|]. pose proof (blk_range _ _ Hr) as (Hp0 & Hr1).
  rewrite bs_ok in Hb'. change (Z.to_nat (1 * DIOSFS_BLOCKSIZE)) with 1024%nat in Hb'.
  change DIOSFS_BLOCKSIZE with 1024 in Hb'.
  assert (Hlt : length (take 1024 buf) = 1024%nat) by (rewrite length_take; lia).
  assert (Hlen : length (bd_bytes dev') = length (bd_bytes dev)) by (rewrite Hb', length_splice; lia).
  constructor.
  - done.
  - intros b' c. unfold in_range. by rewrite Hlen.
  - rewrite blk_eq, Hb'. apply slice_splice_same; lia.
  - intros b' Hne Hr'. pose proof (blk_range _ _ Hr') as (Hp0' & Hr1'). rewrite !blk_eq, Hb'.
    apply slice_splice_disj; lia.
Qed.

(** ** Data blocks *)

(** Block [n] of the data area exists. *)
Definition data_ok (n : Z) (dev : D) : Prop :=
  0 <= n /\ block_start_pointer sb + n < 2 ^ 64 /\ in_range dev (block_start_pointer sb + n) 1.

Definition data (n : Z) (dev : D) : list Z := blk (block_start_pointer sb + n) dev.

Lemma data_addr n dev : data_ok n dev -> w64 (block_start_pointer sb + n) = block_start_pointer sb + n.
Proof. intros (? & ? & Hr). apply w64_small. destruct Hr. lia. Qed.

Lemma length_data n dev : data_ok n dev -> length (data n dev) = 1024%nat.
Proof. intros (? & ? & ?). by apply length_blk. Qed.

Lemma read_block_ok n buf pos dev :
  bd_wf dev -> data_ok n dev -> (pos + 1024 <= length buf)%nat ->
  diosfs_read_block_by_number sb n buf pos dev = Ok (splice pos (data n dev) buf).
Proof.
  intros Hw Hn Hl. unfold diosfs_read_block_by_number. rewrite (data_addr n dev) by done.
  pose proof Hn as (? & ? & Hr). rewrite dread_blk by (try done; rewrite length_drop; lia). cbn [obind].
  f_equal. fold (data n dev). unfold splice. change (take 0 (drop pos buf)) with (@nil Z). cbn [app Nat.add].
  rewrite drop_drop. done.
Qed.

Lemma write_block_ok n buf pos dev :
  bd_wf dev -> data_ok n dev -> (pos + 1024 <= length buf)%nat ->
  exists dev', diosfs_write_block_by_number sb n buf pos dev = Ok dev' /\
    wrote dev (block_start_pointer sb + n) (slice pos 1024 buf) dev'.
Proof.
  intros Hw Hn Hl. unfold diosfs_write_block_by_number. rewrite (data_addr n dev) by done.
  pose proof Hn as (? & ? & Hr). apply dwrite_blk; try done. rewrite length_drop. lia.
Qed.

Lemma wrote_data_ok dev b new dev' n : wrote dev b new dev' -> data_ok n dev' <-> data_ok n dev.
Proof. intros Hw. unfold data_ok. by rewrite (wrote_range _ _ _ _ Hw). Qed.

(** ** Inodes *)
Definition inode_ok (n : Z) (dev : D) : Prop := 0 <= n /\ in_range dev (inode_block sb n) 1.

Definition inode_at (n : Z) (dev : D) : inode :=
  decode_inode (slice (inode_offset n) 256 (blk (inode_block sb n) dev)).

Lemma inode_offset_le n : 0 <= n -> (inode_offset n + 256 <= 1024)%nat.
Proof.
  intros. unfold inode_offset. change NUM_INODES_PER_BLOCK with 4. change sizeof_inode with 256.
  pose proof (Z.mod_pos_bound n 4). lia.
Qed.

(** Two inodes of one block do not overlap. *)
Lemma inode_apart n m : 0 <= n -> 0 <= m -> n ≠ m -> inode_block sb n = inode_block sb m ->
  (inode_offset n + 256 <= inode_offset m \/ inode_offset m + 256 <= inode_offset n)%nat.
Proof.
  intros Hn Hm Hne. unfold inode_block, inode_offset. change NUM_INODES_PER_BLOCK with 4. change sizeof_inode with 256.
  intros E. pose proof (Z.div_mod n 4 ltac:(lia)). pose proof (Z.div_mod m 4 ltac:(lia)).
  pose proof (Z.mod_pos_bound n 4). pose proof (Z.mod_pos_bound m 4). lia.
Qed.

Lemma read_inode_ok n dev : bd_wf dev -> inode_ok n dev -> diosfs_read_inode sb n dev = Ok (inode_at n dev).
Proof.
  intros Hw (Hn & Hr). unfold diosfs_read_inode. rewrite bs_ok. change (Z.to_nat DIOSFS_BLOCKSIZE) with 1024%nat.
  rewrite dread_blk by (try done; by rewrite length_replicate). cbn [obind]. pose proof (inode_offset_le n Hn).
  unfold peek. change (Z.to_nat sizeof_inode) with 256%nat.
  pose proof (length_blk _ _ Hr) as Hl.
  assert (Hs : splice 0 (blk (inode_block sb n) dev) (replicate 1024 0) = blk (inode_block sb n) dev).
  { unfold splice. change (take 0 (replicate 1024 0)) with (@nil Z). cbn [app Nat.add].
    rewrite Hl, drop_ge by (by rewrite length_replicate). apply app_nil_r. }
  rewrite Hs, decide_True by lia. done.
Qed.

(** Writing an inode changes that inode and nothing else on the disk. *)
Record wrote_inode (dev : D) (i : inode) (dev' : D) : Prop := mk_wrote_inode {
  wi_wf : bd_wf dev';
  wi_range : forall b c, in_range dev' b c <-> in_range dev b c;
  wi_here : inode_at (inode_number i) dev' = i;
  wi_inode : forall m, m ≠ inode_number i -> inode_ok m dev -> inode_at m dev' = inode_at m dev;
  wi_blk : forall b, b ≠ inode_block sb (inode_number i) -> in_range dev b 1 -> blk b dev' = blk b dev;
}.

Lemma write_inode_ok i dev : bd_wf dev -> inode_wf i -> inode_ok (inode_number i) dev ->
  exists dev', diosfs_write_inode sb i dev = Ok dev' /\ wrote_inode dev i dev'.
Proof.
  intros Hw Hi (Hn & Hr). set (n := inode_number i) in *. unfold diosfs_write_inode. fold n. rewrite bs_ok.
  change (Z.to_nat DIOSFS_BLOCKSIZE) with 1024%nat.
  rewrite block_read_blk by (try done; by rewrite length_replicate). cbn [obind].
  pose proof (length_blk _ _ Hr) as Hl. pose proof (inode_offset_le n Hn) as Ho.
  assert (Hle : length (encode_inode i) = 256%nat) by (by apply length_encode_inode).
  assert (Hs : splice 0 (blk (inode_block sb n) dev) (replicate 1024 0) = blk (inode_block sb n) dev).
  { unfold splice. change (take 0 (replicate 1024 0)) with (@nil Z). cbn [app Nat.add].
    rewrite Hl, drop_ge by (by rewrite length_replicate). apply app_nil_r. }
  rewrite Hs. unfold blit. rewrite decide_True by lia. cbn [obind].
  set (new := splice (inode_offset n) (encode_inode i) (blk (inode_block sb n) dev)).
  assert (Hln : length new = 1024%nat) by (unfold new; rewrite length_splice; lia).
  destruct (dwrite_blk (inode_block sb n) new dev Hw Hr ltac:(lia)) as (dev' & E & Hw').
  exists dev'. split; [done|]. destruct Hw' as [Hwf Hrg Hhere Helse]. rewrite take_ge in Hhere by lia.
  constructor; [done|done| | |exact Helse].
  - unfold inode_at. fold n. rewrite Hhere. unfold new. rewrite slice_splice_same by lia. by apply decode_encode_inode.
  - intros m Hm (Hm0 & Hmr). unfold inode_at. f_equal.
    destruct (decide (inode_block sb m = inode_block sb n)) as [E'|E'].
    + rewrite E', Hhere. pose proof (inode_offset_le m Hm0). unfold new.
      apply slice_splice_disj; [lia|]. pose proof (inode_apart n m Hn Hm0 ltac:(done) ltac:(done)). lia.
    + by rewrite Helse.
Qed.

Lemma wrote_inode_ok dev i dev' n : wrote_inode dev i dev' -> inode_ok n dev' <-> inode_ok n dev.
Proof. intros Hw. unfold inode_ok. by rewrite (wi_range _ _ _ Hw). Qed.

Lemma wrote_inode_data dev i dev' n : wrote_inode dev i dev' -> inode_block sb (inode_number i) < block_start_pointer sb ->
  data_ok n dev -> data n dev' = data n dev.
Proof. intros Hw Hlt (? & ? & ?). apply (wi_blk _ _ _ Hw); [lia|done]. Qed.

Lemma wrote_inode_data_ok dev i dev' n : wrote_inode dev i dev' -> data_ok n dev' <-> data_ok n dev.
Proof. intros Hw. unfold data_ok. by rewrite (wi_range _ _ _ Hw). Qed.

(** A data block does not touch the inodes in front of the data area. *)
Lemma wrote_data_inode dev n new dev' m : wrote dev (block_start_pointer sb + n) new dev' -> 0 <= n ->
  inode_ok m dev -> inode_block sb m < block_start_pointer sb -> inode_at m dev' = inode_at m dev.
Proof.
  intros Hw Hn (? & Hr) Hlt. unfold inode_at. f_equal. f_equal. apply (wrote_else _ _ _ _ Hw); [lia|done].
Qed.

Lemma wrote_data_else dev n new dev' m : wrote dev (block_start_pointer sb + n) new dev' ->
  m ≠ n -> data_ok m dev -> data m dev' = data m dev.
Proof. intros Hw Hne (? & ? & ?). apply (wrote_else _ _ _ _ Hw); [lia|done]. Qed.

(** C10: an inode that is written is read back unchanged, whatever the disk held,
    every other inode reads as before and every block outside the inode's own
    block is untouched. *)
Theorem inode_write_read i dev :
  bd_wf dev -> inode_wf i -> inode_ok (inode_number i) dev ->
  exists dev', diosfs_write_inode sb i dev = Ok dev' /\ bd_wf dev' /\
    diosfs_read_inode sb (inode_number i) dev' = Ok i /\
    (forall m, m ≠ inode_number i -> inode_ok m dev -> diosfs_read_inode sb m dev' = diosfs_read_inode sb m dev) /\
    (forall b, b ≠ inode_block sb (inode_number i) -> in_range dev b 1 -> blk b dev' = blk b dev).
Proof.
  intros Hw Hi Ho. destruct (write_inode_ok i dev Hw Hi Ho) as (dev' & E & Hwi). exists dev'.
  pose proof (wi_wf _ _ _ Hwi) as Hw'. split_and!; [done|done| | |exact (wi_blk _ _ _ Hwi)].
  - rewrite read_inode_ok by (rewrite ?(wrote_inode_ok _ _ _ _ Hwi); done). by rewrite (wi_here _ _ _ Hwi).
  - intros m Hm Hmo. rewrite !read_inode_ok by (rewrite ?(wrote_inode_ok _ _ _ _ Hwi); done).
    by rewrite (wi_inode _ _ _ Hwi).
Qed.

End Spec.
End DiosfsBlocks.
