(* ===== verification/DiosfsDir.v ===== *)
(** * Directories of diosfs

    A directory is the sequence of its entries.  Listing it returns that
    sequence and diosfs_write_dirent appends to it, as long as the entry falls
    in a block the directory owns; at a block boundary it does not. *)

From S2P Require Import Prelude BlockDevice DiosfsLayout DiosfsBitmap Diosfs DiosfsFile DiosfsBlocks.

Module DiosfsDir.
Import Layout Bitmap Diosfs Files DiosfsBlocks.

Section Spec.
Context {D : Type} `{BlockDeviceSpec D}.
Context (sb : superblock) (fresh : Z -> list Z).
Abbreviation bs := (sb_block_size sb).
Hypothesis size_ok : bd_size = bs.
Hypothesis bs_ok : bs = DIOSFS_BLOCKSIZE.
Hypothesis fresh_length : forall n, 0 <= n -> length (fresh n) = Z.to_nat n.

Lemma dpb_eq : dirents_per_block sb = 7.
Proof. unfold dirents_per_block. by rewrite bs_ok. Qed.

Lemma max_eq : max_dirents sb = 71.
Proof. unfold max_dirents. by rewrite bs_ok. Qed.

Lemma page_length : length (fresh PAGE_SIZE) = 4096%nat.
Proof. by rewrite fresh_length. Qed.

(** Entry [k] of a directory, as its 144 bytes, and the whole directory. *)
Definition entry_bytes (dir : inode) (dev : D) (k : Z) : list Z :=
  slice (Z.to_nat (144 * (k mod 7))) 144 (data sb (blocks dir !!! Z.to_nat (k / 7)) dev).
Definition entries (dir : inode) (dev : D) : list (list Z) := map (entry_bytes dir dev) (seqZ 0 (isize dir)).

(** The blocks a directory of [size] entries (and one more) reaches. *)
Definition dir_blocks (dir : inode) : list Z := take (Z.to_nat (isize dir / 7 + 1)) (blocks dir).

Lemma splice_adjacent (o : nat) (a b l : list Z) : (o + length a + length b <= length l)%nat ->
  splice (o + length a) b (splice o a l) = splice o (a ++ b) l.
Proof.
  intros Hl. unfold splice. rewrite take_app_ge by (rewrite length_take; lia).
  rewrite length_take, Nat.min_l by lia. replace (o + length a - o)%nat with (length a) by lia.
  rewrite take_app_length. rewrite <- !app_assoc. f_equal. f_equal. rewrite length_app, Nat.add_assoc. f_equal.
  rewrite drop_app_ge by (rewrite length_take; lia). rewrite length_take, Nat.min_l by lia.
  rewrite drop_app_ge by lia. rewrite drop_drop. f_equal. lia.
Qed.

Lemma slice_adjacent {A} (o n m : nat) (l : list A) : (o + n + m <= length l)%nat ->
  slice o n l ++ slice (o + n) m l = slice o (n + m) l.
Proof.
  intros Hl. unfold slice. rewrite <- (take_drop n (take (n + m) (drop o l))). f_equal.
  - rewrite take_take. f_equal. lia.
  - rewrite <- drop_drop, skipn_firstn_comm. f_equal. lia.
Qed.

(** ** Listing *)
Lemma copy_dirents_ok block total : (1024 <= length block)%nat ->
  forall turns i read children, 0 <= i -> i + Z.of_nat turns = 7 -> 0 <= read <= total ->
  144 * total <= Z.of_nat (length children) ->
  let m := Z.min (Z.of_nat turns) (total - read) in
  copy_dirents turns i block read total children
  = Ok (read + m, splice (Z.to_nat (144 * read)) (slice (Z.to_nat (144 * i)) (Z.to_nat (144 * m)) block) children,
        total - read <? Z.of_nat turns).
Proof.
  intros Hb. induction turns as [|turns IH]; intros i read children Hi Ht Hr Hc m; cbn [copy_dirents].
  - replace m with 0 by lia. rewrite Z.add_0_r, (proj2 (Z.ltb_ge _ _)) by lia.
    change (slice (Z.to_nat (144 * i)) (Z.to_nat (144 * 0)) block) with (@nil Z). by rewrite splice_nil.
  - destruct (Z.eqb_spec read total) as [->|Hne].
    + replace m with 0 by lia. rewrite Z.add_0_r, (proj2 (Z.ltb_lt _ _)) by lia.
      change (slice (Z.to_nat (144 * i)) (Z.to_nat (144 * 0)) block) with (@nil Z). by rewrite splice_nil.
    + change sizeof_dirent with 144. unfold peek. rewrite decide_True by lia. cbn [obind]. unfold blit.
      set (e := slice _ (Z.to_nat 144) block). assert (Hle : length e = 144%nat) by (unfold e; rewrite length_slice; lia).
      rewrite decide_True by lia. cbn [obind]. rewrite IH by (rewrite ?length_splice; lia).
      assert (Hm : m = 1 + Z.min (Z.of_nat turns) (total - (read + 1))) by lia. rewrite Hm.
      set (m' := Z.min _ _). f_equal. f_equal; [|apply eq_true_iff_eq; rewrite !Z.ltb_lt; lia]. f_equal; [lia|].
      replace (Z.to_nat (144 * (read + 1))) with (Z.to_nat (144 * read) + length e)%nat by lia.
      rewrite splice_adjacent by (rewrite ?length_slice; lia). f_equal. unfold e.
      replace (Z.to_nat (144 * (i + 1))) with (Z.to_nat (144 * i) + 144)%nat by lia.
      change (Z.to_nat 144) with 144%nat. rewrite slice_adjacent by lia. f_equal. lia.
Qed.

(** The entries [from], [from+1], ... of a directory, [n] of them. *)
Definition entry_run (dir : inode) (dev : D) (from n : Z) : list Z :=
  concat (map (entry_bytes dir dev) (seqZ from n)).

Lemma seqZ_one m : seqZ m 1 = [m].
Proof. rewrite seqZ_cons by lia. done. Qed.

Lemma entry_run_block dir dev k m : 0 <= k -> 0 <= m <= 7 -> length (data sb (blocks dir !!! Z.to_nat k) dev) = 1024%nat ->
  entry_run dir dev (7 * k) m = slice 0 (Z.to_nat (144 * m)) (data sb (blocks dir !!! Z.to_nat k) dev).
Proof.
  intros Hk Hm Hl. assert (Hgen : forall j : nat, Z.of_nat j <= 7 ->
    entry_run dir dev (7 * k) (Z.of_nat j) = slice 0 (144 * j) (data sb (blocks dir !!! Z.to_nat k) dev)).
  { induction j as [|j IH]; intros Hj; [done|]. unfold entry_run in *.
    replace (Z.of_nat (S j)) with (Z.of_nat j + 1) by lia. rewrite seqZ_app, map_app, concat_app, IH by lia.
    rewrite seqZ_one. cbn [map concat]. rewrite app_nil_r. unfold entry_bytes.
    rewrite (Z.mul_comm 7 k), Z.div_add_l, (Z.div_small (Z.of_nat j)), Z.add_0_r by lia.
    rewrite Z.add_comm, Z.mod_add, Z.mod_small by lia.
    replace (Z.to_nat (144 * Z.of_nat j)) with (0 + 144 * j)%nat by lia.
    rewrite slice_adjacent by lia. f_equal. lia. }
  specialize (Hgen (Z.to_nat m) ltac:(lia)). rewrite Z2Nat.id in Hgen by lia. rewrite Hgen. f_equal. lia.
Qed.

Lemma length_entry_run dir dev from n : 0 <= n ->
  Forall (fun k => length (entry_bytes dir dev k) = 144%nat) (seqZ from n) ->
  length (entry_run dir dev from n) = Z.to_nat (144 * n).
Proof.
  intros Hn Hall. unfold entry_run. rewrite length_concat, map_map.
  replace (Z.to_nat (144 * n)) with (144 * length (seqZ from n))%nat by (rewrite length_seqZ; lia).
  unfold list_sum. induction Hall as [|k ks Hk _ IH]; [done|]. cbn [map fold_right length]. lia.
Qed.

(** Every block the listing reads exists. *)
Definition listable (dir : inode) (dev : D) : Prop :=
  length (blocks dir) = 10%nat /\ 0 <= isize dir < 70 /\ Forall (fun n => data_ok sb n dev) (dir_blocks dir).

Lemma listable_block dir dev k : listable dir dev -> 0 <= k <= isize dir / 7 ->
  exists n, blocks dir !! Z.to_nat k = Some n /\ blocks dir !!! Z.to_nat k = n /\ data_ok sb n dev.
Proof.
  intros (Hl & Hs & Hall) Hk. assert (isize dir / 7 < 10) by (apply Z.div_lt_upper_bound; lia).
  destruct (lookup_lt_is_Some_2 (blocks dir) (Z.to_nat k)) as (n & Hn); [lia|]. exists n.
  split_and!; [done|by apply list_lookup_total_correct|].
  apply (Forall_lookup_1 _ _ (Z.to_nat k) _ Hall). unfold dir_blocks. rewrite lookup_take_lt by lia. exact Hn.
Qed.

Lemma length_entry dir dev k : listable dir dev -> 0 <= k -> k / 7 <= isize dir / 7 ->
  length (entry_bytes dir dev k) = 144%nat.
Proof.
  intros Hd Hk Hk7. destruct (listable_block dir dev (k / 7) Hd) as (n & _ & Hn & Hok); [pose proof (Z.div_pos k 7); lia|].
  unfold entry_bytes. rewrite Hn. rewrite length_slice; [done|].
  rewrite (length_data sb size_ok bs_ok) by done. pose proof (Z.mod_pos_bound k 7). lia.
Qed.

Lemma length_run dir dev from n : listable dir dev -> 0 <= from -> 0 <= n -> from + n <= isize dir ->
  length (entry_run dir dev from n) = Z.to_nat (144 * n).
Proof.
  intros Hd Hf Hn Hs. apply length_entry_run; [done|]. apply Forall_forall. intros k Hk. apply elem_of_seqZ in Hk.
  apply length_entry; [done|lia|]. apply Z.div_le_mono; lia.
Qed.

Lemma entries_loop_ok dir dev : bd_wf dev -> listable dir dev ->
  forall (t : nat) k buf children, 0 <= k -> k + Z.of_nat t = isize dir / 7 -> (1024 <= length buf)%nat ->
  144 * isize dir <= Z.of_nat (length children) ->
  forall fuel, (t < fuel)%nat ->
  entries_loop sb fuel dir k buf (7 * k) children dev
  = Ok (splice (Z.to_nat (144 * (7 * k))) (entry_run dir dev (7 * k) (isize dir - 7 * k)) children).
Proof.
  intros Hw Hd. pose proof Hd as (Hbl & Hs & _). pose proof (Z.div_mod (isize dir) 7 ltac:(lia)) as Hdm.
  pose proof (Z.mod_pos_bound (isize dir) 7 ltac:(lia)) as Hmod.
  induction t as [|t IH]; intros k buf children Hk Hkt Hb Hc fuel Hf; (destruct fuel as [|fuel]; [lia|]);
    cbn [entries_loop]; destruct (listable_block dir dev k Hd) as (n & Hn & Hn' & Hok); try lia;
    unfold get_block; rewrite Hn; cbn [of_opt obind]; rewrite (read_block_ok sb size_ok bs_ok) by (try done; lia);
    cbn [obind]; rewrite dpb_eq; pose proof (length_data sb size_ok bs_ok n dev Hok) as Hlen;
    set (blk' := splice 0 (data sb n dev) buf);
    assert (Hl' : length blk' = length buf) by (subst blk'; rewrite length_splice; lia);
    assert (Hsl : forall m, 0 <= m <= 7 -> slice (Z.to_nat (144 * 0)) (Z.to_nat (144 * m)) blk' = entry_run dir dev (7 * k) m).
  1, 3: intros m Hm; rewrite entry_run_block by (rewrite ?Hn'; lia); rewrite Hn'; unfold blk', slice, splice;
    change (drop (Z.to_nat (144 * 0)) ?l) with l; change (drop 0 ?l) with l; change (take 0 buf) with (@nil Z);
    cbn [app Nat.add]; rewrite take_app_le by lia; done.
  - rewrite copy_dirents_ok by (try done; lia). cbn [obind]. rewrite (proj2 (Z.ltb_lt _ _)) by lia.
    rewrite Hsl by lia. do 2 f_equal. f_equal. lia.
  - rewrite copy_dirents_ok by (try done; lia). cbn [obind]. rewrite (proj2 (Z.ltb_ge _ _)) by lia.
    rewrite Hsl by lia. rewrite Z.min_l by lia. change (Z.of_nat (Z.to_nat 7)) with 7.
    replace (7 * k + 7) with (7 * (k + 1)) by lia.
    rewrite IH; try lia. 2: { rewrite length_splice; [lia|]. rewrite length_run by (try done; lia). lia. }
    f_equal. replace (Z.to_nat (144 * (7 * (k + 1)))) with (Z.to_nat (144 * (7 * k)) + length (entry_run dir dev (7 * k) 7))%nat
      by (rewrite length_run by (try done; lia); lia).
    rewrite splice_adjacent by (rewrite !length_run by (try done; lia); lia). f_equal.
    unfold entry_run. rewrite <- concat_app, <- map_app. do 2 f_equal.
    replace (isize dir - 7 * k) with (7 + (isize dir - 7 * (k + 1))) by lia. rewrite seqZ_app by lia. do 2 f_equal. lia.
Qed.

(** C17: listing a directory returns its entries in order, each as the 144 bytes
    it has on the disk, at the front of the caller's buffer. *)
Theorem get_directory_entries_spec d dev children children_size :
  let dir := inode_at sb d dev in
  bd_wf dev -> inode_ok sb d dev -> itype dir = VNODE_DIRECTORY -> listable dir dev ->
  w64 (block_count dir * bs) <= children_size -> 144 * isize dir <= Z.of_nat (length children) ->
  diosfs_get_directory_entries sb fresh children d children_size dev
  = Ok (DIOSFS_SUCCESS, splice 0 (concat (entries dir dev)) children).
Proof.
  intros dir Hw Hi Ht Hd Hsz Hc. unfold diosfs_get_directory_entries.
  rewrite (read_inode_ok sb size_ok bs_ok) by done. cbn [obind]. fold dir. rewrite Ht, Z.eqb_refl. cbn [negb].
  rewrite (proj2 (Z.ltb_ge _ _)) by lia. pose proof Hd as (_ & Hs & _).
  pose proof (Z.div_pos (isize dir) 7 ltac:(lia) ltac:(lia)). assert (isize dir / 7 < 10) by (apply Z.div_lt_upper_bound; lia).
  pose proof (entries_loop_ok dir dev Hw Hd (Z.to_nat (isize dir / 7)) 0 (fresh PAGE_SIZE) children ltac:(lia) ltac:(lia)
    ltac:(rewrite page_length; lia) Hc 11%nat ltac:(lia)) as He.
  change (7 * 0) with 0 in He. rewrite He. cbn [obind]. do 3 f_equal. unfold entry_run, entries. by rewrite Z.sub_0_r.
Qed.

(** ** Appending an entry *)
Lemma take_splice_app (o : nat) (x a b : list Z) : (o + length x <= length a)%nat ->
  take (length a) (splice o x (a ++ b)) = splice o x a.
Proof.
  intros Hl. apply list_eq. intros i. destruct (decide (i < length a)%nat) as [Hi|Hi].
  - rewrite lookup_take_lt, !lookup_splice by (rewrite ?length_app; lia). by rewrite !lookup_app_l by lia.
  - rewrite lookup_take_ge by lia. symmetry. apply lookup_ge_None_2. rewrite length_splice; lia.
Qed.

(** The directory [d] is on the disk, in front of the data area. *)
Definition on_disk (d : Z) (dev : D) : Prop :=
  bd_wf dev /\ inode_ok sb d dev /\ inode_block sb d < block_start_pointer sb /\
  inode_wf (inode_at sb d dev) /\ inode_number (inode_at sb d dev) = d.

Lemma set_size_wf i v : inode_wf i -> inode_wf (i_set_size v i).
Proof.
  intros [H16 (Hs & Hc & Hp) H64 Hn Hb]. constructor; try done. cbn. split_and!; try done.
  unfold u32, w32. apply Z.mod_pos_bound. lia.
Qed.

(** No block is allocated: the entry goes to [blocks[size / 7]], whatever that
    number is. *)
Lemma write_dirent_ok dir0 d dev entry n :
  let dir := inode_at sb d dev in
  on_disk d dev -> inode_number dir0 = d -> isize dir0 ≠ 71 ->
  block_count dir ≠ 0 -> (isize dir mod 7 = 0 -> isize dir / 7 <= block_count dir) ->
  blocks dir !! Z.to_nat (isize dir / 7) = Some n -> data_ok sb n dev -> dirent_wf entry ->
  exists dev', diosfs_write_dirent sb fresh dir0 entry dev
    = Ok (DIOSFS_SUCCESS, i_set_size (isize dir + 1) dir, dev') /\ on_disk d dev' /\
    (forall m, data_ok sb m dev' <-> data_ok sb m dev) /\
    inode_at sb d dev' = i_set_size (isize dir + 1) dir /\
    data sb n dev' = splice (Z.to_nat (144 * (isize dir mod 7))) (encode_dirent entry) (data sb n dev) /\
    (forall m, m ≠ n -> data_ok sb m dev -> data sb m dev' = data sb m dev).
Proof.
  intros dir (Hw & Hi & Hlt & Hwf & Hnum) Hd0 H71 Hbc Hal Hn Hok He. fold dir in Hwf, Hnum.
  unfold diosfs_write_dirent. rewrite max_eq, (proj2 (Z.eqb_neq _ _)) by done. rewrite Hd0.
  rewrite (read_inode_ok sb size_ok bs_ok) by done. cbn [obind]. fold dir. rewrite dpb_eq.
  replace (_ || _) with false.
  2: { symmetry. apply orb_false_iff. split; [|by apply Z.eqb_neq]. apply andb_false_iff.
       destruct (Z.eqb_spec (isize dir mod 7) 0); [right; apply Z.ltb_ge; auto|by left]. }
  cbn [obind]. unfold get_block. rewrite Hn. cbn [of_opt obind].
  rewrite (read_block_ok sb size_ok bs_ok) by (rewrite ?page_length; done || lia). cbn [obind].
  pose proof (length_data sb size_ok bs_ok n dev Hok) as Hl. pose proof (length_encode_dirent _ He) as Hle.
  pose proof (Z.mod_pos_bound (isize dir) 7 ltac:(lia)) as Hmod.
  unfold set_dirent, blit. change sizeof_dirent with 144. set (page := fresh PAGE_SIZE).
  assert (Hpl : length page = 4096%nat) by apply page_length.
  assert (Hb0 : splice 0 (data sb n dev) page = data sb n dev ++ drop 1024 page).
  { unfold splice. change (take 0 page) with (@nil Z). cbn [app Nat.add]. by rewrite Hl. }
  rewrite Hb0, decide_True by (rewrite length_app, length_drop; lia). cbn [obind].
  set (buf := splice _ _ _).
  assert (Hbl : length buf = 4096%nat) by (subst buf; rewrite length_splice; rewrite ?length_app, ?length_drop; lia).
  destruct (write_block_ok sb size_ok bs_ok n buf 0 dev Hw Hok ltac:(lia)) as (dev1 & E1 & Hw1). rewrite E1. cbn [obind].
  assert (Hi1 : inode_at sb d dev1 = dir) by (destruct Hok; by eapply wrote_data_inode).
  destruct (write_inode_ok sb size_ok bs_ok (i_set_size (isize dir + 1) dir) dev1) as (dev2 & E2 & Hw2).
  { by destruct Hw1. } { by apply set_size_wf. }
  { cbn [i_set_size inode_number]. rewrite Hnum. destruct Hi. split; [done|]. by apply (wrote_range _ _ _ _ _ Hw1). }
  rewrite E2. cbn [obind]. exists dev2. pose proof (wi_here _ _ _ _ Hw2) as Hhere.
  cbn [i_set_size inode_number] in Hhere. rewrite Hnum in Hhere.
  assert (Hblk : inode_block sb (inode_number (i_set_size (isize dir + 1) dir)) < block_start_pointer sb).
  { cbn [i_set_size inode_number]. by rewrite Hnum. }
  assert (Hdok : forall m, data_ok sb m dev2 <-> data_ok sb m dev).
  { intros m. rewrite (wrote_inode_data_ok sb _ _ _ _ Hw2). by rewrite (wrote_data_ok sb _ _ _ _ _ Hw1). }
  split_and!; try done.
  - split_and!; [by destruct Hw2| |done|rewrite Hhere; by apply set_size_wf|by rewrite Hhere].
    destruct Hi. split; [done|]. apply (wi_range _ _ _ _ Hw2), (wrote_range _ _ _ _ _ Hw1). done.
  - rewrite (wrote_inode_data sb _ _ _ _ Hw2) by (try done; by apply (wrote_data_ok sb _ _ _ _ _ Hw1)).
    unfold data. rewrite (wrote_here _ _ _ _ _ Hw1). fold (data sb n dev). subst buf.
    unfold slice. change (drop 0 ?l) with l. rewrite <- Hl at 1. apply take_splice_app. lia.
  - intros m Hm Hmok. rewrite (wrote_inode_data sb _ _ _ _ Hw2) by (try done; by apply (wrote_data_ok sb _ _ _ _ _ Hw1)).
    by eapply wrote_data_else.
Qed.


(** C29: the eighth entry of a directory with one block.  The test for a new block
    is [block > block_count], so none is allocated: the entry is written over the
    front of data block 0, the number an unused slot of the inode holds.  In the
    directory that owns block 0 the first entry is lost. *)
Theorem write_dirent_eighth dir0 d dev entry :
  let dir := inode_at sb d dev in
  on_disk d dev -> inode_number dir0 = d -> isize dir0 ≠ 71 ->
  isize dir = 7 -> block_count dir = 1 -> blocks dir !! 1%nat = Some 0 -> data_ok sb 0 dev -> dirent_wf entry ->
  exists dev', diosfs_write_dirent sb fresh dir0 entry dev
    = Ok (DIOSFS_SUCCESS, i_set_size 8 dir, dev') /\ inode_at sb d dev' = i_set_size 8 dir /\
    data sb 0 dev' = splice 0 (encode_dirent entry) (data sb 0 dev) /\
    (blocks dir !! 0%nat = Some 0 -> entries (inode_at sb d dev') dev' !! 0%nat = Some (encode_dirent entry)).
Proof.
  intros dir Hdk Hd0 H71 Hs Hbc Hb1 Hok He.
  destruct (write_dirent_ok dir0 d dev entry 0) as (dev' & E & Hdk' & Hdok & Hat & Hhere & Helse); try done;
    change (inode_at sb d dev) with dir; rewrite ?Hs, ?Hbc; try done.
  fold dir in Hat, Hhere, E. rewrite Hs in Hat, Hhere, E.
  change (7 + 1) with 8 in *. change (Z.to_nat (144 * (7 mod 7))) with 0%nat in Hhere.
  exists dev'. split_and!; [done|done|done|]. intros Hb0. rewrite Hat. unfold entries.
  change (isize (i_set_size 8 dir)) with 8. cbn [seqZ]. rewrite list_lookup_fmap.
  change (seqZ 0 8 !! 0%nat) with (Some 0). cbn [fmap option_fmap option_map]. f_equal.
  unfold entry_bytes. cbn [i_set_size blocks]. change (Z.to_nat (0 / 7)) with 0%nat.
  rewrite (list_lookup_total_correct _ _ _ Hb0), Hhere. change (Z.to_nat (144 * (0 mod 7))) with 0%nat.
  apply slice_splice_same; [by rewrite length_encode_dirent|lia].
Qed.

End Spec.
End DiosfsDir.
