(* ===== verification/DiosfsData.v ===== *)
(** * File contents of diosfs

    Which block of the disk holds a block of a file, and what reading and
    writing bytes does to the blocks. *)

From S2P Require Import Prelude BlockDevice DiosfsLayout DiosfsBitmap Strings Diosfs DiosfsFile DiosfsBlocks DiosfsDir.

Module DiosfsData.
Import Layout Bitmap Diosfs Files DiosfsBlocks DiosfsDir.

Section Spec.
Context {D : Type} `{BlockDeviceSpec D}.
Context (sb : superblock) (fresh : Z -> list Z).
Abbreviation bs := (sb_block_size sb).
Hypothesis size_ok : bd_size = bs.
Hypothesis bs_ok : bs = DIOSFS_BLOCKSIZE.
Hypothesis fresh_length : forall n, 0 <= n -> length (fresh n) = Z.to_nat n.
Abbreviation page := (fresh PAGE_SIZE).

(** ** The pointer tree *)

(** Entry [k] of the indirection block [b]. *)
Definition table (b : Z) (dev : D) (k : Z) : Z := le_val (slice (Z.to_nat (8 * k)) 8 (data sb b dev)).

(** Block [i] of a file: ten direct blocks, then 128 from the single, 128^2 from
    the double and 128^3 from the triple indirection block. *)
Definition file_block (node : inode) (dev : D) (i : Z) : Z :=
  if i <? 10 then blocks node !!! Z.to_nat i
  else if i <? 138 then table (single_indirect node) dev (i - 10)
  else if i <? 16522 then
    let j := i - 138 in table (table (double_indirect node) dev (j / 128)) dev (j mod 128)
  else
    let j := i - 16522 in
    table (table (table (triple_indirect node) dev (j / 16384)) dev (j mod 16384 / 128)) dev (j mod 128).

(** The indirection blocks on the way to block [i] exist. *)
Definition path_ok (node : inode) (dev : D) (i : Z) : Prop :=
  if i <? 10 then length (blocks node) = 10%nat
  else if i <? 138 then data_ok sb (single_indirect node) dev
  else if i <? 16522 then
    data_ok sb (double_indirect node) dev /\ data_ok sb (table (double_indirect node) dev ((i - 138) / 128)) dev
  else
    let t := table (triple_indirect node) dev ((i - 16522) / 16384) in
    data_ok sb (triple_indirect node) dev /\ data_ok sb t dev /\
    data_ok sb (table t dev ((i - 16522) mod 16384 / 128)) dev.

Lemma get_u64_table b dev buf k : data_ok sb b dev -> (1024 <= length buf)%nat -> 0 <= k < 128 ->
  get_u64 (splice 0 (data sb b dev) buf) k = Ok (table b dev k).
Proof.
  intros Hb Hl Hk. pose proof (length_data sb size_ok bs_ok b dev Hb) as Hd. unfold get_u64, peek.
  rewrite decide_True by (rewrite length_splice; lia). cbn [obind]. unfold table. do 2 f_equal.
  apply list_eq. intros i. rewrite !lookup_slice. case_decide; [|done].
  rewrite lookup_splice by lia. rewrite decide_False, decide_True by lia. f_equal. lia.
Qed.

Lemma read_table b dev buf : bd_wf dev -> data_ok sb b dev -> (1024 <= length buf)%nat ->
  diosfs_read_block_by_number sb b buf 0 dev = Ok (splice 0 (data sb b dev) buf) /\
  (1024 <= length (splice 0 (data sb b dev) buf))%nat.
Proof.
  intros Hw Hb Hl. split; [by apply (read_block_ok sb size_ok bs_ok)|].
  rewrite length_splice; [done|]. rewrite (length_data sb size_ok bs_ok) by done. lia.
Qed.

Lemma relative_block_ok node dev i :
  bd_wf dev -> 0 <= i < MAX_FILE_BLOCKS -> path_ok node dev i ->
  diosfs_get_relative_block_number_from_file sb fresh node i dev = Ok (file_block node dev i).
Proof.
  intros Hw Hi Hp. change MAX_FILE_BLOCKS with 2113674 in Hi.
  assert (Hpl : (1024 <= length page)%nat) by (rewrite fresh_length by done; by vm_compute; lia).
  unfold diosfs_get_relative_block_number_from_file, diosfs_indirection_indices_for_block_number.
  change NUM_BLOCKS_TRIPLE_INDIRECTION with 2097152. change NUM_BLOCKS_DOUBLE_INDIRECTION with 16384.
  change NUM_BLOCKS_IN_INDIRECTION_BLOCK with 128. change NUM_BLOCKS_DIRECT with 10.
  change (2097152 + 16384 + 128 + 10) with 2113674. change (16384 + 128 + 10) with 16522. change (128 + 10) with 138.
  unfold path_ok, file_block in *.
  destruct (Z.ltb_spec i 10); [|destruct (Z.ltb_spec i 138); [|destruct (Z.ltb_spec i 16522);
    [|rewrite (proj2 (Z.ltb_lt i 2113674)) by lia]]]; cbn [obind levels_indirection direct_block_number first_level second_level third_level].
  - unfold get_block. destruct (lookup_lt_is_Some_2 (blocks node) (Z.to_nat i)) as (b & Hb); [lia|].
    by rewrite Hb, (list_lookup_total_correct _ _ _ Hb).
  - destruct (read_table (single_indirect node) dev page Hw Hp Hpl) as [-> _]. cbn [obind].
    rewrite Z.mod_small by lia. apply get_u64_table; [done|done|lia].
  - destruct Hp as [Hd Ht]. pose proof (Z.mod_pos_bound (i - 138) 128 ltac:(lia)).
    assert (0 <= (i - 138) / 128 < 128) by (split; [apply Z.div_pos; lia|apply Z.div_lt_upper_bound; lia]).
    rewrite (w16_small ((i - 138) / 128)) by lia.
    destruct (read_table (double_indirect node) dev page Hw Hd Hpl) as [-> Hl1]. cbn [obind].
    rewrite get_u64_table by done. cbn [obind].
    destruct (read_table _ dev _ Hw Ht Hl1) as [-> _]. cbn [obind]. by apply get_u64_table.
  - destruct Hp as (Hd & Ht & Ht2). set (j := i - 16522) in *. pose proof (Z.mod_pos_bound j 128 ltac:(lia)).
    pose proof (Z.mod_pos_bound j 16384 ltac:(lia)).
    assert (0 <= j / 16384 < 128) by (split; [apply Z.div_pos; lia|apply Z.div_lt_upper_bound; lia]).
    assert (0 <= j mod 16384 / 128 < 128) by (split; [apply Z.div_pos; lia|apply Z.div_lt_upper_bound; lia]).
    rewrite (w16_small (j / 16384)) by lia.
    replace (j - j / 16384 * 16384) with (j mod 16384) by (pose proof (Z.div_mod j 16384 ltac:(lia)); lia).
    rewrite (w16_small (j mod 16384 / 128)) by lia.
    destruct (read_table (triple_indirect node) dev page Hw Hd Hpl) as [-> Hl1]. cbn [obind].
    rewrite get_u64_table by done. cbn [obind].
    destruct (read_table _ dev _ Hw Ht Hl1) as [-> Hl2]. cbn [obind]. rewrite get_u64_table by done. cbn [obind].
    destruct (read_table _ dev _ Hw Ht2 Hl2) as [-> _]. cbn [obind]. by apply get_u64_table.
Qed.

(** C9: the block of the disk that holds block [i] of a file is the one its
    pointer tree gives, at every level of indirection. *)
Theorem relative_block_spec node dev i :
  bd_wf dev -> 0 <= i < MAX_FILE_BLOCKS -> path_ok node dev i ->
  diosfs_get_relative_block_number_from_file sb fresh node i dev = Ok (file_block node dev i).
Proof. apply relative_block_ok. Qed.

(** ** Reading *)

(** Blocks [i], ..., [i+n-1] of a file, one after the other. *)
Definition file_bytes (node : inode) (dev : D) (i n : Z) : list Z :=
  concat (map (fun j => data sb (file_block node dev j) dev) (seqZ i n)).

Definition mapped (node : inode) (dev : D) (i n : Z) : Prop :=
  0 <= i /\ i + n <= MAX_FILE_BLOCKS /\
  forall j, i <= j < i + n -> path_ok node dev j /\ data_ok sb (file_block node dev j) dev.

Lemma length_file_bytes node dev i n : 0 <= n -> mapped node dev i n ->
  length (file_bytes node dev i n) = Z.to_nat (1024 * n).
Proof.
  intros Hn (_ & _ & Hm). unfold file_bytes. rewrite length_concat, map_map.
  assert (Hall : Forall (fun j => length (data sb (file_block node dev j) dev) = 1024%nat) (seqZ i n)).
  { apply Forall_forall. intros j Hj. apply elem_of_seqZ in Hj. apply (length_data sb size_ok bs_ok), Hm. lia. }
  replace (Z.to_nat (1024 * n)) with (1024 * length (seqZ i n))%nat by (rewrite length_seqZ; lia).
  unfold list_sum. clear -Hall. induction Hall as [|k ks Hk _ IH]; [done|]. cbn [map fold_right length]. lia.
Qed.

Lemma mapped_tail node dev i n : mapped node dev i n -> mapped node dev (i + 1) (n - 1).
Proof. intros (? & ? & Hm). split_and!; [lia|lia|]. intros j Hj. apply Hm. lia. Qed.

Lemma read_loop_ok node dev : bd_wf dev -> forall (t : nat) i k left buffer,
  mapped node dev i (Z.of_nat t) -> 0 <= k -> 1024 * (k + Z.of_nat t) <= Z.of_nat (length buffer) ->
  1024 * (Z.of_nat t - 1) <= left ->
  read_loop sb fresh t i node (1024 * k) left 0 buffer dev
  = Ok (splice (Z.to_nat (1024 * k)) (file_bytes node dev i (Z.of_nat t)) buffer).
Proof.
  intros Hw. induction t as [|t IH]; intros i k left buffer Hm Hk Hb Hleft; cbn [read_loop].
  - change (file_bytes node dev i (Z.of_nat 0)) with (@nil Z). by rewrite splice_nil.
  - pose proof Hm as (Hi & Hmax & Hall). destruct (Hall i ltac:(lia)) as [Hp Hd].
    rewrite relative_block_ok by (try done; lia). cbn [obind].
    rewrite (read_block_ok sb size_ok bs_ok) by (try done; lia). cbn [obind].
    pose proof (length_data sb size_ok bs_ok _ _ Hd) as Hl.
    assert (Hfb : file_bytes node dev i (Z.of_nat (S t))
      = data sb (file_block node dev i) dev ++ file_bytes node dev (i + 1) (Z.of_nat t)).
    { unfold file_bytes. replace (Z.of_nat (S t)) with (1 + Z.of_nat t) by lia.
      rewrite seqZ_app, map_app, concat_app by lia. rewrite seqZ_one. cbn [map concat]. by rewrite app_nil_r. }
    rewrite Hfb. rewrite bs_ok. change (w64 (DIOSFS_BLOCKSIZE - 0)) with 1024.
    pose proof (mapped_tail _ _ _ _ Hm) as Hm'. replace (Z.of_nat (S t) - 1) with (Z.of_nat t) in Hm' by lia.
    destruct t as [|t].
    + cbn [read_loop]. change (file_bytes node dev (i + 1) (Z.of_nat 0)) with (@nil Z). by rewrite app_nil_r.
    + assert (Hbyte : (if 1024 <? left then 1024 else left) = 1024) by (destruct (Z.ltb_spec 1024 left); lia).
      rewrite Hbyte. replace (1024 * k + 1024) with (1024 * (k + 1)) by lia.
      rewrite IH; [|done|lia|rewrite length_splice; lia|lia]. f_equal.
      replace (Z.to_nat (1024 * (k + 1))) with (Z.to_nat (1024 * k) + length (data sb (file_block node dev i) dev))%nat by lia.
      apply splice_adjacent. rewrite length_file_bytes by (try done; lia). lia.
Qed.

Lemma read_bytes_ok node dev buffer buffer_size j read_size :
  let n := read_size / 1024 + 1 in
  bd_wf dev -> itype node = VNODE_FILE -> 0 <= read_size < 2 ^ 63 ->
  1024 <= buffer_size -> 1024 * (n - 1) <= buffer_size ->
  0 <= 1024 * j <= isize node -> mapped node dev j n -> 1024 * n <= Z.of_nat (length buffer) ->
  diosfs_read_bytes_from_inode sb fresh node buffer buffer_size (1024 * j) read_size dev
  = Ok (DIOSFS_SUCCESS, splice 0 (file_bytes node dev j n) buffer).
Proof.
  intros n Hw Ht Hrs Hbz Hbz2 Hj Hm Hl. unfold diosfs_read_bytes_from_inode. rewrite bs_ok, Ht, Z.eqb_refl.
  change DIOSFS_BLOCKSIZE with 1024. cbn [negb]. pose proof (Z.div_pos read_size 1024 ltac:(lia) ltac:(lia)).
  pose proof (Z.div_mod read_size 1024 ltac:(lia)). pose proof (Z.mod_pos_bound read_size 1024 ltac:(lia)).
  rewrite w64_small by lia. rewrite !(proj2 (Z.ltb_ge _ _)) by lia. cbn [orb].
  rewrite (Z.mul_comm 1024 j), Z.div_mul, Z.mod_mul by lia.
  pose proof (read_loop_ok node dev Hw (S (Z.to_nat (read_size / 1024))) j 0 read_size buffer) as E.
  replace (Z.of_nat (S (Z.to_nat (read_size / 1024)))) with n in E by lia.
  change (1024 * 0) with 0 in E. rewrite E; [done|done|lia|lia|lia].
Qed.

(** C18: reading from a block boundary fills the buffer with the blocks of the
    file from there on, one more than [read_size / block_size], at every level
    of indirection. *)
Theorem read_bytes_spec node dev buffer buffer_size j read_size :
  let n := read_size / 1024 + 1 in
  bd_wf dev -> itype node = VNODE_FILE -> 0 <= read_size < 2 ^ 63 ->
  1024 <= buffer_size -> 1024 * (n - 1) <= buffer_size ->
  0 <= 1024 * j <= isize node -> mapped node dev j n -> 1024 * n <= Z.of_nat (length buffer) ->
  diosfs_read_bytes_from_inode sb fresh node buffer buffer_size (1024 * j) read_size dev
  = Ok (DIOSFS_SUCCESS, splice 0 (file_bytes node dev j n) buffer).
Proof. apply read_bytes_ok. Qed.

(** ** The directory entry of a file *)
Lemma splice_app_l (o : nat) (x a b : list Z) : (o + length x <= length a)%nat ->
  splice o x (a ++ b) = splice o x a ++ b.
Proof.
  intros Hl. unfold splice. rewrite take_app_le, drop_app_le by lia. by rewrite <- !app_assoc.
Qed.

Lemma strcpy_at_ok dst o src s size : Strings.holds src s -> Z.of_nat (length s) < size < 2 ^ 64 ->
  (o + length s < length dst)%nat -> strcpy_at dst o src size = Ok (splice o (s ++ [0]) dst).
Proof.
  intros Hs Hz Hl. unfold strcpy_at. rewrite (Strings.safe_strcpy_ok src s) by (try done; rewrite length_drop; lia).
  cbn [obind]. f_equal. unfold splice. change (take 0 (drop o dst)) with (@nil Z). cbn [app Nat.add].
  rewrite drop_drop. done.
Qed.

(** Entry [i] of a block, and the block with the name, size and parent of that
    entry replaced. *)
Definition dirent_in (block : list Z) (i : Z) : dirent :=
  decode_dirent (slice (Z.to_nat (144 * i)) 144 block).
Definition updated (block : list Z) (i : Z) (name : list Z) (ent : inode) : list Z :=
  let o := Z.to_nat (144 * i) in
  splice (o + 132) (le_bytes 4 (parent_inode_number ent))
    (splice (o + 140) (le_bytes 4 (isize ent)) (splice o (name ++ [0]) block)).

Lemma get_dirent_front b rest i : length b = 1024%nat -> 0 <= i < 7 -> get_dirent (b ++ rest) i = Ok (dirent_in b i).
Proof.
  intros Hb Hi. unfold get_dirent, peek. change sizeof_dirent with 144. rewrite decide_True by (rewrite length_app; lia).
  cbn [obind]. unfold dirent_in, slice. rewrite drop_app_le, take_app_le by (rewrite ?length_drop; lia). done.
Qed.

Lemma find_dirent_ok b rest f size i : length b = 1024%nat -> size ≠ 0 -> 0 <= i < 7 ->
  d_inode_number (dirent_in b i) = f -> (forall j, 0 <= j < i -> d_inode_number (dirent_in b j) ≠ f) ->
  forall (t : nat) k, 0 <= k -> k + Z.of_nat t = i -> forall turns, (t < turns)%nat ->
  find_dirent turns k (b ++ rest) f size = Ok (Some i).
Proof.
  intros Hb Hs Hi Hf Hbefore. induction t as [|t IH]; intros k Hk Hkt turns Ht; (destruct turns as [|turns]; [lia|]);
    cbn [find_dirent]; rewrite (proj2 (Z.eqb_neq size 0)) by done; rewrite get_dirent_front by (try done; lia); cbn [obind].
  - replace k with i by lia. by rewrite Hf, Z.eqb_refl.
  - rewrite (proj2 (Z.eqb_neq _ _)) by (apply Hbefore; lia). apply IH; lia.
Qed.

(** The entry of file [f] is entry [i] of the first block, [n], of its directory. *)
Definition listed (f p n i : Z) (name : list Z) (dev : D) : Prop :=
  let dir := inode_at sb p dev in let ent := inode_at sb f dev in
  inode_ok sb f dev /\ inode_ok sb p dev /\ itype dir = VNODE_DIRECTORY /\ isize dir ≠ 0 /\
  parent_inode_number ent = p /\ blocks dir !! 0%nat = Some n /\ data_ok sb n dev /\ 0 <= i < 7 /\
  d_inode_number (dirent_in (data sb n dev) i) = f /\
  (forall j, 0 <= j < i -> d_inode_number (dirent_in (data sb n dev) j) ≠ f) /\
  length (iname ent) = 128%nat /\ Strings.holds (iname ent) name.

Lemma name_of_holds i name : Strings.holds (iname i) name -> Strings.holds (name_of i) name.
Proof.
  intros [Hz (r & Hr)]. split; [done|]. unfold name_of, encode_inode. cbn [le_bytes app drop].
  rewrite Hr, <- app_assoc, <- app_comm_cons. eauto.
Qed.

Lemma find_update_ok f p n i name dev : bd_wf dev -> listed f p n i name dev ->
  exists dev', diosfs_find_directory_entry_and_update sb fresh f p dev = Ok (DIOSFS_SUCCESS, dev') /\
    wrote sb dev (block_start_pointer sb + n) (updated (data sb n dev) i name (inode_at sb f dev)) dev'.
Proof.
  intros Hw (Hif & Hip & Hty & Hsz & Hpar & Hb0 & Hn & Hi & Hf & Hbefore & Hil & Hname).
  pose proof (Strings.holds_length _ _ Hname) as Hlen. apply name_of_holds in Hname.
  unfold diosfs_find_directory_entry_and_update. rewrite !(read_inode_ok sb size_ok bs_ok) by done. cbn [obind].
  rewrite Hty, Z.eqb_refl. cbn [negb find_loop]. unfold get_block. change (Z.to_nat 0) with 0%nat. rewrite Hb0. cbn [of_opt obind].
  assert (Hpl : length page = 4096%nat) by (by rewrite fresh_length).
  pose proof (length_data sb size_ok bs_ok n dev Hn) as Hl.
  rewrite (read_block_ok sb size_ok bs_ok) by (try done; lia). cbn [obind].
  assert (Hs0 : splice 0 (data sb n dev) page = data sb n dev ++ drop 1024 page).
  { unfold splice. change (take 0 page) with (@nil Z). cbn [app Nat.add]. by rewrite Hl. }
  rewrite Hs0, (dpb_eq sb bs_ok). rewrite (find_dirent_ok _ _ f _ i Hl Hsz Hi Hf Hbefore (Z.to_nat i)) by lia. cbn [obind].
  unfold update_dirent. change sizeof_dirent with 144. change MAX_FILENAME_LENGTH with 128.
  assert (Hnl : length (name ++ [0]) = S (length name)) by (rewrite length_app; cbn [length]; lia).
  rewrite (strcpy_at_ok _ _ _ name) by (try done; rewrite ?length_app; lia). cbn [obind]. rewrite splice_app_l by lia.
  unfold blit. rewrite decide_True by (rewrite length_app, length_splice, length_le_bytes by lia; lia). cbn [obind].
  rewrite splice_app_l by (rewrite length_splice, length_le_bytes by lia; lia).
  rewrite decide_True by (rewrite length_app, !length_splice, length_le_bytes by (rewrite ?length_splice, ?length_le_bytes by lia; lia); lia).
  cbn [obind]. rewrite splice_app_l by (rewrite !length_splice, length_le_bytes by (rewrite ?length_splice, ?length_le_bytes by lia; lia); lia).
  fold (updated (data sb n dev) i name (inode_at sb f dev)). rewrite Hpar, Z.eqb_refl. cbn [negb].
  assert (Hul : length (updated (data sb n dev) i name (inode_at sb f dev)) = 1024%nat).
  { unfold updated. rewrite !length_splice; rewrite ?length_splice; rewrite ?length_le_bytes; rewrite ?length_splice; lia. }
  destruct (write_block_ok sb size_ok bs_ok n (updated (data sb n dev) i name (inode_at sb f dev) ++ drop 1024 page) 0 dev)
    as (dev' & E & Hwr); [done|done|rewrite length_app; lia|].
  rewrite E. cbn [obind]. exists dev'. split; [done|]. unfold slice in Hwr. change (drop 0 ?l) with l in Hwr.
  rewrite <- Hul, take_app_length in Hwr. done.
Qed.

(** ** Writing *)

(** [node] has direct blocks [i], ..., [i+t-1], all different. *)
Definition direct (node : inode) (dev : D) (i t : Z) : Prop :=
  length (blocks node) = 10%nat /\ 0 <= i /\ i + t <= 10 /\
  (forall j, i <= j < i + t -> data_ok sb (blocks node !!! Z.to_nat j) dev) /\
  (forall j k, i <= j < i + t -> i <= k < i + t ->
     blocks node !!! Z.to_nat j = blocks node !!! Z.to_nat k -> j = k).

Lemma direct_block node dev i : 0 <= i < 10 -> length (blocks node) = 10%nat -> bd_wf dev ->
  diosfs_get_relative_block_number_from_file sb fresh node i dev = Ok (blocks node !!! Z.to_nat i).
Proof.
  intros Hi Hl Hw. rewrite relative_block_ok; [|done|change MAX_FILE_BLOCKS with 2113674; lia|].
  - unfold file_block. by rewrite (proj2 (Z.ltb_lt i 10)) by lia.
  - unfold path_ok. by rewrite (proj2 (Z.ltb_lt i 10)) by lia.
Qed.

Lemma write_loop_ok node buffer : forall (t : nat) i k left dev, bd_wf dev -> direct node dev i (Z.of_nat t) -> 0 <= k ->
  1024 * (k + Z.of_nat t) <= Z.of_nat (length buffer) -> 1024 * (Z.of_nat t - 1) <= left ->
  exists dev', write_loop sb fresh t i node (1024 * k) left 0 buffer dev = Ok dev' /\ bd_wf dev' /\
    (forall b c, in_range dev' b c <-> in_range dev b c) /\
    (forall j, i <= j < i + Z.of_nat t ->
       data sb (blocks node !!! Z.to_nat j) dev' = slice (Z.to_nat (1024 * (k + (j - i)))) 1024 buffer) /\
    (forall b, in_range dev b 1 ->
       (forall j, i <= j < i + Z.of_nat t -> b ≠ block_start_pointer sb + blocks node !!! Z.to_nat j) ->
       blk sb b dev' = blk sb b dev).
Proof.
  induction t as [|t IH]; intros i k left dev Hw Hd Hk Hb Hleft; cbn [write_loop].
  { exists dev. split_and!; try done. lia. }
  pose proof Hd as (Hl & Hi & Hmax & Hok & Hinj). set (n := blocks node !!! Z.to_nat i).
  rewrite direct_block by (try done; lia). cbn [obind]. fold n.
  destruct (write_block_ok sb size_ok bs_ok n buffer (Z.to_nat (1024 * k)) dev Hw) as (dev1 & E1 & Hw1); [apply Hok; lia|lia|].
  rewrite E1. cbn [obind]. rewrite bs_ok. change (w64 (DIOSFS_BLOCKSIZE - 0)) with 1024.
  assert (Hd1 : direct node dev1 (i + 1) (Z.of_nat t)).
  { split_and!; try done; try lia.
    - intros j Hj. apply (wrote_data_ok sb _ _ _ _ _ Hw1), Hok. lia.
    - intros j j' Hj Hj'. apply Hinj; lia. }
  set (byte_size := if 1024 <? left then 1024 else left).
  assert (Hrest : exists dev', write_loop sb fresh t (i + 1) node (1024 * k + byte_size) (left - byte_size) 0 buffer dev1 = Ok dev' /\
    bd_wf dev' /\ (forall b c, in_range dev' b c <-> in_range dev1 b c) /\
    (forall j, i + 1 <= j < i + 1 + Z.of_nat t ->
       data sb (blocks node !!! Z.to_nat j) dev' = slice (Z.to_nat (1024 * (k + 1 + (j - (i + 1))))) 1024 buffer) /\
    (forall b, in_range dev1 b 1 ->
       (forall j, i + 1 <= j < i + 1 + Z.of_nat t -> b ≠ block_start_pointer sb + blocks node !!! Z.to_nat j) ->
       blk sb b dev' = blk sb b dev1)).
  { destruct t as [|t].
    - exists dev1. split_and!; try done; [by destruct Hw1|lia].
    - assert (Hbyte : byte_size = 1024) by (subst byte_size; destruct (Z.ltb_spec 1024 left); lia).
      rewrite Hbyte. replace (1024 * k + 1024) with (1024 * (k + 1)) by lia.
      apply IH; [by destruct Hw1|done|lia|lia|lia]. }
  destruct Hrest as (dev' & E & Hw' & Hrg & Hdata & Helse). exists dev'. split_and!; [done|done| | |].
  - intros b c. by rewrite Hrg, (wrote_range _ _ _ _ _ Hw1).
  - intros j Hj. destruct (decide (j = i)) as [->|Hne].
    + fold n. unfold data. rewrite Helse.
      * rewrite (wrote_here _ _ _ _ _ Hw1). f_equal. lia.
      * apply (wrote_range _ _ _ _ _ Hw1), Hok. lia.
      * intros j' Hj' Eq. enough (i = j') by lia. apply Hinj; [lia|lia|]. fold n. lia.
    + rewrite Hdata by lia. f_equal. lia.
  - intros b Hb1 Hne. rewrite Helse.
    + apply (wrote_else _ _ _ _ _ Hw1); [apply Hne; lia|done].
    + by apply (wrote_range _ _ _ _ _ Hw1).
    + intros j Hj. apply Hne. lia.
Qed.

Lemma concat_slices (buffer : list Z) (t : nat) : (1024 * t <= length buffer)%nat ->
  concat (map (fun j => slice (Z.to_nat (1024 * j)) 1024 buffer) (seqZ 0 (Z.of_nat t))) = take (1024 * t) buffer.
Proof.
  induction t as [|t IH]; intros Hl; [done|]. replace (Z.of_nat (S t)) with (Z.of_nat t + 1) by lia.
  rewrite seqZ_app, map_app, concat_app, IH by lia. rewrite seqZ_one, Z.add_0_l. cbn [map concat]. rewrite app_nil_r.
  replace (Z.to_nat (1024 * Z.of_nat t)) with (0 + 1024 * t)%nat by lia.
  change (take (1024 * t) buffer) with (slice 0 (1024 * t) buffer). rewrite slice_adjacent by lia.
  unfold slice. rewrite drop_0. f_equal. lia.
Qed.

Section WriteRead.
Context (f p nd i : Z) (name : list Z) (dev : D) (buffer : list Z) (buffer_size w : Z).
Abbreviation node := (inode_at sb f dev).
Abbreviation n := (w / 1024 + 1).
Hypothesis Hf : on_disk sb f dev.
Hypothesis Hp : inode_block sb p < block_start_pointer sb.
Hypothesis Hty : itype node = VNODE_FILE.
Hypothesis Hsize : 0 < isize node.
Hypothesis Hw : 0 <= w <= buffer_size.
Hypothesis Hcount : n <= block_count node.
Hypothesis Hdir : direct node dev 0 n.
Hypothesis Hbuf : 1024 * n <= Z.of_nat (length buffer).
Hypothesis Hlist : listed f p nd i name dev.
Hypothesis Hapart : forall j, 0 <= j < n -> blocks node !!! Z.to_nat j ≠ nd.

(** The inode after the write. *)
Definition written : inode := i_set_size (Z.max (isize node) w) node.

Lemma w_facts : 0 <= w / 1024 < 10 /\ w < 10240 /\ isize node < 2 ^ 32.
Proof.
  destruct Hdir as (_ & _ & ? & _). pose proof (Z.div_pos w 1024 ltac:(lia) ltac:(lia)).
  pose proof (Z.div_mod w 1024 ltac:(lia)). pose proof (Z.mod_pos_bound w 1024 ltac:(lia)).
  destruct Hf as (_ & _ & _ & [_ ((? & ?) & _) _ _ _] & _). lia.
Qed.

(** The write up to its call of diosfs_find_directory_entry_and_update. *)
Lemma write_bytes_unfold :
  diosfs_write_bytes_to_inode sb fresh node buffer buffer_size 0 w dev =
  let! dev := write_loop sb fresh (S (Z.to_nat (w / 1024))) 0 node 0 w 0 buffer dev in
  let! dev := diosfs_write_inode sb written dev in
  let! (_, dev) := diosfs_find_directory_entry_and_update sb fresh f p dev in
  Ok (DIOSFS_SUCCESS, written, dev).
Proof.
  destruct w_facts as (Hd & Hw10 & Hs32). destruct Hf as (_ & _ & _ & _ & Hnum). destruct Hlist as (_ & _ & _ & _ & Hpar & _).
  unfold diosfs_write_bytes_to_inode. rewrite Hty, Z.eqb_refl. cbn [negb]. rewrite bs_ok. change DIOSFS_BLOCKSIZE with 1024.
  change (0 / 1024) with 0. change (0 mod 1024) with 0. rewrite !Z.add_0_l, (w64_small w) by lia.
  replace (if negb (w / 1024 =? 0) && (w / 1024 =? 0) then 1 else w / 1024) with (w / 1024)
    by (destruct (w / 1024 =? 0); done).
  rewrite (proj2 (Z.ltb_ge buffer_size w)), (proj2 (Z.ltb_ge (isize node) 0)) by lia.
  rewrite (proj2 (Z.eqb_neq (isize node) 0)) by lia. cbn [obind].
  rewrite (w64_small (w / 1024)), (w64_small (w / 1024 + 1)) by lia. rewrite (proj2 (Z.ltb_ge (block_count node) _)) by lia.
  cbn [obind]. replace (isize node + _) with (Z.max (isize node) w) by (destruct (Z.ltb_spec (isize node) w); lia).
  fold written. unfold written at 2 3. cbn [i_set_size inode_number parent_inode_number]. by rewrite Hnum, Hpar.
Qed.

(** What the write leaves on the disk. *)
Lemma write_bytes_effect :
  exists dev', diosfs_write_bytes_to_inode sb fresh node buffer buffer_size 0 w dev = Ok (DIOSFS_SUCCESS, written, dev') /\
    bd_wf dev' /\ inode_at sb f dev' = written /\ (forall m, data_ok sb m dev -> data_ok sb m dev') /\
    (forall j, 0 <= j < n -> data sb (blocks node !!! Z.to_nat j) dev' = slice (Z.to_nat (1024 * j)) 1024 buffer).
Proof.
  destruct w_facts as (Hd & Hw10 & Hs32). pose proof Hf as (Hwf & Hif & Hblk & Hinode & Hnum).
  pose proof Hlist as (_ & Hip & Hdty & Hdsz & Hpar & Hb0 & Hndok & Hi & Hnum' & Hbefore & Hil & Hname).
  pose proof Hdir as (Hbl & _ & Hmax & Hok & _).
  assert (Hne : p ≠ f) by (intros ->; pose proof Hty as Hx; rewrite Hdty in Hx; done).
  rewrite write_bytes_unfold. pose proof (Z.div_mod w 1024 ltac:(lia)). pose proof (Z.mod_pos_bound w 1024 ltac:(lia)).
  assert (Hn : Z.of_nat (S (Z.to_nat (w / 1024))) = n) by lia.
  destruct (write_loop_ok node buffer (S (Z.to_nat (w / 1024))) 0 0 w dev) as (dev1 & E1 & Hw1 & Hrg1 & Hdata1 & Helse1);
    rewrite ?Hn; [done|done|lia|lia|lia|]. rewrite Hn in Hdata1, Helse1.
  change (1024 * 0) with 0 in E1. rewrite E1. cbn [obind].
  assert (Hkeep1 : forall m, inode_ok sb m dev -> inode_block sb m < block_start_pointer sb -> inode_at sb m dev1 = inode_at sb m dev).
  { intros m (Hm & Hmr) Hmb. unfold inode_at. do 2 f_equal. apply Helse1; [done|]. intros j Hj. destruct (Hok j Hj). lia. }
  assert (Hnd1 : data sb nd dev1 = data sb nd dev).
  { apply Helse1; [apply Hndok|]. intros j Hj Eq. apply (Hapart j Hj). lia. }
  assert (Hnw : inode_number written = f) by (unfold written; cbn [i_set_size inode_number]; done).
  destruct (write_inode_ok sb size_ok bs_ok written dev1 Hw1) as (dev2 & E2 & Hwi).
  { by apply set_size_wf. } { rewrite Hnw. destruct Hif. split; [done|by apply Hrg1]. }
  rewrite E2. cbn [obind]. pose proof (wi_here _ _ _ _ Hwi) as Hhere. rewrite Hnw in Hhere.
  assert (Hblkw : inode_block sb (inode_number written) < block_start_pointer sb) by (by rewrite Hnw).
  assert (Hdok1 : forall m, data_ok sb m dev1 <-> data_ok sb m dev) by (intros; unfold data_ok; by rewrite Hrg1).
  assert (Hp2 : inode_at sb p dev2 = inode_at sb p dev).
  { rewrite (wi_inode _ _ _ _ Hwi); [by apply Hkeep1|by rewrite Hnw|]. destruct Hip. split; [done|by apply Hrg1]. }
  assert (Hnd2 : data sb nd dev2 = data sb nd dev).
  { rewrite (wrote_inode_data sb _ _ _ _ Hwi); [done|done|by apply Hdok1]. }
  assert (Hiok2 : forall m, inode_ok sb m dev -> inode_ok sb m dev2).
  { intros m (? & ?). apply (wrote_inode_ok sb _ _ _ _ Hwi). split; [done|by apply Hrg1]. }
  destruct (find_update_ok f p nd i name dev2) as (dev3 & E3 & Hw3).
  { by destruct Hwi. }
  { unfold listed. rewrite Hp2, Hnd2, Hhere. split_and!; try done; try (by apply Hiok2); try lia.
    by apply (wrote_inode_data_ok sb _ _ _ _ Hwi), Hdok1. }
  rewrite E3. cbn [obind]. exists dev3. split_and!; [done|by destruct Hw3| | |].
  - rewrite <- Hhere. destruct Hndok. eapply (wrote_data_inode sb); [exact Hw3|done|by apply Hiok2|done].
  - intros m Hm. apply (wrote_data_ok sb _ _ _ _ _ Hw3), (wrote_inode_data_ok sb _ _ _ _ Hwi), Hdok1. done.
  - intros j Hj. rewrite (wrote_data_else sb _ _ _ _ _ Hw3).
    + rewrite (wrote_inode_data sb _ _ _ _ Hwi) by (try done; apply Hdok1, Hok; lia). rewrite Hdata1 by lia. f_equal. lia.
    + apply Hapart. lia.
    + apply (wrote_inode_data_ok sb _ _ _ _ Hwi), Hdok1, Hok. lia.
Qed.

Lemma write_read_ok rbuf : 1024 * n <= Z.of_nat (length rbuf) ->
  exists dev', diosfs_write_bytes_to_inode sb fresh node buffer buffer_size 0 w dev = Ok (DIOSFS_SUCCESS, written, dev') /\
    bd_wf dev' /\ inode_at sb f dev' = written /\
    diosfs_read_bytes_from_inode sb fresh written rbuf (1024 * n) 0 w dev'
    = Ok (DIOSFS_SUCCESS, splice 0 (take (Z.to_nat (1024 * n)) buffer) rbuf).
Proof.
  intros Hrb. destruct w_facts as (Hd & Hw10 & Hs32). destruct write_bytes_effect as (dev3 & E & Hw3 & Hat3 & Hdok3 & Hdata3).
  exists dev3. split_and!; [done|done|done|]. pose proof Hdir as (Hbl & _ & Hmax & Hok & _).
  pose proof (Z.div_mod w 1024 ltac:(lia)). pose proof (Z.mod_pos_bound w 1024 ltac:(lia)).
  assert (Hfb : forall j, 0 <= j < n -> file_block written dev3 j = blocks node !!! Z.to_nat j).
  { intros j Hj. unfold file_block. by rewrite (proj2 (Z.ltb_lt j 10)) by lia. }
  pose proof (read_bytes_ok written dev3 rbuf (1024 * n) 0 w) as Hread. change (1024 * 0) with 0 in Hread. rewrite Hread; clear Hread; try lia.
  - do 3 f_equal. unfold file_bytes. replace n with (Z.of_nat (S (Z.to_nat (w / 1024)))) by lia.
    replace (Z.to_nat (1024 * Z.of_nat (S (Z.to_nat (w / 1024))))) with (1024 * S (Z.to_nat (w / 1024)))%nat by lia.
    rewrite <- concat_slices by lia. f_equal. apply map_ext_in. intros j Hj. apply list_elem_of_In, elem_of_seqZ in Hj.
    rewrite Hfb by lia. apply Hdata3. lia.
  - done.
  - done.
  - unfold written. cbn [i_set_size isize]. rewrite w32_small; lia.
  - split_and!; [lia|change MAX_FILE_BLOCKS with 2113674; lia|]. intros j Hj. rewrite Hfb by lia. split; [|apply Hdok3, Hok; lia].
    unfold path_ok. by rewrite (proj2 (Z.ltb_lt j 10)) by lia.
Qed.

End WriteRead.

(** C1: what is written to a file is read back.  Overwriting the front of a file
    that has the (direct) blocks for it stores the caller's buffer, whole blocks
    at a time, and reading the same number of bytes returns it; the inode gets
    the larger of the two sizes and the file's directory entry is updated. *)
Theorem file_write_read f p nd i name dev buffer buffer_size w rbuf :
  let node := inode_at sb f dev in let n := w / 1024 + 1 in
  on_disk sb f dev -> inode_block sb p < block_start_pointer sb ->
  itype node = VNODE_FILE -> 0 < isize node -> 0 <= w <= buffer_size -> n <= block_count node ->
  direct node dev 0 n -> listed f p nd i name dev ->
  (forall j, 0 <= j < n -> blocks node !!! Z.to_nat j ≠ nd) ->
  1024 * n <= Z.of_nat (length buffer) -> 1024 * n <= Z.of_nat (length rbuf) ->
  exists dev', diosfs_write_bytes_to_inode sb fresh node buffer buffer_size 0 w dev
    = Ok (DIOSFS_SUCCESS, i_set_size (Z.max (isize node) w) node, dev') /\ bd_wf dev' /\
    inode_at sb f dev' = i_set_size (Z.max (isize node) w) node /\
    diosfs_read_bytes_from_inode sb fresh (inode_at sb f dev') rbuf (1024 * n) 0 w dev'
    = Ok (DIOSFS_SUCCESS, splice 0 (take (Z.to_nat (1024 * n)) buffer) rbuf).
Proof.
  intros node n Hf Hp Hty Hs Hw Hc Hd Hl Ha Hb Hr.
  destruct (write_read_ok f p nd i name dev buffer buffer_size w Hf Hp Hty Hs Hw Hc Hd Hb Hl Ha rbuf Hr)
    as (dev' & E & Hwf & Hat & Hread).
  exists dev'. split_and!; [done|done|done|]. by rewrite Hat.
Qed.

End Spec.
End DiosfsData.
