(* ===== verification/DiosfsVnode.v ===== *)
(** * The operations diosfs offers to the virtual filesystem

    diosfs_vnode_ops and the creation of a filesystem (filesystem/diosfs.c).
    The filesystem's spinlock is part of the state; [t] is the thread that
    calls. *)

From S2P Require Import Prelude BlockDevice DiosfsLayout DiosfsBitmap Strings Spinlock Diosfs DiosfsFile DiosfsBlocks DiosfsDir DiosfsData.

Module DiosfsVnode.
Import Layout Bitmap Diosfs Files Spinlock.Spinlock.

(** The part of struct vnode that diosfs uses; [vnode_parent_inode] is
    [vnode_parent->vnode_inode_number] and [vnode_name] the bytes from the name
    to the end of the structure. *)
Record vnode : Type := mk_vnode {
  vnode_inode_number : Z; vnode_parent_inode : Z; vnode_type : Z; vnode_size : Z;
  vnode_filesystem_id : Z; vnode_device_id : Z; vnode_name : list Z }.
Definition VNODE_FS_DIOSFS : Z := 0xF.
Definition ROOT_INODE : Z := 0.
Definition vn_set_size (v : Z) (n : vnode) : vnode :=
  mk_vnode (vnode_inode_number n) (vnode_parent_inode n) (vnode_type n) (w64 v)
    (vnode_filesystem_id n) (vnode_device_id n) (vnode_name n).

Definition PGROUNDUP (sz : Z) : Z := Z.land (w64 (sz + PAGE_SIZE - 1)) (w64 (Z.lnot (PAGE_SIZE - 1))).

(** struct diosfs_filesystem_context: the lock and the device *)
Record fs_state (D : Type) : Type := mk_fs { fs_lock : spinlock; device : D }.
Arguments mk_fs {D} _ _.
Arguments fs_lock {D} _.
Arguments device {D} _.

Section Ops.
Context {D : Type} `{BlockDevice D}.
Context (t : thread) (sb : superblock) (fresh : Z -> list Z).
Abbreviation bsize := (sb_block_size sb).
Abbreviation page := (fresh PAGE_SIZE).
Abbreviation fs := (fs_state D).
(** vnode_lookup (filesystem/vfs.c) on the path at the front of a buffer *)
Context (vnode_lookup : list Z -> fs -> outcome (option vnode * fs)).
(** vnode_get_canonical_path (filesystem/vfs.c) *)
Context (canonical_path : vnode -> list Z).

Definition acquire (s : fs) : outcome fs := let! l := acquire_spinlock t (fs_lock s) in Ok (mk_fs l (device s)).
Definition release (s : fs) : fs := mk_fs (release_spinlock (fs_lock s)) (device s).

(** [depth] bounds the depth of a removed directory tree. *)
Definition diosfs_remove (depth : nat) (v : vnode) (s : fs) : outcome fs :=
  let! s := acquire s in
  let! i := diosfs_read_inode sb (vnode_inode_number v) (device s) in
  let! (_, dev) := diosfs_directory_entry_free sb fresh depth None i (device s) in
  Ok (release (mk_fs (fs_lock s) dev)).

Definition diosfs_rename (v : vnode) (new_name : list Z) (s : fs) : outcome fs :=
  if vnode_inode_number v =? ROOT_INODE then Ok s
  else
    let! s := acquire s in
    let! i := diosfs_read_inode sb (vnode_inode_number v) (device s) in
    let! i := set_name i new_name in
    let! dev := diosfs_write_inode sb i (device s) in
    let! (_, dev) := diosfs_find_directory_entry_and_update sb fresh (vnode_inode_number v) (vnode_parent_inode v) dev in
    Ok (release (mk_fs (fs_lock s) dev)).

(** The vnode a symbolic link leads to: its first block is the path. *)
Definition link_target (v : vnode) (s : fs) : outcome (option vnode * fs) :=
  let! i := diosfs_read_inode sb (vnode_inode_number v) (device s) in
  let! b := get_block i 0 in
  let! path := diosfs_read_block_by_number sb b (replicate (Z.to_nat PAGE_SIZE) 0) 0 (device s) in
  vnode_lookup path s.

Definition diosfs_symlink_check (v : vnode) (expected_type : Z) (s : fs) : outcome (Z * fs) :=
  let! (link, s) := link_target v s in
  match link with
  | None => Ok (DIOSFS_BAD_SYMLINK, release s)
  | Some l => if negb (vnode_type l =? expected_type) then Ok (DIOSFS_UNEXPECTED_SYMLINK_TYPE, release s)
              else Ok (DIOSFS_SUCCESS, s)
  end.

Definition diosfs_follow_link (v : vnode) (s : fs) : outcome (option vnode * fs) := link_target v s.

(** diosfs_read: the code, the caller's buffer and the state; of the offset only
    its place within a block is passed on. *)
Definition diosfs_read (v : vnode) (offset : Z) (buffer : list Z) (bytes : Z) (s : fs) : outcome (Z * list Z * fs) :=
  let! s := acquire s in
  let! (code, s) := (if vnode_type v =? VNODE_HARD_LINK then diosfs_symlink_check v VNODE_FILE s
                     else Ok (DIOSFS_SUCCESS, s)) in
  if negb (code =? DIOSFS_SUCCESS) then Ok (DIOSFS_UNEXPECTED_SYMLINK_TYPE, buffer, s)
  else
    let! i := diosfs_read_inode sb (vnode_inode_number v) (device s) in
    let! (ret, buffer) := diosfs_read_bytes_from_inode sb fresh i buffer (PGROUNDUP bytes) (offset mod bsize) bytes (device s) in
    Ok (ret, buffer, release s).

(** diosfs_write: the code, the vnode that was written and the state.  A
    directory is refused with the lock held. *)
Definition diosfs_write (v : vnode) (offset : Z) (buffer : list Z) (bytes : Z) (s : fs) : outcome (Z * vnode * fs) :=
  let! s := acquire s in
  if vnode_type v =? VNODE_DIRECTORY then Ok (DIOSFS_CANNOT_WRITE_DIRECTORY, v, s)
  else
    let! (code, s) := (if vnode_type v =? VNODE_SYM_LINK then diosfs_symlink_check v VNODE_FILE s
                       else Ok (DIOSFS_SUCCESS, s)) in
    if negb (code =? DIOSFS_SUCCESS) then Ok (DIOSFS_UNEXPECTED_SYMLINK_TYPE, v, s)
    else
      let! (target, s) := (if vnode_type v =? VNODE_SYM_LINK then diosfs_follow_link v s else Ok (Some v, s)) in
      let! v := of_opt target in
      let! i := diosfs_read_inode sb (vnode_inode_number v) (device s) in
      let! (ret, _, dev) := diosfs_write_bytes_to_inode sb fresh i buffer bytes offset bytes (device s) in
      if negb (ret =? DIOSFS_SUCCESS) then Ok (DIOSFS_ERROR, v, mk_fs (fs_lock s) dev)
      else Ok (DIOSFS_SUCCESS, vn_set_size (vnode_size v + bytes) v, release (mk_fs (fs_lock s) dev)).

(** diosfs_create: the new vnode (absent when the parent is no directory) and the
    parent.  [minor] is [fs->device->device_minor]. *)
Definition diosfs_create (minor : Z) (parent : vnode) (name : list Z) (type : Z) (s : fs)
  : outcome (option vnode * vnode * fs) :=
  if negb (vnode_filesystem_id parent =? VNODE_FS_DIOSFS) then Panic
  else if negb (vnode_type parent =? VNODE_DIRECTORY) then Ok (None, parent, s)
  else
    let! s := acquire s in
    let! (i, dev) := diosfs_get_free_inode_and_mark_bitmap sb fresh (device s) in
    let! parent_inode := diosfs_read_inode sb (vnode_inode_number parent) dev in
    let parent' := vn_set_size (vnode_size parent + 1) parent in
    let parent_inode := i_set_size (isize parent_inode + 1) parent_inode in
    let! vname := Strings.safe_strcpy (fresh 232) name MAX_FILENAME_LENGTH in
    let v := mk_vnode (inode_number i) (vnode_inode_number parent) type 0 (vnode_filesystem_id parent)
               (vnode_device_id parent) vname in
    let i := mk_inode (uid i) (inode_number i) (w16 (vnode_inode_number parent)) type (refcount i) (iname i) (pad1 i)
               (isize i) 0 (pad2 i) (blocks i) (single_indirect i) (double_indirect i) (triple_indirect i) in
    let! i := set_name i name in
    let i := mk_inode 0 (inode_number i) (parent_inode_number i) (itype i) (refcount i) (iname i) (pad1 i)
               (isize i) (block_count i) (pad2 i) (blocks i) (single_indirect i) (double_indirect i) (triple_indirect i) in
    let! dev := diosfs_write_inode sb i dev in
    let! ebytes := strcpy_at (encode_dirent (mk_dirent (replicate 128 0) (inode_number i) 0 0 0 0)) 0 name MAX_FILENAME_LENGTH in
    let e := decode_dirent ebytes in
    let e := mk_dirent (dname e) (d_inode_number e) (parent_inode_number i) (itype i) (w16 minor) (dsize e) in
    let! (ret, parent_inode, dev) := diosfs_write_dirent sb fresh parent_inode e dev in
    let! dev := diosfs_write_inode sb parent_inode dev in
    if negb (ret =? DIOSFS_SUCCESS) then Panic
    else Ok (Some v, parent', release (mk_fs (fs_lock s) dev)).

(** diosfs_link; a hard link, or an unknown type, panics *)
Definition diosfs_link (minor : Z) (parent target : vnode) (type : Z) (s : fs) : outcome (option vnode * vnode * fs) :=
  let! s := acquire s in
  if type =? VNODE_SYM_LINK
  then diosfs_create minor parent (canonical_path target) VNODE_SYM_LINK (release s)
  else Panic.

(** diosfs_unlink; for a symbolic link the vnode is freed before it is used again *)
Definition diosfs_unlink (depth : nat) (v : vnode) (s : fs) : outcome fs :=
  let! i := diosfs_read_inode sb (vnode_inode_number v) (device s) in
  if itype i =? VNODE_SYM_LINK then
    let! (i, dev) := diosfs_remove_file sb fresh i (device s) in
    if refcount i <=? 1 then Fault
    else
      let! dev := diosfs_write_inode sb (i_set_refcount (w16 (refcount i - 1)) i) dev in
      Ok (mk_fs (fs_lock s) dev)
  else if refcount i <=? 1 then diosfs_remove depth v s
  else
    let! dev := diosfs_write_inode sb (i_set_refcount (w16 (refcount i - 1)) i) (device s) in
    Ok (mk_fs (fs_lock s) dev).

(** ** A new filesystem *)

(** [count] blocks from [b] on, each written with the buffer; the codes are
    ignored *)
Fixpoint write_blocks (count : nat) (b : Z) (buffer : list Z) (dev : D) : outcome D :=
  match count with
  | O => Ok dev
  | S count =>
    let! (_, dev) := block_write b 1 buffer dev in
    write_blocks count (b + 1) buffer dev
  end.

(** The disk part of diosfs_create_new_ramdisk_fs: superblock, bitmaps, inodes
    and blocks are cleared and the root directory is made. *)
Definition format (dev : D) : outcome D :=
  let! buffer := blit page 0 (encode_superblock sb) in
  let! (_, dev) := block_write DIOSFS_SUPERBLOCK 1 buffer dev in
  let buffer := replicate (Z.to_nat PAGE_SIZE) 0 in
  let! dev := write_blocks (Z.to_nat (inode_bitmap_size sb)) (inode_bitmap_pointers_start sb) buffer dev in
  let! dev := write_blocks (Z.to_nat (block_bitmap_size sb)) (block_bitmap_pointers_start sb) buffer dev in
  let! dev := write_blocks (Z.to_nat (num_inodes sb / (bsize / sizeof_inode))) (inode_start_pointer sb) buffer dev in
  let! dev := write_blocks (Z.to_nat (num_blocks sb)) (block_start_pointer sb) buffer dev in
  let! (root, dev) := diosfs_get_free_inode_and_mark_bitmap sb fresh dev in
  let! bs := Strings.strcpy (name_of root) [47; 0] in
  let root := decode_inode (take 10 (encode_inode root) ++ bs) in
  let root := mk_inode (uid root) (inode_number root) (inode_number root) VNODE_DIRECTORY (refcount root) (iname root)
                (pad1 root) (isize root) (block_count root) (pad2 root) (blocks root) (single_indirect root)
                (double_indirect root) (triple_indirect root) in
  diosfs_write_inode sb root dev.

End Ops.

(** diosfs_create_new_ramdisk_fs up to the root inode *)
Definition diosfs_create_new_ramdisk_fs {D : Type} `{BlockDevice D} (fresh : Z -> list Z) (dev : D) : outcome D :=
  format new_superblock fresh dev.

End DiosfsVnode.
