(* ===== verification/DiosfsVnodeSpec.v ===== *)
(** * What the vnode operations of diosfs guarantee

    Theorems about DiosfsVnode.v: reads and their offset, the lock on an error
    path, removal of a directory entry and the state of a new filesystem. *)

From S2P Require Import Prelude BlockDevice DiosfsLayout DiosfsBitmap Strings Spinlock Diosfs DiosfsFile DiosfsBlocks DiosfsDir DiosfsData DiosfsVnode.

Module DiosfsVnodeSpec.
Import Spinlock.Spinlock Layout Bitmap Diosfs Files DiosfsBlocks DiosfsDir DiosfsData DiosfsVnode.

Section Spec.
Context {D : Type} `{BlockDeviceSpec D}.
Context (sb : superblock) (fresh : Z -> list Z).
Abbreviation bs := (sb_block_size sb).
Hypothesis size_ok : bd_size = bs.
Hypothesis bs_ok : bs = DIOSFS_BLOCKSIZE.
Hypothesis fresh_length : forall n, 0 <= n -> length (fresh n) = Z.to_nat n.
Context (vnode_lookup : list Z -> fs_state D -> outcome (option vnode * fs_state D)).


Lemma pgroundup_small n : 0 < n <= PAGE_SIZE -> PGROUNDUP n = PAGE_SIZE.
Proof.
  intros Hn. unfold PGROUNDUP, PAGE_SIZE in *. rewrite w64_small by lia.
  change (w64 (Z.lnot (4096 - 1))) with (Z.shiftl (2 ^ 52 - 1) 12).
  assert (E : n + 4096 - 1 = Z.shiftl 1 12 + (n - 1)) by (rewrite Z.shiftl_mul_pow2 by lia; lia).
  apply Z.bits_inj'. intros k Hk. rewrite Z.land_spec, (Z.shiftl_spec (2 ^ 52 - 1)) by lia.
  change (2 ^ 52 - 1) with (Z.ones 52). destruct (Z.ltb_spec k 12).
  - rewrite (Z.testbit_neg_r _ (k - 12)) by lia. rewrite andb_false_r. change 4096 with (2 ^ 12).
    symmetry. apply Z.pow2_bits_false. lia.
  - rewrite Z.testbit_ones_nonneg by lia.
    assert (Hd : Z.testbit (n + 4096 - 1) k = Z.testbit 1 (k - 12)).
    { replace k with (k - 12 + 12) at 1 by lia. rewrite <- Z.div_pow2_bits by lia. f_equal.
      symmetry. apply (Z.div_unique _ _ _ (n - 1)); lia. }
    rewrite Hd. change 4096 with (2 ^ 12). destruct (Z.eq_dec k 12) as [->|].
    + done.
    + rewrite (Z.pow2_bits_false 12) by lia. replace (Z.testbit 1 (k - 12)) with false; [done|].
      symmetry. apply (Z.bits_above_log2 1); cbn; lia.
Qed.

(** C32: reading fewer bytes than a block returns the start of the first block of
    the file at every offset: the block of the offset is dropped by diosfs_read
    and its place in the block by diosfs_read_block_by_number. *)
Theorem read_ignores_offset t v offset buffer bytes lk dev n :
  let node := inode_at sb (vnode_inode_number v) dev in
  bd_wf dev -> inode_ok sb (vnode_inode_number v) dev -> vnode_type v = VNODE_FILE -> itype node = VNODE_FILE ->
  length (blocks node) = 10%nat -> blocks node !! 0%nat = Some n -> data_ok sb n dev ->
  0 < bytes < 1024 -> 0 <= offset -> offset mod 1024 <= isize node -> (1024 <= length buffer)%nat ->
  lock_free lk -> my_cpu t ≠ 0 -> bsp t = false ->
  diosfs_read t sb fresh vnode_lookup v offset buffer bytes (mk_fs lk dev)
  = Ok (DIOSFS_SUCCESS, splice 0 (data sb n dev) buffer, mk_fs (mk_lock 0 (lock_id lk) 0 0 0) dev).
Proof.
  intros node Hw Hi Hv Ht Hbl Hb0 Hn Hby Ho Hos Hl Hlk Hcpu Hbsp. unfold diosfs_read, acquire. cbn [fs_lock device].
  rewrite (acquire_free t lk) by done. cbn [obind device].
  rewrite Hv. cbn [obind]. change (VNODE_FILE =? VNODE_HARD_LINK) with false. cbn [obind].
  change (DIOSFS_SUCCESS =? DIOSFS_SUCCESS) with true. cbn [negb device].
  rewrite (read_inode_ok sb size_ok bs_ok) by done. cbn [obind]. fold node.
  unfold diosfs_read_bytes_from_inode. rewrite Ht, Z.eqb_refl, bs_ok. cbn [negb]. change DIOSFS_BLOCKSIZE with 1024.
  rewrite (Z.div_small bytes 1024) by lia. rewrite pgroundup_small by (unfold PAGE_SIZE; lia).
  change (PAGE_SIZE <? 1024) with false. change (PAGE_SIZE <? w64 (1024 * 0)) with false. cbn [orb].
  pose proof (Z.mod_pos_bound offset 1024 ltac:(lia)). rewrite (proj2 (Z.ltb_ge _ _)) by lia.
  rewrite (Z.div_small (offset mod 1024) 1024) by lia. change (S (Z.to_nat 0)) with 1%nat. cbn [read_loop].
  rewrite (direct_block sb fresh size_ok bs_ok fresh_length) by (try done; lia). cbn [obind].
  change (Z.to_nat 0) with 0%nat. rewrite (list_lookup_total_correct _ _ _ Hb0).
  rewrite (read_block_ok sb size_ok bs_ok) by (try done; lia). done.
Qed.

(** ** Removing an entry *)

(** The search reaches entry [i], which is in the first block. *)
Lemma free_dirent_loop_ok depth parent f n dev i : bd_wf dev -> blocks parent !! 0%nat = Some n -> data_ok sb n dev ->
  0 <= i < 7 -> d_inode_number (dirent_in (data sb n dev) i) = f ->
  (forall j, 0 <= j < i -> d_inode_number (dirent_in (data sb n dev) j) ≠ f) ->
  forall (t : nat) k turns, 0 <= k -> k + Z.of_nat t = i -> (t < turns)%nat ->
  forall buf, buf = (if k =? 0 then fresh PAGE_SIZE else data sb n dev ++ drop 1024 (fresh PAGE_SIZE)) ->
  free_dirent_loop sb fresh depth turns k parent f buf dev
  = remove_dirent sb fresh depth parent i (data sb n dev ++ drop 1024 (fresh PAGE_SIZE)) dev.
Proof.
  intros Hw Hb0 Hn Hi Hf Hbefore. assert (Hpl : length (fresh PAGE_SIZE) = 4096%nat) by (by rewrite fresh_length).
  pose proof (length_data sb size_ok bs_ok n dev Hn) as Hl.
  assert (Hs0 : splice 0 (data sb n dev) (fresh PAGE_SIZE) = data sb n dev ++ drop 1024 (fresh PAGE_SIZE)).
  { unfold splice. change (take 0 (fresh PAGE_SIZE)) with (@nil Z). cbn [app Nat.add]. by rewrite Hl. }
  assert (Hstep : forall k (buf : list Z), 0 <= k < 7 ->
    buf = (if k =? 0 then fresh PAGE_SIZE else data sb n dev ++ drop 1024 (fresh PAGE_SIZE)) ->
    (if k mod 7 =? 0 then let! b := get_block parent (k / 7) in diosfs_read_block_by_number sb b buf 0 dev else Ok buf)
    = Ok (data sb n dev ++ drop 1024 (fresh PAGE_SIZE))).
  { intros k buf Hk ->. rewrite (Z.mod_small k 7), (Z.div_small k 7) by lia. destruct (k =? 0); [|done].
    unfold get_block. change (Z.to_nat 0) with 0%nat. rewrite Hb0. cbn [of_opt obind].
    rewrite (read_block_ok sb size_ok bs_ok) by (try done; lia). by rewrite Hs0. }
  induction t as [|t IH]; intros k turns Hk Hkt Ht buf Hbuf; (destruct turns as [|turns]; [lia|]); cbn [free_dirent_loop];
    rewrite (dpb_eq sb bs_ok), Hstep by (try done; lia); cbn [obind];
    rewrite (Z.mod_small k 7), (get_dirent_front) by (try done; lia); cbn [obind].
  - replace k with i by lia. by rewrite Hf, Z.eqb_refl.
  - rewrite (proj2 (Z.eqb_neq _ _)) by (apply Hbefore; lia). apply IH; try lia.
    by rewrite (proj2 (Z.eqb_neq (k + 1) 0)) by lia.
Qed.

(** Entry [i] of the first block of directory [p] has number [f] and is no
    directory and no regular file (a device or a link). *)
Definition removable (p f n i : Z) (dev : D) : Prop :=
  let dir := inode_at sb p dev in let e := dirent_in (data sb n dev) i in
  on_disk sb p dev /\ 2 <= isize dir <= 6 /\ 0 <= i < isize dir /\ length (blocks dir) = 10%nat /\
  blocks dir !! 0%nat = Some n /\ data_ok sb n dev /\
  d_inode_number e = f /\ (forall j, 0 <= j < i -> d_inode_number (dirent_in (data sb n dev) j) ≠ f) /\
  dtype e ≠ VNODE_DIRECTORY /\ dtype e ≠ VNODE_FILE.

Lemma remove_dirent_ok depth p f n i dev : removable p f n i dev ->
  let dir := inode_at sb p dev in
  exists dev', remove_dirent sb fresh depth dir i (data sb n dev ++ drop 1024 (fresh PAGE_SIZE)) dev
    = Ok (DIOSFS_SUCCESS, dev') /\
    inode_at sb p dev' = i_set_size (isize dir - 1) dir /\
    data sb n dev' = splice (Z.to_nat (144 * i)) (slice (Z.to_nat (144 * isize dir)) 144 (data sb n dev)) (data sb n dev).
Proof.
  intros (Hon & Hs & Hi & Hbl & Hb0 & Hn & Hf & Hbefore & Hnd & Hnf) dir. fold dir in Hs, Hi, Hbl, Hb0.
  pose proof Hon as (Hw & Hio & Hblk & Hwf & Hnum). fold dir in Hwf, Hnum.
  pose proof (length_data sb size_ok bs_ok n dev Hn) as Hl. assert (Hpl : length (fresh PAGE_SIZE) = 4096%nat) by (by rewrite fresh_length).
  unfold remove_dirent. rewrite (dpb_eq sb bs_ok), (Z.mod_small i 7) by lia. rewrite get_dirent_front by (try done; lia). cbn [obind].
  rewrite (proj2 (Z.eqb_neq _ _) Hnd). cbn [obind]. rewrite (proj2 (Z.eqb_neq _ _) Hnf). cbn [obind].
  unfold get_block. rewrite (Z.div_small i 7) by lia. change (Z.to_nat 0) with 0%nat. rewrite Hb0. cbn [of_opt obind].
  rewrite (proj2 (Z.ltb_lt 1 _)) by lia. rewrite (Z.div_small (isize dir) 7), (Z.mod_small (isize dir) 7) by lia.
  change (Z.to_nat 0) with 0%nat. rewrite Hb0. cbn [of_opt obind].
  rewrite (read_block_ok sb size_ok bs_ok) by (try done; lia). cbn [obind].
  assert (Hs0 : splice 0 (data sb n dev) (fresh PAGE_SIZE) = data sb n dev ++ drop 1024 (fresh PAGE_SIZE)).
  { unfold splice. change (take 0 (fresh PAGE_SIZE)) with (@nil Z). cbn [app Nat.add]. by rewrite Hl. }
  rewrite Hs0. unfold peek. change sizeof_dirent with 144. rewrite decide_True by (rewrite length_app; lia). cbn [obind].
  assert (Hsl : slice (Z.to_nat (144 * isize dir)) (Z.to_nat 144) (data sb n dev ++ drop 1024 (fresh PAGE_SIZE))
    = slice (Z.to_nat (144 * isize dir)) 144 (data sb n dev)).
  { unfold slice. change (Z.to_nat 144) with 144%nat. rewrite drop_app_le, take_app_le by (rewrite ?length_drop; lia). done. }
  rewrite Hsl. set (moved := slice _ 144 (data sb n dev)). assert (Hml : length moved = 144%nat) by (subst moved; rewrite length_slice; lia).
  unfold blit. rewrite decide_True by (rewrite length_app; lia). cbn [obind]. rewrite splice_app_l by lia.
  rewrite (proj2 (Z.eqb_neq (isize dir) 0)) by lia. cbn [obind].
  set (new := splice _ moved (data sb n dev)). assert (Hnl : length new = 1024%nat) by (subst new; rewrite length_splice; lia).
  assert (Hnew : slice 0 1024 (new ++ drop 1024 (fresh PAGE_SIZE)) = new).
  { unfold slice. change (drop 0 ?l) with l. rewrite <- Hnl. apply take_app_length. }
  destruct (write_block_ok sb size_ok bs_ok n (new ++ drop 1024 (fresh PAGE_SIZE)) 0 dev Hw Hn) as (dev1 & E1 & Hw1); [rewrite length_app; lia|].
  rewrite E1. cbn [obind]. rewrite Hnew in Hw1.
  destruct (write_block_ok sb size_ok bs_ok n (new ++ drop 1024 (fresh PAGE_SIZE)) 0 dev1) as (dev2 & E2 & Hw2);
    [by destruct Hw1|by apply (wrote_data_ok sb _ _ _ _ _ Hw1)|rewrite length_app; lia|].
  rewrite E2. cbn [obind]. rewrite Hnew in Hw2.
  destruct (write_inode_ok sb size_ok bs_ok (i_set_size (isize dir - 1) dir) dev2) as (dev3 & E3 & Hw3);
    [by destruct Hw2|by apply set_size_wf| |].
  { cbn [i_set_size inode_number]. rewrite Hnum. destruct Hio. split; [done|]. by apply (wrote_range _ _ _ _ _ Hw2), (wrote_range _ _ _ _ _ Hw1). }
  rewrite E3. cbn [obind]. exists dev3. pose proof (wi_here _ _ _ _ Hw3) as Hhere. cbn [i_set_size inode_number] in Hhere.
  rewrite Hnum in Hhere. split_and!; [done|done|].
  rewrite (wrote_inode_data sb _ _ _ _ Hw3); [|cbn [i_set_size inode_number]; by rewrite Hnum|].
  - unfold data. by rewrite (wrote_here _ _ _ _ _ Hw2).
  - by apply (wrote_data_ok sb _ _ _ _ _ Hw2), (wrote_data_ok sb _ _ _ _ _ Hw1).
Qed.

(** C30: removing a directory entry loses the last entry as well.  The place of the
    removed entry is filled with the one at index [size], behind the last, and
    the directory shrinks by one: unless the removed entry was the last, the
    last one is no longer in the directory. *)
Theorem remove_entry_loses_last depth p f n i node dev :
  let dir := inode_at sb p dev in
  removable p f n i dev -> inode_number node = f -> parent_inode_number node = p ->
  exists dev', diosfs_directory_entry_free sb fresh depth None node dev = Ok (DIOSFS_SUCCESS, dev') /\
    entries sb (inode_at sb p dev') dev'
    = take (Z.to_nat (isize dir - 1)) (<[Z.to_nat i := entry_bytes sb dir dev (isize dir)]> (entries sb dir dev)).
Proof.
  intros dir Hr Hnode Hpar. pose proof Hr as ((Hw & Hio & _) & Hs & Hi & Hbl & Hb0 & Hn & Hf & Hbefore & _). fold dir in Hs, Hi, Hbl, Hb0.
  destruct (remove_dirent_ok depth p f n i dev Hr) as (dev' & E & Hat & Hdata). fold dir in E, Hat, Hdata.
  exists dev'. split.
  - unfold diosfs_directory_entry_free. rewrite Hpar, Hnode, (read_inode_ok sb size_ok bs_ok) by done. cbn [obind]. fold dir.
    rewrite (free_dirent_loop_ok depth dir f n dev i Hw Hb0 Hn ltac:(lia) Hf Hbefore (Z.to_nat i)); try done; lia.
  - pose proof (length_data sb size_ok bs_ok n dev Hn) as Hl. rewrite Hat.
    assert (Hsz : isize (i_set_size (isize dir - 1) dir) = isize dir - 1) by (cbn [i_set_size isize]; apply w32_small; lia).
    assert (Hent : forall d' (k : Z), blocks d' = blocks dir -> 0 <= k < 7 -> forall dv, entry_bytes sb d' dv k = slice (Z.to_nat (144 * k)) 144 (data sb n dv)).
    { intros d' k Hd' Hk dv. unfold entry_bytes. rewrite Hd', (Z.mod_small k 7), (Z.div_small k 7) by lia.
      change (Z.to_nat 0) with 0%nat. by rewrite (list_lookup_total_correct _ _ _ Hb0). }
    unfold entries. rewrite Hsz. apply list_eq. intros k. destruct (decide (k < Z.to_nat (isize dir - 1))%nat) as [Hk|Hk].
    + rewrite lookup_take_lt by done. rewrite list_lookup_fmap, lookup_seqZ_lt by lia. cbn [fmap option_fmap option_map].
      rewrite Hent by (try done; lia). rewrite Hdata.
      destruct (decide (Z.to_nat i = k)) as [<-|Hne].
      * rewrite list_lookup_insert_eq by (rewrite length_map, length_seqZ; lia). rewrite (Hent dir) by (try done; lia).
        f_equal. replace (Z.to_nat (144 * (0 + Z.of_nat (Z.to_nat i)))) with (Z.to_nat (144 * i)) by lia.
        apply slice_splice_same; [rewrite length_slice; lia|lia].
      * rewrite list_lookup_insert_ne by done. rewrite list_lookup_fmap, lookup_seqZ_lt by lia. cbn [fmap option_fmap option_map].
        rewrite (Hent dir) by (try done; lia). f_equal. apply slice_splice_disj; [lia|]. rewrite length_slice by lia. lia.
    + rewrite lookup_take_ge by lia. apply lookup_ge_None_2. rewrite length_map, length_seqZ. lia.
Qed.

(** ** A new filesystem *)
Hypothesis fresh_bytes : forall n, Forall byte (fresh n).

Lemma block_write_blk b buf dev :
  bd_wf dev -> in_range dev b 1 -> (1024 <= length buf)%nat ->
  exists dev', block_write b 1 buf dev = Ok (DIOSFS_SUCCESS, dev') /\ wrote sb dev b (take 1024 buf) dev'.
Proof.
  intros Hw Hr Hl. destruct (dwrite_blk sb size_ok bs_ok b buf dev Hw Hr Hl) as (dev' & E & Hwr). exists dev'.
  unfold dwrite in E. destruct (block_write b 1 buf dev) as [[c d]| | |] eqn:Eb; try discriminate. cbn [obind] in E.
  destruct (Z.eqb_spec c DIOSFS_SUCCESS) as [->|]; [|discriminate]. injection E as ->. done.
Qed.

Lemma write_blocks_ok buf : (1024 <= length buf)%nat -> forall (count : nat) b dev, bd_wf dev ->
  (forall j, b <= j < b + Z.of_nat count -> in_range dev j 1) ->
  exists dev', write_blocks count b buf dev = Ok dev' /\ bd_wf dev' /\
    (forall x c, in_range dev' x c <-> in_range dev x c) /\
    (forall j, b <= j < b + Z.of_nat count -> blk sb j dev' = take 1024 buf) /\
    (forall j, in_range dev j 1 -> ~ b <= j < b + Z.of_nat count -> blk sb j dev' = blk sb j dev).
Proof.
  intros Hl. induction count as [|count IH]; intros b dev Hw Hr; cbn [write_blocks].
  { exists dev. split_and!; try done. lia. }
  destruct (block_write_blk b buf dev Hw ltac:(apply Hr; lia) Hl) as (dev1 & E1 & Hw1). rewrite E1. cbn [obind].
  destruct (IH (b + 1) dev1) as (dev' & E & Hwf & Hrg & Hin & Hout).
  { by destruct Hw1. } { intros j Hj. apply (wrote_range _ _ _ _ _ Hw1), Hr. lia. }
  exists dev'. split_and!; [done|done| | |].
  - intros x c. by rewrite Hrg, (wrote_range _ _ _ _ _ Hw1).
  - intros j Hj. destruct (decide (j = b)) as [->|Hne]; [|apply Hin; lia].
    rewrite Hout; [by apply (wrote_here _ _ _ _ _ Hw1)| |lia]. apply (wrote_range _ _ _ _ _ Hw1), Hr. lia.
  - intros j Hj Hno. rewrite Hout; [|by apply (wrote_range _ _ _ _ _ Hw1)|lia]. apply (wrote_else _ _ _ _ _ Hw1); [lia|done].
Qed.

(** A region of several blocks, byte by byte. *)
Lemma region_lookup b c dev k : in_range dev b c -> 0 <= k < c * 1024 ->
  region sb b c dev !! Z.to_nat k = blk sb (b + k / 1024) dev !! Z.to_nat (k mod 1024).
Proof.
  intros Hr Hk. pose proof (range_length sb size_ok _ _ _ Hr) as (Hb0 & _ & _ & _ & Hin).
  pose proof (Z.div_pos k 1024 ltac:(lia) ltac:(lia)). pose proof (Z.div_mod k 1024 ltac:(lia)).
  pose proof (Z.mod_pos_bound k 1024 ltac:(lia)).
  rewrite (blk_eq sb bs_ok). unfold region. rewrite bs_ok. change DIOSFS_BLOCKSIZE with 1024.
  rewrite !lookup_slice, !decide_True by lia. f_equal. lia.
Qed.

Lemma region_zero b c dev : in_range dev b c -> (forall j, b <= j < b + c -> blk sb j dev = replicate 1024 0) ->
  region sb b c dev = replicate (Z.to_nat (c * 1024)) 0.
Proof.
  intros Hr Hz. pose proof (length_region sb size_ok _ _ _ Hr) as Hl. rewrite bs_ok in Hl. change DIOSFS_BLOCKSIZE with 1024 in Hl.
  apply list_eq. intros k. destruct (decide (k < Z.to_nat (c * 1024))%nat) as [Hk|Hk].
  - pose proof (region_lookup b c dev (Z.of_nat k) Hr ltac:(lia)) as E. rewrite Nat2Z.id in E. rewrite E.
    pose proof (Z.div_pos (Z.of_nat k) 1024 ltac:(lia) ltac:(lia)). pose proof (Z.mod_pos_bound (Z.of_nat k) 1024 ltac:(lia)).
    assert (Z.of_nat k / 1024 < c) by (apply Z.div_lt_upper_bound; lia).
    rewrite Hz by lia. rewrite !lookup_replicate_2 by lia. done.
  - rewrite !lookup_ge_None_2; rewrite ?length_replicate; try done; lia.
Qed.

Lemma marked_zero len n : marked (replicate len 0) n = false.
Proof.
  unfold marked. destruct (replicate len 0 !! Z.to_nat (n / 8)) as [c|] eqn:E; [|done].
  apply lookup_replicate in E as [-> _]. apply Z.testbit_0_l.
Qed.

(** The regions of the filesystem follow each other on the device. *)
Record laid_out (dev : D) : Prop := mk_laid_out {
  lo_wf : superblock_wf sb;
  lo_ibm : 1 <= inode_bitmap_pointers_start sb /\ 1 <= inode_bitmap_size sb <= DIOSFS_NUM_INODE_POINTER_BLOCKS;
  lo_bbm : inode_bitmap_pointers_start sb + inode_bitmap_size sb <= block_bitmap_pointers_start sb /\ 0 <= block_bitmap_size sb;
  lo_ino : block_bitmap_pointers_start sb + block_bitmap_size sb <= inode_start_pointer sb /\ 4 <= num_inodes sb;
  lo_blk : inode_start_pointer sb + num_inodes sb / 4 <= block_start_pointer sb /\ 0 <= num_blocks sb;
  lo_all : forall b, 0 <= b < block_start_pointer sb + num_blocks sb -> in_range dev b 1;
  lo_ibr : in_range dev (inode_bitmap_pointers_start sb) (inode_bitmap_size sb);
  lo_bbr : in_range dev (block_bitmap_pointers_start sb) (block_bitmap_size sb);
}.

(** The root directory of a new filesystem. *)
Definition root_inode : inode :=
  mk_inode 0 0 0 VNODE_DIRECTORY 0 (47 :: replicate 127 0) 0 0 0 0 (replicate 10 0) 0 0 0.

(** The part of [format] that clears the disk. *)
Lemma format_clears dev : bd_wf dev -> laid_out dev ->
  exists dev', format sb fresh dev
    = (let! (root, dev) := diosfs_get_free_inode_and_mark_bitmap sb fresh dev' in
       let! bs := Strings.strcpy (name_of root) [47; 0] in
       let root := decode_inode (take 10 (encode_inode root) ++ bs) in
       let root := mk_inode (uid root) (inode_number root) (inode_number root) VNODE_DIRECTORY (refcount root) (iname root)
                     (pad1 root) (isize root) (block_count root) (pad2 root) (blocks root) (single_indirect root)
                     (double_indirect root) (triple_indirect root) in
       diosfs_write_inode sb root dev) /\
    bd_wf dev' /\ (forall x c, in_range dev' x c <-> in_range dev x c) /\
    blk sb 0 dev' = encode_superblock sb /\
    (forall b, (inode_bitmap_pointers_start sb <= b < inode_bitmap_pointers_start sb + inode_bitmap_size sb \/
                block_bitmap_pointers_start sb <= b < block_bitmap_pointers_start sb + block_bitmap_size sb \/
                inode_start_pointer sb <= b < inode_start_pointer sb + num_inodes sb / 4 \/
                block_start_pointer sb <= b < block_start_pointer sb + num_blocks sb) ->
       blk sb b dev' = replicate 1024 0).
Proof.
  intros Hw [Hsw (Hi1 & Hi2) (Hb1 & Hb2) (Hn1 & Hn2) (Hd1 & Hd2) Hall _ _].
  pose proof (Z.div_pos (num_inodes sb) 4 ltac:(lia) ltac:(lia)) as Hdiv.
  assert (Hpl : length (fresh PAGE_SIZE) = 4096%nat) by (by rewrite fresh_length).
  assert (Hel : length (encode_superblock sb) = 1024%nat) by (apply length_encode_superblock; by destruct Hsw as [_ [? _]]).
  unfold format. unfold blit. rewrite decide_True by lia. cbn [obind].
  destruct (block_write_blk DIOSFS_SUPERBLOCK (splice 0 (encode_superblock sb) (fresh PAGE_SIZE)) dev Hw) as (d0 & E0 & W0).
  { apply Hall. unfold DIOSFS_SUPERBLOCK. lia. } { rewrite length_splice; lia. }
  rewrite E0. cbn [obind]. set (zeros := replicate (Z.to_nat PAGE_SIZE) 0).
  assert (Hzl : (1024 <= length zeros)%nat) by (subst zeros; rewrite length_replicate; by vm_compute; lia).
  assert (Hz : take 1024 zeros = replicate 1024 0) by (by vm_compute).
  assert (H0r : forall b, 0 <= b < block_start_pointer sb + num_blocks sb -> in_range d0 b 1)
    by (intros; apply (wrote_range _ _ _ _ _ W0); by apply Hall).
  destruct (write_blocks_ok zeros Hzl (Z.to_nat (inode_bitmap_size sb)) (inode_bitmap_pointers_start sb) d0) as (d1 & E1 & W1 & R1 & I1 & O1).
  { by destruct W0. } { intros j Hj. apply H0r. lia. }
  rewrite E1. cbn [obind].
  destruct (write_blocks_ok zeros Hzl (Z.to_nat (block_bitmap_size sb)) (block_bitmap_pointers_start sb) d1 W1) as (d2 & E2 & W2 & R2 & I2 & O2).
  { intros j Hj. apply R1, H0r. lia. }
  rewrite E2. cbn [obind]. rewrite bs_ok. change (DIOSFS_BLOCKSIZE / sizeof_inode) with 4.
  destruct (write_blocks_ok zeros Hzl (Z.to_nat (num_inodes sb / 4)) (inode_start_pointer sb) d2 W2) as (d3 & E3 & W3 & R3 & I3 & O3).
  { intros j Hj. apply R2, R1, H0r. lia. }
  rewrite E3. cbn [obind].
  destruct (write_blocks_ok zeros Hzl (Z.to_nat (num_blocks sb)) (block_start_pointer sb) d3 W3) as (d4 & E4 & W4 & R4 & I4 & O4).
  { intros j Hj. apply R3, R2, R1, H0r. lia. }
  rewrite E4. cbn [obind]. exists d4.
  assert (Hin1 : forall b, 0 <= b < block_start_pointer sb + num_blocks sb -> in_range d1 b 1) by (intros; apply R1; by apply H0r).
  assert (Hin2 : forall b, 0 <= b < block_start_pointer sb + num_blocks sb -> in_range d2 b 1) by (intros; apply R2; by apply Hin1).
  assert (Hin3 : forall b, 0 <= b < block_start_pointer sb + num_blocks sb -> in_range d3 b 1) by (intros; apply R3; by apply Hin2).
  split_and!; [done|done| | |].
  - intros x c. by rewrite R4, R3, R2, R1, (wrote_range _ _ _ _ _ W0).
  - rewrite O4, O3, O2, O1 by first [apply Hin3; lia|apply Hin2; lia|apply Hin1; lia|apply H0r; lia|lia].
    change 0 with DIOSFS_SUPERBLOCK. rewrite (wrote_here _ _ _ _ _ W0). rewrite <- Hel. apply take_front.
  - intros b Hb. destruct (decide (block_start_pointer sb <= b)); [rewrite I4 by lia; done|].
    rewrite O4 by first [apply Hin3; lia|lia]. destruct (decide (inode_start_pointer sb <= b)); [rewrite I3 by lia; done|].
    rewrite O3 by first [apply Hin2; lia|lia]. destruct (decide (block_bitmap_pointers_start sb <= b)); [rewrite I2 by lia; done|].
    rewrite O2 by first [apply Hin1; lia|lia]. rewrite I1 by lia. done.
Qed.

Lemma region_ext b c dev dev' : in_range dev b c -> in_range dev' b c ->
  (forall j, b <= j < b + c -> blk sb j dev' = blk sb j dev) -> region sb b c dev' = region sb b c dev.
Proof.
  intros Hr Hr' He. pose proof (length_region sb size_ok _ _ _ Hr) as Hl. pose proof (length_region sb size_ok _ _ _ Hr') as Hl'.
  rewrite bs_ok in Hl, Hl'. change DIOSFS_BLOCKSIZE with 1024 in Hl, Hl'.
  apply list_eq. intros k. destruct (decide (k < Z.to_nat (c * 1024))%nat) as [Hk|Hk].
  - rewrite <- (Nat2Z.id k). rewrite !region_lookup by (try done; lia). rewrite He; [done|].
    pose proof (Z.div_pos (Z.of_nat k) 1024 ltac:(lia) ltac:(lia)).
    assert (Z.of_nat k / 1024 < c) by (apply Z.div_lt_upper_bound; lia). lia.
  - rewrite !lookup_ge_None_2 by lia. done.
Qed.

(** A device whose contents change in one region only. *)
Lemma region_write b c new dev dev' : in_range dev b c -> length new = Z.to_nat (c * 1024) ->
  bd_bytes dev' = splice (Z.to_nat (b * 1024)) new (bd_bytes dev) ->
  (forall x k, in_range dev' x k <-> in_range dev x k) /\ region sb b c dev' = new /\
  (forall j, in_range dev j 1 -> ~ b <= j < b + c -> blk sb j dev' = blk sb j dev).
Proof.
  intros Hr Hl Hb. pose proof (range_length sb size_ok _ _ _ Hr) as (Hb0 & Hc0 & _ & _ & Hin). rewrite bs_ok in Hin.
  change DIOSFS_BLOCKSIZE with 1024 in Hin.
  assert (Hlen : length (bd_bytes dev') = length (bd_bytes dev)) by (rewrite Hb, length_splice; lia). split_and!.
  - intros x k. unfold in_range. by rewrite Hlen.
  - unfold region. rewrite bs_ok, Hb. change DIOSFS_BLOCKSIZE with 1024. apply slice_splice_same; lia.
  - intros j Hj Hno. pose proof (blk_range sb size_ok bs_ok _ _ Hj). rewrite !(blk_eq sb bs_ok), Hb.
    apply slice_splice_disj; lia.
Qed.

(** The first inode of an empty bitmap. *)
Lemma first_inode dev : bd_wf dev -> in_range dev (inode_bitmap_pointers_start sb) (inode_bitmap_size sb) ->
  1 <= inode_bitmap_size sb <= DIOSFS_NUM_INODE_POINTER_BLOCKS ->
  (forall j, inode_bitmap_pointers_start sb <= j < inode_bitmap_pointers_start sb + inode_bitmap_size sb ->
     blk sb j dev = replicate 1024 0) ->
  exists dev', diosfs_get_free_inode_and_mark_bitmap sb fresh dev = Ok (new_inode 0, dev') /\ bd_wf dev' /\
    (forall x k, in_range dev' x k <-> in_range dev x k) /\
    region sb (inode_bitmap_pointers_start sb) (inode_bitmap_size sb) dev'
      = with_bit (replicate (Z.to_nat (inode_bitmap_size sb * 1024)) 0) 0 true /\
    (forall j, in_range dev j 1 -> ~ inode_bitmap_pointers_start sb <= j < inode_bitmap_pointers_start sb + inode_bitmap_size sb ->
       blk sb j dev' = blk sb j dev).
Proof.
  intros Hw Hr Hsz Hz. pose proof (region_zero _ _ _ Hr Hz) as Hreg.
  destruct (get_free_inode_ok sb fresh size_ok fresh_length fresh_bytes dev 0) as (dev' & E & Hw' & Hb); try done.
  - rewrite bs_ok. done.
  - rewrite Hreg. apply Forall_replicate. unfold byte. lia.
  - rewrite Hreg. split_and!; [lia|rewrite length_replicate; lia|apply marked_zero|lia].
  - exists dev'. split; [done|]. split; [done|]. rewrite bs_ok in Hb. change (0 <? 8 * DIOSFS_BLOCKSIZE) with true in Hb.
    rewrite Hreg in Hb. change DIOSFS_BLOCKSIZE with 1024 in Hb.
    eapply region_write; [done| |exact Hb]. by rewrite length_with_bit, length_replicate.
Qed.

Lemma root_inode_wf : inode_wf root_inode.
Proof.
  constructor; unfold u16, u32, u64; cbn [root_inode uid inode_number parent_inode_number itype refcount iname pad1 isize
    block_count pad2 blocks single_indirect double_indirect triple_indirect]; unfold VNODE_DIRECTORY; try lia.
  - split; [done|]. apply Forall_cons. split; [unfold byte; lia|]. apply Forall_replicate. unfold byte. lia.
  - split; [done|]. apply Forall_replicate. lia.
Qed.

(** C2: a new filesystem.  On a device large enough for its layout, formatting
    succeeds and leaves the superblock in block 0, the empty directory "/" as
    inode 0, all other inodes and all blocks free in the bitmaps, and every data
    block zero. *)
Theorem format_spec dev : bd_wf dev -> laid_out dev ->
  exists dev', format sb fresh dev = Ok dev' /\ bd_wf dev' /\
    decode_superblock (blk sb 0 dev') = sb /\ inode_at sb 0 dev' = root_inode /\
    (forall n, 0 <= n < 8 * (inode_bitmap_size sb * 1024) ->
       marked (region sb (inode_bitmap_pointers_start sb) (inode_bitmap_size sb) dev') n = (n =? 0)) /\
    (forall n, marked (region sb (block_bitmap_pointers_start sb) (block_bitmap_size sb) dev') n = false) /\
    (forall n, 0 <= n < num_blocks sb -> data sb n dev' = replicate 1024 0).
Proof.
  intros Hw Hlo. destruct (format_clears dev Hw Hlo) as (d & E & Hwd & Hrd & Hsb & Hz).
  destruct Hlo as [Hsw (Hi1 & Hi2) (Hb1 & Hb2) (Hn1 & Hn2) (Hd1 & Hd2) Hall Hibr Hbbr].
  assert (Hdiv : 1 <= num_inodes sb / 4) by (apply Z.div_le_lower_bound; lia).
  destruct (first_inode d) as (d' & E' & Hw' & Hr' & Hreg' & Hout'); try done; [by apply Hrd|intros; apply Hz; lia|].
  rewrite E, E'. cbn [obind]. clear E E'.
  replace (Strings.strcpy (name_of (new_inode 0)) [47; 0]) with (Ok (47 :: 0 :: drop 2 (name_of (new_inode 0)))) by (by vm_compute).
  cbn [obind]. match goal with |- context [diosfs_write_inode sb ?r d'] => replace r with root_inode by (by vm_compute) end.
  assert (Hib : inode_block sb 0 = inode_start_pointer sb) by (unfold inode_block; change (0 / NUM_INODES_PER_BLOCK) with 0; lia).
  destruct (write_inode_ok sb size_ok bs_ok root_inode d' Hw' root_inode_wf) as (d2 & E2 & [Hw2 Hr2 Hhere _ Helse]).
  { split; [done|]. change (inode_number root_inode) with 0. rewrite Hib. apply Hr', Hrd, Hall. lia. }
  change (inode_number root_inode) with 0 in *.
  rewrite Hib in Helse.
  assert (Hkeep : forall j, 0 <= j < block_start_pointer sb + num_blocks sb -> j ≠ inode_start_pointer sb ->
    ~ inode_bitmap_pointers_start sb <= j < inode_bitmap_pointers_start sb + inode_bitmap_size sb -> blk sb j d2 = blk sb j d).
  { intros j Hj Hne Hno. rewrite Helse by first [done|apply Hr', Hrd, Hall; lia]. apply Hout'; [apply Hrd, Hall; lia|done]. }
  exists d2. split_and!; [done|done| |done| | |].
  - rewrite Hkeep by lia. rewrite Hsb. by apply decode_encode_superblock.
  - intros n Hn. rewrite (region_ext _ _ d' d2); [|by apply Hr', Hrd|by apply Hr2, Hr', Hrd|].
    + rewrite Hreg', marked_with_bit by (rewrite ?length_replicate; lia). rewrite marked_zero.
      destruct (Z.eqb_spec n 0); [by rewrite decide_True|by rewrite decide_False].
    + intros j Hj. apply Helse; [lia|]. apply Hr', Hrd, Hall. lia.
  - intros n. rewrite (region_zero _ _ d2); [apply marked_zero|by apply Hr2, Hr', Hrd|].
    intros j Hj. rewrite Hkeep by lia. apply Hz. lia.
  - intros n Hn. unfold data. rewrite Hkeep by lia. apply Hz. lia.
Qed.

End Spec.
End DiosfsVnodeSpec.
