(* ===== verification/DiosfsExamples.v ===== *)
(** * Instances of the diosfs theorems

    A small disk, of 14 blocks, with a root directory and a file; the theorems
    about diosfs applied to it. *)

From S2P Require Import Prelude BlockDevice DiosfsLayout DiosfsBitmap Strings Spinlock Diosfs DiosfsFile DiosfsBlocks DiosfsDir DiosfsData DiosfsVnode DiosfsVnodeSpec.

Module DiosfsExamples.
Import Spinlock.Spinlock Layout Bitmap Diosfs Files DiosfsBlocks DiosfsDir DiosfsData DiosfsVnode DiosfsVnodeSpec RefDisk.

(** Block 0 superblock, 1 inode bitmap, 2-3 block bitmap, 4-5 inodes, 6-13 data. *)
Definition sb : superblock :=
  mk_superblock DIOSFS_MAGIC DIOSFS_VERSION 1024 8 8 14336 1 2 1 2 4 6 (replicate 116 0).
Definition zeros (n : Z) : list Z := replicate (Z.to_nat n) 0.

Lemma zeros_length n : 0 <= n -> length (zeros n) = Z.to_nat n.
Proof. intros. apply length_replicate. Qed.
Lemma zeros_bytes n : Forall byte (zeros n).
Proof. apply Forall_replicate. unfold byte. lia. Qed.
Lemma size_ok : bd_size = 1024.
Proof. done. Qed.
Lemma bs_ok : sb_block_size sb = DIOSFS_BLOCKSIZE.
Proof. done. Qed.

Definition name (s : list Z) : list Z := s ++ replicate (128 - length s) 0.
Definition pad (l : list Z) : list Z := l ++ replicate (1024 - length l) 0.

(** The root directory with [n] entries in data block 0, and a file of two blocks. *)
Definition root (n : Z) : inode := mk_inode 0 0 0 VNODE_DIRECTORY 1 (name [47]) 0 n 1 0 (replicate 10 0) 0 0 0.
Definition file : inode := mk_inode 0 1 0 VNODE_FILE 1 (name [97]) 0 1500 2 0 (1 :: 2 :: replicate 8 0) 0 0 0.
Definition entry (c number type : Z) : dirent := mk_dirent (name [c]) number 0 type 0 0.
Definition disk (n : Z) (es : list dirent) : list Z :=
  replicate 4096 0 ++ pad (encode_inode (root n) ++ encode_inode file) ++ replicate 1024 0 ++
  pad (es ≫= encode_dirent) ++ replicate (Z.to_nat 7168) 7.
Definition disk3 : list Z := disk 3 [entry 97 1 VNODE_FILE; entry 100 2 3; entry 98 3 VNODE_FILE].
Definition disk7 : list Z := disk 7 (map (fun k => entry (97 + k) (k + 1) VNODE_FILE) (seqZ 0 7)).

Lemma range (d : list Z) b c : (Z.of_nat (length d) =? 14336) = true -> 0 <= b -> 0 <= c -> b + c <= 14 -> in_range d b c.
Proof.
  intros Hl%Z.eqb_eq Hb Hc Hs. unfold in_range. cbn [bd_size bd_bytes bd_max ref_device]. rewrite Hl. unfold PAGE_SIZE. lia.
Qed.

Ltac in_disk := apply range; [by vm_compute|done|done|done].
Ltac compute_eq := by vm_compute.

Lemma data_block (d : list Z) n : (Z.of_nat (length d) =? 14336) = true -> 0 <= n < 8 -> data_ok sb n d.
Proof. intros. split_and!; [lia|cbn; lia|]. apply range; [done|cbn; lia|lia|cbn; lia]. Qed.

(** *** The bitmaps *)
Lemma get_free_block_spec_witness :
  exists dev', diosfs_get_free_block_and_mark_bitmap sb zeros disk3 = Ok (0, dev') /\
    bd_bytes dev' = splice (Z.to_nat 2048) (with_bit (region sb 2 2 disk3) 0 true) disk3.
Proof.
  destruct (get_free_block_spec sb zeros size_ok zeros_length zeros_bytes disk3 0) as (dev' & E & _ & Hb).
  - exact I.
  - in_disk.
  - done.
  - done.
  - assert (E : region sb 2 2 disk3 = replicate 2048 0) by compute_eq.
    change (Forall byte (region sb 2 2 disk3)). rewrite E. apply Forall_replicate. unfold byte. lia.
  - split; [compute_eq|]. split; [compute_eq|lia].
  - exists dev'. split; [exact E|exact Hb].
Defined.

Lemma get_free_inode_spec_witness :
  exists dev', diosfs_get_free_inode_and_mark_bitmap sb zeros disk3 = Ok (new_inode 0, dev').
Proof.
  destruct (get_free_inode_spec sb zeros size_ok zeros_length zeros_bytes disk3 0) as (dev' & E & _).
  - exact I.
  - in_disk.
  - split; compute_eq.
  - compute_eq.
  - assert (E : region sb 1 1 disk3 = replicate 1024 0) by compute_eq.
    change (Forall byte (region sb 1 1 disk3)). rewrite E. apply Forall_replicate. unfold byte. lia.
  - split; [compute_eq|]. split; [compute_eq|lia].
  - exists dev'. exact E.
Defined.

Lemma clear_bitmap_spec_witness :
  exists dev', diosfs_clear_bitmap sb BITMAP_TYPE_BLOCK 5 disk3 = Ok dev'.
Proof.
  destruct (clear_bitmap_spec sb size_ok disk3 BITMAP_TYPE_BLOCK 5) as (dev' & E & _).
  - exact I.
  - by left.
  - lia.
  - compute_eq.
  - in_disk.
  - assert (E : region sb 2 1 disk3 = replicate 1024 0) by compute_eq.
    change (Forall byte (region sb 2 1 disk3)). rewrite E. apply Forall_replicate. unfold byte. lia.
  - exists dev'. exact E.
Defined.

(** A disk whose first two bitmap blocks are full, with a bitmap of three. *)
Definition sb_full : superblock :=
  mk_superblock DIOSFS_MAGIC DIOSFS_VERSION 1024 8 8 14336 1 3 1 2 5 7 (replicate 116 0).
Definition disk_full : list Z := replicate 2048 0 ++ replicate 2048 255 ++ replicate (Z.to_nat 10240) 0.

Lemma full_bit len n : 0 <= n < 8 * Z.of_nat len -> marked (replicate len 255) n = true.
Proof.
  intros Hn. unfold marked. assert (n / 8 < Z.of_nat len) by (apply Z.div_lt_upper_bound; lia).
  pose proof (Z.div_pos n 8 ltac:(lia) ltac:(lia)). rewrite lookup_replicate_2 by lia.
  pose proof (Z.mod_pos_bound n 8 ltac:(lia)) as Hm. change 255 with (Z.ones 8). rewrite Z.testbit_ones_nonneg by lia.
  apply Z.ltb_lt. lia.
Qed.


(** *** Inodes and directories *)
Definition bytes_of (d : list Z) : bool := forallb (fun c => (0 <=? c) && (c <? 256)) d.

Lemma bytes_of_byte d : bytes_of d = true -> Forall byte d.
Proof.
  intros Hb. apply Forall_forall. intros c Hc. unfold bytes_of in Hb. rewrite forallb_forall in Hb.
  apply list_elem_of_In in Hc. specialize (Hb c Hc). zbool. unfold byte. lia.
Qed.

Lemma disk_inode_wf (d : list Z) n : bytes_of d = true -> (Z.of_nat (length d) =? 14336) = true -> 0 <= n < 8 ->
  inode_wf (inode_at sb n d).
Proof.
  intros Hb Hl Hn. assert (Hr : in_range d (inode_block sb n) 1).
  { unfold inode_block. change NUM_INODES_PER_BLOCK with 4. change (inode_start_pointer sb) with 4.
    assert (n / 4 < 2) by (apply Z.div_lt_upper_bound; lia). pose proof (Z.div_pos n 4). apply range; [done|lia|lia|lia]. }
  unfold inode_at. pose proof (length_blk sb size_ok bs_ok _ _ Hr) as Hlb. pose proof (inode_offset_le n ltac:(lia)).
  apply decode_inode_wf; [rewrite length_slice; lia|].
  unfold blk, region. apply Forall_take, Forall_drop, Forall_take, Forall_drop. by apply bytes_of_byte.
Qed.

Lemma inode_there (d : list Z) n : (Z.of_nat (length d) =? 14336) = true -> 0 <= n < 8 -> inode_ok sb n d.
Proof.
  intros Hl Hn. split; [lia|]. unfold inode_block. change NUM_INODES_PER_BLOCK with 4. change (inode_start_pointer sb) with 4.
  assert (n / 4 < 2) by (apply Z.div_lt_upper_bound; lia). pose proof (Z.div_pos n 4). apply range; [done|lia|lia|lia].
Qed.

Lemma there (d : list Z) n : bytes_of d = true -> (Z.of_nat (length d) =? 14336) = true -> 0 <= n < 8 ->
  inode_number (inode_at sb n d) = n -> on_disk sb n d.
Proof.
  intros Hb Hl Hn Hnum. split; [exact I|]. split; [by apply inode_there|]. split; [|split; [by apply disk_inode_wf|done]].
  unfold inode_block. change NUM_INODES_PER_BLOCK with 4. change (inode_start_pointer sb) with 4. change (block_start_pointer sb) with 6.
  assert (n / 4 < 2) by (apply Z.div_lt_upper_bound; lia). lia.
Qed.

Lemma inode_write_read_witness :
  exists dev', diosfs_write_inode sb (root 5) disk3 = Ok dev' /\ diosfs_read_inode sb 0 dev' = Ok (root 5) /\
    diosfs_read_inode sb 1 dev' = diosfs_read_inode sb 1 disk3.
Proof.
  destruct (inode_write_read sb size_ok bs_ok (root 5) disk3) as (dev' & E & _ & Hr & Hm & _).
  - exact I.
  - replace (root 5) with (inode_at sb 0 (disk 5 [])) by compute_eq. apply disk_inode_wf; [compute_eq|compute_eq|lia].
  - apply inode_there; [compute_eq|done].
  - exists dev'. split; [exact E|]. split; [exact Hr|]. apply Hm; [done|apply inode_there; [compute_eq|done]].
Defined.

Lemma disk_listable (d : list Z) : (Z.of_nat (length d) =? 14336) = true ->
  length (blocks (inode_at sb 0 d)) = 10%nat -> 0 <= isize (inode_at sb 0 d) < 7 ->
  blocks (inode_at sb 0 d) !! 0%nat = Some 0 -> listable sb (inode_at sb 0 d) d.
Proof.
  intros Hl Hb Hs H0. split; [done|]. split; [lia|]. unfold dir_blocks. rewrite Z.div_small by lia.
  change (Z.to_nat (0 + 1)) with 1%nat. destruct (blocks (inode_at sb 0 d)) as [|x xs]; [done|]. injection H0 as ->.
  cbn [take]. apply Forall_cons. split; [by apply data_block|]. apply Forall_nil. done.
Qed.

Lemma listable3 : listable sb (inode_at sb 0 disk3) disk3.
Proof. apply disk_listable; [compute_eq|compute_eq|split; compute_eq|compute_eq]. Qed.

Lemma get_directory_entries_spec_witness :
  diosfs_get_directory_entries sb zeros (zeros 1024) 0 1024 disk3
  = Ok (DIOSFS_SUCCESS, splice 0 (concat (entries sb (inode_at sb 0 disk3) disk3)) (zeros 1024)).
Proof.
  apply (get_directory_entries_spec sb zeros size_ok bs_ok zeros_length 0 disk3 (zeros 1024) 1024).
  - exact I.
  - apply inode_there; [compute_eq|done].
  - compute_eq.
  - exact listable3.
  - compute_eq.
  - compute_eq.
Defined.

Lemma entry_wf c n t : 0 < c < 128 -> 0 <= n < 128 -> 0 <= t < 128 -> dirent_wf (entry c n t).
Proof.
  intros. constructor; cbn [entry dname d_inode_number d_parent_inode_number dsize dtype device_number]; unfold u32, u16; try lia.
  split; [done|]. unfold name. cbn [app length]. apply Forall_cons. split; [unfold byte; lia|apply Forall_replicate; unfold byte; lia].
Qed.


Lemma write_dirent_eighth_witness :
  exists dev', diosfs_write_dirent sb zeros (root 7) (entry 104 3 VNODE_FILE) disk7
    = Ok (DIOSFS_SUCCESS, i_set_size 8 (inode_at sb 0 disk7), dev') /\
    entries sb (inode_at sb 0 dev') dev' !! 0%nat = Some (encode_dirent (entry 104 3 VNODE_FILE)).
Proof.
  destruct (write_dirent_eighth sb zeros size_ok bs_ok zeros_length (root 7) 0 disk7 (entry 104 3 VNODE_FILE))
    as (dev' & E & _ & _ & He).
  - apply there; [compute_eq|compute_eq|done|compute_eq].
  - done.
  - done.
  - compute_eq.
  - compute_eq.
  - compute_eq.
  - apply data_block; [compute_eq|done].
  - apply entry_wf; [lia|lia|done].
  - exists dev'. split; [exact E|]. apply He. compute_eq.
Defined.

(** *** Files *)

(** The blocks of the file, read from the disk. *)
Lemma file_here : inode_at sb 1 disk3 = file.
Proof. compute_eq. Qed.

Lemma relative_block_spec_witness :
  diosfs_get_relative_block_number_from_file sb zeros file 1 disk3 = Ok (file_block sb file disk3 1).
Proof. apply (relative_block_spec sb zeros size_ok bs_ok zeros_length file disk3 1); [exact I|compute_eq|compute_eq]. Defined.

Lemma file_mapped : mapped sb file disk3 0 2.
Proof.
  split; [done|]. split; [compute_eq|]. intros j Hj. assert (j = 0 \/ j = 1) as [-> | ->] by lia.
  - split; [compute_eq|]. apply data_block; [compute_eq|compute_eq].
  - split; [compute_eq|]. apply data_block; [compute_eq|compute_eq].
Qed.

Lemma read_bytes_spec_witness :
  diosfs_read_bytes_from_inode sb zeros file (zeros 2048) 2048 (1024 * 0) 1500 disk3
  = Ok (DIOSFS_SUCCESS, splice 0 (file_bytes sb file disk3 0 (1500 / 1024 + 1)) (zeros 2048)).
Proof.
  apply (read_bytes_spec sb zeros size_ok bs_ok zeros_length file disk3 (zeros 2048) 2048 0 1500).
  - exact I.
  - done.
  - lia.
  - lia.
  - compute_eq.
  - compute_eq.
  - exact file_mapped.
  - compute_eq.
Defined.

Lemma file_listed : listed sb 1 0 0 0 [97] disk3.
Proof.
  unfold listed. rewrite file_here. replace (inode_at sb 0 disk3) with (root 3) by compute_eq.
  split; [apply inode_there; [compute_eq|done]|]. split; [apply inode_there; [compute_eq|done]|].
  split; [done|]. split; [done|]. split; [done|]. split; [done|]. split; [apply data_block; [compute_eq|done]|].
  split; [done|]. split; [compute_eq|]. split; [lia|]. split; [done|].
  split; [apply (bool_decide_unpack _); compute_eq|]. exists (replicate 126 0). compute_eq.
Qed.

Lemma file_direct : direct sb file disk3 0 2.
Proof.
  split; [done|]. split; [done|]. split; [done|]. split.
  - intros j Hj. assert (j = 0 \/ j = 1) as [-> | ->] by lia; (apply data_block; [compute_eq|compute_eq]).
  - intros j k Hj Hk. assert (j = 0 \/ j = 1) as [-> | ->] by lia; assert (k = 0 \/ k = 1) as [-> | ->] by lia; done.
Qed.

Lemma file_write_read_witness :
  exists dev', diosfs_write_bytes_to_inode sb zeros (inode_at sb 1 disk3) (replicate 2048 9) 2048 0 1100 disk3
    = Ok (DIOSFS_SUCCESS, i_set_size 1500 (inode_at sb 1 disk3), dev') /\
    diosfs_read_bytes_from_inode sb zeros (inode_at sb 1 dev') (zeros 2048) 2048 0 1100 dev'
    = Ok (DIOSFS_SUCCESS, splice 0 (replicate 2048 9) (zeros 2048)).
Proof.
  destruct (file_write_read sb zeros size_ok bs_ok zeros_length 1 0 0 0 [97] disk3 (replicate 2048 9) 2048 1100 (zeros 2048))
    as (dev' & E & _ & _ & Hr).
  - apply there; [compute_eq|compute_eq|done|compute_eq].
  - compute_eq.
  - compute_eq.
  - compute_eq.
  - lia.
  - compute_eq.
  - rewrite file_here. exact file_direct.
  - exact file_listed.
  - rewrite file_here. change (1100 / 1024 + 1) with 2. intros j Hj. assert (j = 0 \/ j = 1) as [-> | ->] by lia; done.
  - compute_eq.
  - compute_eq.
  - exists dev'. split; [exact E|exact Hr].
Defined.

(** *** Vnodes *)
Definition no_lookup (path : list Z) (s : fs_state (list Z)) : outcome (option vnode * fs_state (list Z)) := Ok (None, s).
Definition dir_vnode : vnode := mk_vnode 0 0 VNODE_DIRECTORY 3 VNODE_FS_DIOSFS 0 (zeros 232).
Definition file_vnode : vnode := mk_vnode 1 0 VNODE_FILE 1500 VNODE_FS_DIOSFS 0 (zeros 232).


Lemma read_ignores_offset_witness :
  diosfs_read thread1 sb zeros no_lookup file_vnode 1200 (zeros 4096) 100 (mk_fs (mk_lock 0 9 0 0 0) disk3)
  = Ok (DIOSFS_SUCCESS, splice 0 (data sb 1 disk3) (zeros 4096), mk_fs (mk_lock 0 9 0 0 0) disk3).
Proof.
  apply (read_ignores_offset sb zeros size_ok bs_ok zeros_length no_lookup thread1 file_vnode 1200 (zeros 4096) 100 (mk_lock 0 9 0 0 0) disk3 1).
  - exact I.
  - apply inode_there; [compute_eq|done].
  - done.
  - compute_eq.
  - compute_eq.
  - compute_eq.
  - apply data_block; [compute_eq|done].
  - lia.
  - lia.
  - compute_eq.
  - rewrite zeros_length by lia. lia.
  - done.
  - done.
  - reflexivity.
Defined.

(** Removing the device [d] of [a], [d], [b] leaves [a] and an empty entry. *)
Lemma remove_entry_loses_last_witness :
  exists dev', diosfs_directory_entry_free sb zeros 0 None (i_set_number 2 zero_inode) disk3 = Ok (DIOSFS_SUCCESS, dev') /\
    entries sb (inode_at sb 0 dev') dev' = [encode_dirent (entry 97 1 VNODE_FILE); replicate 144 0].
Proof.
  destruct (remove_entry_loses_last sb zeros size_ok bs_ok zeros_length 0 0 2 0 1 (i_set_number 2 zero_inode) disk3)
    as (dev' & E & He).
  - unfold removable. replace (inode_at sb 0 disk3) with (root 3) by compute_eq.
    split; [apply there; [compute_eq|compute_eq|done|compute_eq]|]. split; [cbn; lia|]. split; [cbn; lia|].
    split; [done|]. split; [done|]. split; [apply data_block; [compute_eq|done]|]. split; [compute_eq|]. split.
    { intros j Hj. replace j with 0 by lia. compute_eq. }
    split; compute_eq.
  - done.
  - done.
  - exists dev'. split; [exact E|]. rewrite He. compute_eq.
Defined.

Lemma format_spec_witness :
  exists dev', format sb zeros disk3 = Ok dev' /\ decode_superblock (blk sb 0 dev') = sb /\ inode_at sb 0 dev' = root_inode.
Proof.
  destruct (format_spec sb zeros size_ok bs_ok zeros_length zeros_bytes disk3) as (dev' & E & _ & Hs & Hr & _).
  - exact I.
  - constructor.
    + constructor; [repeat (apply Forall_cons; split; [split; compute_eq|]); by apply Forall_nil|].
      split; [done|]. apply Forall_replicate. unfold u64. lia.
    + cbn. split; [lia|split; compute_eq].
    + cbn. lia.
    + cbn. lia.
    + change (num_inodes sb / 4) with 2. cbn. lia.
    + intros b Hb. change (block_start_pointer sb + num_blocks sb) with 14 in Hb. apply range; [compute_eq|lia|lia|lia].
    + in_disk.
    + in_disk.
  - exists dev'. split; [exact E|]. split; [exact Hs|exact Hr].
Defined.

End DiosfsExamples.
